(** * FARSITE v.4 landscape files (LCP): header codec and band classifier

    A shallow embedding of [frmts/raw/lcpdataset.cpp]: [Identify], [Open],
    [GetGeoTransform], [ClassifyBandData] and [CreateCopy], over a byte-level
    model of the file they read and write.

    Conventions.
    - C [int]/[GInt32] values are [Z]; where the source stores them in a
      fixed-width field the wrap-around is written out ([wrap32], [le32]).
    - A [double] is its eight-byte object representation; the arithmetic on
      doubles is an explicit parameter ([FloatOps]), so every statement holds
      for any floating-point semantics.
    - Files are byte lists with a cursor ([VSILFILE]); a write past the end
      zero-fills the gap, as a sparse file does.
    - The helpers of the port library that the driver calls ([EQUAL],
      [CSLFetchNameValue], [CPLFetchBool], ...) live in other directories of
      the repository; they are modelled in the first sections below. *)

From Stdlib Require Import ZArith List String Ascii Lia Bool.
From coqutil Require Import Byte Word.LittleEndianList.
From stdpp Require Import base list sorting gmap strings.
Local Open Scope Z_scope.

(** ** Constants (lcpdataset.cpp, lines 24-28) *)

Definition LCP_HEADER_SIZE : Z := 7316.
Definition LCP_MAX_BANDS : Z := 10.
Definition LCP_MAX_PATH : Z := 256.
Definition LCP_MAX_DESC : Z := 512.
Definition LCP_MAX_CLASSES : Z := 100.
Definition INT_MAX : Z := 2147483647.

(** ** Fixed-width integers and little-endian accessors

    Modelled from the spec: the accessor macros [CPL_LSBSINT32PTR],
    [CPL_LSBUINT16PTR], [CPL_LSBPTR32], [CPL_LSBPTR64] are declared in the
    port library, outside the driver; the spec has "little-endian
    fixed-width integer and float accessors". *)

(** Two's complement reading of a 32-bit pattern ([GInt32]). *)
Definition wrap32 (z : Z) : Z := (z + 2 ^ 31) mod 2 ^ 32 - 2 ^ 31.

(** The [n] bytes of buffer [p] that start at byte offset [off]. *)
Definition rd (p : list byte) (off : Z) (n : nat) : list byte :=
  take n (drop (Z.to_nat off) p).

(** [CPL_LSBSINT32PTR(p + off)]: little-endian signed 32-bit load. *)
Definition CPL_LSBSINT32PTR (p : list byte) (off : Z) : Z :=
  wrap32 (le_combine (rd p off 4)).

(** [CPL_LSBUINT16PTR(p + off)]: little-endian unsigned 16-bit load. *)
Definition CPL_LSBUINT16PTR (p : list byte) (off : Z) : Z :=
  le_combine (rd p off 2).

(** The four bytes [VSIFWriteL(&nTemp, 4, 1, fp)] emits for a [GInt32]
    (after [CPL_LSBPTR32]), and the two bytes of a [GInt16]. *)
Definition le32 (z : Z) : list byte := le_split 4 z.
Definition le16 (z : Z) : list byte := le_split 2 z.

(** [CPL_TO_BOOL(x)]: [x != 0]. *)
Definition CPL_TO_BOOL (x : Z) : bool := negb (x =? 0).

(** ** Doubles *)

(** A [double] is carried as its object representation: the eight bytes that
    [memcpy] and [VSIFWriteL(&df, 8, 1, fp)] move (least significant first on
    the little-endian layout that [CPL_LSBPTR64] establishes). *)
Inductive double : Type :=
  Double (b0 b1 b2 b3 b4 b5 b6 b7 : byte).

Definition double_bytes (d : double) : list byte :=
  match d with
  | Double b0 b1 b2 b3 b4 b5 b6 b7 => [b0; b1; b2; b3; b4; b5; b6; b7]
  end.

Definition byte_at (p : list byte) (i : Z) : byte :=
  nth (Z.to_nat i) p Byte.x00.

(** [memcpy(&df, p + off, sizeof(double)); CPL_LSBPTR64(&df)]. *)
Definition load_double (p : list byte) (off : Z) : double :=
  Double (byte_at p off) (byte_at p (off + 1)) (byte_at p (off + 2))
         (byte_at p (off + 3)) (byte_at p (off + 4)) (byte_at p (off + 5))
         (byte_at p (off + 6)) (byte_at p (off + 7)).

(** The floating-point operations the driver uses.  They are parameters of the
    model: nothing below depends on how they round. *)
Record FloatOps : Type := {
  fadd : double -> double -> double;
  fmul : double -> double -> double;
  fdiv : double -> double -> double;
  ffabs : double -> double;                (* fabs *)
  f_of_int : Z -> double;                  (* int -> double conversion *)
  fhalf : double;                          (* the literal 0.5 *)
  f_to_int32 : double -> Z;                (* static_cast<GInt32>(df) *)
  CPLAtof : string -> double;
  fneq : double -> double -> bool          (* df1 != df2 *)
}.

(** ** String helpers of the port library

    [EQUAL], [STARTS_WITH_CI], [CSLFetchNameValue], [CPLFetchBool],
    [CPLStrnlen] and the C library's [atoi] are declared outside the driver;
    they are given here by their documented behaviour. *)

Definition toupper (c : ascii) : ascii :=
  let n := N_of_ascii c in
  if ((97 <=? n) && (n <=? 122))%N then ascii_of_N (n - 32) else c.

Fixpoint strupper (s : string) : string :=
  match s with
  | EmptyString => EmptyString
  | String c r => String (toupper c) (strupper r)
  end.

(** [EQUAL(a, b)]: case-insensitive string equality. *)
Definition EQUAL (a b : string) : bool := String.eqb (strupper a) (strupper b).

(** [STARTS_WITH_CI(a, b)]: [a] starts with [b], ignoring case. *)
Definition STARTS_WITH_CI (a b : string) : bool :=
  String.prefix (strupper b) (strupper a).

(** A string list of [NAME=VALUE] entries, kept as pairs; the first entry
    whose name matches (ignoring case) is the one fetched. *)
Definition CSL : Type := list (string * string).

Fixpoint CSLFetchNameValue (l : CSL) (name : string) : option string :=
  match l with
  | [] => None
  | (k, v) :: r => if EQUAL k name then Some v else CSLFetchNameValue r name
  end.

Definition CSLFetchNameValueDef (l : CSL) (name def : string) : string :=
  match CSLFetchNameValue l name with
  | Some v => v
  | None => def
  end.

(** [CPLTestBool]: everything but NO, FALSE, OFF and 0 is true. *)
Definition CPLTestBool (v : string) : bool :=
  negb (EQUAL v "NO" || EQUAL v "FALSE" || EQUAL v "OFF" || EQUAL v "0").

Definition CPLFetchBool (l : CSL) (name : string) (def : bool) : bool :=
  match CSLFetchNameValue l name with
  | Some v => CPLTestBool v
  | None => def
  end.

Definition is_space (c : ascii) : bool :=
  let n := N_of_ascii c in ((n =? 32) || ((9 <=? n) && (n <=? 13)))%N.

Definition digit_of (c : ascii) : option Z :=
  let n := N_of_ascii c in
  if ((48 <=? n) && (n <=? 57))%N then Some (Z.of_N n - 48) else None.

Fixpoint atoi_digits (s : string) (acc : Z) : Z :=
  match s with
  | EmptyString => acc
  | String c r =>
      match digit_of c with
      | Some d => atoi_digits r (10 * acc + d)
      | None => acc
      end
  end.

Fixpoint atoi_skip (s : string) : string :=
  match s with
  | String c r => if is_space c then atoi_skip r else s
  | EmptyString => s
  end.

(** [atoi]: optional white space, optional sign, decimal digits.  The number
    read is not bounded here: it is what C's [atoi] returns when an [int] can
    hold it; beyond that the C standard leaves the result undefined. *)
Definition atoi (s : string) : Z :=
  match atoi_skip s with
  | String "-" r => - atoi_digits r 0
  | String "+" r => atoi_digits r 0
  | r => atoi_digits r 0
  end.

(** [CPLStrnlen(s, n)] bytes of [s]: what [VSIFWriteL(s, 1, CPLStrnlen(s, n),
    fp)] writes. *)
Definition strn_bytes (s : string) (n : Z) : list byte :=
  take (Z.to_nat n) (list_byte_of_string s).

(** The C string that starts at [p + off]: the bytes up to the first NUL. *)
Fixpoint until_nul (l : list byte) : list byte :=
  match l with
  | [] => []
  | b :: r => if Byte.eqb b Byte.x00 then [] else b :: until_nul r
  end.

Definition c_string_at (p : list byte) (off : Z) : list byte :=
  until_nul (drop (Z.to_nat off) p).

(** [p[i] = '\0'] on a fixed-size buffer. *)
Definition poke_nul (p : list byte) (i : Z) : list byte :=
  <[Z.to_nat i := Byte.x00]> p.

(** ** Large files ([VSILFILE])

    Modelled from the spec: the [VSIF*L] functions are declared in the port
    library, outside the driver; the spec has a "byte source/sink:
    seek-to-offset, read-N-bytes, write-N-bytes, tell-position". *)

Record VSILFILE : Type := mkFile { content : list byte; pos : Z }.

(** [VSIFOpenL(name, "wb")]: a fresh, empty file. *)
Definition VSIFOpenL_wb : VSILFILE := mkFile [] 0.

(** [VSIFWriteL(d, 1, |d|, fp)]: overwrite at the cursor, zero-filling the
    hole when the cursor is past the end; an empty write changes nothing. *)
Definition VSIFWriteL (d : list byte) (f : VSILFILE) : VSILFILE :=
  match d with
  | [] => f
  | _ =>
      let p := Z.to_nat (pos f) in
      mkFile (take p (content f)
                ++ replicate (p - length (content f)) Byte.x00
                ++ d ++ drop (p + length d) (content f))
             (pos f + Z.of_nat (length d))
  end.

(** [VSIFSeekL(fp, off, SEEK_SET)] and [VSIFSeekL(fp, off, SEEK_CUR)]. *)
Definition VSIFSeekL_SET (off : Z) (f : VSILFILE) : VSILFILE :=
  mkFile (content f) off.

Definition VSIFSeekL_CUR (off : Z) (f : VSILFILE) : VSILFILE :=
  mkFile (content f) (pos f + off).

Definition VSIFTellL (f : VSILFILE) : Z := pos f.

(** [VSIFSeekL(fp, 0, SEEK_SET); VSIFReadL(buf, 1, n, fp)]: the buffer when
    all [n] bytes could be read. *)
Definition VSIFReadL_from_start (n : Z) (file : list byte) : option (list byte) :=
  if Z.of_nat (length file) <? n then None
  else Some (take (Z.to_nat n) file).

(** ** Reading: [Identify], [Open], [GetGeoTransform] *)

Inductive GDALAccess : Type := GA_ReadOnly | GA_Update.

(** What the driver sees of a [GDALOpenInfo]: the extension of the file name,
    the requested access, the header bytes sniffed when the file was probed,
    and the open file ([None] when there is no handle). *)
Record GDALOpenInfo : Type := {
  osExtension : string;
  eAccess : GDALAccess;
  nHeaderBytes : Z;
  pabyHeader : list byte;
  fpL : option (list byte)
}.

(** The sniffed header is a prefix of the file that [fpL] is opened on. *)
Definition header_snapshot (oi : GDALOpenInfo) : Prop :=
  match fpL oi with
  | Some file =>
      0 <= nHeaderBytes oi <= Z.of_nat (length file) /\
      pabyHeader oi = take (Z.to_nat (nHeaderBytes oi)) file
  | None => True
  end.

(** The open-info of an existing file: up to 1024 bytes are sniffed. *)
Definition GDALOpenInfo_new (ext : string) (acc : GDALAccess) (file : list byte)
  : GDALOpenInfo :=
  {| osExtension := ext; eAccess := acc;
     nHeaderBytes := Z.min 1024 (Z.of_nat (length file));
     pabyHeader := take 1024%nat file;
     fpL := Some file |}.

(** lcpdataset.cpp, lines 160-192 (production build: the extension is
    checked). *)
Definition Identify (oi : GDALOpenInfo) : bool :=
  if nHeaderBytes oi <? 50 then false
  else if (negb (CPL_LSBSINT32PTR (pabyHeader oi) 0 =? 20) &&
           negb (CPL_LSBSINT32PTR (pabyHeader oi) 0 =? 21)) ||
          (negb (CPL_LSBSINT32PTR (pabyHeader oi) 4 =? 20) &&
           negb (CPL_LSBSINT32PTR (pabyHeader oi) 4 =? 21)) ||
          ((CPL_LSBSINT32PTR (pabyHeader oi) 8 <? -90) ||
           (CPL_LSBSINT32PTR (pabyHeader oi) 8 >? 90))
       then false
  else if negb (EQUAL (osExtension oi) "lcp") then false
  else true.

(** Modelled from the spec: [GDALCheckDatasetDimensions] is declared outside
    the driver; the spec has decoding fail when the "declared raster
    width/height are non-positive". *)
Definition GDALCheckDatasetDimensions (nXSize nYSize : Z) : bool :=
  (1 <=? nXSize) && (1 <=? nYSize).

(** Metadata values: an integer printed with ["%d"], a literal text, a C
    string taken from the header, or the comma-joined integers of
    FUEL_MODEL_VALUES. *)
Inductive MDValue : Type :=
| MDInt (n : Z)
| MDText (s : string)
| MDCStr (l : list byte)
| MDIntList (l : list Z).

Record RawRasterBand : Type := {
  rbImgOffset : Z;
  rbPixelOffset : Z;
  rbLineOffset : Z;
  rbDescription : string;
  rbMetadata : gmap string MDValue
}.

Record LCPDataset : Type := {
  pachHeader : list byte;
  nRasterXSize : Z;
  nRasterYSize : Z;
  dsMetadata : gmap string MDValue;
  papoBands : list RawRasterBand
}.

Definition GetRasterCount (ds : LCPDataset) : Z :=
  Z.of_nat (length (papoBands ds)).

(** The two feature flags as [Open] decodes them (lines 262-266):
    21 = have them, 20 = do not have them. *)
Definition bHaveCrownFuels (pach : list byte) : bool :=
  CPL_TO_BOOL (wrap32 (CPL_LSBSINT32PTR pach 0 - 20)).

Definition bHaveGroundFuels (pach : list byte) : bool :=
  CPL_TO_BOOL (wrap32 (CPL_LSBSINT32PTR pach 4 - 20)).

(** Lines 268-282. *)
Definition band_count (crown ground : bool) : Z :=
  if crown then (if ground then 10 else 8)
  else (if ground then 7 else 5).

(** The [switch (iBand)] of [Open] (lines 323-733) as a table: per band the
    description, the metadata key and header offset of its unit/option code,
    the key and the names of the unit, the key prefix and header offset of
    its MIN/MAX/NUM_CLASSES triple, and the offset of its file-name slot. *)
Record BandLayout : Type := {
  blDesc : string;
  blUnitKey : string;
  blUnitOff : Z;
  blNameKey : string;
  blNames : list (Z * string);
  blPrefix : string;
  blStatOff : Z;
  blFileOff : Z
}.

Definition height_names : list (Z * string) :=
  [(1, "Meters"%string); (2, "Feet"%string); (3, "Meters x 10"%string);
   (4, "Feet x 10"%string)].

Definition duff_layout : BandLayout :=
  {| blDesc := "Duff"; blUnitKey := "DUFF_UNIT"; blUnitOff := 4240;
     blNameKey := "DUFF_UNIT_NAME";
     blNames := [(1, "Mg/ha"%string); (2, "t/ac"%string)];
     blPrefix := "DUFF"; blStatOff := 3340; blFileOff := 6292 |}.

Definition cwd_layout : BandLayout :=
  {| blDesc := "Coarse woody debris"; blUnitKey := "CWD_OPTION";
     blUnitOff := 4242; blNameKey := "CWD_UNIT_DESC"; blNames := [];
     blPrefix := "CWD"; blStatOff := 3752; blFileOff := 6548 |}.

Definition band_layout (crown : bool) (iBand : Z) : option BandLayout :=
  match iBand with
  | 1 => Some {| blDesc := "Elevation"; blUnitKey := "ELEVATION_UNIT";
                 blUnitOff := 4224; blNameKey := "ELEVATION_UNIT_NAME";
                 blNames := [(0, "Meters"%string); (1, "Feet"%string)];
                 blPrefix := "ELEVATION"; blStatOff := 44; blFileOff := 4244 |}
  | 2 => Some {| blDesc := "Slope"; blUnitKey := "SLOPE_UNIT";
                 blUnitOff := 4226; blNameKey := "SLOPE_UNIT_NAME";
                 blNames := [(0, "Degrees"%string); (1, "Percent"%string)];
                 blPrefix := "SLOPE"; blStatOff := 456; blFileOff := 4500 |}
  | 3 => Some {| blDesc := "Aspect"; blUnitKey := "ASPECT_UNIT";
                 blUnitOff := 4228; blNameKey := "ASPECT_UNIT_NAME";
                 blNames := [(0, "Grass categories"%string);
                             (1, "Grass degrees"%string);
                             (2, "Azimuth degrees"%string)];
                 blPrefix := "ASPECT"; blStatOff := 868; blFileOff := 4756 |}
  | 4 => Some {| blDesc := "Fuel models"; blUnitKey := "FUEL_MODEL_OPTION";
                 blUnitOff := 4230; blNameKey := "FUEL_MODEL_OPTION_DESC";
                 blNames :=
                   [(0, "no custom models AND no conversion file needed"%string);
                    (1, "custom models BUT no conversion file needed"%string);
                    (2, "no custom models BUT conversion file needed"%string);
                    (3, "custom models AND conversion file needed"%string)];
                 blPrefix := "FUEL_MODEL"; blStatOff := 1280;
                 blFileOff := 5012 |}
  | 5 => Some {| blDesc := "Canopy cover"; blUnitKey := "CANOPY_COV_UNIT";
                 blUnitOff := 4232; blNameKey := "CANOPY_COV_UNIT_NAME";
                 blNames := [(0, "Categories (0-4)"%string);
                             (1, "Percent"%string)];
                 blPrefix := "CANOPY_COV"; blStatOff := 1692;
                 blFileOff := 5268 |}
  | 6 => if crown
         then Some {| blDesc := "Canopy height"; blUnitKey := "CANOPY_HT_UNIT";
                      blUnitOff := 4234; blNameKey := "CANOPY_HT_UNIT_NAME";
                      blNames := height_names; blPrefix := "CANOPY_HT";
                      blStatOff := 2104; blFileOff := 5524 |}
         else Some duff_layout
  | 7 => if crown
         then Some {| blDesc := "Canopy base height"; blUnitKey := "CBH_UNIT";
                      blUnitOff := 4236; blNameKey := "CBH_UNIT_NAME";
                      blNames := height_names; blPrefix := "CBH";
                      blStatOff := 2516; blFileOff := 5780 |}
         else Some cwd_layout
  | 8 => Some {| blDesc := "Canopy bulk density"; blUnitKey := "CBD_UNIT";
                 blUnitOff := 4238; blNameKey := "CBD_UNIT_NAME";
                 blNames := [(1, "kg/m^3"%string); (2, "lb/ft^3"%string);
                             (3, "kg/m^3 x 100"%string);
                             (4, "lb/ft^3 x 1000"%string)];
                 blPrefix := "CBD"; blStatOff := 2928; blFileOff := 6036 |}
  | 9 => Some duff_layout
  | 10 => Some cwd_layout
  | _ => None
  end.

(** [if (nTemp == k) SetMetadataItem(key, name)] for each listed [k]. *)
Fixpoint set_unit_name (key : string) (names : list (Z * string)) (nTemp : Z)
    (md : gmap string MDValue) : gmap string MDValue :=
  match names with
  | [] => md
  | (k, s) :: r =>
      set_unit_name key r nTemp
        (if nTemp =? k then <[key := MDText s]> md else md)
  end.

(** FUEL_MODEL_VALUES (lines 455-471): the class entries [0 .. nTemp] that lie
    within the band's minimum and maximum. *)
Definition fuel_model_values (pach : list byte) (nMinFM nMaxFM nTemp : Z)
  : list Z :=
  if (0 <? nTemp) && (nTemp <=? 100) then
    filter (fun v => nMinFM <= v <= nMaxFM)
           (map (fun i => CPL_LSBSINT32PTR pach (1292 + i * 4))
                (seqZ 0 (nTemp + 1)))
  else [].

(** One case of the switch: the metadata of the band and the header buffer
    after the NUL written at the end of the band's file-name slot. *)
Definition band_metadata (iBand : Z) (bl : BandLayout) (pach : list byte)
  : list byte * gmap string MDValue :=
  let nUnit := CPL_LSBUINT16PTR pach (blUnitOff bl) in
  let md := <[blUnitKey bl := MDInt nUnit]> ∅ in
  let md := set_unit_name (blNameKey bl) (blNames bl) nUnit md in
  let nMin := CPL_LSBSINT32PTR pach (blStatOff bl) in
  let md := <[(blPrefix bl +:+ "_MIN") := MDInt nMin]> md in
  let nMax := CPL_LSBSINT32PTR pach (blStatOff bl + 4) in
  let md := <[(blPrefix bl +:+ "_MAX") := MDInt nMax]> md in
  let nNum := CPL_LSBSINT32PTR pach (blStatOff bl + 8) in
  let md := <[(blPrefix bl +:+ "_NUM_CLASSES") := MDInt nNum]> md in
  let md := if iBand =? 4
            then <["FUEL_MODEL_VALUES"%string :=
                     MDIntList (fuel_model_values pach nMin nMax nNum)]> md
            else md in
  let pach := poke_nul pach (blFileOff bl + 255) in
  let md := <[(blPrefix bl +:+ "_FILE") :=
                MDCStr (c_string_at pach (blFileOff bl))]> md in
  (pach, md).

(** The band loop (lines 312-736); [raw_ok] stands for
    [RawRasterBand::Create] returning a band. *)
Fixpoint open_bands (raw_ok : Z -> Z -> Z -> Z -> bool) (crown : bool)
    (iPixelSize nWidth : Z) (ibs : list Z) (pach : list byte)
    (acc : list RawRasterBand) : option (list byte * list RawRasterBand) :=
  match ibs with
  | [] => Some (pach, acc)
  | iBand :: rest =>
      let img := LCP_HEADER_SIZE + (iBand - 1) * 2 in
      if negb (raw_ok iBand img iPixelSize (iPixelSize * nWidth)) then None
      else
        let '(pach', desc, md) :=
          match band_layout crown iBand with
          | Some bl => let '(p, md) := band_metadata iBand bl pach in
                       (p, blDesc bl, md)
          | None => (pach, EmptyString, ∅)
          end in
        open_bands raw_ok crown iPixelSize nWidth rest pach'
          (acc ++ [{| rbImgOffset := img; rbPixelOffset := iPixelSize;
                      rbLineOffset := iPixelSize * nWidth;
                      rbDescription := desc; rbMetadata := md |}])
  end.

(** lcpdataset.cpp, lines 215-788.  The projection side-car, the PAM
    information and the overviews that [Open] attaches afterwards do not
    enter the header fields and are left out. *)
Definition Open (raw_ok : Z -> Z -> Z -> Z -> bool) (oi : GDALOpenInfo)
  : option LCPDataset :=
  if negb (Identify oi) then None
  else match fpL oi with
  | None => None
  | Some file =>
  match eAccess oi with
  | GA_Update => None
  | GA_ReadOnly =>
  match VSIFReadL_from_start LCP_HEADER_SIZE file with
  | None => None
  | Some pach =>
      let nWidth := CPL_LSBSINT32PTR pach 4164 in
      let nHeight := CPL_LSBSINT32PTR pach 4168 in
      if negb (GDALCheckDatasetDimensions nWidth nHeight) then None
      else
        let crown := bHaveCrownFuels pach in
        let ground := bHaveGroundFuels pach in
        let nBands := band_count crown ground in
        let md := <["LATITUDE"%string := MDInt (CPL_LSBSINT32PTR pach 8)]> ∅ in
        let nTemp := CPL_LSBSINT32PTR pach 4204 in
        let md := if nTemp =? 0
                  then <["LINEAR_UNIT"%string := MDText "Meters"]> md else md in
        let md := if nTemp =? 1
                  then <["LINEAR_UNIT"%string := MDText "Feet"]> md else md in
        let pach := poke_nul pach (LCP_HEADER_SIZE - 1) in
        let md := <["DESCRIPTION"%string := MDCStr (c_string_at pach 6804)]> md in
        let iPixelSize := nBands * 2 in
        if nWidth >? INT_MAX / iPixelSize then None
        else
          match open_bands raw_ok crown iPixelSize nWidth (seqZ 1 nBands)
                           pach [] with
          | None => None
          | Some (pach, bands) =>
              Some {| pachHeader := pach; nRasterXSize := nWidth;
                      nRasterYSize := nHeight; dsMetadata := md;
                      papoBands := bands |}
          end
  end end end.

(** The six header fields [GetGeoTransform] decodes (lines 125-143). *)
Record HeaderExtent : Type := {
  dfEast : double; dfWest : double; dfNorth : double; dfSouth : double;
  dfCellX : double; dfCellY : double
}.

Definition header_extent (pach : list byte) : HeaderExtent :=
  {| dfEast := load_double pach 4172; dfWest := load_double pach 4180;
     dfNorth := load_double pach 4188; dfSouth := load_double pach 4196;
     dfCellX := load_double pach 4208; dfCellY := load_double pach 4216 |}.

(** lcpdataset.cpp, lines 123-154: the north-up transform. *)
Definition GetGeoTransform (fo : FloatOps) (ds : LCPDataset) : list double :=
  let e := header_extent (pachHeader ds) in
  [dfWest e; dfCellX e; f_of_int fo 0; dfNorth e; f_of_int fo 0;
   fmul fo (f_of_int fo (-1)) (dfCellY e)].

(** The unit/option code a dataset reports under a metadata key: the value of
    the first band that carries the key. *)
Definition band_code (key : string) (b : RawRasterBand) : option Z :=
  match rbMetadata b !! key with
  | Some (MDInt n) => Some n
  | _ => None
  end.

Fixpoint unit_code (key : string) (bands : list RawRasterBand) : option Z :=
  match bands with
  | [] => None
  | b :: r => match band_code key b with
              | Some n => Some n
              | None => unit_code key r
              end
  end.

(** The keys of the ten unit/option codes, in the order of [panMetadata]. *)
Definition unit_keys : list string :=
  ["ELEVATION_UNIT"; "SLOPE_UNIT"; "ASPECT_UNIT"; "FUEL_MODEL_OPTION";
   "CANOPY_COV_UNIT"; "CANOPY_HT_UNIT"; "CBH_UNIT"; "CBD_UNIT"; "DUFF_UNIT";
   "CWD_OPTION"]%string.

Definition decoded_unit_codes (ds : LCPDataset) : list (option Z) :=
  map (fun k => unit_code k (papoBands ds)) unit_keys.

(** ** The band classifier: [ClassifyBandData] (lines 799-870) *)

Inductive CPLErr : Type := CE_None | CE_Debug | CE_Warning | CE_Failure | CE_Fatal.

Inductive GDALDataType : Type := GDT_Int16 | GDT_Other.

(** A source band as the driver uses it: its data type, its declared no-data
    value, the outcome of [GetStatistics(FALSE, TRUE, &min, &max, ..)] ([None]
    when it fails) and, per line, the outcome of [RasterIO(GF_Read, 0, iLine,
    nXSize, 1, .., GDT_Int16, ..)]: the [nXSize] values of the line as
    [GInt16], or [None] when the read fails. *)
Record GDALRasterBand : Type := {
  bandDataType : GDALDataType;
  bandNoDataValue : option double;
  bandStatistics : option (double * double);
  bandLines : list (option (list Z))
}.

Definition MIN_VAL : Z := -32768.
Definition MAX_VAL : Z := 32767.
Definition RANGE_VAL : Z := MAX_VAL - MIN_VAL + 1.
Definition OFFSET : Z := - MIN_VAL.

(** The loop state: the presence flags, the running count and [bTooMany]. *)
Record ClassifyState : Type := {
  pabyFlags : list Z;
  nFound : Z;
  bTooMany : bool
}.

Definition classify_init : ClassifyState :=
  {| pabyFlags := replicate (Z.to_nat RANGE_VAL) 0; nFound := 0;
     bTooMany := false |}.

Definition flag_at (flags : list Z) (v : Z) : Z :=
  nth (Z.to_nat (v + OFFSET)) flags 0.

(** The body of the pixel loop (lines 829-847) for one value. *)
Definition classify_pixel (st : ClassifyState) (v : Z) : ClassifyState :=
  if v =? -9999 then st
  else if nFound st =? LCP_MAX_CLASSES then
    {| pabyFlags := pabyFlags st; nFound := -1; bTooMany := true |}
  else if flag_at (pabyFlags st) v =? 0 then
    {| pabyFlags := <[Z.to_nat (v + OFFSET) := 1]> (pabyFlags st);
       nFound := nFound st + 1; bTooMany := false |}
  else st.

(** The pixel loop over one line, left to right, with its [break]. *)
Fixpoint classify_line (st : ClassifyState) (panValues : list Z)
  : ClassifyState :=
  match panValues with
  | [] => st
  | v :: rest =>
      let st' := classify_pixel st v in
      if bTooMany st' then st' else classify_line st' rest
  end.

(** The line loop, with its two [break]s: on a failed read and on
    [bTooMany]. *)
Fixpoint classify_lines (st : ClassifyState) (lines : list (option (list Z)))
  : CPLErr * ClassifyState :=
  match lines with
  | [] => (CE_None, st)
  | None :: _ => (CE_Failure, st)
  | Some panValues :: rest =>
      let st' := classify_line st panValues in
      if bTooMany st' then (CE_None, st') else classify_lines st' rest
  end.

(** Lines 857-863: the indices [j], [j+1], ... of the set flags. *)
Fixpoint scan_flags (j : Z) (flags : list Z) : list Z :=
  match flags with
  | [] => []
  | fl :: rest =>
      if fl =? 1 then j :: scan_flags (j + 1) rest
      else scan_flags (j + 1) rest
  end.

(** The result: the error code, [nNumClasses], and the values stored to
    [panClasses[0]], [panClasses[1]], ... in that order (nothing is stored
    when there are too many). *)
Definition ClassifyBandData (poBand : GDALRasterBand) : CPLErr * Z * list Z :=
  let '(eErr, st) := classify_lines classify_init (bandLines poBand) in
  (eErr, nFound st,
   if bTooMany st then [] else 0 :: scan_flags 0 (pabyFlags st)).

(** ** Writing: [CreateCopy] (lines 876-1630) *)

Record GDALGeoTransform : Type := {
  gt0 : double; gt1 : double; gt2 : double;
  gt3 : double; gt4 : double; gt5 : double
}.

(** The source spatial reference: [GetAttrValue("UNIT", 0)] and
    [GetAttrValue("UNIT", 1)], the coordinate transformation to EPSG:4269
    ([None] when [OGRCreateCoordinateTransformation] returns no object; its
    [Transform] maps a longitude and a latitude, [None] when it fails), and
    the ESRI WKT that [exportToWkt] produces. *)
Record OGRSpatialReference : Type := {
  srsUnitName : option string;
  srsUnitScale : option string;
  srsTransform : option (double -> double -> option (double * double));
  srsWkt : option string
}.

(** The source dataset.  [srcFileList] is [GetFileList()]: [None] for a null
    list; the driver uses its first entry (the empty string stands in for a
    list without entries). *)
Record GDALDataset : Type := {
  srcBands : list GDALRasterBand;
  srcXSize : Z;
  srcYSize : Z;
  srcGT : GDALGeoTransform;
  srcSRS : option OGRSpatialReference;
  srcFileList : option (list string)
}.

Definition src_band_count (poSrcDS : GDALDataset) : Z :=
  Z.of_nat (length (srcBands poSrcDS)).

(** *** Errors and warnings *)

Definition Log : Type := list (CPLErr * string).

(** Validation runs in a monad that collects the [CPLError] calls and stops at
    the first [return nullptr]. *)
Definition M (A : Type) : Type := Log -> option A * Log.

#[global] Instance M_ret : MRet M := fun A a l => (Some a, l).

#[global] Instance M_bind : MBind M := fun A B k m l =>
  match m l with
  | (Some a, l') => k a l'
  | (None, l') => (None, l')
  end.

Definition CPLError (c : CPLErr) (msg : string) : M unit :=
  fun l => (Some tt, l ++ [(c, msg)]).

(** [CPLError(CE_Failure, .., msg); return nullptr;] *)
Definition fail {A : Type} (msg : string) : M A :=
  fun l => (None, l ++ [(CE_Failure, msg)]).

(** *** The unit and option codes (lines 920-1126) *)

Definition opt_ELEVATION_UNIT (o : CSL) : M Z :=
  let pszTemp := CSLFetchNameValueDef o "ELEVATION_UNIT" "METERS" in
  if STARTS_WITH_CI pszTemp "METER" then mret 0
  else if EQUAL pszTemp "FEET" || EQUAL pszTemp "FOOT" then mret 1
  else fail "Invalid value (%s) for ELEVATION_UNIT.".

Definition opt_SLOPE_UNIT (o : CSL) : M Z :=
  let pszTemp := CSLFetchNameValueDef o "SLOPE_UNIT" "DEGREES" in
  if EQUAL pszTemp "DEGREES" then mret 0
  else if EQUAL pszTemp "PERCENT" then mret 1
  else fail "Invalid value (%s) for SLOPE_UNIT.".

Definition opt_ASPECT_UNIT (o : CSL) : M Z :=
  let pszTemp := CSLFetchNameValueDef o "ASPECT_UNIT" "AZIMUTH_DEGREES" in
  if EQUAL pszTemp "GRASS_CATEGORIES" then mret 0
  else if EQUAL pszTemp "GRASS_DEGREES" then mret 1
  else if EQUAL pszTemp "AZIMUTH_DEGREES" then mret 2
  else fail "Invalid value (%s) for ASPECT_UNIT.".

Definition opt_FUEL_MODEL_OPTION (o : CSL) : M Z :=
  let pszTemp :=
    CSLFetchNameValueDef o "FUEL_MODEL_OPTION" "NO_CUSTOM_AND_NO_FILE" in
  if EQUAL pszTemp "NO_CUSTOM_AND_NO_FILE" then mret 0
  else if EQUAL pszTemp "CUSTOM_AND_NO_FILE" then mret 1
  else if EQUAL pszTemp "NO_CUSTOM_AND_FILE" then mret 2
  else if EQUAL pszTemp "CUSTOM_AND_FILE" then mret 3
  else fail "Invalid value (%s) for FUEL_MODEL_OPTION.".

Definition opt_CANOPY_COV_UNIT (o : CSL) : M Z :=
  let pszTemp := CSLFetchNameValueDef o "CANOPY_COV_UNIT" "PERCENT" in
  if EQUAL pszTemp "CATEGORIES" then mret 0
  else if EQUAL pszTemp "PERCENT" then mret 1
  else fail "Invalid value (%s) for CANOPY_COV_UNIT.".

(** CANOPY_HT_UNIT and CBH_UNIT share their value names. *)
Definition opt_height_unit (o : CSL) (key msg : string) : M Z :=
  let pszTemp := CSLFetchNameValueDef o key "METERS_X_10" in
  if EQUAL pszTemp "METERS" || EQUAL pszTemp "METER" then mret 1
  else if EQUAL pszTemp "FEET" || EQUAL pszTemp "FOOT" then mret 2
  else if EQUAL pszTemp "METERS_X_10" || EQUAL pszTemp "METER_X_10" then mret 3
  else if EQUAL pszTemp "FEET_X_10" || EQUAL pszTemp "FOOT_X_10" then mret 4
  else fail msg.

Definition opt_CANOPY_HT_UNIT (o : CSL) : M Z :=
  opt_height_unit o "CANOPY_HT_UNIT" "Invalid value (%s) for CANOPY_HT_UNIT.".

Definition opt_CBH_UNIT (o : CSL) : M Z :=
  opt_height_unit o "CBH_UNIT" "Invalid value (%s) for CBH_UNIT.".

Definition opt_CBD_UNIT (o : CSL) : M Z :=
  let pszTemp :=
    CSLFetchNameValueDef o "CBD_UNIT" "KG_PER_CUBIC_METER_X_100" in
  if EQUAL pszTemp "KG_PER_CUBIC_METER" then mret 1
  else if EQUAL pszTemp "POUND_PER_CUBIC_FOOT" then mret 2
  else if EQUAL pszTemp "KG_PER_CUBIC_METER_X_100" then mret 3
  else if EQUAL pszTemp "POUND_PER_CUBIC_FOOT_X_1000" then mret 4
  else fail "Invalid value (%s) for CBD_UNIT.".

Definition opt_DUFF_UNIT (o : CSL) : M Z :=
  let pszTemp := CSLFetchNameValueDef o "DUFF_UNIT" "MG_PER_HECTARE_X_10" in
  if EQUAL pszTemp "MG_PER_HECTARE_X_10" then mret 1
  else if EQUAL pszTemp "TONS_PER_ACRE_X_10" then mret 2
  else fail "Invalid value (%s) for DUFF_UNIT.".

(** [panMetadata]: the defaults of lines 920-931 with the overrides. *)
Definition unit_codes (o : CSL) (crown ground : bool) : M (list Z) :=
  m0 ← opt_ELEVATION_UNIT o;
  m1 ← opt_SLOPE_UNIT o;
  m2 ← opt_ASPECT_UNIT o;
  m3 ← opt_FUEL_MODEL_OPTION o;
  m4 ← opt_CANOPY_COV_UNIT o;
  m567 ← (if crown then
            m5 ← opt_CANOPY_HT_UNIT o;
            m6 ← opt_CBH_UNIT o;
            m7 ← opt_CBD_UNIT o;
            mret (m5, m6, m7)
          else mret (3, 3, 3));
  m89 ← (if ground then
           m8 ← opt_DUFF_UNIT o;
           mret (m8, 1)
         else mret (1, 0));
  mret [m0; m1; m2; m3; m4; m567.1.1; m567.1.2; m567.2; m89.1; m89.2].

(** *** Input verification (lines 886-1312) *)

Record CreateParams : Type := {
  cpCrown : bool;                (* bHaveCrownFuels *)
  cpGround : bool;               (* bHaveGroundFuels *)
  cpMetadata : list Z;           (* panMetadata *)
  cpCalculateStats : bool;
  cpClassifyData : bool;
  cpLinearUnits : Z;             (* nLinearUnits *)
  cpLatitude : double;           (* dfLatitude *)
  cpDescription : string
}.

Definition check_band_count (nBands : Z) : M unit :=
  if negb (nBands =? 5) && negb (nBands =? 7) && negb (nBands =? 8)
     && negb (nBands =? 10)
  then fail "LCP driver doesn't support %d bands.  Must be 5, 7, 8 or 10 bands."
  else mret tt.

Definition first_band_type (poSrcDS : GDALDataset) : GDALDataType :=
  match srcBands poSrcDS with
  | b :: _ => bandDataType b
  | [] => GDT_Other
  end.

Definition check_data_type (eType : GDALDataType) (bStrict : bool) : M unit :=
  match eType with
  | GDT_Int16 => mret tt
  | _ => if bStrict
         then fail "LCP only supports 16-bit signed integer data types."
         else CPLError CE_Warning "Setting data type to 16-bit integer."
  end.

(** Lines 1130-1142: [(bCalculateStats, bClassifyData)]. *)
Definition stats_flags (o : CSL) : M (bool * bool) :=
  let bCalculateStats := CPLFetchBool o "CALCULATE_STATS" true in
  let bClassifyData := CPLFetchBool o "CLASSIFY_DATA" true in
  if bClassifyData && negb bCalculateStats then
    _ ← CPLError CE_Warning
          "Ignoring request to not calculate statistics, because CLASSIFY_DATA was set to ON";
    mret (true, bClassifyData)
  else mret (bCalculateStats, bClassifyData).

(** Lines 1144-1162: [(nLinearUnits, bSetLinearUnits)]. *)
Definition opt_LINEAR_UNIT (o : CSL) : Z * bool :=
  let pszTemp := CSLFetchNameValueDef o "LINEAR_UNIT" "SET_FROM_SRS" in
  if EQUAL pszTemp "SET_FROM_SRS" then (0, true)
  else if STARTS_WITH_CI pszTemp "METER" then (0, false)
  else if EQUAL pszTemp "FOOT" || EQUAL pszTemp "FEET" then (1, false)
  else if STARTS_WITH_CI pszTemp "KILOMETER" then (2, false)
  else (0, false).

(** Lines 1163-1175: [(bCalculateLatitude, nLatitude)]. *)
Definition opt_LATITUDE (o : CSL) : M (bool * Z) :=
  match CSLFetchNameValue o "LATITUDE" with
  | Some v =>
      let nLatitude := atoi v in
      if (nLatitude >? 90) || (nLatitude <? -90)
      then fail "Invalid value (%d) for LATITUDE."
      else mret (false, nLatitude)
  | None => mret (true, 0)
  end.

(** Lines 1180-1226: [dfLatitude]. *)
Definition derive_latitude (fo : FloatOps) (poSrcDS : GDALDataset)
    (bCalculateLatitude : bool) (nLatitude : Z) : M double :=
  if negb bCalculateLatitude then mret (f_of_int fo nLatitude)
  else match srcSRS poSrcDS with
  | Some poSrcSRS =>
      match srsTransform poSrcSRS with
      | Some Transform =>
          let dfLongitude := f_of_int fo 0 in
          let dfLatitude :=
            fadd fo (gt3 (srcGT poSrcDS))
              (fdiv fo (fmul fo (gt5 (srcGT poSrcDS))
                                (f_of_int fo (srcYSize poSrcDS)))
                       (f_of_int fo 2)) in
          match Transform dfLongitude dfLatitude with
          | Some (_, dfLatitude') => mret dfLatitude'
          | None =>
              fail "Could not calculate latitude from spatial reference and LATITUDE was not set."
          end
      | None => mret (f_of_int fo 0)
      end
  | None =>
      fail "Could not calculate latitude from spatial reference and LATITUDE was not set."
  end.

(** Lines 1229-1309: [nLinearUnits]. *)
Definition derive_linear_units (fo : FloatOps) (poSrcDS : GDALDataset)
    (bStrict : bool) (nLinearUnits : Z) (bSetLinearUnits : bool) : M Z :=
  if bSetLinearUnits then
    match srcSRS poSrcDS with
    | Some poSrcSRS =>
        match srsUnitName poSrcSRS with
        | None =>
            if bStrict then fail "Could not parse linear unit."
            else
              _ ← CPLError CE_Warning "Could not parse linear unit, using meters";
              mret 0
        | Some pszUnit =>
            let nLinearUnits :=
              if EQUAL pszUnit "meter" || EQUAL pszUnit "metre" then 0
              else if EQUAL pszUnit "feet" || EQUAL pszUnit "foot" then 1
              else if STARTS_WITH_CI pszUnit "kilomet" then 2
              else if bStrict then 0 else nLinearUnits in
            match srsUnitScale poSrcSRS with
            | Some pszScale =>
                if fneq fo (CPLAtof fo pszScale) (f_of_int fo 1) then
                  if bStrict
                  then fail "Unit scale is %lf (!=1.0). It is not supported."
                  else
                    _ ← CPLError CE_Warning
                          "Unit scale is %lf (!=1.0). It is not supported, ignoring.";
                    mret nLinearUnits
                else mret nLinearUnits
            | None => mret nLinearUnits
            end
        end
    | None =>
        if bStrict
        then fail "Could not parse linear unit from spatial reference and LINEAR_UNIT was not set."
        else
          _ ← CPLError CE_Warning
                "Could not parse linear unit from spatial reference and LINEAR_UNIT was not set, defaulting to meters.";
          mret 0
    end
  else mret nLinearUnits.

(** Everything [CreateCopy] decides before it touches the output file. *)
Definition CreateCopy_validate (fo : FloatOps) (poSrcDS : GDALDataset)
    (bStrict : bool) (papszOptions : CSL) : M CreateParams :=
  let nBands := src_band_count poSrcDS in
  _ ← check_band_count nBands;
  _ ← check_data_type (first_band_type poSrcDS) bStrict;
  let crown := (nBands =? 8) || (nBands =? 10) in
  let ground := (nBands =? 7) || (nBands =? 10) in
  panMetadata ← unit_codes papszOptions crown ground;
  flags ← stats_flags papszOptions;
  let lu := opt_LINEAR_UNIT papszOptions in
  lat ← opt_LATITUDE papszOptions;
  dfLatitude ← derive_latitude fo poSrcDS lat.1 lat.2;
  nLinearUnits ← derive_linear_units fo poSrcDS bStrict lu.1 lu.2;
  mret {| cpCrown := crown; cpGround := ground; cpMetadata := panMetadata;
          cpCalculateStats := flags.1; cpClassifyData := flags.2;
          cpLinearUnits := nLinearUnits; cpLatitude := dfLatitude;
          cpDescription :=
            CSLFetchNameValueDef papszOptions "DESCRIPTION"
                                 "LCP file created by GDAL." |}.

(** *** Band statistics and classes (lines 1322-1365) *)

Record BandStats : Type := {
  padfMin : list double;
  padfMax : list double;
  panFound : list Z;
  panClasses : list Z
}.

Definition band_minmax (fo : FloatOps) (b : GDALRasterBand) : double * double :=
  match bandStatistics b with
  | Some mm => mm
  | None => (f_of_int fo 0, f_of_int fo 0)
  end.

(** The classification pass over the bands [i], [i+1], ...: [panFound[i]] and
    the stores into [panClasses + i * LCP_MAX_CLASSES].  The arrays have
    [nBands] and [nBands * LCP_MAX_CLASSES] entries; a store past the end of
    [panClasses] is dropped. *)
Fixpoint classify_bands (i : nat) (bands : list GDALRasterBand)
    (found classes : list Z) : list Z * list Z :=
  match bands with
  | [] => (found, classes)
  | b :: rest =>
      let '(_, n, stores) := ClassifyBandData b in
      classify_bands (S i) rest (<[i := n]> found)
        (list_inserts (i * Z.to_nat LCP_MAX_CLASSES) stores classes)
  end.

Definition compute_stats (fo : FloatOps) (p : CreateParams)
    (bands : list GDALRasterBand) : BandStats :=
  let n := length bands in
  let found0 := replicate n 0 in
  let classes0 := replicate (n * Z.to_nat LCP_MAX_CLASSES) 0 in
  let '(found, classes) :=
    if cpCalculateStats p && cpClassifyData p
    then classify_bands 0 bands found0 classes0
    else (found0, classes0) in
  {| padfMin := map (fun b => (band_minmax fo b).1) bands;
     padfMax := map (fun b => (band_minmax fo b).2) bands;
     panFound := found; panClasses := classes |}.

(** The warnings of that loop, band by band. *)
Definition stats_warnings (p : CreateParams) (bands : list GDALRasterBand)
  : Log :=
  if cpCalculateStats p then
    flat_map (fun b =>
      (match bandStatistics b with
       | Some _ => []
       | None => [(CE_Warning,
                   "Failed to properly calculate statistics on band %d"%string)]
       end) ++
      (if cpClassifyData p then
         match ClassifyBandData b with
         | (CE_None, _, _) => []
         | _ => [(CE_Warning,
                  "Failed to classify band data on band %d."%string)]
         end
       else [])) bands
  else [].

(** *** The header (lines 1383-1543) *)

Definition dfEast_of (fo : FloatOps) (poSrcDS : GDALDataset) : double :=
  fadd fo (gt0 (srcGT poSrcDS))
          (fmul fo (gt1 (srcGT poSrcDS)) (f_of_int fo (srcXSize poSrcDS))).

Definition dfSouth_of (fo : FloatOps) (poSrcDS : GDALDataset) : double :=
  fadd fo (gt3 (srcGT poSrcDS))
          (fmul fo (gt5 (srcGT poSrcDS)) (f_of_int fo (srcYSize poSrcDS))).

(** Lines 1383-1405: the flags, the latitude and a first copy of the
    bounds. *)
Definition write_lead (fo : FloatOps) (poSrcDS : GDALDataset)
    (p : CreateParams) (fp : VSILFILE) : VSILFILE :=
  let fp := VSIFWriteL (le32 (if cpCrown p then 21 else 20)) fp in
  let fp := VSIFWriteL (le32 (if cpGround p then 21 else 20)) fp in
  let fp := VSIFWriteL
              (le32 (f_to_int32 fo (fadd fo (cpLatitude p) (fhalf fo)))) fp in
  let fp := VSIFWriteL (double_bytes (dfEast_of fo poSrcDS)) fp in
  let fp := VSIFWriteL (double_bytes (gt0 (srcGT poSrcDS))) fp in
  let fp := VSIFWriteL (double_bytes (gt3 (srcGT poSrcDS))) fp in
  VSIFWriteL (double_bytes (dfSouth_of fo poSrcDS)) fp.

(** [panClasses + i * LCP_MAX_CLASSES], [LCP_MAX_CLASSES] entries. *)
Definition class_slice (classes : list Z) (i : Z) : list Z :=
  take (Z.to_nat LCP_MAX_CLASSES) (drop (Z.to_nat (i * LCP_MAX_CLASSES)) classes).

(** Lines 1419-1449: the bands [i], [i+1], ... of the statistics loop. *)
Fixpoint write_stats (fo : FloatOps) (p : CreateParams) (st : BandStats)
    (i : Z) (n : nat) (fp : VSILFILE) : VSILFILE :=
  match n with
  | O => fp
  | S n' =>
      let fp := if (i =? 5) && negb (cpCrown p) && cpGround p
                then VSIFSeekL_SET 3340 fp else fp in
      let fp := VSIFWriteL
                  (le32 (f_to_int32 fo
                           (nth (Z.to_nat i) (padfMin st) (f_of_int fo 0)))) fp in
      let fp := VSIFWriteL
                  (le32 (f_to_int32 fo
                           (nth (Z.to_nat i) (padfMax st) (f_of_int fo 0)))) fp in
      let fp :=
        if cpClassifyData p then
          let fp := VSIFWriteL (le32 (nth (Z.to_nat i) (panFound st) 0)) fp in
          VSIFWriteL (flat_map le32 (class_slice (panClasses st) i)) fp
        else
          let fp := VSIFWriteL (le32 (-1)) fp in
          VSIFSeekL_CUR (4 * LCP_MAX_CLASSES) fp in
      write_stats fo p st (i + 1) n' fp
  end.

(** Lines 1417-1454. *)
Definition write_stats_section (fo : FloatOps) (p : CreateParams)
    (st : BandStats) (nBands : nat) (fp : VSILFILE) : VSILFILE :=
  if cpCalculateStats p then write_stats fo p st 0 nBands fp
  else VSIFSeekL_SET 4164 fp.

(** Lines 1461-1462 and 1533-1534: the conditions under [CPLAssert]. *)
Definition stats_cursor_ok (fp : VSILFILE) : bool :=
  (VSIFTellL fp =? 2104) || (VSIFTellL fp =? 3340) || (VSIFTellL fp =? 4164).

Definition files_cursor_ok (fp : VSILFILE) : bool :=
  (VSIFTellL fp =? 5524) || (VSIFTellL fp =? 6292) || (VSIFTellL fp =? 6804).

(** Lines 1463-1508: the image size, the bounds, the linear unit, the
    resolution and the ten unit/option codes. *)
Definition write_geo (fo : FloatOps) (poSrcDS : GDALDataset)
    (p : CreateParams) (fp : VSILFILE) : VSILFILE :=
  let fp := VSIFSeekL_SET 4164 fp in
  let fp := VSIFWriteL (le32 (srcXSize poSrcDS)) fp in
  let fp := VSIFWriteL (le32 (srcYSize poSrcDS)) fp in
  let fp := VSIFWriteL (double_bytes (dfEast_of fo poSrcDS)) fp in
  let fp := VSIFWriteL (double_bytes (gt0 (srcGT poSrcDS))) fp in
  let fp := VSIFWriteL (double_bytes (gt3 (srcGT poSrcDS))) fp in
  let fp := VSIFWriteL (double_bytes (dfSouth_of fo poSrcDS)) fp in
  let fp := VSIFWriteL (le32 (cpLinearUnits p)) fp in
  let fp := VSIFWriteL (double_bytes (gt1 (srcGT poSrcDS))) fp in
  let fp := VSIFWriteL (double_bytes (ffabs fo (gt5 (srcGT poSrcDS)))) fp in
  VSIFWriteL (flat_map le16 (cpMetadata p)) fp.

(** Lines 1514-1524: the bands [i], [i+1], ... of the file-name loop. *)
Fixpoint write_file_names (p : CreateParams) (name : string) (i : Z) (n : nat)
    (fp : VSILFILE) : VSILFILE :=
  match n with
  | O => fp
  | S n' =>
      let fp := if (i =? 5) && negb (cpCrown p) && cpGround p
                then VSIFSeekL_SET 6292 fp else fp in
      let fp := VSIFWriteL (strn_bytes name LCP_MAX_PATH) fp in
      let fp := VSIFSeekL_SET (4244 + 256 * (i + 1)) fp in
      write_file_names p name (i + 1) n' fp
  end.

(** Lines 1511-1530. *)
Definition write_files_section (poSrcDS : GDALDataset) (p : CreateParams)
    (nBands : nat) (fp : VSILFILE) : VSILFILE :=
  match srcFileList poSrcDS with
  | Some papszFileList =>
      write_file_names p (hd EmptyString papszFileList) 0 nBands fp
  | None => VSIFSeekL_SET 6804 fp
  end.

(** Lines 1535-1543. *)
Definition write_description (p : CreateParams) (fp : VSILFILE) : VSILFILE :=
  let fp := VSIFSeekL_SET 6804 fp in
  VSIFWriteL (strn_bytes (cpDescription p) LCP_MAX_DESC) fp.

(** The header, with the value of each [CPLAssert] condition on the way. *)
Record HeaderTrace : Type := {
  htFile : VSILFILE;
  htStatsCursor : Z;        (* VSIFTellL at line 1461 *)
  htFilesCursor : Z;        (* VSIFTellL at line 1533 *)
  htAssertions : bool       (* the three CPLAssert conditions hold *)
}.

Definition write_header (fo : FloatOps) (poSrcDS : GDALDataset)
    (p : CreateParams) (st : BandStats) : HeaderTrace :=
  let nBands := length (srcBands poSrcDS) in
  let fp := write_lead fo poSrcDS p VSIFOpenL_wb in
  let fp1 := write_stats_section fo p st nBands fp in
  let fp := write_geo fo poSrcDS p fp1 in
  let fp2 := write_files_section poSrcDS p nBands fp in
  let fp3 := write_description p fp2 in
  {| htFile := VSIFSeekL_SET 7316 fp3;
     htStatsCursor := VSIFTellL fp1;
     htFilesCursor := VSIFTellL fp2;
     htAssertions := stats_cursor_ok fp1 && files_cursor_ok fp2
                     && (VSIFTellL fp3 <=? 7316) |}.

(** *** The image data (lines 1549-1594) *)

(** The calls of the progress function: before the first line, after line
    [iLine] of [nYSize] (the fraction [iLine / nYSize]), and at the end. *)
Inductive ProgressEvent : Type :=
| ProgressStart
| ProgressLine (iLine nYSize : Z)
| ProgressDone.

(** [RasterIO] into [panScanline + iBand] with a pixel spacing of [nBands]
    samples: value [k] of the line lands at index [k * nBands + iBand]. *)
Fixpoint scatter (nBands iBand k : nat) (row : list Z) (buf : list Z)
  : list Z :=
  match row with
  | [] => buf
  | v :: r => scatter nBands iBand (S k) r (<[(k * nBands + iBand)%nat := v]> buf)
  end.

(** Lines 1559-1573: one pass over the bands for line [iLine]; a failed read
    leaves the samples of that band as they were and is reported. *)
Fixpoint read_scanline (nBands : nat) (nXSize iLine : Z) (iBand : nat)
    (bands : list GDALRasterBand) (buf : list Z) : list Z * Log :=
  match bands with
  | [] => (buf, [])
  | b :: rest =>
      match nth (Z.to_nat iLine) (bandLines b) None with
      | Some row =>
          read_scanline nBands nXSize iLine (S iBand) rest
            (scatter nBands iBand 0 (take (Z.to_nat nXSize) row) buf)
      | None =>
          let '(buf', l) :=
            read_scanline nBands nXSize iLine (S iBand) rest buf in
          (buf', (CE_Warning, "Error reported in RasterIO"%string) :: l)
      end
  end.

(** Lines 1557-1588: the lines [iLine], [iLine+1], ...; the flag tells whether
    the progress function let the loop run to its end. *)
Fixpoint copy_lines (pfnProgress : ProgressEvent -> bool)
    (poSrcDS : GDALDataset) (iLine : Z) (n : nat) (buf : list Z)
    (fp : VSILFILE) : VSILFILE * bool * Log :=
  match n with
  | O => (fp, true, [])
  | S n' =>
      let '(buf', l) :=
        read_scanline (length (srcBands poSrcDS)) (srcXSize poSrcDS) iLine 0
                      (srcBands poSrcDS) buf in
      let fp := VSIFWriteL (flat_map le16 buf') fp in
      if negb (pfnProgress (ProgressLine iLine (srcYSize poSrcDS)))
      then (fp, false, l)
      else
        let '(fp', ok, l') := copy_lines pfnProgress poSrcDS (iLine + 1) n' buf' fp in
        (fp', ok, l ++ l')
  end.

(** The file as [VSIFCloseL] leaves it, whether the copy ran to its end, and
    what the assertions and the reads reported. *)
Record ImageOutcome : Type := {
  imgBytes : list byte;
  imgCompleted : bool;
  imgAssertions : bool;
  imgLog : Log
}.

(** Lines 1367-1594, once the output file is open.  The scan-line buffer
    starts out zeroed here; the code does not initialise it, and the zeros
    stand in for its indeterminate content, which reaches the file only
    where a read fails before any read of that band has succeeded. *)
Definition CreateCopy_image (fo : FloatOps) (pfnProgress : ProgressEvent -> bool)
    (poSrcDS : GDALDataset) (p : CreateParams) : ImageOutcome :=
  let st := compute_stats fo p (srcBands poSrcDS) in
  let ht := write_header fo poSrcDS p st in
  if negb (pfnProgress ProgressStart) then
    {| imgBytes := content (htFile ht); imgCompleted := false;
       imgAssertions := htAssertions ht; imgLog := [] |}
  else
    let panScanline :=
      replicate (length (srcBands poSrcDS) * Z.to_nat (srcXSize poSrcDS)) 0 in
    let '(fp, ok, l) :=
      copy_lines pfnProgress poSrcDS 0 (Z.to_nat (srcYSize poSrcDS))
                 panScanline (htFile ht) in
    {| imgBytes := content fp;
       imgCompleted := ok && pfnProgress ProgressDone;
       imgAssertions := htAssertions ht; imgLog := l |}.

(** *** [CreateCopy] *)

(** The services [CreateCopy] calls besides the source dataset: the progress
    function, whether [VSIFOpenL] can create a file, the name of the
    projection side-car ([CPLFormFilenameSafe] of the path and base name with
    "prj"), the extension of a file name, and whether
    [RawRasterBand::Create] yields a band. *)
Record Externals : Type := {
  pfnProgress : ProgressEvent -> bool;
  VSIFOpenL_ok : string -> bool;
  prj_filename : string -> string;
  extension_of : string -> string;
  RawRasterBand_Create : Z -> Z -> Z -> Z -> bool
}.

(** [GDALOpen(pszFilename, GA_ReadOnly)], as far as this driver answers it. *)
Definition GDALOpen (ex : Externals) (fs : gmap string (list byte))
    (pszFilename : string) : option LCPDataset :=
  match fs !! pszFilename with
  | Some file =>
      Open (RawRasterBand_Create ex)
           (GDALOpenInfo_new (extension_of ex pszFilename) GA_ReadOnly file)
  | None => None
  end.

(** Lines 1598-1628: the projection side-car. *)
Definition write_prj (ex : Externals) (poSrcDS : GDALDataset)
    (pszFilename : string) (fs : gmap string (list byte))
  : gmap string (list byte) * Log :=
  match srcSRS poSrcDS with
  | Some poSrcSRS =>
      match srsWkt poSrcSRS with
      | Some pszESRIProjection =>
          let pszPrjFilename := prj_filename ex pszFilename in
          if VSIFOpenL_ok ex pszPrjFilename
          then (<[pszPrjFilename := list_byte_of_string pszESRIProjection]> fs, [])
          else (fs, [(CE_Failure, "Unable to create file %s."%string)])
      | None => (fs, [])
      end
  | None => (fs, [])
  end.

(** The dataset returned ([None] for [nullptr]), the files afterwards, and the
    errors and warnings raised. *)
Definition CreateCopy (ex : Externals) (fo : FloatOps)
    (fs : gmap string (list byte)) (pszFilename : string)
    (poSrcDS : GDALDataset) (bStrict : bool) (papszOptions : CSL)
  : option LCPDataset * gmap string (list byte) * Log :=
  match CreateCopy_validate fo poSrcDS bStrict papszOptions [] with
  | (None, l) => (None, fs, l)
  | (Some p, l) =>
      let l := l ++ stats_warnings p (srcBands poSrcDS) in
      if negb (VSIFOpenL_ok ex pszFilename) then
        (None, fs, l ++ [(CE_Failure, "Unable to create lcp file %s."%string)])
      else
        let img := CreateCopy_image fo (pfnProgress ex) poSrcDS p in
        let fs := <[pszFilename := imgBytes img]> fs in
        let l := l ++ imgLog img in
        if negb (imgCompleted img) then (None, fs, l)
        else
          let '(fs, l') := write_prj ex poSrcDS pszFilename fs in
          (GDALOpen ex fs pszFilename, fs, l ++ l')
  end.

(** ** Worked-example inputs *)

(** Integer-valued stand-ins for the double operations, used to run the
    examples: a double holds a 64-bit integer, and 0.5 rounds to 0. *)
Definition double_of_Z (z : Z) : double :=
  Double (byte.of_Z z) (byte.of_Z (Z.shiftr z 8)) (byte.of_Z (Z.shiftr z 16))
         (byte.of_Z (Z.shiftr z 24)) (byte.of_Z (Z.shiftr z 32))
         (byte.of_Z (Z.shiftr z 40)) (byte.of_Z (Z.shiftr z 48))
         (byte.of_Z (Z.shiftr z 56)).

Definition Z_of_double (d : double) : Z :=
  (le_combine (double_bytes d) + 2 ^ 63) mod 2 ^ 64 - 2 ^ 63.

Definition int_float_ops : FloatOps :=
  {| fadd a b := double_of_Z (Z_of_double a + Z_of_double b);
     fmul a b := double_of_Z (Z_of_double a * Z_of_double b);
     fdiv a b := double_of_Z (Z.quot (Z_of_double a) (Z_of_double b));
     ffabs a := double_of_Z (Z.abs (Z_of_double a));
     f_of_int z := double_of_Z z;
     fhalf := double_of_Z 0;
     f_to_int32 a := wrap32 (Z_of_double a);
     CPLAtof s := double_of_Z (atoi s);
     fneq a b := negb (Z_of_double a =? Z_of_double b) |}.

Definition example_band (lines : list (list Z)) : GDALRasterBand :=
  {| bandDataType := GDT_Int16; bandNoDataValue := None;
     bandStatistics := Some (double_of_Z 0, double_of_Z 9);
     bandLines := map Some lines |}.

(** A 2 x 2 source with [n] identical bands, pixel size 30, no spatial
    reference and no file list. *)
Definition example_source (n : nat) : GDALDataset :=
  {| srcBands := replicate n (example_band [[1; 2]; [3; -9999]]);
     srcXSize := 2; srcYSize := 2;
     srcGT := {| gt0 := double_of_Z 1000; gt1 := double_of_Z 30;
                 gt2 := double_of_Z 0; gt3 := double_of_Z 2000;
                 gt4 := double_of_Z 0; gt5 := double_of_Z (-30) |};
     srcSRS := None; srcFileList := None |}.

Definition example_externals : Externals :=
  {| pfnProgress := fun _ => true;
     VSIFOpenL_ok := fun _ => true;
     prj_filename := fun f => (f +:+ ".prj")%string;
     extension_of := fun _ => "lcp"%string;
     RawRasterBand_Create := fun _ _ _ _ => true |}.

Definition example_options : CSL := [("LATITUDE"%string, "45"%string)].

(** ** Vocabulary of the statements *)

(** A band with the given lines, every read succeeding. *)
Definition band_of_lines (lines : list (list Z)) : GDALRasterBand :=
  {| bandDataType := GDT_Int16; bandNoDataValue := None;
     bandStatistics := None; bandLines := map Some lines |}.

(** The same band with another declared no-data value. *)
Definition with_nodata (b : GDALRasterBand) (nd : option double)
  : GDALRasterBand :=
  {| bandDataType := bandDataType b; bandNoDataValue := nd;
     bandStatistics := bandStatistics b; bandLines := bandLines b |}.

(** The same band with the pixels equal to -9999 taken out of every line. *)
Definition without_9999 (b : GDALRasterBand) : GDALRasterBand :=
  {| bandDataType := bandDataType b; bandNoDataValue := bandNoDataValue b;
     bandStatistics := bandStatistics b;
     bandLines := map (option_map (filter (fun v => v <> -9999))) (bandLines b) |}.

(** Presence flags as the classifier keeps them: one per [GInt16] value, each
    0 or 1. *)
Definition flags_wf (flags : list Z) : Prop :=
  length flags = Z.to_nat RANGE_VAL /\ Forall (fun x => x = 0 \/ x = 1) flags.

Definition seen (flags : list Z) (v : Z) : Prop := flag_at flags v = 1.

(** The running count stays within [-1 .. LCP_MAX_CLASSES]. *)
Definition count_inv (st : ClassifyState) : Prop :=
  if bTooMany st then nFound st = -1 else 0 <= nFound st <= LCP_MAX_CLASSES.

(** [RawRasterBand::Create] succeeds for every band of a dataset with the
    given pixel size and width. *)
Definition bands_creatable (raw_ok : Z -> Z -> Z -> Z -> bool)
    (iPixelSize nWidth : Z) (ibs : list Z) : bool :=
  forallb (fun iBand =>
             raw_ok iBand (LCP_HEADER_SIZE + (iBand - 1) * 2) iPixelSize
                    (iPixelSize * nWidth)) ibs.

(** The decode failures the specification lists, on the bytes of the file:
    fewer bytes than the header, a feature flag that is neither 20 nor 21, a
    width or height that is not positive, a row size [width * pixel size]
    beyond [INT_MAX]. *)
Definition listed_open_failure (file : list byte) : Prop :=
  Z.of_nat (length file) < LCP_HEADER_SIZE \/
  ~ (CPL_LSBSINT32PTR file 0 = 20 \/ CPL_LSBSINT32PTR file 0 = 21) \/
  ~ (CPL_LSBSINT32PTR file 4 = 20 \/ CPL_LSBSINT32PTR file 4 = 21) \/
  CPL_LSBSINT32PTR file 4164 <= 0 \/
  CPL_LSBSINT32PTR file 4168 <= 0 \/
  CPL_LSBSINT32PTR file 4164
    * (band_count (bHaveCrownFuels file) (bHaveGroundFuels file) * 2) > INT_MAX.

(** The further reasons for which [Open] returns no dataset. *)
Definition other_open_failure (raw_ok : Z -> Z -> Z -> Z -> bool)
    (oi : GDALOpenInfo) (file : list byte) : Prop :=
  nHeaderBytes oi < 50 \/
  ~ (-90 <= CPL_LSBSINT32PTR file 8 <= 90) \/
  EQUAL (osExtension oi) "lcp" = false \/
  eAccess oi = GA_Update \/
  (let nBands := band_count (bHaveCrownFuels file) (bHaveGroundFuels file) in
   bands_creatable raw_ok (nBands * 2) (CPL_LSBSINT32PTR file 4164)
                   (seqZ 1 nBands) = false).

(** A file of header size with both flags 20, a 1 x 1 raster and the given
    latitude field; everything else zero. *)
Definition header_with_latitude (lat : Z) : list byte :=
  le32 20 ++ le32 20 ++ le32 lat ++ replicate 4152 Byte.x00
  ++ le32 1 ++ le32 1 ++ replicate 3144 Byte.x00.

(** A validation step that stops with [return nullptr] whatever was logged
    before. *)
Definition failsM {A : Type} (m : M A) : Prop := forall l, (m l).1 = None.

(** The value names that have a code, per unit/option key: names matched as a
    whole and names matched as a prefix, both ignoring case. *)
Definition code_names (key : string) : list string * list string :=
  if String.eqb key "ELEVATION_UNIT" then (["FEET"; "FOOT"], ["METER"])%string
  else if String.eqb key "SLOPE_UNIT" then (["DEGREES"; "PERCENT"], [])%string
  else if String.eqb key "ASPECT_UNIT"
    then (["GRASS_CATEGORIES"; "GRASS_DEGREES"; "AZIMUTH_DEGREES"], [])%string
  else if String.eqb key "FUEL_MODEL_OPTION"
    then (["NO_CUSTOM_AND_NO_FILE"; "CUSTOM_AND_NO_FILE"; "NO_CUSTOM_AND_FILE";
           "CUSTOM_AND_FILE"], [])%string
  else if String.eqb key "CANOPY_COV_UNIT" then (["CATEGORIES"; "PERCENT"], [])%string
  else if String.eqb key "CANOPY_HT_UNIT" || String.eqb key "CBH_UNIT"
    then (["METERS"; "METER"; "FEET"; "FOOT"; "METERS_X_10"; "METER_X_10";
           "FEET_X_10"; "FOOT_X_10"], [])%string
  else if String.eqb key "CBD_UNIT"
    then (["KG_PER_CUBIC_METER"; "POUND_PER_CUBIC_FOOT";
           "KG_PER_CUBIC_METER_X_100"; "POUND_PER_CUBIC_FOOT_X_1000"], [])%string
  else if String.eqb key "DUFF_UNIT"
    then (["MG_PER_HECTARE_X_10"; "TONS_PER_ACRE_X_10"], [])%string
  else ([], []).

Definition has_code (key v : string) : bool :=
  existsb (EQUAL v) (code_names key).1
  || existsb (STARTS_WITH_CI v) (code_names key).2.

(** The unit/option keys [CreateCopy] knows, and those it reads for a source
    with the given band groups. *)
Definition unit_option_keys : list string :=
  ["ELEVATION_UNIT"; "SLOPE_UNIT"; "ASPECT_UNIT"; "FUEL_MODEL_OPTION";
   "CANOPY_COV_UNIT"; "CANOPY_HT_UNIT"; "CBH_UNIT"; "CBD_UNIT"; "DUFF_UNIT"]%string.

Definition applicable_keys (crown ground : bool) : list string :=
  ["ELEVATION_UNIT"; "SLOPE_UNIT"; "ASPECT_UNIT"; "FUEL_MODEL_OPTION";
   "CANOPY_COV_UNIT"]%string
  ++ (if crown then ["CANOPY_HT_UNIT"; "CBH_UNIT"; "CBD_UNIT"]%string else [])
  ++ (if ground then ["DUFF_UNIT"]%string else []).

(** A value is requested for [key] and has no code. *)
Definition requests_unknown (o : CSL) (key : string) : Prop :=
  exists v, CSLFetchNameValue o key = Some v /\ has_code key v = false.

Definition valid_band_count (n : Z) : Prop := n = 5 \/ n = 7 \/ n = 8 \/ n = 10.

(** A source like [example_source] with a spatial reference. *)
Definition example_source_srs (n : nat) (srs : OGRSpatialReference)
  : GDALDataset :=
  {| srcBands := srcBands (example_source n);
     srcXSize := 2; srcYSize := 2; srcGT := srcGT (example_source n);
     srcSRS := Some srs; srcFileList := None |}.

(** A spatial reference in meters for which no coordinate transformation to
    EPSG:4269 can be created. *)
Definition srs_without_transformation : OGRSpatialReference :=
  {| srsUnitName := Some "meter"%string; srsUnitScale := Some "1"%string;
     srsTransform := None; srsWkt := None |}.

(** A source like [example_source] with a file list. *)
Definition example_source_files (n : nat) (files : list string) : GDALDataset :=
  {| srcBands := srcBands (example_source n);
     srcXSize := 2; srcYSize := 2; srcGT := srcGT (example_source n);
     srcSRS := None; srcFileList := Some files |}.

(** The cursor after the bands [i], [i+1], ... of the statistics loop, from
    cursor [c]: each band takes 412 bytes, after an optional jump to 3340. *)
Fixpoint stats_cursor (p : CreateParams) (i : Z) (n : nat) (c : Z) : Z :=
  match n with
  | O => c
  | S n' =>
      stats_cursor p (i + 1) n'
        ((if (i =? 5) && negb (cpCrown p) && cpGround p then 3340 else c) + 412)
  end.

(** The first [p] bytes of a file of contents [c], zero-filled when [c] is
    shorter. *)
Definition pad_to (p : nat) (c : list byte) : list byte :=
  take p c ++ replicate (p - length c) Byte.x00.

(** The cursor and the end of the file are at or past byte [A]. *)
Definition beyond (A : Z) (fp : VSILFILE) : Prop :=
  0 <= A <= pos fp /\ A <= Z.of_nat (length (content fp)).

(** [fp'] has the first [A] bytes of [fp], and is beyond [A]. *)
Definition keeps (A : Z) (fp fp' : VSILFILE) : Prop :=
  take (Z.to_nat A) (content fp') = take (Z.to_nat A) (content fp) /\
  beyond A fp'.

(** The 80 bytes [write_geo] puts at offset 4164. *)
Definition geo_block (fo : FloatOps) (poSrcDS : GDALDataset) (p : CreateParams)
  : list byte :=
  le32 (srcXSize poSrcDS) ++ le32 (srcYSize poSrcDS)
  ++ double_bytes (dfEast_of fo poSrcDS)
  ++ double_bytes (gt0 (srcGT poSrcDS))
  ++ double_bytes (gt3 (srcGT poSrcDS))
  ++ double_bytes (dfSouth_of fo poSrcDS)
  ++ le32 (cpLinearUnits p)
  ++ double_bytes (gt1 (srcGT poSrcDS))
  ++ double_bytes (ffabs fo (gt5 (srcGT poSrcDS)))
  ++ flat_map le16 (cpMetadata p).

(** The latitude field of the header: [static_cast<GInt32>(dfLatitude + 0.5)]
    as stored in four bytes. *)
Definition latitude_field (fo : FloatOps) (p : CreateParams) : Z :=
  wrap32 (f_to_int32 fo (fadd fo (cpLatitude p) (fhalf fo))).

(** A step that, when it succeeds, yields a code between 0 and 4. *)
Definition small_code (m : M Z) : Prop :=
  forall l k l', m l = (Some k, l') -> 0 <= k <= 4.

(** The code [Open] reports under [key] for the bands [ibs], with [code_at]
    reading the 16-bit field at a header offset: that of the first band whose
    unit/option key is [key]. *)
Fixpoint expected_code (crown : bool) (code_at : Z -> Z) (key : string)
    (ibs : list Z) : option Z :=
  match ibs with
  | [] => None
  | iBand :: rest =>
      match band_layout crown iBand with
      | Some bl =>
          if String.eqb key (blUnitKey bl)
          then Some (code_at (blUnitOff bl))
          else expected_code crown code_at key rest
      | None => expected_code crown code_at key rest
      end
  end.

(** Which of the ten codes belong to a band that is present, and the codes a
    dataset with those bands reports. *)
Definition code_mask (crown ground : bool) : list bool :=
  [true; true; true; true; true; crown; crown; crown; ground; ground].

Definition present_codes (crown ground : bool) (panMetadata : list Z)
  : list (option Z) :=
  zip_with (fun (present : bool) m => if present then Some m else None)
           (code_mask crown ground) panMetadata.

(** What the verification yields for [example_source 5] with
    [example_options] in non-strict mode. *)
Definition example_params : CreateParams :=
  {| cpCrown := false; cpGround := false;
     cpMetadata := [0; 0; 2; 0; 1; 3; 3; 3; 1; 0];
     cpCalculateStats := true; cpClassifyData := true;
     cpLinearUnits := 0; cpLatitude := double_of_Z 45;
     cpDescription := "LCP file created by GDAL." |}.

(** ** Further vocabulary *)

(** Every value of every line read is a [GInt16]. *)
Definition lines_in_range (lines : list (option (list Z))) : Prop :=
  forall row v, Some row ∈ lines -> v ∈ row -> MIN_VAL <= v <= MAX_VAL.

(** The same band with other lines. *)
Definition with_lines (b : GDALRasterBand) (lines : list (option (list Z)))
  : GDALRasterBand :=
  {| bandDataType := bandDataType b; bandNoDataValue := bandNoDataValue b;
     bandStatistics := bandStatistics b; bandLines := lines |}.

(** The invariant of the classifier's loops: the flags are well formed, the
    count is the number of flags set, and every flag set is the flag index of
    a value in [S] other than -9999. *)
Definition classify_inv (S : Z -> Prop) (st : ClassifyState) : Prop :=
  flags_wf (pabyFlags st) /\
  (bTooMany st = false ->
   Z.of_nat (length (scan_flags 0 (pabyFlags st))) = nFound st) /\
  (forall i : nat, pabyFlags st !! i = Some 1 ->
     exists v, S v /\ v <> -9999 /\ i = Z.to_nat (v + OFFSET)).

(** The end of the file is at or before byte [B]. *)
Definition within (B : Z) (fp : VSILFILE) : Prop :=
  Z.of_nat (length (content fp)) <= B.

(** The samples the line loop of [CreateCopy] writes for the lines [iLine],
    [iLine+1], ... when it runs to its end, in file order; [buf] is the
    scan-line buffer as the previous line left it. *)
Fixpoint scanline_data (poSrcDS : GDALDataset) (iLine : Z) (n : nat)
    (buf : list Z) : list Z :=
  match n with
  | O => []
  | S n' =>
      let buf' :=
        (read_scanline (length (srcBands poSrcDS)) (srcXSize poSrcDS) iLine 0
                       (srcBands poSrcDS) buf).1 in
      buf' ++ scanline_data poSrcDS (iLine + 1) n' buf'
  end.

(** The value of the source at column [x] of line [y] of band [iBand]
    (counted from 0), when the read of that line succeeds. *)
Definition src_pixel (poSrcDS : GDALDataset) (iBand : nat) (x y : Z)
  : option Z :=
  match srcBands poSrcDS !! iBand with
  | Some b =>
      match nth (Z.to_nat y) (bandLines b) None with
      | Some row => if x <? 0 then None else row !! Z.to_nat x
      | None => None
      end
  | None => None
  end.

(** Two's complement reading of a 16-bit pattern ([GInt16]). *)
Definition wrap16 (z : Z) : Z := (z + 2 ^ 15) mod 2 ^ 16 - 2 ^ 15.

(** Modelled from the spec: [RawRasterBand] is declared outside the driver;
    the spec has "raw pixel data interleaved per row across all bands, each
    sample a 2-byte little-endian signed integer".  The sample of a band at
    column [x] of line [y] is read at the band's image offset plus [y] line
    offsets plus [x] pixel offsets. *)
Definition sample_offset (b : RawRasterBand) (x y : Z) : Z :=
  rbImgOffset b + y * rbLineOffset b + x * rbPixelOffset b.

Definition raw_sample (file : list byte) (b : RawRasterBand) (x y : Z) : Z :=
  wrap16 (le_combine (rd file (sample_offset b x y) 2)).

(** The offset of the MIN/MAX/NUM_CLASSES triple that the statistics loop of
    [CreateCopy] writes for band [i] (counted from 0). *)
Definition stat_offset (crown ground : bool) (i : Z) : Z :=
  if negb crown && ground && (5 <=? i) then 3340 + 412 * (i - 5)
  else 44 + 412 * i.

(** The places where [Open] writes a NUL into its copy of the header: the last
    byte of each 256-byte file-name slot and the last byte of the
    description. *)
Definition nul_place (i : nat) : Prop :=
  exists j : Z, 0 <= j /\ Z.of_nat i = 4499 + 256 * j.

(** Two header buffers that differ at most at those places. *)
Definition agree_but_nuls (a b : list byte) : Prop :=
  length a = length b /\ forall i : nat, ~ nul_place i -> a !! i = b !! i.

(** The name [Open] reports for a unit/option code: that of the entry of the
    table with this code, if any. *)
Fixpoint unit_name (names : list (Z * string)) (n : Z) : option string :=
  match names with
  | [] => None
  | (k, s) :: r => if n =? k then Some s else unit_name r n
  end.

(** The dataset-level items [Open] sets, from the header as read. *)
Definition linear_unit_name (n : Z) : option string :=
  if n =? 0 then Some "Meters"%string
  else if n =? 1 then Some "Feet"%string
  else None.

(** The MIN/MAX/NUM_CLASSES triple that the statistics loop of [CreateCopy]
    writes for band [i] (counted from 0), and the cursor before that band. *)
Definition stats_triple (fo : FloatOps) (p : CreateParams) (st : BandStats)
    (i : Z) : list byte :=
  le32 (f_to_int32 fo (nth (Z.to_nat i) (padfMin st) (f_of_int fo 0)))
  ++ le32 (f_to_int32 fo (nth (Z.to_nat i) (padfMax st) (f_of_int fo 0)))
  ++ le32 (if cpClassifyData p then nth (Z.to_nat i) (panFound st) 0 else -1).

Definition stat_cursor_before (crown ground : bool) (i : Z) : Z :=
  if negb crown && ground && (6 <=? i) then 3340 + 412 * (i - 5)
  else 44 + 412 * i.

(** A copy that [CreateCopy] carries to its end: the verification yields the
    parameters [p], the image loop is not cancelled, the raster has at least
    one pixel and its rows fit an [int], and the latitude written lies within
    [-90, 90]. *)
Definition copy_accepted (fo : FloatOps) (progress : ProgressEvent -> bool)
    (poSrcDS : GDALDataset) (p : CreateParams) : Prop :=
  (exists bStrict papszOptions l,
     CreateCopy_validate fo poSrcDS bStrict papszOptions [] = (Some p, l)) /\
  imgCompleted (CreateCopy_image fo progress poSrcDS p) = true /\
  1 <= srcXSize poSrcDS <= INT_MAX / (src_band_count poSrcDS * 2) /\
  1 <= srcYSize poSrcDS <= INT_MAX /\
  -90 <= latitude_field fo p <= 90.

(** The file [CreateCopy] leaves for such a copy, and what [GDALOpen] then
    sees of it. *)
Definition copied_file (fo : FloatOps) (progress : ProgressEvent -> bool)
    (poSrcDS : GDALDataset) (p : CreateParams) : list byte :=
  imgBytes (CreateCopy_image fo progress poSrcDS p).

Definition reopened (raw_ok : Z -> Z -> Z -> Z -> bool) (ext : string)
    (file : list byte) : option LCPDataset :=
  Open raw_ok (GDALOpenInfo_new ext GA_ReadOnly file).

(** The entry of [panMetadata] that holds the unit/option code of a band:
    the codes are stored from 4224 on, two bytes each. *)
Definition code_index (bl : BandLayout) : nat :=
  Z.to_nat ((blUnitOff bl - 4224) / 2).

(** ** The projection side-car on reading: [Open] (lines 739-771) and
    [GetFileList] (lines 198-209) *)

(** What [Open] asks of the file system and of the spatial reference
    library: the names [CPLFormFilenameSafe] forms from the path and base
    name of the file with the extensions "prj" and "PRJ", [VSIStatL] (whether
    a file exists), [VSIIsCaseSensitiveFS], [CSLLoad] (the lines of a file),
    and whether [importFromESRI] accepts them and leaves a spatial reference
    that is not empty. *)
Record PrjServices : Type := {
  prj_lower : string;
  prj_upper : string;
  VSIStatL_ok : string -> bool;
  VSIIsCaseSensitiveFS : string -> bool;
  CSLLoad : string -> list string;
  importFromESRI_ok : list string -> bool
}.

(** [osPrjFilename] and [m_oSRS] ([None] for an empty spatial reference). *)
Record PrjState : Type := {
  osPrjFilename : string;
  m_oSRS : option (list string)
}.

Definition Open_projection (sv : PrjServices) : PrjState :=
  let name := prj_lower sv in
  let nRet_ok := VSIStatL_ok sv name in
  let '(name, nRet_ok) :=
    if negb nRet_ok && VSIIsCaseSensitiveFS sv name
    then (prj_upper sv, VSIStatL_ok sv (prj_upper sv))
    else (name, nRet_ok) in
  if nRet_ok then
    let papszPrj := CSLLoad sv name in
    {| osPrjFilename := name;
       m_oSRS := if importFromESRI_ok sv papszPrj then Some papszPrj else None |}
  else {| osPrjFilename := name; m_oSRS := None |}.

(** [GetFileList]: the list of [GDALPamDataset::GetFileList] with the
    side-car added when the spatial reference is not empty. *)
Definition GetFileList (pam_list : list string) (st : PrjState) : list string :=
  match m_oSRS st with
  | Some _ => pam_list ++ [osPrjFilename st]
  | None => pam_list
  end.

(** The services over the files that [CreateCopy] leaves. *)
Definition services_over (fs : gmap string (list byte)) (lower upper : string)
    (case_sensitive : string -> bool)
    (lines_of : list byte -> list string)
    (import_ok : list string -> bool) : PrjServices :=
  {| prj_lower := lower; prj_upper := upper;
     VSIStatL_ok := fun name => match fs !! name with Some _ => true | None => false end;
     VSIIsCaseSensitiveFS := case_sensitive;
     CSLLoad := fun name => match fs !! name with
                            | Some c => lines_of c
                            | None => []
                            end;
     importFromESRI_ok := import_ok |}.

(** ** Registration: [GDALRegister_LCP] (lines 1636-1737) *)

(** The value that [GDALRegister_LCP] sets for [GDAL_DMD_CREATIONOPTIONLIST],
    in the pieces in which the source writes it. *)
Definition CreationOptionList : string :=
  ("<CreationOptionList>" +:+
   "   <Option name='ELEVATION_UNIT' type='string-select' " +:+
   "default='METERS' description='Elevation units'>" +:+
   "       <Value>METERS</Value>" +:+
   "       <Value>FEET</Value>" +:+
   "   </Option>" +:+
   "   <Option name='SLOPE_UNIT' type='string-select' default='DEGREES' " +:+
   "description='Slope units'>" +:+
   "       <Value>DEGREES</Value>" +:+
   "       <Value>PERCENT</Value>" +:+
   "   </Option>" +:+
   "   <Option name='ASPECT_UNIT' type='string-select' " +:+
   "default='AZIMUTH_DEGREES'>" +:+
   "       <Value>GRASS_CATEGORIES</Value>" +:+
   "       <Value>AZIMUTH_DEGREES</Value>" +:+
   "       <Value>GRASS_DEGREES</Value>" +:+
   "   </Option>" +:+
   "   <Option name='FUEL_MODEL_OPTION' type='string-select' " +:+
   "default='NO_CUSTOM_AND_NO_FILE'>" +:+
   "       <Value>NO_CUSTOM_AND_NO_FILE</Value>" +:+
   "       <Value>CUSTOM_AND_NO_FILE</Value>" +:+
   "       <Value>NO_CUSTOM_AND_FILE</Value>" +:+
   "       <Value>CUSTOM_AND_FILE</Value>" +:+
   "   </Option>" +:+
   "   <Option name='CANOPY_COV_UNIT' type='string-select' " +:+
   "default='PERCENT'>" +:+
   "       <Value>CATEGORIES</Value>" +:+
   "       <Value>PERCENT</Value>" +:+
   "   </Option>" +:+
   "   <Option name='CANOPY_HT_UNIT' type='string-select' " +:+
   "default='METERS_X_10'>" +:+
   "       <Value>METERS</Value>" +:+
   "       <Value>FEET</Value>" +:+
   "       <Value>METERS_X_10</Value>" +:+
   "       <Value>FEET_X_10</Value>" +:+
   "   </Option>" +:+
   "   <Option name='CBH_UNIT' type='string-select' default='METERS_X_10'>" +:+
   "       <Value>METERS</Value>" +:+
   "       <Value>FEET</Value>" +:+
   "       <Value>METERS_X_10</Value>" +:+
   "       <Value>FEET_X_10</Value>" +:+
   "   </Option>" +:+
   "   <Option name='CBD_UNIT' type='string-select' " +:+
   "default='KG_PER_CUBIC_METER_X_100'>" +:+
   "       <Value>KG_PER_CUBIC_METER</Value>" +:+
   "       <Value>POUND_PER_CUBIC_FOOT</Value>" +:+
   "       <Value>KG_PER_CUBIC_METER_X_100</Value>" +:+
   "       <Value>POUND_PER_CUBIC_FOOT_X_1000</Value>" +:+
   "   </Option>" +:+
   "   <Option name='DUFF_UNIT' type='string-select' " +:+
   "default='MG_PER_HECTARE_X_10'>" +:+
   "       <Value>MG_PER_HECTARE_X_10</Value>" +:+
   "       <Value>TONS_PER_ACRE_X_10</Value>" +:+
   "   </Option>" +:+
   "   <Option name='CALCULATE_STATS' type='boolean' default='YES' " +:+
   "description='Write the stats to the lcp'/>" +:+
   "   <Option name='CLASSIFY_DATA' type='boolean' default='YES' " +:+
   "description='Write the stats to the lcp'/>" +:+
   "   <Option name='LINEAR_UNIT' type='string-select' " +:+
   "default='SET_FROM_SRS' description='Set the linear units in the lcp'>" +:+
   "       <Value>SET_FROM_SRS</Value>" +:+
   "       <Value>METER</Value>" +:+
   "       <Value>FOOT</Value>" +:+
   "       <Value>KILOMETER</Value>" +:+
   "   </Option>" +:+
   "   <Option name='LATITUDE' type='int' default='' description='Set the " +:+
   "latitude for the dataset, this overrides the driver trying to set it " +:+
   "programmatically in EPSG:4269'/>" +:+
   "   <Option name='DESCRIPTION' type='string' default='LCP file created " +:+
   "by GDAL' description='A short description of the lcp file'/>" +:+
   "</CreationOptionList>")%string.

(** One [Option] element of the list: its attributes and its [Value]
    children. *)
Record CreationOption : Type := {
  optName : string;
  optType : string;
  optDefault : string;
  optDescription : option string;
  optValues : list string
}.

(** The text of an [Option] element, and of the list, with the spacing the
    source uses. *)
Definition option_text (opt : CreationOption) : string :=
  ("   <Option name='" +:+ optName opt +:+ "' type='" +:+ optType opt +:+
   "' default='" +:+ optDefault opt +:+ "'" +:+
   match optDescription opt with
   | Some d => " description='" +:+ d +:+ "'"
   | None => ""
   end +:+
   match optValues opt with
   | [] => "/>"
   | vs => ">" +:+
           String.concat "" (map (fun v => "       <Value>" +:+ v +:+ "</Value>") vs)
           +:+ "   </Option>"
   end)%string.

Definition option_list_text (opts : list CreationOption) : string :=
  ("<CreationOptionList>" +:+ String.concat "" (map option_text opts) +:+
   "</CreationOptionList>")%string.

(** The elements of [CreationOptionList]; [option_list_text] gives the text
    back. *)
Definition creation_options : list CreationOption :=
  [ {| optName := "ELEVATION_UNIT"; optType := "string-select";
       optDefault := "METERS"; optDescription := Some "Elevation units";
       optValues := ["METERS"; "FEET"] |};
    {| optName := "SLOPE_UNIT"; optType := "string-select";
       optDefault := "DEGREES"; optDescription := Some "Slope units";
       optValues := ["DEGREES"; "PERCENT"] |};
    {| optName := "ASPECT_UNIT"; optType := "string-select";
       optDefault := "AZIMUTH_DEGREES"; optDescription := None;
       optValues := ["GRASS_CATEGORIES"; "AZIMUTH_DEGREES"; "GRASS_DEGREES"] |};
    {| optName := "FUEL_MODEL_OPTION"; optType := "string-select";
       optDefault := "NO_CUSTOM_AND_NO_FILE"; optDescription := None;
       optValues := ["NO_CUSTOM_AND_NO_FILE"; "CUSTOM_AND_NO_FILE";
                     "NO_CUSTOM_AND_FILE"; "CUSTOM_AND_FILE"] |};
    {| optName := "CANOPY_COV_UNIT"; optType := "string-select";
       optDefault := "PERCENT"; optDescription := None;
       optValues := ["CATEGORIES"; "PERCENT"] |};
    {| optName := "CANOPY_HT_UNIT"; optType := "string-select";
       optDefault := "METERS_X_10"; optDescription := None;
       optValues := ["METERS"; "FEET"; "METERS_X_10"; "FEET_X_10"] |};
    {| optName := "CBH_UNIT"; optType := "string-select";
       optDefault := "METERS_X_10"; optDescription := None;
       optValues := ["METERS"; "FEET"; "METERS_X_10"; "FEET_X_10"] |};
    {| optName := "CBD_UNIT"; optType := "string-select";
       optDefault := "KG_PER_CUBIC_METER_X_100"; optDescription := None;
       optValues := ["KG_PER_CUBIC_METER"; "POUND_PER_CUBIC_FOOT";
                     "KG_PER_CUBIC_METER_X_100"; "POUND_PER_CUBIC_FOOT_X_1000"] |};
    {| optName := "DUFF_UNIT"; optType := "string-select";
       optDefault := "MG_PER_HECTARE_X_10"; optDescription := None;
       optValues := ["MG_PER_HECTARE_X_10"; "TONS_PER_ACRE_X_10"] |};
    {| optName := "CALCULATE_STATS"; optType := "boolean";
       optDefault := "YES"; optDescription := Some "Write the stats to the lcp";
       optValues := [] |};
    {| optName := "CLASSIFY_DATA"; optType := "boolean";
       optDefault := "YES"; optDescription := Some "Write the stats to the lcp";
       optValues := [] |};
    {| optName := "LINEAR_UNIT"; optType := "string-select";
       optDefault := "SET_FROM_SRS";
       optDescription := Some "Set the linear units in the lcp";
       optValues := ["SET_FROM_SRS"; "METER"; "FOOT"; "KILOMETER"] |};
    {| optName := "LATITUDE"; optType := "int"; optDefault := "";
       optDescription :=
         Some "Set the latitude for the dataset, this overrides the driver trying to set it programmatically in EPSG:4269";
       optValues := [] |};
    {| optName := "DESCRIPTION"; optType := "string";
       optDefault := "LCP file created by GDAL";
       optDescription := Some "A short description of the lcp file";
       optValues := [] |} ]%string.

(** [v] is one of the values that the list gives for the option [name]. *)
Definition advertised (name v : string) : bool :=
  existsb (fun opt => String.eqb (optName opt) name
                      && existsb (String.eqb v) (optValues opt))
          creation_options.

(** The default that the list gives for the option [name]. *)
Definition advertised_default (name : string) : option string :=
  optDefault <$> List.find (fun opt => String.eqb (optName opt) name)
                           creation_options.

(** ** Doubles in steps of one half

    A second stand-in for the double operations, to run the examples in
    which the 0.5 of line 1391 matters: a double holds a number of halves as
    a 64-bit integer, and the cast to [GInt32] truncates toward zero as the
    C cast does. *)

Definition INT_MIN : Z := -2147483648.

Fixpoint atof_skip_digits (s : string) : string :=
  match s with
  | EmptyString => s
  | String c r =>
      match digit_of c with
      | Some _ => atof_skip_digits r
      | None => s
      end
  end.

(** The number a text starts with, in halves, truncated toward zero: the
    whole part, and one half more when the first decimal is 5 or above. *)
Definition atof_halves (s : string) : Z :=
  let t := atoi_skip s in
  let '(neg, body) :=
    match t with
    | String "-" r => (true, r)
    | String "+" r => (false, r)
    | r => (false, r)
    end in
  let half :=
    match atof_skip_digits body with
    | String "." (String c _) =>
        match digit_of c with
        | Some d => if 5 <=? d then 1 else 0
        | None => 0
        end
    | _ => 0
    end in
  let h := 2 * atoi_digits body 0 + half in
  if neg then - h else h.

Definition half_float_ops : FloatOps :=
  {| fadd a b := double_of_Z (Z_of_double a + Z_of_double b);
     fmul a b := double_of_Z (Z.quot (Z_of_double a * Z_of_double b) 2);
     fdiv a b := double_of_Z (Z.quot (2 * Z_of_double a) (Z_of_double b));
     ffabs a := double_of_Z (Z.abs (Z_of_double a));
     f_of_int z := double_of_Z (2 * z);
     fhalf := double_of_Z 1;
     f_to_int32 a := wrap32 (Z.quot (Z_of_double a) 2);
     CPLAtof s := double_of_Z (atof_halves s);
     fneq a b := negb (Z_of_double a =? Z_of_double b) |}.

(** What [static_cast<GInt32>(dfLatitude + 0.5)] (line 1391) gives on the
    doubles of whole degrees: [n + 0.5] is exact and the cast truncates
    toward zero, so a negative [n] comes out as [n + 1]. *)
Definition truncates_after_half (fo : FloatOps) : Prop :=
  forall n, -90 <= n <= 90 ->
    f_to_int32 fo (fadd fo (f_of_int fo n) (fhalf fo))
    = if n <? 0 then n + 1 else n.

(** The point that [CreateCopy] hands to the coordinate transformation when
    it derives the latitude (lines 1183 and 1202-1204): x is 0.0, and y is
    that of the middle line of the raster. *)
Definition latitude_probe (fo : FloatOps) (poSrcDS : GDALDataset)
  : double * double :=
  (f_of_int fo 0,
   fadd fo (gt3 (srcGT poSrcDS))
     (fdiv fo (fmul fo (gt5 (srcGT poSrcDS)) (f_of_int fo (srcYSize poSrcDS)))
              (f_of_int fo 2))).

(** A coordinate transformation that fails on the points with x = 0 only. *)
Definition srs_failing_at_x0 : OGRSpatialReference :=
  {| srsUnitName := Some "meter"%string; srsUnitScale := Some "1"%string;
     srsTransform :=
       Some (fun lon lat => if Z_of_double lon =? 0 then None else Some (lon, lat));
     srsWkt := None |}.

(** The parameters of [example_params] with the latitude -45, in halves. *)
Definition example_params_south : CreateParams :=
  {| cpCrown := false; cpGround := false;
     cpMetadata := [0; 0; 2; 0; 1; 3; 3; 3; 1; 0];
     cpCalculateStats := true; cpClassifyData := true;
     cpLinearUnits := 0; cpLatitude := double_of_Z (-90);
     cpDescription := "LCP file created by GDAL." |}.

(** * Properties *)

(** ** The classifier *)

Section Classifier.

Implicit Types (st : ClassifyState) (v w : Z) (row : list Z).

Lemma classify_init_wf : flags_wf (pabyFlags classify_init).
Proof.
  split; cbn [classify_init pabyFlags].
  - apply length_replicate.
  - apply Forall_replicate. by left.
Qed.

Lemma classify_pixel_wf st v :
  flags_wf (pabyFlags st) -> flags_wf (pabyFlags (classify_pixel st v)).
Proof.
  intros [Hlen Hall]. unfold classify_pixel.
  repeat case_match; cbn [pabyFlags]; try done.
  split; [by rewrite length_insert | apply Forall_insert; auto].
Qed.

Lemma flag_at_insert flags v w :
  flag_at (<[Z.to_nat (v + OFFSET) := 1]> flags) w =
  if decide (Z.to_nat (v + OFFSET) = Z.to_nat (w + OFFSET)
             /\ (Z.to_nat (v + OFFSET) < length flags)%nat)
  then 1 else flag_at flags w.
Proof.
  unfold flag_at. rewrite !nth_lookup.
  case_decide as H.
  - destruct H as [-> ?]. by rewrite list_lookup_insert_eq.
  - destruct (decide (Z.to_nat (v + OFFSET) = Z.to_nat (w + OFFSET))) as [E|E].
    + rewrite E in *. rewrite list_insert_ge; [done | lia].
    + by rewrite list_lookup_insert_ne.
Qed.

Lemma classify_pixel_mono st v w :
  seen (pabyFlags st) w -> seen (pabyFlags (classify_pixel st v)) w.
Proof.
  unfold seen, classify_pixel. intros Hw.
  repeat case_match; cbn [pabyFlags]; try done.
  rewrite flag_at_insert. by case_decide.
Qed.

Lemma classify_pixel_marks st v :
  flags_wf (pabyFlags st) -> v <> -9999 -> MIN_VAL <= v <= MAX_VAL ->
  bTooMany (classify_pixel st v) = false ->
  seen (pabyFlags (classify_pixel st v)) v.
Proof.
  intros [Hlen Hall] Hv Hr. unfold seen, classify_pixel.
  destruct (v =? -9999) eqn:E1; [lia |].
  destruct (nFound st =? LCP_MAX_CLASSES) eqn:E2; cbn [bTooMany pabyFlags]; [done |].
  destruct (flag_at (pabyFlags st) v =? 0) eqn:E3; cbn [bTooMany pabyFlags]; intros _.
  - rewrite flag_at_insert. rewrite decide_True; [done |].
    split; [done |]. rewrite Hlen.
    unfold RANGE_VAL, OFFSET, MIN_VAL, MAX_VAL in *. lia.
  - unfold flag_at in *. rewrite nth_lookup in *.
    destruct (pabyFlags st !! Z.to_nat (v + OFFSET)) as [x|] eqn:El; cbn in *; [| lia].
    rewrite Forall_forall in Hall.
    destruct (Hall x) as [-> | ->]; [by eapply list_elem_of_lookup_2 | lia | done].
Qed.

(** A line that ends without [bTooMany] has marked each of its values. *)
Lemma classify_line_marks row : forall st,
  flags_wf (pabyFlags st) ->
  bTooMany (classify_line st row) = false ->
  flags_wf (pabyFlags (classify_line st row)) /\
  (forall w, seen (pabyFlags st) w -> seen (pabyFlags (classify_line st row)) w) /\
  (forall v, v ∈ row -> v <> -9999 -> MIN_VAL <= v <= MAX_VAL ->
             seen (pabyFlags (classify_line st row)) v).
Proof.
  induction row as [|x row IH]; intros st Hwf Hend; cbn [classify_line] in *.
  - split; [done |]. split; [done |]. intros v Hv. by apply elem_of_nil in Hv.
  - destruct (bTooMany (classify_pixel st x)) eqn:Ex; [congruence |].
    destruct (IH (classify_pixel st x)) as (Hwf' & Hmono & Hrow);
      [by apply classify_pixel_wf | done |].
    split; [done |]. split.
    + intros w Hw. by apply Hmono, classify_pixel_mono.
    + intros v Hv Hne Hr. apply elem_of_cons in Hv as [-> | Hv].
      * by apply Hmono, classify_pixel_marks.
      * by apply Hrow.
Qed.

Lemma classify_lines_marks lines : forall st st',
  flags_wf (pabyFlags st) ->
  classify_lines st lines = (CE_None, st') -> bTooMany st' = false ->
  flags_wf (pabyFlags st') /\
  (forall w, seen (pabyFlags st) w -> seen (pabyFlags st') w) /\
  (forall row v, Some row ∈ lines -> v ∈ row -> v <> -9999 ->
                 MIN_VAL <= v <= MAX_VAL -> seen (pabyFlags st') v).
Proof.
  induction lines as [|[row|] lines IH]; intros st st' Hwf Hrun Hend;
    cbn [classify_lines] in Hrun.
  - injection Hrun as <-. split; [done |]. split; [done |].
    intros row v Hin. by apply elem_of_nil in Hin.
  - destruct (bTooMany (classify_line st row)) eqn:Ex.
    + injection Hrun as <-. congruence.
    + destruct (classify_line_marks row st Hwf Ex) as (Hwf1 & Hmono1 & Hrow1).
      destruct (IH _ _ Hwf1 Hrun Hend) as (Hwf' & Hmono & Hrows).
      split; [done |]. split; [by auto |].
      intros r v Hin Hv Hne Hr. apply elem_of_cons in Hin as [[= ->] | Hin].
      * by apply Hmono, Hrow1.
      * by eapply Hrows.
  - discriminate.
Qed.

(** The final scan lists exactly the indices whose flag is 1. *)
Lemma scan_flags_elem flags : forall j k,
  k ∈ scan_flags j flags <->
  exists i : nat, flags !! i = Some 1 /\ k = j + Z.of_nat i.
Proof.
  induction flags as [|fl flags IH]; intros j k; cbn [scan_flags].
  - split; [intros H; by apply elem_of_nil in H | by intros (i & ? & _)].
  - destruct (fl =? 1) eqn:E.
    + rewrite elem_of_cons, IH. split.
      * intros [-> | (i & Hi & ->)].
        -- exists 0%nat. split; [cbn; f_equal; lia | lia].
        -- exists (S i). split; [done | lia].
      * intros ([|i] & Hi & ->); [left; lia | right].
        exists i. split; [done | lia].
    + rewrite IH. split.
      * intros (i & Hi & ->). exists (S i). split; [done | lia].
      * intros ([|i] & Hi & ->).
        -- cbn in Hi. injection Hi as ->. discriminate.
        -- exists i. split; [done | lia].
Qed.

Lemma scan_flags_zeros n : forall j, scan_flags j (replicate n 0) = [].
Proof. induction n as [|n IH]; intros j; cbn; [done | apply IH]. Qed.

(** The values come out in ascending order. *)
Lemma scan_flags_lower flags : forall j, Forall (fun k => j <= k) (scan_flags j flags).
Proof.
  induction flags as [|fl flags IH]; intros j; cbn [scan_flags]; [constructor |].
  pose proof (IH (j + 1)) as H.
  assert (Forall (fun k => j <= k) (scan_flags (j + 1) flags))
    by (eapply Forall_impl; [exact H | cbn; intros; lia]).
  destruct (fl =? 1); [constructor; [lia | done] | done].
Qed.

Lemma scan_flags_sorted flags : forall j, StronglySorted Z.lt (scan_flags j flags).
Proof.
  induction flags as [|fl flags IH]; intros j; cbn [scan_flags]; [constructor |].
  destruct (fl =? 1); [| apply IH].
  constructor; [apply IH |].
  eapply Forall_impl; [apply (scan_flags_lower flags (j + 1)) | cbn; intros; lia].
Qed.

(** Pixels equal to -9999 leave the state alone. *)
Lemma classify_line_skips row : forall st,
  bTooMany st = false ->
  classify_line st (filter (fun v => v <> -9999) row) = classify_line st row.
Proof.
  induction row as [|x row IH]; intros st Hst; [done |].
  destruct (decide (x = -9999)) as [-> | Hx].
  - rewrite filter_cons_False by (intros H; by apply H).
    cbn [classify_line]. change (classify_pixel st (-9999)) with st.
    rewrite Hst. by apply IH.
  - rewrite filter_cons_True by done. cbn [classify_line].
    destruct (bTooMany (classify_pixel st x)) eqn:E; [done | by apply IH].
Qed.

Lemma classify_lines_skips lines : forall st,
  bTooMany st = false ->
  classify_lines st (map (option_map (filter (fun v => v <> -9999))) lines)
  = classify_lines st lines.
Proof.
  induction lines as [|[row|] lines IH]; intros st Hst; cbn [map option_map classify_lines];
    [done | | done].
  rewrite classify_line_skips by done.
  destruct (bTooMany (classify_line st row)) eqn:E; [done | by apply IH].
Qed.


Lemma classify_pixel_count st v :
  bTooMany st = false -> count_inv st -> count_inv (classify_pixel st v).
Proof.
  unfold count_inv, classify_pixel. intros Hst H. rewrite Hst in H.
  destruct (v =? -9999); [by rewrite Hst |].
  destruct (Z.eqb_spec (nFound st) LCP_MAX_CLASSES); cbn [bTooMany nFound]; [done |].
  destruct (flag_at (pabyFlags st) v =? 0); cbn [bTooMany nFound];
    [lia | by rewrite Hst].
Qed.

Lemma classify_line_count row : forall st,
  bTooMany st = false -> count_inv st -> count_inv (classify_line st row).
Proof.
  induction row as [|x row IH]; intros st Hst Hinv; cbn [classify_line]; [done |].
  pose proof (classify_pixel_count st x Hst Hinv).
  destruct (bTooMany (classify_pixel st x)) eqn:E; [done | by apply IH].
Qed.

Lemma classify_lines_count lines : forall st,
  bTooMany st = false -> count_inv st -> count_inv (classify_lines st lines).2.
Proof.
  induction lines as [|[row|] lines IH]; intros st Hst Hinv;
    cbn [classify_lines snd]; [done | | done].
  pose proof (classify_line_count row st Hst Hinv).
  destruct (bTooMany (classify_line st row)) eqn:E; [done | by apply IH].
Qed.

End Classifier.

Lemma scan_flags_single n : forall (i : nat) j,
  (i < n)%nat ->
  scan_flags j (<[i := 1]> (replicate n 0)) = [j + Z.of_nat i].
Proof.
  induction n as [|n IH]; intros i j Hi; [lia |].
  destruct i as [|i]; cbn [replicate scan_flags].
  - cbn. rewrite scan_flags_zeros. f_equal. lia.
  - cbn. rewrite IH by lia. f_equal. lia.
Qed.

(** A band of one pixel [v] other than -9999: one class, stored as the flag
    index [v + OFFSET]. *)
Lemma classify_single_pixel v :
  v <> -9999 -> MIN_VAL <= v <= MAX_VAL ->
  ClassifyBandData (band_of_lines [[v]]) = (CE_None, 1, [0; v + OFFSET]).
Proof.
  intros Hv Hr. unfold ClassifyBandData, band_of_lines.
  cbn [bandLines map classify_lines classify_line].
  unfold classify_pixel.
  destruct (Z.eqb_spec v (-9999)); [done |].
  cbn [classify_init nFound pabyFlags].
  change (0 =? LCP_MAX_CLASSES) with false. cbv iota.
  assert (flag_at (replicate (Z.to_nat RANGE_VAL) 0) v = 0) as ->.
  { unfold flag_at. rewrite nth_lookup.
    destruct (replicate _ _ !! _) eqn:E; [| done].
    by apply lookup_replicate in E as [-> _]. }
  cbn [Z.eqb bTooMany nFound pabyFlags].
  rewrite scan_flags_single.
  - do 3 f_equal. unfold OFFSET, MIN_VAL in *. lia.
  - unfold RANGE_VAL, OFFSET, MIN_VAL, MAX_VAL in *. lia.
Qed.

Lemma classify_line_all_9999 (w : nat) st :
  classify_line st (replicate w (-9999)) = st \/ bTooMany st = true.
Proof.
  destruct (bTooMany st) eqn:E; [by right | left].
  induction w as [|w IH]; cbn [replicate classify_line]; [done |].
  change (classify_pixel st (-9999)) with st. by rewrite E.
Qed.

Lemma classify_lines_all_9999 (h w : nat) st :
  bTooMany st = false ->
  classify_lines st (map Some (replicate h (replicate w (-9999)))) = (CE_None, st).
Proof.
  intros Hst. induction h as [|h IH]; cbn [replicate map classify_lines]; [done |].
  destruct (classify_line_all_9999 w st) as [-> | ?]; [| congruence].
  by rewrite Hst.
Qed.

(** C3 (the cap).  The loop tests [nFound == LCP_MAX_CLASSES] with
    [LCP_MAX_CLASSES = 100], before it looks at the flag of the pixel: a band
    whose hundredth distinct value is its last valid pixel comes back with
    count 100 and 101 stores (the sentinel zero and 100 values), one more than
    a band's [LCP_MAX_CLASSES] slots.  The count never leaves [-1 .. 100];
    150 distinct values give -1 and nothing stored, 99 give 99 and a
    100-entry sequence, and after 100 distinct values any further valid
    pixel, even a repeated value, gives -1. *)
Theorem C3_classifier_cap_off_by_one :
  ClassifyBandData (band_of_lines [seqZ 1 100])
    = (CE_None, 100, 0 :: seqZ (1 + OFFSET) 100) /\
  ClassifyBandData (band_of_lines [seqZ 1 150]) = (CE_None, -1, []) /\
  ClassifyBandData (band_of_lines [seqZ 1 99])
    = (CE_None, 99, 0 :: seqZ (1 + OFFSET) 99) /\
  ClassifyBandData (band_of_lines [seqZ 1 100; [1]]) = (CE_None, -1, []) /\
  (forall b : GDALRasterBand,
      -1 <= (ClassifyBandData b).1.2 <= LCP_MAX_CLASSES).
Proof.
  split; [vm_compute; reflexivity |].
  split; [vm_compute; reflexivity |].
  split; [vm_compute; reflexivity |].
  split; [vm_compute; reflexivity |].
  intros b. unfold ClassifyBandData.
  pose proof (classify_lines_count (bandLines b) classify_init eq_refl) as H.
  destruct (classify_lines classify_init (bandLines b)) as [eErr st].
  cbn [fst snd] in *. unfold count_inv in H.
  assert (0 <= nFound classify_init <= LCP_MAX_CLASSES) as H0 by (cbn; done).
  specialize (H H0). destruct (bTooMany st); unfold LCP_MAX_CLASSES in *; lia.
Qed.

(** C4 (the output sequence).  The final scan stores the flag index [j], not
    [j - OFFSET]: a band holding the single value 5 yields the sequence
    [0; 32773], and one holding -3 yields [0; 32765]; the values are not
    brought back into the signed domain.  The rest holds: the sentinel zero
    leads, the entries ascend, and a band of nothing but -9999 yields count 0
    and the one-entry sequence of the sentinel. *)
Theorem C4_classes_are_flag_indices :
  ClassifyBandData (band_of_lines [[5]]) = (CE_None, 1, [0; 32773]) /\
  ClassifyBandData (band_of_lines [[-3]]) = (CE_None, 1, [0; 32765]) /\
  (forall h w : nat,
      ClassifyBandData (band_of_lines (replicate h (replicate w (-9999))))
      = (CE_None, 0, [0])) /\
  (forall b : GDALRasterBand,
      (ClassifyBandData b).2 = [] \/
      exists cls, (ClassifyBandData b).2 = 0 :: cls /\ StronglySorted Z.lt cls /\
                  Forall (fun k => 0 <= k) cls).
Proof.
  split; [by apply classify_single_pixel |].
  split; [by apply classify_single_pixel |].
  split.
  - intros h w. unfold ClassifyBandData, band_of_lines. cbn [bandLines].
    rewrite classify_lines_all_9999 by done.
    cbn [classify_init bTooMany nFound pabyFlags].
    by rewrite scan_flags_zeros.
  - intros b. unfold ClassifyBandData.
    destruct (classify_lines classify_init (bandLines b)) as [eErr st].
    cbn [snd]. destruct (bTooMany st); [by left | right].
    eexists. split; [done |]. split; [apply scan_flags_sorted | apply scan_flags_lower].
Qed.

(** C9 (the no-data sentinel).  The classifier skips the pixels equal to
    -9999 and nothing else: the band's declared no-data value does not enter
    the result; taking the -9999 pixels out of a band does not change the
    result; and whenever the scan ends without error and without the
    too-many sentinel, every other pixel value of the band (zero and negative
    values included) has its flag index among the stored classes.  A band of
    one such pixel has exactly one class. *)
Theorem C9_nodata_sentinel_is_minus_9999 :
  (forall (b : GDALRasterBand) (nd : option double),
      ClassifyBandData (with_nodata b nd) = ClassifyBandData b) /\
  (forall b : GDALRasterBand,
      ClassifyBandData (without_9999 b) = ClassifyBandData b) /\
  (forall (b : GDALRasterBand) (n : Z) (stores row : list Z) (v : Z),
      ClassifyBandData b = (CE_None, n, stores) -> n <> -1 ->
      Some row ∈ bandLines b -> v ∈ row ->
      v <> -9999 -> MIN_VAL <= v <= MAX_VAL ->
      v + OFFSET ∈ stores) /\
  (forall v : Z, v <> -9999 -> MIN_VAL <= v <= MAX_VAL ->
      ClassifyBandData (band_of_lines [[v]]) = (CE_None, 1, [0; v + OFFSET])).
Proof.
  split; [done |].
  split.
  { intros b. unfold ClassifyBandData, without_9999. cbn [bandLines].
    by rewrite classify_lines_skips. }
  split; [| apply classify_single_pixel].
  intros b n stores row v Hrun Hn Hrow Hv Hne Hr.
  unfold ClassifyBandData in Hrun.
  pose proof (classify_lines_count (bandLines b) classify_init eq_refl) as Hc.
  destruct (classify_lines classify_init (bandLines b)) as [eErr st] eqn:E.
  injection Hrun as -> <- <-. cbn [snd] in Hc.
  assert (bTooMany st = false) as Hend.
  { destruct (bTooMany st) eqn:Et; [| done].
    unfold count_inv in Hc. rewrite Et in Hc. exfalso. apply Hn, Hc. cbn. done. }
  rewrite Hend.
  destruct (classify_lines_marks _ _ _ classify_init_wf E Hend) as (Hwf & _ & Hall).
  specialize (Hall row v Hrow Hv Hne Hr).
  apply elem_of_cons. right. apply scan_flags_elem.
  exists (Z.to_nat (v + OFFSET)). split.
  - unfold seen, flag_at in Hall. rewrite nth_lookup in Hall.
    destruct (pabyFlags st !! Z.to_nat (v + OFFSET)); cbn in Hall; [by subst | lia].
  - unfold OFFSET, MIN_VAL in *. lia.
Qed.

(** The premises of the third part of C9 are met by a band with the values
    0, -5 and -9999: the flag index of -5 is stored. *)
Lemma C9_nodata_sentinel_witness : -5 + OFFSET ∈ [0; 32763; 32768].
Proof.
  apply (proj1 (proj2 (proj2 C9_nodata_sentinel_is_minus_9999))
           (band_of_lines [[0; -5; -9999]]) 2 [0; 32763; 32768] [0; -5; -9999] (-5)).
  - vm_compute. reflexivity.
  - lia.
  - cbn. apply list_elem_of_here.
  - apply list_elem_of_further, list_elem_of_here.
  - lia.
  - unfold MIN_VAL, MAX_VAL. lia.
Defined.

(** ** Byte buffers *)

Section Buffers.

Implicit Types (p l d : list byte) (off i : Z) (n : nat).

Lemma rd_take l off n (m : nat) :
  0 <= off -> off + Z.of_nat n <= Z.of_nat m -> rd (take m l) off n = rd l off n.
Proof.
  intros H0 Hm. unfold rd. rewrite !take_drop_commute, take_take.
  do 2 f_equal. lia.
Qed.

Lemma rd_poke_nul p off n i :
  0 <= off -> off + Z.of_nat n <= i -> rd (poke_nul p i) off n = rd p off n.
Proof.
  intros H0 Hi. unfold rd, poke_nul.
  destruct (decide (Z.to_nat i < length p)%nat) as [Hlt | Hge].
  - rewrite insert_take_drop by done.
    rewrite drop_app_le by (rewrite length_take; lia).
    rewrite take_app_le by (rewrite length_drop, length_take; lia).
    rewrite !take_drop_commute, take_take. do 2 f_equal. lia.
  - rewrite list_insert_ge by lia. done.
Qed.

Lemma sint32_take l off (m : nat) :
  0 <= off -> off + 4 <= Z.of_nat m ->
  CPL_LSBSINT32PTR (take m l) off = CPL_LSBSINT32PTR l off.
Proof. intros. unfold CPL_LSBSINT32PTR. rewrite rd_take; [done | lia | lia]. Qed.

Lemma sint32_poke_nul p off i :
  0 <= off -> off + 4 <= i ->
  CPL_LSBSINT32PTR (poke_nul p i) off = CPL_LSBSINT32PTR p off.
Proof. intros. unfold CPL_LSBSINT32PTR. rewrite rd_poke_nul; [done | lia | lia]. Qed.

Lemma uint16_poke_nul p off i :
  0 <= off -> off + 2 <= i ->
  CPL_LSBUINT16PTR (poke_nul p i) off = CPL_LSBUINT16PTR p off.
Proof. intros. unfold CPL_LSBUINT16PTR. rewrite rd_poke_nul; [done | lia | lia]. Qed.

Lemma length_poke_nul p i : length (poke_nul p i) = length p.
Proof. apply length_insert. Qed.

Lemma byte_at_rd p off (k : nat) n :
  0 <= off -> (k < n)%nat ->
  byte_at p (off + Z.of_nat k) = nth k (rd p off n) Byte.x00.
Proof.
  intros H0 Hk. unfold byte_at, rd. rewrite !nth_lookup.
  rewrite lookup_take_lt by done. rewrite lookup_drop. do 2 f_equal. lia.
Qed.

(** A double is read back from the eight bytes it was written as. *)
Lemma load_double_bytes p off (x : double) :
  0 <= off -> rd p off 8 = double_bytes x -> load_double p off = x.
Proof.
  intros H0 H. unfold load_double.
  replace off with (off + Z.of_nat 0) at 1 by lia.
  change (off + 1) with (off + Z.of_nat 1). change (off + 2) with (off + Z.of_nat 2).
  change (off + 3) with (off + Z.of_nat 3). change (off + 4) with (off + Z.of_nat 4).
  change (off + 5) with (off + Z.of_nat 5). change (off + 6) with (off + Z.of_nat 6).
  change (off + 7) with (off + Z.of_nat 7).
  rewrite !(byte_at_rd p off _ 8) by lia. rewrite H. by destruct x.
Qed.

Lemma load_double_eq p q off :
  rd p off 8 = rd q off 8 -> 0 <= off -> load_double p off = load_double q off.
Proof.
  intros H H0. unfold load_double.
  replace off with (off + Z.of_nat 0) at 1 9 by lia.
  change (off + 1) with (off + Z.of_nat 1). change (off + 2) with (off + Z.of_nat 2).
  change (off + 3) with (off + Z.of_nat 3). change (off + 4) with (off + Z.of_nat 4).
  change (off + 5) with (off + Z.of_nat 5). change (off + 6) with (off + Z.of_nat 6).
  change (off + 7) with (off + Z.of_nat 7).
  rewrite !(byte_at_rd p off _ 8), !(byte_at_rd q off _ 8) by lia. by rewrite H.
Qed.

(** Signed 32-bit values survive the four-byte little-endian encoding. *)
Lemma wrap32_le32 z :
  - 2 ^ 31 <= z < 2 ^ 31 -> wrap32 (le_combine (le32 z)) = z.
Proof.
  intros Hz. unfold wrap32, le32. rewrite le_combine_split.
  change (Z.of_nat 4 * 8) with 32.
  rewrite Zplus_mod_idemp_l.
  rewrite Z.mod_small; lia.
Qed.

Lemma le_combine_le16 z : 0 <= z < 2 ^ 16 -> le_combine (le16 z) = z.
Proof.
  intros Hz. unfold le16. rewrite le_combine_split.
  change (Z.of_nat 2 * 8) with 16. by apply Z.mod_small.
Qed.

Lemma length_le32 z : length (le32 z) = 4%nat.
Proof. apply length_le_split. Qed.

Lemma length_le16 z : length (le16 z) = 2%nat.
Proof. apply length_le_split. Qed.

Lemma length_double_bytes (x : double) : length (double_bytes x) = 8%nat.
Proof. by destruct x. Qed.

Lemma length_flat_map_le32 (l : list Z) :
  length (flat_map le32 l) = (4 * length l)%nat.
Proof.
  induction l as [|x l IH]; [done |].
  cbn [flat_map]. rewrite length_app, length_le32, IH. cbn [length]. lia.
Qed.

Lemma length_flat_map_le16 (l : list Z) :
  length (flat_map le16 l) = (2 * length l)%nat.
Proof.
  induction l as [|x l IH]; [done |].
  cbn [flat_map]. rewrite length_app, length_le16, IH. cbn [length]. lia.
Qed.

End Buffers.

(** ** [Open] *)

Section OpenFacts.

Variable raw_ok : Z -> Z -> Z -> Z -> bool.

Lemma open_bands_spec crown iPixelSize nWidth ibs : forall pach acc,
  match open_bands raw_ok crown iPixelSize nWidth ibs pach acc with
  | Some (pach', bands) =>
      bands_creatable raw_ok iPixelSize nWidth ibs = true /\
      length bands = (length acc + length ibs)%nat /\
      length pach' = length pach
  | None => bands_creatable raw_ok iPixelSize nWidth ibs = false
  end.
Proof.
  induction ibs as [|iBand ibs IH]; intros pach acc; cbn [open_bands bands_creatable forallb].
  - split; [done |]. split; [cbn; lia | done].
  - destruct (raw_ok iBand _ _ _); cbn [negb andb]; [| done].
    destruct (band_layout crown iBand) as [bl|].
    + cbn [band_metadata].
      match goal with |- context [open_bands _ _ _ _ _ ?p ?a] =>
        specialize (IH p a); destruct (open_bands raw_ok crown iPixelSize nWidth ibs p a) as [[p' bs]|]
      end; [| done].
      destruct IH as (? & Hl & Hp). split; [done |].
      rewrite length_app in Hl. cbn [length] in *. rewrite length_poke_nul in Hp.
      split; [lia | done].
    + match goal with |- context [open_bands _ _ _ _ _ ?p ?a] =>
        specialize (IH p a); destruct (open_bands raw_ok crown iPixelSize nWidth ibs p a) as [[p' bs]|]
      end; [| done].
      destruct IH as (? & Hl & Hp). split; [done |].
      rewrite length_app in Hl. cbn [length] in *. split; [lia | done].
Qed.

(** What the sniffed header and the file agree on. *)
Lemma snapshot_sint32 oi file off :
  header_snapshot oi -> fpL oi = Some file -> 50 <= nHeaderBytes oi ->
  0 <= off -> off + 4 <= 50 ->
  CPL_LSBSINT32PTR (pabyHeader oi) off = CPL_LSBSINT32PTR file off.
Proof.
  unfold header_snapshot. intros Hs Hf Hn H0 Hoff. rewrite Hf in Hs.
  destruct Hs as [_ ->]. apply sint32_take; lia.
Qed.

(** [Identify], condition by condition. *)
Lemma Identify_true oi :
  Identify oi = true <->
  50 <= nHeaderBytes oi /\
  (CPL_LSBSINT32PTR (pabyHeader oi) 0 = 20 \/ CPL_LSBSINT32PTR (pabyHeader oi) 0 = 21) /\
  (CPL_LSBSINT32PTR (pabyHeader oi) 4 = 20 \/ CPL_LSBSINT32PTR (pabyHeader oi) 4 = 21) /\
  -90 <= CPL_LSBSINT32PTR (pabyHeader oi) 8 <= 90 /\
  EQUAL (osExtension oi) "lcp" = true.
Proof.
  unfold Identify.
  destruct (Z.ltb_spec (nHeaderBytes oi) 50); [split; [done | lia] |].
  destruct (Z.eqb_spec (CPL_LSBSINT32PTR (pabyHeader oi) 0) 20),
           (Z.eqb_spec (CPL_LSBSINT32PTR (pabyHeader oi) 0) 21),
           (Z.eqb_spec (CPL_LSBSINT32PTR (pabyHeader oi) 4) 20),
           (Z.eqb_spec (CPL_LSBSINT32PTR (pabyHeader oi) 4) 21),
           (Z.ltb_spec (CPL_LSBSINT32PTR (pabyHeader oi) 8) (-90)),
           (Z.gtb_spec (CPL_LSBSINT32PTR (pabyHeader oi) 8) 90);
    cbn [negb andb orb];
    destruct (EQUAL (osExtension oi) "lcp"); cbn [negb];
    (split; [try done; intros _; repeat split; auto; lia | try done; intros (? & ? & ? & ? & ?); try done; lia]).
Qed.

Lemma header_read_fields file :
  LCP_HEADER_SIZE <= Z.of_nat (length file) ->
  let pach := take (Z.to_nat LCP_HEADER_SIZE) file in
  CPL_LSBSINT32PTR pach 4164 = CPL_LSBSINT32PTR file 4164 /\
  CPL_LSBSINT32PTR pach 4168 = CPL_LSBSINT32PTR file 4168 /\
  CPL_LSBSINT32PTR pach 8 = CPL_LSBSINT32PTR file 8 /\
  bHaveCrownFuels pach = bHaveCrownFuels file /\
  bHaveGroundFuels pach = bHaveGroundFuels file.
Proof.
  intros _ pach. unfold bHaveCrownFuels, bHaveGroundFuels, pach, LCP_HEADER_SIZE.
  rewrite !sint32_take by lia. done.
Qed.

(** [Open], outcome by outcome, on the bytes of the file. *)
Lemma Open_cases oi :
  match Open raw_ok oi with
  | Some ds =>
      exists file,
        fpL oi = Some file /\ Identify oi = true /\ eAccess oi = GA_ReadOnly /\
        LCP_HEADER_SIZE <= Z.of_nat (length file) /\
        1 <= CPL_LSBSINT32PTR file 4164 /\ 1 <= CPL_LSBSINT32PTR file 4168 /\
        (let nBands := band_count (bHaveCrownFuels file) (bHaveGroundFuels file) in
         CPL_LSBSINT32PTR file 4164 <= INT_MAX / (nBands * 2) /\
         bands_creatable raw_ok (nBands * 2) (CPL_LSBSINT32PTR file 4164)
                         (seqZ 1 nBands) = true /\
         GetRasterCount ds = nBands /\
         open_bands raw_ok (bHaveCrownFuels file) (nBands * 2)
           (CPL_LSBSINT32PTR file 4164) (seqZ 1 nBands)
           (poke_nul (take (Z.to_nat LCP_HEADER_SIZE) file) (LCP_HEADER_SIZE - 1)) []
         = Some (pachHeader ds, papoBands ds)) /\
        nRasterXSize ds = CPL_LSBSINT32PTR file 4164 /\
        nRasterYSize ds = CPL_LSBSINT32PTR file 4168 /\
        dsMetadata ds !! "LATITUDE"%string = Some (MDInt (CPL_LSBSINT32PTR file 8))
  | None =>
      Identify oi = false \/ fpL oi = None \/ eAccess oi = GA_Update \/
      exists file,
        fpL oi = Some file /\
        (Z.of_nat (length file) < LCP_HEADER_SIZE \/
         CPL_LSBSINT32PTR file 4164 < 1 \/ CPL_LSBSINT32PTR file 4168 < 1 \/
         (let nBands := band_count (bHaveCrownFuels file) (bHaveGroundFuels file) in
          CPL_LSBSINT32PTR file 4164 > INT_MAX / (nBands * 2) \/
          bands_creatable raw_ok (nBands * 2) (CPL_LSBSINT32PTR file 4164)
                          (seqZ 1 nBands) = false))
  end.
Proof.
  unfold Open.
  destruct (Identify oi) eqn:Hid; cbn [negb]; [| left; reflexivity].
  destruct (fpL oi) as [file|] eqn:Hfile; [| right; left; reflexivity].
  destruct (eAccess oi) eqn:Hacc; [| right; right; left; reflexivity].
  unfold VSIFReadL_from_start.
  destruct (Z.ltb_spec (Z.of_nat (length file)) LCP_HEADER_SIZE) as [Hshort | Hlong].
  { right; right; right. exists file. split; [reflexivity | left; exact Hshort]. }
  destruct (header_read_fields file Hlong) as (Hw & Hh & Hlat & Hc & Hg).
  rewrite Hw, Hh, Hlat, Hc, Hg. unfold GDALCheckDatasetDimensions.
  destruct (Z.leb_spec 1 (CPL_LSBSINT32PTR file 4164)) as [Hw1 | Hw1]; cbn [andb negb];
    [| right; right; right; exists file; split; [reflexivity | right; left; exact Hw1]].
  destruct (Z.leb_spec 1 (CPL_LSBSINT32PTR file 4168)) as [Hh1 | Hh1]; cbn [andb negb];
    [| right; right; right; exists file; split; [reflexivity | right; right; left; exact Hh1]].
  destruct (Z.gtb_spec (CPL_LSBSINT32PTR file 4164)
              (INT_MAX / (band_count (bHaveCrownFuels file) (bHaveGroundFuels file) * 2)))
    as [Hov | Hov];
    [right; right; right; exists file; split;
       [reflexivity | right; right; right; left; apply Z.lt_gt; exact Hov] |].
  match goal with |- context [open_bands ?r ?c ?ps ?w ?ibs ?p ?a] =>
    pose proof (open_bands_spec c ps w ibs p a) as Hb;
    destruct (open_bands r c ps w ibs p a) as [[pach' bands]|] eqn:Hob
  end.
  - destruct Hb as (Hcre & Hlen & _).
    exists file. cbn [pachHeader papoBands nRasterXSize nRasterYSize dsMetadata].
    split; [reflexivity |]. split; [reflexivity |]. split; [reflexivity |].
    split; [exact Hlong |]. split; [exact Hw1 |]. split; [exact Hh1 |].
    split.
    + split; [exact Hov |]. split; [exact Hcre |]. split; [| exact Hob].
      unfold GetRasterCount. cbn [papoBands]. rewrite Hlen, length_seqZ. cbn [length].
      destruct (bHaveCrownFuels file), (bHaveGroundFuels file); cbn; lia.
    + split; [reflexivity |]. split; [reflexivity |].
      generalize (take (Z.to_nat LCP_HEADER_SIZE) file). intros pach.
      rewrite lookup_insert_ne by done.
      destruct (CPL_LSBSINT32PTR pach 4204 =? 0), (CPL_LSBSINT32PTR pach 4204 =? 1);
        rewrite ?lookup_insert_ne by done; apply lookup_insert_eq.
  - right; right; right. exists file. split; [reflexivity |].
    right; right; right; right. exact Hb.
Qed.

End OpenFacts.

Lemma GDALOpenInfo_new_snapshot ext acc file :
  header_snapshot (GDALOpenInfo_new ext acc file).
Proof.
  unfold header_snapshot, GDALOpenInfo_new.
  cbn [fpL nHeaderBytes pabyHeader].
  split; [lia |].
  destruct (Z.le_ge_cases 1024 (Z.of_nat (length file))) as [H | H].
  - rewrite Z.min_l by exact H. reflexivity.
  - rewrite Z.min_r by exact H. rewrite Nat2Z.id.
    rewrite !take_ge by lia. reflexivity.
Qed.

Lemma flag_20_absent p off :
  CPL_LSBSINT32PTR p off = 20 ->
  CPL_TO_BOOL (wrap32 (CPL_LSBSINT32PTR p off - 20)) = false.
Proof. intros ->. reflexivity. Qed.

Lemma flag_21_present p off :
  CPL_LSBSINT32PTR p off = 21 ->
  CPL_TO_BOOL (wrap32 (CPL_LSBSINT32PTR p off - 20)) = true.
Proof. intros ->. reflexivity. Qed.

(** C2 (band count).  For every header that [Open] accepts, each of the two
    flag fields is 20 (absent) or 21 (present), and the dataset has 5, 7, 8
    or 10 bands according to the table: (absent, absent) 5, (absent, present)
    7, (present, absent) 8, (present, present) 10. *)
Theorem C2_band_count_from_flags
    (raw_ok : Z -> Z -> Z -> Z -> bool) (oi : GDALOpenInfo)
    (ds : LCPDataset) (file : list byte) :
  Open raw_ok oi = Some ds -> fpL oi = Some file -> header_snapshot oi ->
  let crown := CPL_LSBSINT32PTR file 0 in
  let ground := CPL_LSBSINT32PTR file 4 in
  (crown = 20 /\ ground = 20 /\ GetRasterCount ds = 5) \/
  (crown = 20 /\ ground = 21 /\ GetRasterCount ds = 7) \/
  (crown = 21 /\ ground = 20 /\ GetRasterCount ds = 8) \/
  (crown = 21 /\ ground = 21 /\ GetRasterCount ds = 10).
Proof.
  intros Hopen Hfile Hsnap crown ground.
  pose proof (Open_cases raw_ok oi) as H. rewrite Hopen in H.
  destruct H as (file' & Hf' & Hid & _ & _ & _ & _ & (_ & _ & Hcount & _) & _).
  rewrite Hfile in Hf'. injection Hf' as <-.
  apply Identify_true in Hid as (Hn & Hc & Hg & _ & _).
  rewrite (snapshot_sint32 oi file 0 Hsnap Hfile Hn) in Hc by lia.
  rewrite (snapshot_sint32 oi file 4 Hsnap Hfile Hn) in Hg by lia.
  rewrite Hcount. unfold bHaveCrownFuels, bHaveGroundFuels. subst crown ground.
  destruct Hc as [Hc | Hc], Hg as [Hg | Hg];
    rewrite ?(flag_20_absent file 0 Hc), ?(flag_21_present file 0 Hc),
            ?(flag_20_absent file 4 Hg), ?(flag_21_present file 4 Hg);
    cbn [band_count]; tauto.
Qed.

(** The premises of C2 are met by a header with both flags 20: five bands. *)
Lemma C2_band_count_witness :
  exists ds,
    Open (fun _ _ _ _ => true)
         (GDALOpenInfo_new "lcp" GA_ReadOnly (header_with_latitude 45)) = Some ds /\
    GetRasterCount ds = 5.
Proof.
  destruct (Open (fun _ _ _ _ => true)
              (GDALOpenInfo_new "lcp" GA_ReadOnly (header_with_latitude 45)))
    as [ds|] eqn:E; [| vm_compute in E; discriminate].
  exists ds. split; [reflexivity |].
  destruct (C2_band_count_from_flags _ _ ds (header_with_latitude 45) E eq_refl
              (GDALOpenInfo_new_snapshot _ _ _))
    as [(_ & _ & H) | [(_ & H & _) | [(H & _) | (H & _)]]];
    [exact H | vm_compute in H; discriminate ..].
Defined.

(** C10 (latitude guard).  [Open] returns no dataset when fewer than 50
    header bytes were sniffed, hence none for a file shorter than 50 bytes,
    and none when the 32-bit field at byte offset 8 of the file lies outside
    [-90, 90]; the LATITUDE item of every dataset it returns is that field,
    within [-90, 90]. *)
Theorem C10_latitude_guard (raw_ok : Z -> Z -> Z -> Z -> bool) (oi : GDALOpenInfo) :
  (nHeaderBytes oi < 50 -> Open raw_ok oi = None) /\
  (forall file, fpL oi = Some file -> header_snapshot oi ->
      Z.of_nat (length file) < 50 -> Open raw_ok oi = None) /\
  (forall file, fpL oi = Some file -> header_snapshot oi ->
      ~ (-90 <= CPL_LSBSINT32PTR file 8 <= 90) -> Open raw_ok oi = None) /\
  (forall ds file, fpL oi = Some file -> header_snapshot oi ->
      Open raw_ok oi = Some ds ->
      dsMetadata ds !! "LATITUDE"%string = Some (MDInt (CPL_LSBSINT32PTR file 8)) /\
      -90 <= CPL_LSBSINT32PTR file 8 <= 90).
Proof.
  pose proof (Open_cases raw_ok oi) as H.
  assert (nHeaderBytes oi < 50 -> Open raw_ok oi = None) as Hshort.
  { intros Hn. destruct (Open raw_ok oi) as [ds|]; [| reflexivity].
    destruct H as (file & _ & Hid & _). apply Identify_true in Hid. lia. }
  split; [exact Hshort |]. split; [| split].
  - intros file Hfile Hsnap Hlen. apply Hshort.
    unfold header_snapshot in Hsnap. rewrite Hfile in Hsnap.
    destruct Hsnap as [[_ Hle] _].
    eapply Z.le_lt_trans; [exact Hle | exact Hlen].
  - intros file Hfile Hsnap Hlat. destruct (Open raw_ok oi) as [ds|]; [| reflexivity].
    destruct H as (file' & Hf' & Hid & _).
    apply Identify_true in Hid as (Hn & _ & _ & Hl & _).
    rewrite (snapshot_sint32 oi file 8 Hsnap Hfile Hn) in Hl by lia. lia.
  - intros ds file Hfile Hsnap Hopen. rewrite Hopen in H.
    destruct H as (file' & Hf' & Hid & _ & _ & _ & _ & _ & _ & _ & Hmd).
    rewrite Hfile in Hf'. injection Hf' as <-.
    apply Identify_true in Hid as (Hn & _ & _ & Hl & _).
    rewrite (snapshot_sint32 oi file 8 Hsnap Hfile Hn) in Hl by lia.
    split; [exact Hmd | exact Hl].
Qed.

(** The three parts of C10 at concrete inputs: an open-info with 12 sniffed
    bytes, a header whose latitude field is 91, and one whose field is 45. *)
Lemma C10_latitude_guard_witness :
  Open (fun _ _ _ _ => true)
       {| osExtension := "lcp"; eAccess := GA_ReadOnly; nHeaderBytes := 12;
          pabyHeader := take 12%nat (header_with_latitude 45);
          fpL := Some (header_with_latitude 45) |} = None /\
  Open (fun _ _ _ _ => true)
       (GDALOpenInfo_new "lcp" GA_ReadOnly (take 12%nat (header_with_latitude 45)))
  = None /\
  Open (fun _ _ _ _ => true)
       (GDALOpenInfo_new "lcp" GA_ReadOnly (header_with_latitude 91)) = None /\
  exists ds,
    Open (fun _ _ _ _ => true)
         (GDALOpenInfo_new "lcp" GA_ReadOnly (header_with_latitude 45)) = Some ds /\
    dsMetadata ds !! "LATITUDE"%string = Some (MDInt 45).
Proof.
  split; [| split; [| split]].
  - apply (proj1 (C10_latitude_guard _ _)). cbn. lia.
  - apply (proj1 (proj2 (C10_latitude_guard _
                            (GDALOpenInfo_new "lcp" GA_ReadOnly
                               (take 12%nat (header_with_latitude 45)))))
             (take 12%nat (header_with_latitude 45)) eq_refl
             (GDALOpenInfo_new_snapshot _ _ _)).
    vm_compute. reflexivity.
  - apply (proj1 (proj2 (proj2 (C10_latitude_guard _
                            (GDALOpenInfo_new "lcp" GA_ReadOnly (header_with_latitude 91)))))
             (header_with_latitude 91) eq_refl (GDALOpenInfo_new_snapshot _ _ _)).
    vm_compute. intros [_ H]. apply H. reflexivity.
  - destruct (Open (fun _ _ _ _ => true)
                (GDALOpenInfo_new "lcp" GA_ReadOnly (header_with_latitude 45)))
      as [ds|] eqn:E; [| vm_compute in E; discriminate].
    exists ds. split; [reflexivity |].
    apply (proj2 (proj2 (proj2 (C10_latitude_guard _
                           (GDALOpenInfo_new "lcp" GA_ReadOnly (header_with_latitude 45)))))
             ds (header_with_latitude 45) eq_refl (GDALOpenInfo_new_snapshot _ _ _) E).
Defined.

Lemma overflow_check_iff nWidth crown ground :
  nWidth > INT_MAX / (band_count crown ground * 2) <->
  nWidth * (band_count crown ground * 2) > INT_MAX.
Proof.
  unfold INT_MAX. destruct crown, ground; cbn [band_count];
    [change (2147483647 / (10 * 2)) with 107374182
    |change (2147483647 / (8 * 2)) with 134217727
    |change (2147483647 / (7 * 2)) with 153391689
    |change (2147483647 / (5 * 2)) with 214748364]; lia.
Qed.

(** C5 as stated does not hold: a header of full size with both flags 20 and
    a 1 x 1 raster meets none of the listed conditions, yet [Open] returns no
    dataset for it, because its latitude field is 91. *)
Lemma C5_counterexample_latitude_91 :
  ~ (Open (fun _ _ _ _ => true)
          (GDALOpenInfo_new "lcp" GA_ReadOnly (header_with_latitude 91)) = None
     <-> listed_open_failure (header_with_latitude 91)).
Proof.
  intros [Hfwd _].
  assert (Open (fun _ _ _ _ => true)
            (GDALOpenInfo_new "lcp" GA_ReadOnly (header_with_latitude 91)) = None) as Hnone
    by (vm_compute; reflexivity).
  specialize (Hfwd Hnone). unfold listed_open_failure in Hfwd.
  assert (Z.of_nat (length (header_with_latitude 91)) = 7316) as Hlen
    by (vm_compute; reflexivity).
  assert (CPL_LSBSINT32PTR (header_with_latitude 91) 0 = 20) as H0
    by (vm_compute; reflexivity).
  assert (CPL_LSBSINT32PTR (header_with_latitude 91) 4 = 20) as H4
    by (vm_compute; reflexivity).
  assert (CPL_LSBSINT32PTR (header_with_latitude 91) 4164 = 1) as Hw
    by (vm_compute; reflexivity).
  assert (CPL_LSBSINT32PTR (header_with_latitude 91) 4168 = 1) as Hh
    by (vm_compute; reflexivity).
  assert (band_count (bHaveCrownFuels (header_with_latitude 91))
                     (bHaveGroundFuels (header_with_latitude 91)) = 5) as Hb
    by (vm_compute; reflexivity).
  rewrite Hlen, H0, H4, Hw, Hh, Hb in Hfwd.
  unfold LCP_HEADER_SIZE, INT_MAX in Hfwd. lia.
Qed.

(** C5, amended.  [Open] returns no dataset exactly when one of the listed
    conditions holds (fewer than 7316 bytes, a flag field other than 20 and
    21, a width or height that is not positive, a row size beyond [INT_MAX])
    or one of the further ones: fewer than 50 sniffed bytes, a latitude field
    outside [-90, 90], an extension other than lcp, update access, or a raw
    band that cannot be created. *)
Theorem C5_open_fails_iff
    (raw_ok : Z -> Z -> Z -> Z -> bool) (oi : GDALOpenInfo) (file : list byte) :
  fpL oi = Some file -> header_snapshot oi ->
  (Open raw_ok oi = None <->
   listed_open_failure file \/ other_open_failure raw_ok oi file).
Proof.
  intros Hfile Hsnap.
  pose proof (Open_cases raw_ok oi) as H.
  pose proof (Identify_true oi) as Hid.
  pose proof (overflow_check_iff (CPL_LSBSINT32PTR file 4164)
                (bHaveCrownFuels file) (bHaveGroundFuels file)) as Hov.
  unfold listed_open_failure, other_open_failure.
  destruct (Z_lt_dec (nHeaderBytes oi) 50) as [Hn | Hn].
  { split; [intros _; right; left; exact Hn |].
    intros _. destruct (Open raw_ok oi); [| reflexivity].
    destruct H as (? & _ & Hi & _). apply Hid in Hi. lia. }
  rewrite (snapshot_sint32 oi file 0 Hsnap Hfile) in Hid by lia.
  rewrite (snapshot_sint32 oi file 4 Hsnap Hfile) in Hid by lia.
  rewrite (snapshot_sint32 oi file 8 Hsnap Hfile) in Hid by lia.
  destruct (Open raw_ok oi) as [ds|].
  - destruct H as (file' & Hf' & Hi & Hacc & Hlen & Hw & Hh & (Ho & Hcre & _) & _).
    rewrite Hfile in Hf'. injection Hf' as <-.
    apply Hid in Hi as (_ & Hc & Hg & Hl & Hext).
    split; [discriminate |].
    cbv zeta. rewrite Hcre, Hext, Hacc.
    intros [Hbad | Hbad]; exfalso; [| intuition (try discriminate; lia)].
    destruct Hbad as [? | [? | [? | [? | [? | Hx]]]]]; tauto || lia.
  - split; [intros _ | reflexivity].
    destruct H as [Hi | [Hf | [Hacc | (file' & Hf' & Hcase)]]].
    + destruct (EQUAL (osExtension oi) "lcp") eqn:Hext; [| right; tauto].
      rewrite Hi in Hid.
      destruct (Z.eq_dec (CPL_LSBSINT32PTR file 0) 20),
               (Z.eq_dec (CPL_LSBSINT32PTR file 0) 21),
               (Z.eq_dec (CPL_LSBSINT32PTR file 4) 20),
               (Z.eq_dec (CPL_LSBSINT32PTR file 4) 21);
        try (left; right; left; lia); try (left; right; right; left; lia);
        right; right; left; intros Hl;
        assert (false = true) as Habs by (apply Hid; repeat split; auto; lia);
        discriminate Habs.
    + congruence.
    + right. tauto.
    + rewrite Hfile in Hf'. injection Hf' as <-. cbv zeta in Hcase.
      destruct Hcase as [? | [? | [? | [Hx | ?]]]].
      * left; left; assumption.
      * left; do 3 right; left; lia.
      * left; do 4 right; left; lia.
      * left; do 5 right. apply Hov. exact Hx.
      * right; do 4 right. assumption.
Qed.

(** The premises of C5 at the header with latitude 91: it falls under the
    further conditions. *)
Lemma C5_open_fails_witness :
  listed_open_failure (header_with_latitude 91) \/
  other_open_failure (fun _ _ _ _ => true)
    (GDALOpenInfo_new "lcp" GA_ReadOnly (header_with_latitude 91))
    (header_with_latitude 91).
Proof.
  apply (proj1 (C5_open_fails_iff (fun _ _ _ _ => true)
                  (GDALOpenInfo_new "lcp" GA_ReadOnly (header_with_latitude 91))
                  (header_with_latitude 91) eq_refl
                  (GDALOpenInfo_new_snapshot _ _ _))).
  vm_compute. reflexivity.
Defined.

(** ** Input verification *)

Section Validation.

Lemma failsM_bind_l {A B : Type} (m : M A) (k : A -> M B) :
  failsM m -> failsM (m ≫= k).
Proof.
  intros H l. unfold mbind, M_bind. specialize (H l).
  destruct (m l) as [[a|] l']; [discriminate | reflexivity].
Qed.

Lemma failsM_bind_r {A B : Type} (m : M A) (k : A -> M B) :
  (forall a, failsM (k a)) -> failsM (m ≫= k).
Proof.
  intros H l. unfold mbind, M_bind.
  destruct (m l) as [[a|] l']; [apply H | reflexivity].
Qed.

Lemma failsM_fail {A : Type} (msg : string) : failsM (@fail A msg).
Proof. intros l. reflexivity. Qed.

Lemma check_band_count_fails n :
  ~ valid_band_count n -> failsM (check_band_count n).
Proof.
  intros H. unfold check_band_count, valid_band_count in *.
  destruct (Z.eqb_spec n 5), (Z.eqb_spec n 7), (Z.eqb_spec n 8), (Z.eqb_spec n 10);
    cbn [negb andb]; try (exfalso; lia).
  apply failsM_fail.
Qed.

Local Ltac unknown_option key :=
  intros (v & Hv & Hc);
  unfold CSLFetchNameValueDef; rewrite Hv;
  unfold has_code in Hc; cbn in Hc;
  rewrite ?orb_false_r in Hc; rewrite ?orb_false_iff in Hc;
  destruct_and?;
  repeat match goal with H : ?b = false |- context [?b] => rewrite H end;
  cbn [orb]; apply failsM_fail.

Lemma opt_ELEVATION_UNIT_fails o :
  requests_unknown o "ELEVATION_UNIT" -> failsM (opt_ELEVATION_UNIT o).
Proof. unfold opt_ELEVATION_UNIT. unknown_option "ELEVATION_UNIT". Qed.

Lemma opt_SLOPE_UNIT_fails o :
  requests_unknown o "SLOPE_UNIT" -> failsM (opt_SLOPE_UNIT o).
Proof. unfold opt_SLOPE_UNIT. unknown_option "SLOPE_UNIT". Qed.

Lemma opt_ASPECT_UNIT_fails o :
  requests_unknown o "ASPECT_UNIT" -> failsM (opt_ASPECT_UNIT o).
Proof. unfold opt_ASPECT_UNIT. unknown_option "ASPECT_UNIT". Qed.

Lemma opt_FUEL_MODEL_OPTION_fails o :
  requests_unknown o "FUEL_MODEL_OPTION" -> failsM (opt_FUEL_MODEL_OPTION o).
Proof. unfold opt_FUEL_MODEL_OPTION. unknown_option "FUEL_MODEL_OPTION". Qed.

Lemma opt_CANOPY_COV_UNIT_fails o :
  requests_unknown o "CANOPY_COV_UNIT" -> failsM (opt_CANOPY_COV_UNIT o).
Proof. unfold opt_CANOPY_COV_UNIT. unknown_option "CANOPY_COV_UNIT". Qed.

Lemma opt_CANOPY_HT_UNIT_fails o :
  requests_unknown o "CANOPY_HT_UNIT" -> failsM (opt_CANOPY_HT_UNIT o).
Proof.
  unfold opt_CANOPY_HT_UNIT, opt_height_unit. unknown_option "CANOPY_HT_UNIT".
Qed.

Lemma opt_CBH_UNIT_fails o :
  requests_unknown o "CBH_UNIT" -> failsM (opt_CBH_UNIT o).
Proof. unfold opt_CBH_UNIT, opt_height_unit. unknown_option "CBH_UNIT". Qed.

Lemma opt_CBD_UNIT_fails o :
  requests_unknown o "CBD_UNIT" -> failsM (opt_CBD_UNIT o).
Proof. unfold opt_CBD_UNIT. unknown_option "CBD_UNIT". Qed.

Lemma opt_DUFF_UNIT_fails o :
  requests_unknown o "DUFF_UNIT" -> failsM (opt_DUFF_UNIT o).
Proof. unfold opt_DUFF_UNIT. unknown_option "DUFF_UNIT". Qed.

(** An unknown value for a key that is read makes [unit_codes] fail, whatever
    the other options are. *)
Lemma unit_codes_fails o crown ground key :
  key ∈ applicable_keys crown ground -> requests_unknown o key ->
  failsM (unit_codes o crown ground).
Proof.
  intros Hkey Hreq. unfold unit_codes, applicable_keys in *.
  rewrite !elem_of_app in Hkey.
  destruct Hkey as [Hk | [Hk | Hk]].
  - repeat (apply elem_of_cons in Hk as [-> | Hk]);
      [| | | | | by apply elem_of_nil in Hk].
    + apply failsM_bind_l. by apply opt_ELEVATION_UNIT_fails.
    + apply failsM_bind_r; intros ?. apply failsM_bind_l.
      by apply opt_SLOPE_UNIT_fails.
    + do 2 (apply failsM_bind_r; intros ?). apply failsM_bind_l.
      by apply opt_ASPECT_UNIT_fails.
    + do 3 (apply failsM_bind_r; intros ?). apply failsM_bind_l.
      by apply opt_FUEL_MODEL_OPTION_fails.
    + do 4 (apply failsM_bind_r; intros ?). apply failsM_bind_l.
      by apply opt_CANOPY_COV_UNIT_fails.
  - destruct crown; [| by apply elem_of_nil in Hk].
    do 5 (apply failsM_bind_r; intros ?). apply failsM_bind_l.
    repeat (apply elem_of_cons in Hk as [-> | Hk]);
      [| | | by apply elem_of_nil in Hk].
    + apply failsM_bind_l. by apply opt_CANOPY_HT_UNIT_fails.
    + apply failsM_bind_r; intros ?. apply failsM_bind_l.
      by apply opt_CBH_UNIT_fails.
    + do 2 (apply failsM_bind_r; intros ?). apply failsM_bind_l.
      by apply opt_CBD_UNIT_fails.
  - destruct ground; [| by apply elem_of_nil in Hk].
    apply elem_of_cons in Hk as [-> | Hk]; [| by apply elem_of_nil in Hk].
    do 6 (apply failsM_bind_r; intros ?). apply failsM_bind_l.
    apply failsM_bind_l. by apply opt_DUFF_UNIT_fails.
Qed.

Lemma CreateCopy_validate_bad_band_count fo src bStrict o :
  ~ valid_band_count (src_band_count src) ->
  failsM (CreateCopy_validate fo src bStrict o).
Proof.
  intros H. unfold CreateCopy_validate.
  apply failsM_bind_l. by apply check_band_count_fails.
Qed.

Lemma CreateCopy_validate_unknown_option fo src bStrict o key :
  key ∈ applicable_keys ((src_band_count src =? 8) || (src_band_count src =? 10))
                        ((src_band_count src =? 7) || (src_band_count src =? 10)) ->
  requests_unknown o key ->
  failsM (CreateCopy_validate fo src bStrict o).
Proof.
  intros Hk Hr. unfold CreateCopy_validate.
  do 2 (apply failsM_bind_r; intros ?). apply failsM_bind_l.
  by eapply unit_codes_fails.
Qed.

(** A failed verification returns [nullptr] and leaves the files alone. *)
Lemma CreateCopy_validation_failure ex fo fs pszFilename src bStrict o :
  failsM (CreateCopy_validate fo src bStrict o) ->
  CreateCopy ex fo fs pszFilename src bStrict o
  = (None, fs, (CreateCopy_validate fo src bStrict o []).2).
Proof.
  intros H. unfold CreateCopy. specialize (H []).
  destruct (CreateCopy_validate fo src bStrict o []) as [[p|] l];
    [discriminate | reflexivity].
Qed.

End Validation.

(** C6 as stated does not hold: a value without a code for CANOPY_HT_UNIT is
    requested, yet [CreateCopy] of a five-band source succeeds, because that
    option is only read when the crown-fuel bands are present. *)
Lemma C6_counterexample_unread_option :
  "CANOPY_HT_UNIT"%string ∈ unit_option_keys /\
  requests_unknown
    [("LATITUDE", "45"); ("CANOPY_HT_UNIT", "BOGUS")]%string "CANOPY_HT_UNIT" /\
  (CreateCopy example_externals int_float_ops ∅ "out.lcp" (example_source 5) false
     [("LATITUDE", "45"); ("CANOPY_HT_UNIT", "BOGUS")]%string).1.1 <> None.
Proof.
  split; [| split].
  - unfold unit_option_keys. do 5 apply list_elem_of_further. apply list_elem_of_here.
  - exists "BOGUS"%string. split; reflexivity.
  - destruct (CreateCopy _ _ _ _ _ _ _).1.1 eqn:E; [discriminate |].
    vm_compute in E. discriminate E.
Qed.

(** C6, amended.  [CreateCopy] returns no dataset and leaves every file as it
    was when the source band count is not 5, 7, 8 or 10, or when a value
    without a code is requested for a unit/option that applies to the bands
    present: ELEVATION_UNIT, SLOPE_UNIT, ASPECT_UNIT, FUEL_MODEL_OPTION and
    CANOPY_COV_UNIT always, CANOPY_HT_UNIT, CBH_UNIT and CBD_UNIT with crown
    fuels, DUFF_UNIT with ground fuels. *)
Theorem C6_validation_fails_before_output
    (ex : Externals) (fo : FloatOps) (fs : gmap string (list byte))
    (pszFilename : string) (src : GDALDataset) (bStrict : bool) (o : CSL) :
  let n := src_band_count src in
  ~ valid_band_count n \/
  (exists key,
      key ∈ applicable_keys ((n =? 8) || (n =? 10)) ((n =? 7) || (n =? 10)) /\
      requests_unknown o key) ->
  exists l, CreateCopy ex fo fs pszFilename src bStrict o = (None, fs, l).
Proof.
  intros n [Hn | (key & Hk & Hr)]; eexists; apply CreateCopy_validation_failure.
  - by apply CreateCopy_validate_bad_band_count.
  - by eapply CreateCopy_validate_unknown_option.
Qed.

(** The premises of C6 at a four-band source, and at an eight-band source
    with an unknown CANOPY_HT_UNIT. *)
Lemma C6_validation_fails_witness :
  (exists l, CreateCopy example_externals int_float_ops ∅ "out.lcp"
               (example_source 4) false [] = (None, ∅, l)) /\
  (exists l, CreateCopy example_externals int_float_ops ∅ "out.lcp"
               (example_source 8) false
               [("CANOPY_HT_UNIT", "BOGUS")]%string = (None, ∅, l)).
Proof.
  split.
  - apply C6_validation_fails_before_output. left.
    unfold valid_band_count. vm_compute. intros [H | [H | [H | H]]]; discriminate H.
  - apply C6_validation_fails_before_output. right.
    exists "CANOPY_HT_UNIT"%string. split.
    + vm_compute. do 5 apply list_elem_of_further. apply list_elem_of_here.
    + exists "BOGUS"%string. split; reflexivity.
Defined.

(** Where the latitude and the linear unit cannot be determined. *)
Section LatitudeAndUnits.

Variable fo : FloatOps.

Lemma derive_latitude_no_srs src :
  srcSRS src = None -> failsM (derive_latitude fo src true 0).
Proof. intros H l. unfold derive_latitude. rewrite H. reflexivity. Qed.

Lemma derive_latitude_transform_fails src srs Transform :
  srcSRS src = Some srs -> srsTransform srs = Some Transform ->
  (forall lon lat, Transform lon lat = None) ->
  failsM (derive_latitude fo src true 0).
Proof.
  intros H1 H2 H3 l. unfold derive_latitude. rewrite H1, H2, H3. reflexivity.
Qed.

(** With a spatial reference but no transformation object, the latitude stays
    at its initial 0.0 and nothing is reported. *)
Lemma derive_latitude_no_transformation src srs l :
  srcSRS src = Some srs -> srsTransform srs = None ->
  derive_latitude fo src true 0 l = (Some (f_of_int fo 0), l).
Proof. intros H1 H2. unfold derive_latitude. rewrite H1, H2. reflexivity. Qed.

Lemma derive_linear_units_strict src n :
  srcSRS src = None \/
  (exists srs, srcSRS src = Some srs /\ srsUnitName srs = None) ->
  failsM (derive_linear_units fo src true n true).
Proof.
  intros [H | (srs & H1 & H2)] l; unfold derive_linear_units.
  - rewrite H. reflexivity.
  - rewrite H1, H2. reflexivity.
Qed.

Lemma derive_linear_units_lenient src n l :
  srcSRS src = None \/
  (exists srs, srcSRS src = Some srs /\ srsUnitName srs = None) ->
  exists msg,
    derive_linear_units fo src false n true l = (Some 0, l ++ [(CE_Warning, msg)]).
Proof.
  intros [H | (srs & H1 & H2)]; unfold derive_linear_units.
  - rewrite H. eexists. reflexivity.
  - rewrite H1, H2. eexists. reflexivity.
Qed.

(** The rest of the verification cannot undo a failure of the latitude. *)
Lemma CreateCopy_validate_no_latitude src bStrict o :
  CSLFetchNameValue o "LATITUDE" = None ->
  failsM (derive_latitude fo src true 0) ->
  failsM (CreateCopy_validate fo src bStrict o).
Proof.
  intros Hopt Hlat. unfold CreateCopy_validate.
  do 4 (apply failsM_bind_r; intros ?).
  unfold opt_LATITUDE. rewrite Hopt.
  intros l. unfold mbind, M_bind, mret, M_ret. cbn [fst snd].
  specialize (Hlat l).
  destruct (derive_latitude fo src true 0 l) as [[x|] l']; [discriminate | reflexivity].
Qed.

End LatitudeAndUnits.

(** C7 (latitude and linear unit).  With a source spatial reference for which
    no transformation to EPSG:4269 can be created, and no LATITUDE option,
    the latitude cannot be derived; [CreateCopy] nevertheless succeeds, in
    strict and in non-strict mode, raises no failure, and writes latitude 0.
    This is so for every such source: the latitude step returns 0.0 and
    reports nothing.  (Without a spatial reference, or when the
    transformation of the centre point fails, [CreateCopy] does fail:
    [derive_latitude_no_srs], [derive_latitude_transform_fails]; the linear
    unit behaves as stated: [derive_linear_units_strict],
    [derive_linear_units_lenient].) *)
Theorem C7_latitude_defaults_without_transformation :
  (forall bStrict : bool,
     match CreateCopy example_externals int_float_ops ∅ "out.lcp"
             (example_source_srs 5 srs_without_transformation) bStrict [] with
     | (Some ds, _, l) =>
         dsMetadata ds !! "LATITUDE"%string = Some (MDInt 0) /\
         forallb (fun e => match e.1 with CE_Failure => false | _ => true end) l
         = true
     | (None, _, _) => False
     end) /\
  (forall (fo : FloatOps) (bands : list GDALRasterBand) (x y : Z)
          (gt : GDALGeoTransform) (unit scale wkt : option string)
          (files : option (list string)) (l : Log),
     derive_latitude fo
       {| srcBands := bands; srcXSize := x; srcYSize := y; srcGT := gt;
          srcSRS := Some {| srsUnitName := unit; srsUnitScale := scale;
                            srsTransform := None; srsWkt := wkt |};
          srcFileList := files |} true 0 l
     = (Some (f_of_int fo 0), l)).
Proof.
  split.
  - intros []; vm_compute; split; reflexivity.
  - intros. reflexivity.
Qed.

(** ** The write cursor *)

Section Cursor.

Implicit Types (fp : VSILFILE) (d : list byte).

Lemma pos_write d fp : pos (VSIFWriteL d fp) = pos fp + Z.of_nat (length d).
Proof. destruct d; cbn [VSIFWriteL pos length]; lia. Qed.

Lemma length_class_slice (classes : list Z) i :
  0 <= i -> (i + 1) * LCP_MAX_CLASSES <= Z.of_nat (length classes) ->
  length (class_slice classes i) = Z.to_nat LCP_MAX_CLASSES.
Proof.
  intros Hi Hlen. unfold class_slice.
  rewrite length_take, length_drop. unfold LCP_MAX_CLASSES in *. lia.
Qed.

Lemma classify_bands_length bands : forall i found classes,
  length (classify_bands i bands found classes).1 = length found /\
  length (classify_bands i bands found classes).2 = length classes.
Proof.
  induction bands as [|b bands IH]; intros i found classes; cbn [classify_bands];
    [done |].
  destruct (ClassifyBandData b) as [[eErr n] stores].
  destruct (IH (S i) (<[i := n]> found)
               (list_inserts (i * Z.to_nat LCP_MAX_CLASSES) stores classes))
    as [H1 H2].
  rewrite H1, H2, length_insert, length_inserts. done.
Qed.

Lemma length_panClasses fo p bands :
  Z.of_nat (length (panClasses (compute_stats fo p bands)))
  = Z.of_nat (length bands) * LCP_MAX_CLASSES.
Proof.
  unfold compute_stats.
  destruct (cpCalculateStats p && cpClassifyData p).
  - pose proof (classify_bands_length bands 0 (replicate (length bands) 0)
                  (replicate (length bands * Z.to_nat LCP_MAX_CLASSES) 0)) as [_ H].
    destruct (classify_bands _ _ _ _) as [found classes]. cbn [panClasses snd] in *.
    rewrite H, length_replicate. unfold LCP_MAX_CLASSES. lia.
  - cbn [panClasses]. rewrite length_replicate. unfold LCP_MAX_CLASSES. lia.
Qed.

Lemma write_stats_pos fo p st n : forall i fp,
  0 <= i ->
  (i + Z.of_nat n) * LCP_MAX_CLASSES <= Z.of_nat (length (panClasses st)) ->
  pos (write_stats fo p st i n fp) = stats_cursor p i n (pos fp).
Proof.
  induction n as [|n IH]; intros i fp Hi Hlen; cbn [write_stats stats_cursor];
    [done |].
  rewrite IH by (unfold LCP_MAX_CLASSES in *; lia). f_equal.
  destruct (cpClassifyData p).
  - rewrite !pos_write, length_flat_map_le32, !length_le32, length_class_slice
      by (unfold LCP_MAX_CLASSES in *; lia).
    destruct ((i =? 5) && negb (cpCrown p) && cpGround p); cbn [pos VSIFSeekL_SET];
      unfold LCP_MAX_CLASSES; lia.
  - cbn [VSIFSeekL_CUR pos]. rewrite !pos_write, !length_le32.
    destruct ((i =? 5) && negb (cpCrown p) && cpGround p); cbn [pos VSIFSeekL_SET];
      unfold LCP_MAX_CLASSES; lia.
Qed.

Lemma write_lead_pos fo src p : pos (write_lead fo src p VSIFOpenL_wb) = 44.
Proof.
  unfold write_lead. rewrite !pos_write, !length_le32, !length_double_bytes.
  reflexivity.
Qed.

Lemma write_file_names_pos p name n : forall i fp,
  pos (write_file_names p name i (S n) fp) = 4244 + 256 * (i + Z.of_nat (S n)).
Proof.
  induction n as [|n IH]; intros i fp.
  - cbn [write_file_names VSIFSeekL_SET pos]. lia.
  - change (write_file_names p name i (S (S n)) fp)
      with (write_file_names p name (i + 1) (S n)
              (VSIFSeekL_SET (4244 + 256 * (i + 1))
                 (VSIFWriteL (strn_bytes name LCP_MAX_PATH)
                    (if (i =? 5) && negb (cpCrown p) && cpGround p
                     then VSIFSeekL_SET 6292 fp else fp)))).
    rewrite IH. lia.
Qed.

End Cursor.

(** C8 (cursor checks).  After the statistics section the cursor is at 2104,
    3340 or 4164 for every valid band count and every choice of the
    statistics options, so the first assertion holds.  The second does not
    hold throughout: for a source of 7 bands (ground fuels without crown
    fuels) that has a file list, the file-name loop jumps to 6292 for its
    sixth band and then seeks back to [4244 + 256 * (i + 1)], so it ends at
    6036, outside {5524, 6292, 6804}.  For the other band counts, and
    whenever there is no file list, the cursor is in that set. *)
Theorem C8_cursor_checks (fo : FloatOps) (src : GDALDataset) (p : CreateParams) :
  let n := src_band_count src in
  let ht := write_header fo src p (compute_stats fo p (srcBands src)) in
  valid_band_count n ->
  cpCrown p = ((n =? 8) || (n =? 10)) ->
  cpGround p = ((n =? 7) || (n =? 10)) ->
  (htStatsCursor ht = 2104 \/ htStatsCursor ht = 3340 \/ htStatsCursor ht = 4164) /\
  (n = 7 -> srcFileList src <> None ->
     htFilesCursor ht = 6036 /\ htAssertions ht = false) /\
  (n <> 7 \/ srcFileList src = None ->
     htFilesCursor ht = 5524 \/ htFilesCursor ht = 6292 \/ htFilesCursor ht = 6804).
Proof.
  intros n ht Hn Hc Hg.
  assert (Hfiles : match srcFileList src with
                   | Some _ => htFilesCursor ht = 4244 + 256 * n
                   | None => htFilesCursor ht = 6804
                   end).
  { unfold ht, write_header, write_files_section.
    cbn [htFilesCursor]. unfold VSIFTellL.
    destruct (srcFileList src) as [fl|]; [| reflexivity].
    unfold n, src_band_count in *.
    destruct (length (srcBands src)) as [|k];
      [unfold valid_band_count in Hn; cbn in Hn; lia |].
    rewrite write_file_names_pos. lia. }
  split; [| split].
  - unfold ht, write_header. cbn [htStatsCursor]. unfold VSIFTellL, write_stats_section.
    destruct (cpCalculateStats p); [| cbn; tauto].
    rewrite write_stats_pos, write_lead_pos;
      [| lia | rewrite length_panClasses; fold (src_band_count src); fold n; lia].
    unfold n, src_band_count in *.
    destruct Hn as [Hn | [Hn | [Hn | Hn]]]; rewrite Hn in Hc, Hg; cbn in Hc, Hg;
      [replace (length (srcBands src)) with 5%nat by lia
      |replace (length (srcBands src)) with 7%nat by lia
      |replace (length (srcBands src)) with 8%nat by lia
      |replace (length (srcBands src)) with 10%nat by lia];
      cbn [stats_cursor]; rewrite Hc, Hg; cbn; tauto.
  - intros H7 Hfl. destruct (srcFileList src); [| done].
    assert (htFilesCursor ht = 6036) as Hcur by lia.
    split; [exact Hcur |].
    unfold ht, write_header in *. cbn [htAssertions htFilesCursor] in *.
    unfold files_cursor_ok. rewrite Hcur. cbn.
    rewrite andb_false_r. reflexivity.
  - intros H. destruct (srcFileList src).
    + destruct H as [H | H]; [| discriminate].
      unfold valid_band_count in Hn. lia.
    + tauto.
Qed.

(** The premises of C8 at a seven-band source with a file list. *)
Lemma C8_cursor_checks_witness :
  htFilesCursor
    (write_header int_float_ops (example_source_files 7 ["a.tif"%string])
       {| cpCrown := false; cpGround := true; cpMetadata := [];
          cpCalculateStats := true; cpClassifyData := true; cpLinearUnits := 0;
          cpLatitude := double_of_Z 0; cpDescription := "" |}
       (compute_stats int_float_ops
          {| cpCrown := false; cpGround := true; cpMetadata := [];
             cpCalculateStats := true; cpClassifyData := true; cpLinearUnits := 0;
             cpLatitude := double_of_Z 0; cpDescription := "" |}
          (srcBands (example_source_files 7 ["a.tif"%string])))) = 6036.
Proof.
  refine (proj1 (proj1 (proj2 (C8_cursor_checks int_float_ops
            (example_source_files 7 ["a.tif"%string]) _ _ _ _)) _ _)).
  - right; left. reflexivity.
  - reflexivity.
  - reflexivity.
  - reflexivity.
  - discriminate.
Defined.

(** ** Files: what a write keeps and what it leaves *)

Section Files.

Implicit Types (fp : VSILFILE) (d c : list byte) (A : Z).

Lemma length_pad_to (p : nat) c : length (pad_to p c) = p.
Proof.
  unfold pad_to. rewrite length_app, length_take, length_replicate. lia.
Qed.

Lemma content_write b d fp :
  content (VSIFWriteL (b :: d) fp)
  = pad_to (Z.to_nat (pos fp)) (content fp) ++ (b :: d)
    ++ drop (Z.to_nat (pos fp) + length (b :: d)) (content fp).
Proof. unfold pad_to. cbn [VSIFWriteL content]. by rewrite <- app_assoc. Qed.

Lemma keeps_refl A fp : beyond A fp -> keeps A fp fp.
Proof. by split. Qed.

Lemma keeps_trans A fp1 fp2 fp3 :
  keeps A fp1 fp2 -> keeps A fp2 fp3 -> keeps A fp1 fp3.
Proof. intros [H1 _] [H2 H3]. split; [congruence | exact H3]. Qed.

Lemma keeps_write A d fp : beyond A fp -> keeps A fp (VSIFWriteL d fp).
Proof.
  intros [[HA Hp] Hl]. destruct d as [|b d]; [by apply keeps_refl |].
  unfold keeps, beyond. rewrite pos_write, content_write.
  unfold pad_to. rewrite !length_app, length_take. split; [| lia].
  rewrite <- !app_assoc.
  rewrite take_app_le by (rewrite length_take; lia).
  rewrite take_take. f_equal. lia.
Qed.

Lemma keeps_seek A off fp :
  beyond A fp -> A <= off -> keeps A fp (VSIFSeekL_SET off fp).
Proof.
  intros [[HA Hp] Hl] Hoff. unfold keeps, beyond. cbn [VSIFSeekL_SET content pos].
  split; [reflexivity | lia].
Qed.

Lemma keeps_seek_cur A off fp :
  beyond A fp -> 0 <= off -> keeps A fp (VSIFSeekL_CUR off fp).
Proof.
  intros [[HA Hp] Hl] Hoff. unfold keeps, beyond. cbn [VSIFSeekL_CUR content pos].
  split; [reflexivity | lia].
Qed.

Lemma keeps_beyond A fp fp' : keeps A fp fp' -> beyond A fp'.
Proof. by intros [_ H]. Qed.

Lemma keeps_weaken A B fp fp' :
  0 <= B <= A -> keeps A fp fp' -> keeps B fp fp'.
Proof.
  intros HB [Ht [[HA Hp] Hl]]. split; [| unfold beyond; lia].
  replace (Z.to_nat B) with (Z.to_nat B `min` Z.to_nat A)%nat by lia.
  rewrite <- !take_take. by rewrite Ht.
Qed.

(** A region below [A] reads the same in both files. *)
Lemma keeps_rd A fp fp' off (n : nat) :
  keeps A fp fp' -> 0 <= off -> off + Z.of_nat n <= A ->
  rd (content fp') off n = rd (content fp) off n.
Proof.
  intros [Ht _] Hoff Hn.
  rewrite <- (rd_take (content fp') off n (Z.to_nat A)) by lia.
  rewrite <- (rd_take (content fp) off n (Z.to_nat A)) by lia.
  by rewrite Ht.
Qed.

(** What was written is read back at the place of the write. *)
Lemma rd_write d fp :
  0 <= pos fp -> rd (content (VSIFWriteL d fp)) (pos fp) (length d) = d.
Proof.
  intros Hp. destruct d as [|b d]; [reflexivity |].
  rewrite content_write. unfold rd.
  rewrite drop_app_length' by (rewrite length_pad_to; lia).
  by rewrite take_app_length.
Qed.

Lemma length_write_ge d fp :
  0 <= pos fp -> d <> [] ->
  pos fp + Z.of_nat (length d) <= Z.of_nat (length (content (VSIFWriteL d fp))).
Proof.
  intros Hp Hd. destruct d as [|b d]; [done |].
  rewrite content_write, !length_app, length_pad_to. lia.
Qed.

Lemma length_write_mono d fp :
  (length (content fp) <= length (content (VSIFWriteL d fp)))%nat.
Proof.
  destruct d as [|b d]; [done |].
  rewrite content_write, !length_app, length_pad_to, length_drop. lia.
Qed.

(** Two writes in a row are one write of the two pieces. *)
Lemma write_write d1 d2 fp :
  0 <= pos fp -> VSIFWriteL d2 (VSIFWriteL d1 fp) = VSIFWriteL (d1 ++ d2) fp.
Proof.
  intros Hp. destruct d1 as [|b1 d1]; [reflexivity |].
  destruct d2 as [|b2 d2]; [by rewrite app_nil_r |].
  destruct fp as [c p]. cbn [pos] in Hp.
  change ((b1 :: d1) ++ b2 :: d2) with (b1 :: (d1 ++ b2 :: d2)).
  cbn [VSIFWriteL content pos].
  change (b1 :: d1 ++ b2 :: d2) with ((b1 :: d1) ++ b2 :: d2).
  generalize (b1 :: d1). generalize (b2 :: d2). intros D2 D1.
  f_equal; [| rewrite length_app; lia].
  replace (Z.to_nat (p + Z.of_nat (length D1))) with (Z.to_nat p + length D1)%nat by lia.
  rewrite !(app_assoc (take (Z.to_nat p) c) (replicate _ _)).
  fold (pad_to (Z.to_nat p) c).
  pose proof (length_pad_to (Z.to_nat p) c) as HX.
  generalize dependent (pad_to (Z.to_nat p) c). intros X HX.
  rewrite (app_assoc X D1).
  rewrite take_app_length' by (rewrite length_app; lia).
  replace (Z.to_nat p + length D1 - length ((X ++ D1) ++ _))%nat with 0%nat
    by (rewrite !length_app; lia).
  cbn [replicate app].
  rewrite drop_app_ge by (rewrite length_app; lia).
  rewrite drop_drop, length_app.
  rewrite <- !app_assoc. do 3 f_equal. f_equal. rewrite length_app. lia.
Qed.

End Files.

(** ** The stages of the writer *)

Section Stages.

Implicit Types (fp : VSILFILE) (d : list byte) (A : Z).

Lemma keeps_write' A d fp0 fp :
  keeps A fp0 fp -> keeps A fp0 (VSIFWriteL d fp).
Proof.
  intros H. eapply keeps_trans; [exact H |]. apply keeps_write.
  by eapply keeps_beyond.
Qed.

Lemma keeps_seek' A off fp0 fp :
  keeps A fp0 fp -> A <= off -> keeps A fp0 (VSIFSeekL_SET off fp).
Proof.
  intros H Hoff. eapply keeps_trans; [exact H |]. apply keeps_seek; [| exact Hoff].
  by eapply keeps_beyond.
Qed.

Lemma keeps_seek_cur' A off fp0 fp :
  keeps A fp0 fp -> 0 <= off -> keeps A fp0 (VSIFSeekL_CUR off fp).
Proof.
  intros H Hoff. eapply keeps_trans; [exact H |]. apply keeps_seek_cur; [| exact Hoff].
  by eapply keeps_beyond.
Qed.

Lemma write_stats_keeps A fo p st n : forall i fp0 fp,
  A <= 3340 -> keeps A fp0 fp -> keeps A fp0 (write_stats fo p st i n fp).
Proof.
  induction n as [|n IH]; intros i fp0 fp HA H; cbn [write_stats]; [exact H |].
  apply IH; [exact HA |].
  assert (keeps A fp0 (if (i =? 5) && negb (cpCrown p) && cpGround p
                       then VSIFSeekL_SET 3340 fp else fp)) as H1.
  { destruct ((i =? 5) && negb (cpCrown p) && cpGround p);
      [by apply keeps_seek' | exact H]. }
  destruct (cpClassifyData p).
  - by do 4 apply keeps_write'.
  - apply keeps_seek_cur'; [| unfold LCP_MAX_CLASSES; lia].
    by do 3 apply keeps_write'.
Qed.

Lemma write_stats_section_keeps A fo p st n fp0 fp :
  A <= 3340 -> keeps A fp0 fp -> keeps A fp0 (write_stats_section fo p st n fp).
Proof.
  intros HA H. unfold write_stats_section.
  destruct (cpCalculateStats p);
    [by apply write_stats_keeps | apply keeps_seek'; [exact H | lia]].
Qed.

Lemma write_geo_keeps A fo src p fp0 fp :
  A <= 4164 -> keeps A fp0 fp -> keeps A fp0 (write_geo fo src p fp).
Proof.
  intros HA H. unfold write_geo.
  do 10 apply keeps_write'. by apply keeps_seek'.
Qed.

Lemma write_file_names_keeps A p name n : forall i fp0 fp,
  A <= 4244 -> 0 <= i -> keeps A fp0 fp ->
  keeps A fp0 (write_file_names p name i n fp).
Proof.
  induction n as [|n IH]; intros i fp0 fp HA Hi H; cbn [write_file_names]; [exact H |].
  apply IH; [exact HA | lia |].
  apply keeps_seek'; [| lia]. apply keeps_write'.
  destruct ((i =? 5) && negb (cpCrown p) && cpGround p);
    [apply keeps_seek'; [exact H | lia] | exact H].
Qed.

Lemma write_files_section_keeps A src p n fp0 fp :
  A <= 4244 -> keeps A fp0 fp -> keeps A fp0 (write_files_section src p n fp).
Proof.
  intros HA H. unfold write_files_section.
  destruct (srcFileList src);
    [by apply write_file_names_keeps | apply keeps_seek'; [exact H | lia]].
Qed.

Lemma write_description_keeps A p fp0 fp :
  A <= 6804 -> keeps A fp0 fp -> keeps A fp0 (write_description p fp).
Proof.
  intros HA H. unfold write_description. apply keeps_write'. by apply keeps_seek'.
Qed.

Lemma copy_lines_keeps A progress src n : forall iLine buf fp0 fp,
  keeps A fp0 fp -> keeps A fp0 (copy_lines progress src iLine n buf fp).1.1.
Proof.
  induction n as [|n IH]; intros iLine buf fp0 fp H; cbn [copy_lines fst]; [exact H |].
  destruct (read_scanline _ _ _ _ _ _) as [buf' l].
  destruct (negb (progress (ProgressLine iLine (srcYSize src)))); cbn [fst].
  - by apply keeps_write'.
  - specialize (IH (iLine + 1) buf' fp0 (VSIFWriteL (flat_map le16 buf') fp)
                   (keeps_write' _ _ _ _ H)).
    destruct (copy_lines _ _ _ _ _ _) as [[fp' ok] l']. exact IH.
Qed.

Lemma copy_lines_mono progress src n : forall iLine buf fp,
  (length (content fp)
   <= length (content (copy_lines progress src iLine n buf fp).1.1))%nat.
Proof.
  induction n as [|n IH]; intros iLine buf fp; cbn [copy_lines fst]; [done |].
  destruct (read_scanline _ _ _ _ _ _) as [buf' l].
  pose proof (length_write_mono (flat_map le16 buf') fp) as Hw.
  destruct (negb (progress (ProgressLine iLine (srcYSize src)))); cbn [fst];
    [exact Hw |].
  specialize (IH (iLine + 1) buf' (VSIFWriteL (flat_map le16 buf') fp)).
  destruct (copy_lines _ _ _ _ _ _) as [[fp' ok] l']. cbn [fst] in *.
  exact (Nat.le_trans _ _ _ Hw IH).
Qed.

Lemma length_scatter nBands iBand row : forall k buf,
  length (scatter nBands iBand k row buf) = length buf.
Proof.
  induction row as [|v row IH]; intros k buf; cbn [scatter]; [done |].
  by rewrite IH, length_insert.
Qed.

Lemma length_read_scanline nBands nXSize iLine bands : forall iBand buf,
  length (read_scanline nBands nXSize iLine iBand bands buf).1 = length buf.
Proof.
  induction bands as [|b bands IH]; intros iBand buf; cbn [read_scanline]; [done |].
  destruct (nth _ (bandLines b) None) as [row|].
  - by rewrite IH, length_scatter.
  - specialize (IH (S iBand) buf).
    destruct (read_scanline _ _ _ _ _ _) as [buf' l]. exact IH.
Qed.

(** The first line written brings the file past the header. *)
Lemma copy_lines_length progress src n iLine buf fp :
  0 <= pos fp -> (0 < n)%nat -> (0 < length buf)%nat ->
  pos fp < Z.of_nat (length (content (copy_lines progress src iLine n buf fp).1.1)).
Proof.
  intros Hp Hn Hbuf. destruct n as [|n]; [lia |]. cbn [copy_lines].
  pose proof (length_read_scanline (length (srcBands src)) (srcXSize src) iLine
                (srcBands src) 0 buf) as Hlen.
  destruct (read_scanline _ _ _ _ _ _) as [buf' l]. cbn [fst] in Hlen.
  assert (flat_map le16 buf' <> []) as Hne.
  { intros E. apply (f_equal length) in E.
    rewrite length_flat_map_le16 in E. cbn in E. lia. }
  pose proof (length_write_ge _ fp Hp Hne) as Hw.
  rewrite length_flat_map_le16 in Hw.
  destruct (negb (progress (ProgressLine iLine (srcYSize src)))); cbn [fst];
    [eapply Z.lt_le_trans; [| exact Hw]; lia |].
  pose proof (copy_lines_mono progress src n (iLine + 1) buf'
                (VSIFWriteL (flat_map le16 buf') fp)) as Hm.
  destruct (copy_lines _ _ _ _ _ _) as [[fp' ok] l']. cbn [fst] in *.
  apply Nat2Z.inj_le in Hm. eapply Z.lt_le_trans; [| exact Hm].
  eapply Z.lt_le_trans; [| exact Hw]. lia.
Qed.

(** The lead of the header, as written on the fresh file. *)
Lemma write_at_end d fp :
  pos fp = Z.of_nat (length (content fp)) ->
  content (VSIFWriteL d fp) = content fp ++ d /\
  pos (VSIFWriteL d fp) = Z.of_nat (length (content (VSIFWriteL d fp))).
Proof.
  intros Hp. destruct d as [|b d]; [by rewrite app_nil_r |].
  rewrite pos_write, content_write. unfold pad_to.
  rewrite Hp, Nat2Z.id, take_ge, Nat.sub_diag, drop_ge by lia.
  cbn [replicate]. rewrite !app_nil_r. split; [reflexivity |].
  rewrite length_app. lia.
Qed.

Lemma writes_at_end (ds : list (list byte)) : forall fp,
  pos fp = Z.of_nat (length (content fp)) ->
  content (fold_left (fun f d => VSIFWriteL d f) ds fp) = content fp ++ concat ds.
Proof.
  induction ds as [|d ds IH]; intros fp Hp; cbn [fold_left concat];
    [by rewrite app_nil_r |].
  destruct (write_at_end d fp Hp) as [Hc Hp'].
  rewrite IH, Hc by exact Hp'. by rewrite app_assoc.
Qed.

Lemma write_lead_content fo src p :
  exists rest,
    content (write_lead fo src p VSIFOpenL_wb)
    = le32 (if cpCrown p then 21 else 20) ++ le32 (if cpGround p then 21 else 20)
      ++ le32 (f_to_int32 fo (fadd fo (cpLatitude p) (fhalf fo))) ++ rest.
Proof.
  change (write_lead fo src p VSIFOpenL_wb)
    with (fold_left (fun f d => VSIFWriteL d f)
            [le32 (if cpCrown p then 21 else 20);
             le32 (if cpGround p then 21 else 20);
             le32 (f_to_int32 fo (fadd fo (cpLatitude p) (fhalf fo)));
             double_bytes (dfEast_of fo src); double_bytes (gt0 (srcGT src));
             double_bytes (gt3 (srcGT src)); double_bytes (dfSouth_of fo src)]
            VSIFOpenL_wb).
  rewrite writes_at_end by reflexivity.
  cbn [VSIFOpenL_wb content concat app]. eexists. reflexivity.
Qed.

(** [write_geo] is one write of [geo_block] at 4164. *)
Lemma write_geo_block fo src p fp :
  write_geo fo src p fp = VSIFWriteL (geo_block fo src p) (VSIFSeekL_SET 4164 fp).
Proof.
  unfold write_geo, geo_block.
  rewrite !write_write by (rewrite ?pos_write; cbn [VSIFSeekL_SET pos]; lia).
  rewrite <- ?app_assoc. reflexivity.
Qed.

Lemma length_geo_block fo src p :
  length (cpMetadata p) = 10%nat -> length (geo_block fo src p) = 80%nat.
Proof.
  intros H. unfold geo_block.
  rewrite !length_app, !length_le32, !length_double_bytes, length_flat_map_le16, H.
  reflexivity.
Qed.

Lemma rd_sub (F B : list byte) off (n : nat) a (m : nat) :
  rd F off n = B -> 0 <= off -> 0 <= a -> a + Z.of_nat m <= Z.of_nat n ->
  rd F (off + a) m = take m (drop (Z.to_nat a) B).
Proof.
  intros <- Hoff Ha Hm. unfold rd. symmetry.
  replace n with (Z.to_nat a + (n - Z.to_nat a))%nat at 1 by lia.
  rewrite <- take_drop_commute, take_take, drop_drop.
  f_equal; [lia | f_equal; lia].
Qed.

(** The header as [write_header] leaves it: the first twelve bytes and the
    block at 4164. *)
Lemma write_header_fields fo src p st :
  length (cpMetadata p) = 10%nat ->
  let fp := htFile (write_header fo src p st) in
  beyond 4244 fp /\ pos fp = 7316 /\
  rd (content fp) 0 12
  = le32 (if cpCrown p then 21 else 20) ++ le32 (if cpGround p then 21 else 20)
    ++ le32 (f_to_int32 fo (fadd fo (cpLatitude p) (fhalf fo))) /\
  rd (content fp) 4164 80 = geo_block fo src p.
Proof.
  intros Hpm. unfold write_header. cbn [htFile].
  set (fp0 := write_lead fo src p VSIFOpenL_wb).
  set (fp1 := write_stats_section fo p st (length (srcBands src)) fp0).
  set (fp2 := write_geo fo src p fp1).
  assert (beyond 12 fp0) as H0.
  { unfold beyond, fp0. rewrite write_lead_pos.
    destruct (write_lead_content fo src p) as (rest & ->).
    rewrite !length_app, !length_le32. lia. }
  assert (keeps 12 fp0 fp1) as H01
    by (apply write_stats_section_keeps; [lia | by apply keeps_refl]).
  assert (0 <= pos fp1) as Hp1 by (destruct H01 as [_ [[? ?] _]]; lia).
  assert (beyond 4244 fp2 /\ rd (content fp2) 4164 80 = geo_block fo src p)
    as [H2 Hblock].
  { unfold fp2. rewrite write_geo_block.
    pose proof (length_geo_block fo src p Hpm) as Hlen.
    pose proof (rd_write (geo_block fo src p) (VSIFSeekL_SET 4164 fp1)) as Hrd.
    pose proof (length_write_ge (geo_block fo src p) (VSIFSeekL_SET 4164 fp1)) as Hge.
    cbn [VSIFSeekL_SET pos] in Hrd, Hge. rewrite Hlen in Hrd, Hge.
    split; [| apply Hrd; lia].
    unfold beyond. rewrite pos_write, Hlen. cbn [VSIFSeekL_SET pos].
    split; [lia |]. apply Hge; [lia |].
    intros E. rewrite E in Hlen. discriminate Hlen. }
  set (fp3 := write_files_section src p (length (srcBands src)) fp2).
  set (fp4 := write_description p fp3).
  assert (keeps 4244 fp2 (VSIFSeekL_SET 7316 fp4)) as H24.
  { apply keeps_seek'; [| lia]. apply write_description_keeps; [lia |].
    apply write_files_section_keeps; [lia |]. by apply keeps_refl. }
  assert (keeps 12 fp0 (VSIFSeekL_SET 7316 fp4)) as H04.
  { apply keeps_seek'; [| lia]. apply write_description_keeps; [lia |].
    apply write_files_section_keeps; [lia |].
    apply write_geo_keeps; [lia |]. exact H01. }
  split; [by eapply keeps_beyond |]. split; [reflexivity |]. split.
  - rewrite (keeps_rd 12 fp0 _ 0 12 H04) by lia.
    unfold fp0. destruct (write_lead_content fo src p) as (rest & ->).
    unfold rd. change (Z.to_nat 0) with 0%nat. rewrite drop_0, !app_assoc.
    rewrite take_app_length'; [reflexivity |].
    rewrite !length_app, !length_le32. reflexivity.
  - rewrite <- Hblock.
    destruct H24 as [Ht _]. unfold rd.
    rewrite !(take_drop_commute _ 80).
    replace (Z.to_nat 4164 + 80)%nat with (Z.to_nat 4244) by lia.
    by rewrite Ht.
Qed.

(** The same fields in the finished image, which reaches past the header. *)
Lemma image_fields fo progress src p :
  progress ProgressStart = true ->
  length (cpMetadata p) = 10%nat ->
  srcBands src <> [] -> 1 <= srcXSize src -> 1 <= srcYSize src ->
  let F := imgBytes (CreateCopy_image fo progress src p) in
  LCP_HEADER_SIZE <= Z.of_nat (length F) /\
  rd F 0 12
  = le32 (if cpCrown p then 21 else 20) ++ le32 (if cpGround p then 21 else 20)
    ++ le32 (f_to_int32 fo (fadd fo (cpLatitude p) (fhalf fo))) /\
  rd F 4164 80 = geo_block fo src p.
Proof.
  intros Hstart Hpm Hbands Hx Hy. unfold CreateCopy_image. rewrite Hstart. cbn [negb].
  destruct (write_header_fields fo src p (compute_stats fo p (srcBands src)) Hpm)
    as (Hb & Hpos & Hlead & Hblock).
  set (fp := htFile (write_header fo src p (compute_stats fo p (srcBands src)))) in *.
  set (buf := replicate (length (srcBands src) * Z.to_nat (srcXSize src)) 0).
  pose proof (copy_lines_keeps 4244 progress src (Z.to_nat (srcYSize src)) 0 buf
                fp fp (keeps_refl _ _ Hb)) as Hk.
  assert (0 < length buf)%nat as Hbuf.
  { unfold buf. rewrite length_replicate.
    destruct (srcBands src); [done |]. cbn [length]. lia. }
  pose proof (copy_lines_length progress src (Z.to_nat (srcYSize src)) 0 buf fp
                ltac:(lia) ltac:(lia) Hbuf) as Hlen.
  destruct (copy_lines _ _ _ _ _ _) as [[fp' ok] l]. cbn [fst imgBytes] in *.
  split; [unfold LCP_HEADER_SIZE; lia |]. split.
  - rewrite <- Hlead. apply (keeps_rd 4244 fp fp' 0 12 Hk); lia.
  - rewrite <- Hblock. apply (keeps_rd 4244 fp fp' 4164 80 Hk); lia.
Qed.

End Stages.

(** ** What a successful verification yields *)

Section ValidationResults.

Lemma bind_Some {A B : Type} (m : M A) (k : A -> M B) l b l' :
  (m ≫= k) l = (Some b, l') ->
  exists a l1, m l = (Some a, l1) /\ k a l1 = (Some b, l').
Proof.
  unfold mbind, M_bind. destruct (m l) as [[a|] l1]; [| discriminate].
  intros H. by exists a, l1.
Qed.

Local Ltac small_code_tac :=
  intros l k l';
  repeat match goal with
         | |- context [if ?c then _ else _] => destruct c
         end;
  unfold mret, M_ret, fail; intros [= <- _] || intros [=]; lia.

Lemma opt_ELEVATION_UNIT_small o : small_code (opt_ELEVATION_UNIT o).
Proof. unfold opt_ELEVATION_UNIT. small_code_tac. Qed.
Lemma opt_SLOPE_UNIT_small o : small_code (opt_SLOPE_UNIT o).
Proof. unfold opt_SLOPE_UNIT. small_code_tac. Qed.
Lemma opt_ASPECT_UNIT_small o : small_code (opt_ASPECT_UNIT o).
Proof. unfold opt_ASPECT_UNIT. small_code_tac. Qed.
Lemma opt_FUEL_MODEL_OPTION_small o : small_code (opt_FUEL_MODEL_OPTION o).
Proof. unfold opt_FUEL_MODEL_OPTION. small_code_tac. Qed.
Lemma opt_CANOPY_COV_UNIT_small o : small_code (opt_CANOPY_COV_UNIT o).
Proof. unfold opt_CANOPY_COV_UNIT. small_code_tac. Qed.
Lemma opt_CANOPY_HT_UNIT_small o : small_code (opt_CANOPY_HT_UNIT o).
Proof. unfold opt_CANOPY_HT_UNIT, opt_height_unit. small_code_tac. Qed.
Lemma opt_CBH_UNIT_small o : small_code (opt_CBH_UNIT o).
Proof. unfold opt_CBH_UNIT, opt_height_unit. small_code_tac. Qed.
Lemma opt_CBD_UNIT_small o : small_code (opt_CBD_UNIT o).
Proof. unfold opt_CBD_UNIT. small_code_tac. Qed.
Lemma opt_DUFF_UNIT_small o : small_code (opt_DUFF_UNIT o).
Proof. unfold opt_DUFF_UNIT. small_code_tac. Qed.

(** [panMetadata] has ten entries, each a code between 0 and 4. *)
Lemma unit_codes_Some o crown ground l pm l' :
  unit_codes o crown ground l = (Some pm, l') ->
  length pm = 10%nat /\ Forall (fun m => 0 <= m <= 4) pm.
Proof.
  unfold unit_codes. intros H.
  apply bind_Some in H as (m0 & l0 & H0 & H). apply opt_ELEVATION_UNIT_small in H0.
  apply bind_Some in H as (m1 & l1 & H1 & H). apply opt_SLOPE_UNIT_small in H1.
  apply bind_Some in H as (m2 & l2 & H2 & H). apply opt_ASPECT_UNIT_small in H2.
  apply bind_Some in H as (m3 & l3 & H3 & H). apply opt_FUEL_MODEL_OPTION_small in H3.
  apply bind_Some in H as (m4 & l4 & H4 & H). apply opt_CANOPY_COV_UNIT_small in H4.
  apply bind_Some in H as ([[m5 m6] m7] & l5 & H5 & H).
  apply bind_Some in H as ([m8 m9] & l6 & H6 & H).
  injection H as <- _. cbn [fst snd].
  assert (0 <= m5 <= 4 /\ 0 <= m6 <= 4 /\ 0 <= m7 <= 4) as (? & ? & ?).
  { destruct crown.
    - apply bind_Some in H5 as (a & la & Ha & H5). apply opt_CANOPY_HT_UNIT_small in Ha.
      apply bind_Some in H5 as (b & lb & Hb & H5). apply opt_CBH_UNIT_small in Hb.
      apply bind_Some in H5 as (c & lc & Hc & H5). apply opt_CBD_UNIT_small in Hc.
      injection H5 as <- <- <- _. done.
    - injection H5 as <- <- <- _. lia. }
  assert (0 <= m8 <= 4 /\ 0 <= m9 <= 4) as (? & ?).
  { destruct ground.
    - apply bind_Some in H6 as (a & la & Ha & H6). apply opt_DUFF_UNIT_small in Ha.
      injection H6 as <- <- _. lia.
    - injection H6 as <- <- _. lia. }
  split; [reflexivity |]. repeat constructor; lia.
Qed.

Lemma check_band_count_Some n l u l' :
  check_band_count n l = (Some u, l') -> valid_band_count n.
Proof.
  unfold check_band_count, valid_band_count.
  destruct (Z.eqb_spec n 5), (Z.eqb_spec n 7), (Z.eqb_spec n 8), (Z.eqb_spec n 10);
    cbn [negb andb]; try lia.
  discriminate.
Qed.

Lemma CreateCopy_validate_Some fo src bStrict o l0 p l :
  CreateCopy_validate fo src bStrict o l0 = (Some p, l) ->
  let n := src_band_count src in
  valid_band_count n /\
  cpCrown p = ((n =? 8) || (n =? 10)) /\
  cpGround p = ((n =? 7) || (n =? 10)) /\
  length (cpMetadata p) = 10%nat /\
  Forall (fun m => 0 <= m <= 4) (cpMetadata p).
Proof.
  intros H n. unfold CreateCopy_validate in H.
  apply bind_Some in H as (u & l1 & Hn & H). apply check_band_count_Some in Hn.
  apply bind_Some in H as (u' & l2 & _ & H).
  apply bind_Some in H as (pm & l3 & Hpm & H). apply unit_codes_Some in Hpm.
  apply bind_Some in H as (fl & l4 & _ & H).
  apply bind_Some in H as (lat & l5 & _ & H).
  apply bind_Some in H as (dfLat & l6 & _ & H).
  apply bind_Some in H as (lin & l7 & _ & H).
  injection H as <- _. cbn [cpCrown cpGround cpMetadata].
  tauto.
Qed.

End ValidationResults.

(** ** The unit/option codes that [Open] reports *)

Section ReportedCodes.

Lemma set_unit_name_lookup_ne key names n : forall (md : gmap string MDValue) k,
  k <> key -> set_unit_name key names n md !! k = md !! k.
Proof.
  induction names as [|[c s] names IH]; intros md k Hk; cbn [set_unit_name]; [done |].
  rewrite IH by done. destruct (n =? c); [| done].
  by rewrite lookup_insert_ne.
Qed.

Lemma band_metadata_code iBand bl pach key :
  key <> blNameKey bl -> key <> (blPrefix bl +:+ "_MIN")%string ->
  key <> (blPrefix bl +:+ "_MAX")%string ->
  key <> (blPrefix bl +:+ "_NUM_CLASSES")%string ->
  key <> (blPrefix bl +:+ "_FILE")%string -> key <> "FUEL_MODEL_VALUES"%string ->
  forall img ps ls desc,
  band_code key {| rbImgOffset := img; rbPixelOffset := ps; rbLineOffset := ls;
                   rbDescription := desc;
                   rbMetadata := (band_metadata iBand bl pach).2 |}
  = if String.eqb key (blUnitKey bl)
    then Some (CPL_LSBUINT16PTR pach (blUnitOff bl)) else None.
Proof.
  intros H1 H2 H3 H4 H5 H6 img ps ls desc.
  unfold band_code, band_metadata. cbn [rbMetadata snd].
  rewrite lookup_insert_ne by done.
  assert (forall md : gmap string MDValue,
            (if iBand =? 4
             then <["FUEL_MODEL_VALUES"%string :=
                      MDIntList (fuel_model_values pach
                         (CPL_LSBSINT32PTR pach (blStatOff bl))
                         (CPL_LSBSINT32PTR pach (blStatOff bl + 4))
                         (CPL_LSBSINT32PTR pach (blStatOff bl + 8)))]> md
             else md) !! key = md !! key) as ->.
  { intros md. destruct (iBand =? 4); [by rewrite lookup_insert_ne | done]. }
  rewrite !lookup_insert_ne by done.
  rewrite set_unit_name_lookup_ne by done.
  destruct (String.eqb_spec key (blUnitKey bl)) as [-> | Hne].
  - by rewrite lookup_insert_eq.
  - rewrite lookup_insert_ne by done. by rewrite lookup_empty.
Qed.

Local Ltac layout_cases H :=
  unfold band_layout in H;
  match type of H with
  | context [match ?i with _ => _ end] =>
      destruct i as [|q|q]; try discriminate H;
      repeat (destruct q as [q|q|]; try discriminate H)
  end.

(** Every layout keeps its unit code below, and its file name at or above,
    offset 4244. *)
Lemma band_layout_offsets crown iBand bl :
  band_layout crown iBand = Some bl ->
  0 <= blUnitOff bl /\ blUnitOff bl + 2 <= 4244 /\ 4244 <= blFileOff bl.
Proof.
  intros H. layout_cases H; destruct crown; injection H as <-; cbn; lia.
Qed.

Lemma band_layout_code crown iBand bl pach key :
  band_layout crown iBand = Some bl -> key ∈ unit_keys ->
  forall img ps ls desc,
  band_code key {| rbImgOffset := img; rbPixelOffset := ps; rbLineOffset := ls;
                   rbDescription := desc;
                   rbMetadata := (band_metadata iBand bl pach).2 |}
  = if String.eqb key (blUnitKey bl)
    then Some (CPL_LSBUINT16PTR pach (blUnitOff bl)) else None.
Proof.
  intros H Hkey.
  assert (key <> blNameKey bl /\ key <> (blPrefix bl +:+ "_MIN")%string /\
          key <> (blPrefix bl +:+ "_MAX")%string /\
          key <> (blPrefix bl +:+ "_NUM_CLASSES")%string /\
          key <> (blPrefix bl +:+ "_FILE")%string /\ key <> "FUEL_MODEL_VALUES"%string)
    as (H1 & H2 & H3 & H4 & H5 & H6).
  { unfold unit_keys in Hkey.
    layout_cases H; destruct crown; injection H as <-;
      repeat (apply elem_of_cons in Hkey as [-> | Hkey]);
      try (by apply elem_of_nil in Hkey);
      cbn; repeat split; discriminate. }
  intros. by apply band_metadata_code.
Qed.

Lemma unit_code_app key (a b : list RawRasterBand) :
  unit_code key (a ++ b)
  = match unit_code key a with Some n => Some n | None => unit_code key b end.
Proof.
  induction a as [|x a IH]; cbn [unit_code app]; [done |].
  destruct (band_code key x); [done | exact IH].
Qed.

Lemma open_bands_codes raw_ok crown ps w key (code_at : Z -> Z) :
  key ∈ unit_keys ->
  forall ibs pach acc pach' bands,
  (forall off, 0 <= off -> off + 2 <= 4244 ->
     CPL_LSBUINT16PTR pach off = code_at off) ->
  open_bands raw_ok crown ps w ibs pach acc = Some (pach', bands) ->
  unit_code key bands
  = match unit_code key acc with
    | Some n => Some n
    | None => expected_code crown code_at key ibs
    end.
Proof.
  intros Hkey. induction ibs as [|iBand ibs IH]; intros pach acc pach' bands Hp H;
    cbn [open_bands expected_code] in *.
  - injection H as _ <-. by destruct (unit_code key acc).
  - destruct (raw_ok _ _ _ _); cbn [negb] in H; [| discriminate].
    destruct (band_layout crown iBand) as [bl|] eqn:Hbl.
    + destruct (band_layout_offsets _ _ _ Hbl) as (Hu0 & Hu1 & Hf).
      cbn [band_metadata] in H.
      apply IH in H.
      * rewrite H, unit_code_app. cbn [unit_code].
        rewrite (band_layout_code crown iBand bl pach key Hbl Hkey).
        destruct (unit_code key acc); [done |].
        destruct (String.eqb key (blUnitKey bl)); [| done].
        by rewrite Hp.
      * intros off H0 H2. rewrite uint16_poke_nul by lia. by apply Hp.
    + cbv beta iota in H. apply IH in H; [| exact Hp].
      rewrite H, unit_code_app. cbn [unit_code]. unfold band_code at 1.
      cbn [rbMetadata]. rewrite lookup_empty. by destruct (unit_code key acc).
Qed.

Lemma open_bands_reads raw_ok crown ps w : forall ibs pach acc pach' bands,
  open_bands raw_ok crown ps w ibs pach acc = Some (pach', bands) ->
  forall off (n : nat), 0 <= off -> off + Z.of_nat n <= 4244 ->
  rd pach' off n = rd pach off n.
Proof.
  induction ibs as [|iBand ibs IH]; intros pach acc pach' bands H off n H0 Hn;
    cbn [open_bands] in H.
  - by injection H as <- _.
  - destruct (raw_ok _ _ _ _); cbn [negb] in H; [| discriminate].
    destruct (band_layout crown iBand) as [bl|] eqn:Hbl.
    + destruct (band_layout_offsets _ _ _ Hbl) as (_ & _ & Hf).
      cbn [band_metadata] in H.
      rewrite (IH _ _ _ _ H off n H0 Hn). apply rd_poke_nul; lia.
    + cbv beta iota in H. by rewrite (IH _ _ _ _ H off n H0 Hn).
Qed.

End ReportedCodes.

(** ** The round trip *)

Section RoundTrip.

Lemma drop_piece (a b : list byte) (n k : nat) :
  length a = n -> drop (n + k) (a ++ b) = drop k b.
Proof. intros <-. by rewrite drop_app_add. Qed.

Lemma take_piece (a b : list byte) (n : nat) :
  length a = n -> take n (a ++ b) = a.
Proof. intros <-. apply take_app_length. Qed.

Lemma sint32_of_rd (F : list byte) off z :
  rd F off 4 = le32 z -> - 2 ^ 31 <= z < 2 ^ 31 -> CPL_LSBSINT32PTR F off = z.
Proof. intros H Hz. unfold CPL_LSBSINT32PTR. rewrite H. by apply wrap32_le32. Qed.

Lemma uint16_of_rd (F : list byte) off z :
  rd F off 2 = le16 z -> 0 <= z <= 4 -> CPL_LSBUINT16PTR F off = z.
Proof.
  intros H Hz. unfold CPL_LSBUINT16PTR. rewrite H. apply le_combine_le16. lia.
Qed.

Local Ltac piece_len :=
  first [apply length_le32 | apply length_le16 | apply length_double_bytes].

(** The fields of the finished image, decoded. *)
Lemma image_decoded fo progress src p :
  progress ProgressStart = true ->
  length (cpMetadata p) = 10%nat ->
  Forall (fun m => 0 <= m <= 4) (cpMetadata p) ->
  srcBands src <> [] ->
  1 <= srcXSize src <= INT_MAX -> 1 <= srcYSize src <= INT_MAX ->
  let F := imgBytes (CreateCopy_image fo progress src p) in
  LCP_HEADER_SIZE <= Z.of_nat (length F) /\
  CPL_LSBSINT32PTR F 0 = (if cpCrown p then 21 else 20) /\
  CPL_LSBSINT32PTR F 4 = (if cpGround p then 21 else 20) /\
  CPL_LSBSINT32PTR F 8 = latitude_field fo p /\
  CPL_LSBSINT32PTR F 4164 = srcXSize src /\
  CPL_LSBSINT32PTR F 4168 = srcYSize src /\
  rd F 4172 8 = double_bytes (dfEast_of fo src) /\
  rd F 4180 8 = double_bytes (gt0 (srcGT src)) /\
  rd F 4188 8 = double_bytes (gt3 (srcGT src)) /\
  rd F 4196 8 = double_bytes (dfSouth_of fo src) /\
  rd F 4208 8 = double_bytes (gt1 (srcGT src)) /\
  rd F 4216 8 = double_bytes (ffabs fo (gt5 (srcGT src))) /\
  map (fun off => CPL_LSBUINT16PTR F off)
      [4224; 4226; 4228; 4230; 4232; 4234; 4236; 4238; 4240; 4242]
  = cpMetadata p.
Proof.
  intros Hstart Hlen Hrange Hbands Hx Hy F.
  destruct (image_fields fo progress src p Hstart Hlen Hbands
              ltac:(lia) ltac:(lia)) as (HF & Hlead & Hblock).
  fold F in HF, Hlead, Hblock.
  split; [exact HF |].
  (* the lead *)
  pose proof (rd_sub F _ 0 12 0 4 Hlead ltac:(lia) ltac:(lia) ltac:(lia)) as H0.
  pose proof (rd_sub F _ 0 12 4 4 Hlead ltac:(lia) ltac:(lia) ltac:(lia)) as H4.
  pose proof (rd_sub F _ 0 12 8 4 Hlead ltac:(lia) ltac:(lia) ltac:(lia)) as H8.
  change (0 + 0) with 0 in H0. change (0 + 4) with 4 in H4. change (0 + 8) with 8 in H8.
  change (Z.to_nat 0) with 0%nat in H0.
  change (Z.to_nat 4) with (4 + 0)%nat in H4.
  change (Z.to_nat 8) with (4 + (4 + 0))%nat in H8.
  rewrite drop_0, take_piece in H0 by piece_len.
  rewrite drop_piece, drop_0, take_piece in H4 by piece_len.
  do 2 (rewrite drop_piece in H8 by piece_len). rewrite drop_0 in H8.
  rewrite take_ge in H8 by (rewrite length_le32; lia).
  split; [apply sint32_of_rd; [exact H0 | destruct (cpCrown p); lia] |].
  split; [apply sint32_of_rd; [exact H4 | destruct (cpGround p); lia] |].
  split.
  { unfold CPL_LSBSINT32PTR, latitude_field. rewrite H8.
    unfold wrap32, le32. rewrite le_combine_split.
    change (Z.of_nat 4 * 8) with 32. by rewrite Zplus_mod_idemp_l. }
  (* the block at 4164 *)
  unfold geo_block in Hblock.
  assert (forall (a : Z) (m k : nat),
            0 <= a -> a + Z.of_nat m <= 80 -> Z.to_nat a = k ->
            rd F (4164 + a) m
            = take m (drop k
                (le32 (srcXSize src) ++ le32 (srcYSize src)
                 ++ double_bytes (dfEast_of fo src)
                 ++ double_bytes (gt0 (srcGT src))
                 ++ double_bytes (gt3 (srcGT src))
                 ++ double_bytes (dfSouth_of fo src)
                 ++ le32 (cpLinearUnits p)
                 ++ double_bytes (gt1 (srcGT src))
                 ++ double_bytes (ffabs fo (gt5 (srcGT src)))
                 ++ flat_map le16 (cpMetadata p)))) as Hcut.
  { intros a m k Ha Hm <-. apply (rd_sub F _ 4164 80 a m Hblock); lia. }
  pose proof (Hcut 0 4%nat 0%nat ltac:(lia) ltac:(lia) eq_refl) as Hw.
  pose proof (Hcut 4 4%nat (4 + 0)%nat ltac:(lia) ltac:(lia) eq_refl) as Hh.
  pose proof (Hcut 8 8%nat (4 + (4 + 0))%nat ltac:(lia) ltac:(lia) eq_refl) as He.
  pose proof (Hcut 16 8%nat (4 + (4 + (8 + 0)))%nat ltac:(lia) ltac:(lia) eq_refl) as Hwe.
  pose proof (Hcut 24 8%nat (4 + (4 + (8 + (8 + 0))))%nat
                ltac:(lia) ltac:(lia) eq_refl) as Hno.
  pose proof (Hcut 32 8%nat (4 + (4 + (8 + (8 + (8 + 0)))))%nat
                ltac:(lia) ltac:(lia) eq_refl) as Hso.
  pose proof (Hcut 44 8%nat (4 + (4 + (8 + (8 + (8 + (8 + (4 + 0)))))))%nat
                ltac:(lia) ltac:(lia) eq_refl) as Hcx.
  pose proof (Hcut 52 8%nat (4 + (4 + (8 + (8 + (8 + (8 + (4 + (8 + 0))))))))%nat
                ltac:(lia) ltac:(lia) eq_refl) as Hcy.
  assert (forall (a : Z) (m k : nat),
            0 <= a -> a + Z.of_nat m <= 20 -> Z.to_nat a = k ->
            rd F (4224 + a) m = take m (drop k (flat_map le16 (cpMetadata p))))
    as Hcode.
  { intros a m k Ha Hm <-.
    replace (4224 + a) with (4164 + (60 + a)) by lia.
    rewrite (Hcut (60 + a) m (4 + (4 + (8 + (8 + (8 + (8 + (4 + (8 + (8 + Z.to_nat a)))))))))%nat)
      by lia.
    do 9 (rewrite drop_piece by piece_len). reflexivity. }
  clear Hcut.
  change (4164 + 0) with 4164 in Hw. change (4164 + 4) with 4168 in Hh.
  change (4164 + 8) with 4172 in He. change (4164 + 16) with 4180 in Hwe.
  change (4164 + 24) with 4188 in Hno. change (4164 + 32) with 4196 in Hso.
  change (4164 + 44) with 4208 in Hcx. change (4164 + 52) with 4216 in Hcy.
  rewrite drop_0, take_piece in Hw by piece_len.
  do 1 (rewrite drop_piece in Hh by piece_len).
  do 2 (rewrite drop_piece in He by piece_len).
  do 3 (rewrite drop_piece in Hwe by piece_len).
  do 4 (rewrite drop_piece in Hno by piece_len).
  do 5 (rewrite drop_piece in Hso by piece_len).
  do 7 (rewrite drop_piece in Hcx by piece_len).
  do 8 (rewrite drop_piece in Hcy by piece_len).
  rewrite drop_0, take_piece in Hh, He, Hwe, Hno, Hso, Hcx, Hcy by piece_len.
  unfold INT_MAX in *.
  split; [apply sint32_of_rd; [exact Hw | lia] |].
  split; [apply sint32_of_rd; [exact Hh | lia] |].
  do 6 (split; [assumption |]).
  (* the ten codes *)
  destruct (cpMetadata p) as [|m0 [|m1 [|m2 [|m3 [|m4 [|m5 [|m6 [|m7 [|m8 [|m9 [|? ?]]]]]]]]]]];
    try discriminate Hlen.
  cbn [flat_map] in Hcode. rewrite app_nil_r in Hcode.
  repeat match goal with
         | H : Forall _ (_ :: _) |- _ => apply Forall_cons in H as [? H]
         end.
  cbn [map].
  pose proof (Hcode 0 2%nat 0%nat ltac:(lia) ltac:(lia) eq_refl) as C0.
  pose proof (Hcode 2 2%nat (2 + 0)%nat ltac:(lia) ltac:(lia) eq_refl) as C1.
  pose proof (Hcode 4 2%nat (2 + (2 + 0))%nat ltac:(lia) ltac:(lia) eq_refl) as C2.
  pose proof (Hcode 6 2%nat (2 + (2 + (2 + 0)))%nat ltac:(lia) ltac:(lia) eq_refl) as C3.
  pose proof (Hcode 8 2%nat (2 + (2 + (2 + (2 + 0))))%nat
                ltac:(lia) ltac:(lia) eq_refl) as C4.
  pose proof (Hcode 10 2%nat (2 + (2 + (2 + (2 + (2 + 0)))))%nat
                ltac:(lia) ltac:(lia) eq_refl) as C5.
  pose proof (Hcode 12 2%nat (2 + (2 + (2 + (2 + (2 + (2 + 0))))))%nat
                ltac:(lia) ltac:(lia) eq_refl) as C6.
  pose proof (Hcode 14 2%nat (2 + (2 + (2 + (2 + (2 + (2 + (2 + 0)))))))%nat
                ltac:(lia) ltac:(lia) eq_refl) as C7.
  pose proof (Hcode 16 2%nat (2 + (2 + (2 + (2 + (2 + (2 + (2 + (2 + 0))))))))%nat
                ltac:(lia) ltac:(lia) eq_refl) as C8.
  pose proof (Hcode 18 2%nat (2 + (2 + (2 + (2 + (2 + (2 + (2 + (2 + (2 + 0)))))))))%nat
                ltac:(lia) ltac:(lia) eq_refl) as C9.
  clear Hcode.
  change (4224 + 0) with 4224 in C0. change (4224 + 2) with 4226 in C1.
  change (4224 + 4) with 4228 in C2. change (4224 + 6) with 4230 in C3.
  change (4224 + 8) with 4232 in C4. change (4224 + 10) with 4234 in C5.
  change (4224 + 12) with 4236 in C6. change (4224 + 14) with 4238 in C7.
  change (4224 + 16) with 4240 in C8. change (4224 + 18) with 4242 in C9.
  do 1 (rewrite drop_piece in C1 by piece_len).
  do 2 (rewrite drop_piece in C2 by piece_len).
  do 3 (rewrite drop_piece in C3 by piece_len).
  do 4 (rewrite drop_piece in C4 by piece_len).
  do 5 (rewrite drop_piece in C5 by piece_len).
  do 6 (rewrite drop_piece in C6 by piece_len).
  do 7 (rewrite drop_piece in C7 by piece_len).
  do 8 (rewrite drop_piece in C8 by piece_len).
  do 9 (rewrite drop_piece in C9 by piece_len).
  rewrite drop_0 in C0, C1, C2, C3, C4, C5, C6, C7, C8, C9.
  rewrite take_piece in C0, C1, C2, C3, C4, C5, C6, C7, C8 by piece_len.
  rewrite take_ge in C9 by (rewrite length_le16; lia).
  rewrite (uint16_of_rd F _ m0 C0), (uint16_of_rd F _ m1 C1), (uint16_of_rd F _ m2 C2),
    (uint16_of_rd F _ m3 C3), (uint16_of_rd F _ m4 C4), (uint16_of_rd F _ m5 C5),
    (uint16_of_rd F _ m6 C6), (uint16_of_rd F _ m7 C7), (uint16_of_rd F _ m8 C8),
    (uint16_of_rd F _ m9 C9) by assumption.
  reflexivity.
Qed.

Lemma bands_creatable_all raw_ok ps w ibs :
  (forall a b c d, raw_ok a b c d = true) -> bands_creatable raw_ok ps w ibs = true.
Proof.
  intros H. unfold bands_creatable. induction ibs as [|i ibs IH]; [done |].
  cbn [forallb]. by rewrite H, IH.
Qed.

End RoundTrip.

(** C1 as stated does not hold: for a five-band source the file carries the
    ten codes [0; 0; 2; 0; 1; 3; 3; 3; 1; 0], but the dataset that [Open]
    returns reports only the five codes of its bands. *)
Lemma C1_counterexample_five_bands :
  CreateCopy_validate int_float_ops (example_source 5) false example_options []
  = (Some example_params,
     [(CE_Warning,
       "Could not parse linear unit from spatial reference and LINEAR_UNIT was not set, defaulting to meters."%string)]) /\
  exists ds,
    Open (fun _ _ _ _ => true)
         (GDALOpenInfo_new "lcp" GA_ReadOnly
            (imgBytes (CreateCopy_image int_float_ops (fun _ => true)
                         (example_source 5) example_params))) = Some ds /\
    decoded_unit_codes ds
    = [Some 0; Some 0; Some 2; Some 0; Some 1; None; None; None; None; None] /\
    decoded_unit_codes ds <> map Some (cpMetadata example_params).
Proof.
  split; [vm_compute; reflexivity |].
  assert (option_map decoded_unit_codes
            (Open (fun _ _ _ _ => true)
               (GDALOpenInfo_new "lcp" GA_ReadOnly
                  (imgBytes (CreateCopy_image int_float_ops (fun _ => true)
                               (example_source 5) example_params))))
          = Some [Some 0; Some 0; Some 2; Some 0; Some 1; None; None; None; None; None])
    as H by (vm_compute; reflexivity).
  destruct (Open _ _) as [ds|]; [| discriminate H].
  cbn [option_map] in H. apply (inj Some) in H.
  exists ds. split; [reflexivity |]. split; [exact H |].
  rewrite H. discriminate.
Qed.

(** C1, amended.  For a source that passes the verification of [CreateCopy]
    (a valid band count and valid options), with a raster of at least one
    pixel whose rows fit, a latitude within [-90, 90] and a copy that runs to
    its end, [Open] accepts the file written, when it is opened read-only
    under a name with the extension lcp and its raw bands can be created,
    and yields the same two feature flags, the same band count and raster
    size, the same bounds (east, west, north, south), the same cell sizes,
    and, for each band present, the same unit/option code: the five codes of
    the base bands always, the three crown-fuel codes with crown fuels only,
    the two ground-fuel codes with ground fuels only. *)
Theorem C1_header_round_trip
    (fo : FloatOps) (progress : ProgressEvent -> bool)
    (raw_ok : Z -> Z -> Z -> Z -> bool) (src : GDALDataset) (bStrict : bool)
    (o : CSL) (p : CreateParams) (l : Log) (ext : string) :
  CreateCopy_validate fo src bStrict o [] = (Some p, l) ->
  imgCompleted (CreateCopy_image fo progress src p) = true ->
  1 <= srcXSize src <= INT_MAX / (src_band_count src * 2) ->
  1 <= srcYSize src <= INT_MAX ->
  -90 <= latitude_field fo p <= 90 ->
  EQUAL ext "lcp" = true ->
  (forall a b c d, raw_ok a b c d = true) ->
  exists ds,
    Open raw_ok (GDALOpenInfo_new ext GA_ReadOnly
                   (imgBytes (CreateCopy_image fo progress src p))) = Some ds /\
    bHaveCrownFuels (pachHeader ds) = cpCrown p /\
    bHaveGroundFuels (pachHeader ds) = cpGround p /\
    GetRasterCount ds = src_band_count src /\
    nRasterXSize ds = srcXSize src /\ nRasterYSize ds = srcYSize src /\
    header_extent (pachHeader ds)
    = {| dfEast := dfEast_of fo src; dfWest := gt0 (srcGT src);
         dfNorth := gt3 (srcGT src); dfSouth := dfSouth_of fo src;
         dfCellX := gt1 (srcGT src);
         dfCellY := ffabs fo (gt5 (srcGT src)) |} /\
    decoded_unit_codes ds
    = present_codes (cpCrown p) (cpGround p) (cpMetadata p).
Proof.
  intros Hval Hdone Hx Hy Hlat Hext Hraw.
  destruct (CreateCopy_validate_Some _ _ _ _ _ _ _ Hval)
    as (Hn & Hc & Hg & Hlen & Hrange).
  assert (progress ProgressStart = true) as Hstart.
  { unfold CreateCopy_image in Hdone.
    destruct (progress ProgressStart); [reflexivity | discriminate Hdone]. }
  assert (srcBands src <> []) as Hbands.
  { intros E. unfold valid_band_count, src_band_count in Hn. rewrite E in Hn.
    cbn in Hn. lia. }
  assert (1 <= srcXSize src <= INT_MAX) as HxM.
  { unfold INT_MAX in *.
    destruct Hn as [Hn | [Hn | [Hn | Hn]]]; rewrite Hn in Hx;
      [change (2147483647 / (5 * 2)) with 214748364 in Hx
      |change (2147483647 / (7 * 2)) with 153391689 in Hx
      |change (2147483647 / (8 * 2)) with 134217727 in Hx
      |change (2147483647 / (10 * 2)) with 107374182 in Hx]; lia. }
  pose proof (image_decoded fo progress src p Hstart Hlen Hrange Hbands HxM Hy) as HD.
  cbv zeta in HD.
  generalize dependent (imgBytes (CreateCopy_image fo progress src p)).
  intros F (HF & H0 & H4 & H8 & Hw & Hh & He & Hwe & Hno & Hso & Hcx & Hcy & Hcodes).
  assert (bHaveCrownFuels F = cpCrown p) as HcF
    by (unfold bHaveCrownFuels; rewrite H0; by destruct (cpCrown p)).
  assert (bHaveGroundFuels F = cpGround p) as HgF
    by (unfold bHaveGroundFuels; rewrite H4; by destruct (cpGround p)).
  assert (band_count (bHaveCrownFuels F) (bHaveGroundFuels F) = src_band_count src)
    as HbcF.
  { rewrite HcF, HgF, Hc, Hg.
    destruct Hn as [Hn | [Hn | [Hn | Hn]]]; rewrite Hn; reflexivity. }
  pose proof (GDALOpenInfo_new_snapshot ext GA_ReadOnly F) as Hsnap.
  pose proof (Open_cases raw_ok (GDALOpenInfo_new ext GA_ReadOnly F)) as HO.
  assert (Identify (GDALOpenInfo_new ext GA_ReadOnly F) = true) as Hid.
  { assert (50 <= nHeaderBytes (GDALOpenInfo_new ext GA_ReadOnly F)) as Hnb
      by (cbn [GDALOpenInfo_new nHeaderBytes]; unfold LCP_HEADER_SIZE in HF; lia).
    apply Identify_true.
    rewrite (snapshot_sint32 _ F 0 Hsnap eq_refl Hnb) by lia.
    rewrite (snapshot_sint32 _ F 4 Hsnap eq_refl Hnb) by lia.
    rewrite (snapshot_sint32 _ F 8 Hsnap eq_refl Hnb) by lia.
    rewrite H0, H4, H8.
    split; [exact Hnb |].
    split; [destruct (cpCrown p); tauto |].
    split; [destruct (cpGround p); tauto |].
    split; [exact Hlat | exact Hext]. }
  destruct (Open raw_ok (GDALOpenInfo_new ext GA_ReadOnly F)) as [ds|].
  2: { exfalso. destruct HO as [HO | [HO | [HO | (file & Hfile & HO)]]].
       - congruence.
       - discriminate HO.
       - discriminate HO.
       - injection Hfile as <-. cbv zeta in HO.
         rewrite HbcF, Hw, Hh in HO.
         rewrite bands_creatable_all in HO by exact Hraw.
         destruct HO as [? | [? | [? | [? | ?]]]]; lia || discriminate. }
  exists ds. split; [reflexivity |].
  destruct HO as (file & Hfile & _ & _ & _ & _ & _ & HO & HX & HY & _).
  injection Hfile as <-. cbv zeta in HO. destruct HO as (_ & _ & Hcount & Hob).
  assert (forall off (n : nat), 0 <= off -> off + Z.of_nat n <= 4244 ->
            rd (pachHeader ds) off n = rd F off n) as Hrd.
  { intros off n Hoff Hn'.
    rewrite (open_bands_reads _ _ _ _ _ _ _ _ _ Hob off n Hoff Hn').
    rewrite rd_poke_nul by (unfold LCP_HEADER_SIZE; lia).
    apply rd_take; unfold LCP_HEADER_SIZE; lia. }
  assert (forall off, 0 <= off -> off + 4 <= 4244 ->
            CPL_LSBSINT32PTR (pachHeader ds) off = CPL_LSBSINT32PTR F off) as Hs32.
  { intros off ? ?. unfold CPL_LSBSINT32PTR. by rewrite Hrd by lia. }
  split; [unfold bHaveCrownFuels in *; by rewrite Hs32 by lia |].
  split; [unfold bHaveGroundFuels in *; by rewrite Hs32 by lia |].
  split; [by rewrite Hcount |].
  split; [by rewrite HX |]. split; [by rewrite HY |].
  split.
  { unfold header_extent.
    rewrite (load_double_bytes _ 4172 (dfEast_of fo src)) by (rewrite ?Hrd by lia; done || lia).
    rewrite (load_double_bytes _ 4180 (gt0 (srcGT src))) by (rewrite ?Hrd by lia; done || lia).
    rewrite (load_double_bytes _ 4188 (gt3 (srcGT src))) by (rewrite ?Hrd by lia; done || lia).
    rewrite (load_double_bytes _ 4196 (dfSouth_of fo src)) by (rewrite ?Hrd by lia; done || lia).
    rewrite (load_double_bytes _ 4208 (gt1 (srcGT src))) by (rewrite ?Hrd by lia; done || lia).
    rewrite (load_double_bytes _ 4216 (ffabs fo (gt5 (srcGT src))))
      by (rewrite ?Hrd by lia; done || lia).
    reflexivity. }
  unfold decoded_unit_codes.
  transitivity (map (fun key =>
                  expected_code (bHaveCrownFuels F) (CPL_LSBUINT16PTR F) key
                    (seqZ 1 (band_count (bHaveCrownFuels F) (bHaveGroundFuels F))))
                  unit_keys).
  { assert (forall off, 0 <= off -> off + 2 <= 4244 ->
              CPL_LSBUINT16PTR
                (poke_nul (take (Z.to_nat LCP_HEADER_SIZE) F) (LCP_HEADER_SIZE - 1)) off
              = CPL_LSBUINT16PTR F off) as Hp.
    { intros off ? ?. unfold CPL_LSBUINT16PTR.
      rewrite rd_poke_nul by (unfold LCP_HEADER_SIZE; lia).
      f_equal. apply rd_take; unfold LCP_HEADER_SIZE; lia. }
    apply map_ext_in. intros key Hkey. apply list_elem_of_In in Hkey.
    rewrite (open_bands_codes raw_ok _ _ _ key (CPL_LSBUINT16PTR F) Hkey _ _ _ _ _
               Hp Hob).
    reflexivity. }
  rewrite HbcF, HcF, Hc, Hg, <- Hcodes.
  generalize (CPL_LSBUINT16PTR F). intros code_at.
  destruct Hn as [Hn | [Hn | [Hn | Hn]]]; rewrite Hn; reflexivity.
Qed.

(** The premises of C1 at the five-band example. *)
Lemma C1_header_round_trip_witness :
  exists ds,
    Open (fun _ _ _ _ => true)
         (GDALOpenInfo_new "lcp" GA_ReadOnly
            (imgBytes (CreateCopy_image int_float_ops (fun _ => true)
                         (example_source 5) example_params))) = Some ds /\
    GetRasterCount ds = 5.
Proof.
  destruct (C1_header_round_trip int_float_ops (fun _ => true) (fun _ _ _ _ => true)
              (example_source 5) false example_options example_params
              [(CE_Warning,
                "Could not parse linear unit from spatial reference and LINEAR_UNIT was not set, defaulting to meters."%string)]
              "lcp")
    as (ds & HO & _ & _ & Hcount & _).
  - vm_compute. reflexivity.
  - vm_compute. reflexivity.
  - vm_compute. split; discriminate.
  - vm_compute. split; discriminate.
  - vm_compute. split; discriminate.
  - reflexivity.
  - reflexivity.
  - exists ds. split; [exact HO | exact Hcount].
Defined.
(** ** The classifier: count, classes and early exits *)

Section ClassifierMore.

Implicit Types (st : ClassifyState) (v : Z) (row : list Z) (S : Z -> Prop).

Lemma scan_flags_insert flags : forall j (i : nat),
  flags !! i = Some 0 ->
  length (scan_flags j (<[i := 1]> flags)) = Datatypes.S (length (scan_flags j flags)).
Proof.
  induction flags as [|fl flags IH]; intros j i Hi; [done |].
  destruct i as [|i]; cbn in Hi.
  - injection Hi as ->. reflexivity.
  - change (<[Datatypes.S i := 1]> (fl :: flags)) with (fl :: <[i := 1]> flags).
    cbn [scan_flags]. destruct (fl =? 1); cbn [length]; by rewrite IH.
Qed.

(** The loop invariant: the flags are well formed, the count is the number of
    flags set, and every flag set is the index of a value in [S] other than
    -9999. *)
Lemma classify_pixel_inv S st v :
  MIN_VAL <= v <= MAX_VAL -> bTooMany st = false ->
  classify_inv S st -> classify_inv (fun u => S u \/ u = v) (classify_pixel st v).
Proof.
  intros Hr Hst (Hwf & Hcount & Hsound).
  split; [by apply classify_pixel_wf |].
  destruct Hwf as [Hlen Hall]. unfold classify_pixel.
  destruct (Z.eqb_spec v (-9999)) as [E1 | E1].
  { split; [exact Hcount |]. intros i Hi.
    destruct (Hsound i Hi) as (u & ? & ? & ?). exists u. auto. }
  destruct (nFound st =? LCP_MAX_CLASSES).
  { split; [intros H; discriminate H |]. cbn [pabyFlags]. intros i Hi.
    destruct (Hsound i Hi) as (u & ? & ? & ?). exists u. auto. }
  assert (Z.to_nat (v + OFFSET) < length (pabyFlags st))%nat as Hidx.
  { rewrite Hlen. unfold RANGE_VAL, OFFSET, MIN_VAL, MAX_VAL in *. lia. }
  destruct (lookup_lt_is_Some_2 _ _ Hidx) as [x Hx].
  unfold flag_at. rewrite nth_lookup, Hx.
  change (default 0 (Some x)) with x.
  destruct (Z.eqb_spec x 0) as [-> | E3].
  - split; cbn [bTooMany nFound pabyFlags].
    + intros _. rewrite scan_flags_insert by exact Hx.
      specialize (Hcount Hst). lia.
    + intros i Hi.
      destruct (decide (i = Z.to_nat (v + OFFSET))) as [-> | Hne].
      * exists v. auto.
      * rewrite list_lookup_insert_ne in Hi by done.
        destruct (Hsound i Hi) as (u & ? & ? & ?). exists u. auto.
  - split; [exact Hcount |]. intros i Hi.
    destruct (Hsound i Hi) as (u & ? & ? & ?). exists u. auto.
Qed.

Lemma classify_inv_weaken S S' st :
  (forall u, S u -> S' u) -> classify_inv S st -> classify_inv S' st.
Proof.
  intros HS (Hwf & Hcount & Hsound). split; [exact Hwf |]. split; [exact Hcount |].
  intros i Hi. destruct (Hsound i Hi) as (u & ? & ? & ?). exists u. auto.
Qed.

Lemma classify_line_inv row : forall S st,
  Forall (fun v => MIN_VAL <= v <= MAX_VAL) row -> bTooMany st = false ->
  classify_inv S st ->
  classify_inv (fun u => S u \/ u ∈ row) (classify_line st row).
Proof.
  induction row as [|x row IH]; intros S st Hr Hst Hinv; cbn [classify_line].
  - eapply classify_inv_weaken; [| exact Hinv]. auto.
  - apply Forall_cons in Hr as [Hx Hr].
    pose proof (classify_pixel_inv S st x Hx Hst Hinv) as H1.
    destruct (bTooMany (classify_pixel st x)) eqn:E.
    + eapply classify_inv_weaken; [| exact H1].
      intros u [? | ->]; [by left | right; by left].
    + eapply classify_inv_weaken; [| exact (IH _ _ Hr E H1)].
      intros u [[? | ->] | ?]; [by left | right; by left | right; by right].
Qed.

Lemma classify_lines_inv lines : forall S st,
  lines_in_range lines -> bTooMany st = false -> classify_inv S st ->
  classify_inv (fun u => S u \/ exists row, Some row ∈ lines /\ u ∈ row)
               (classify_lines st lines).2.
Proof.
  induction lines as [|[row|] lines IH]; intros S st Hr Hst Hinv;
    cbn [classify_lines snd].
  - eapply classify_inv_weaken; [| exact Hinv]. auto.
  - assert (Forall (fun v => MIN_VAL <= v <= MAX_VAL) row) as Hrow.
    { apply Forall_forall. intros v Hv. apply (Hr row v); [by left | exact Hv]. }
    assert (lines_in_range lines) as Hrest.
    { intros r v Hin Hv. apply (Hr r v); [by right | exact Hv]. }
    pose proof (classify_line_inv row S st Hrow Hst Hinv) as H1.
    destruct (bTooMany (classify_line st row)) eqn:E; cbn [snd].
    + eapply classify_inv_weaken; [| exact H1].
      intros u [? | ?]; [by left | right; exists row; split; [by left | done]].
    + eapply classify_inv_weaken; [| exact (IH _ _ Hrest E H1)].
      intros u [[? | ?] | (r & ? & ?)];
        [by left | right; exists row; split; [by left | done]
        | right; exists r; split; [by right | done]].
  - eapply classify_inv_weaken; [| exact Hinv]. auto.
Qed.

Lemma classify_init_inv : classify_inv (fun _ => False) classify_init.
Proof.
  split; [apply classify_init_wf |]. split.
  - intros _. cbn [classify_init pabyFlags nFound]. by rewrite scan_flags_zeros.
  - intros i Hi. cbn [classify_init pabyFlags] in Hi.
    apply lookup_replicate in Hi as [Hi _]. discriminate Hi.
Qed.

(** The range of the values, checked by computation. *)
Lemma lines_in_range_check (lines : list (option (list Z))) :
  forallb (fun l => match l with
                    | Some row => forallb (fun v => (MIN_VAL <=? v) && (v <=? MAX_VAL)) row
                    | None => true
                    end) lines = true ->
  lines_in_range lines.
Proof.
  intros H row v Hrow Hv. rewrite forallb_forall in H.
  apply list_elem_of_In in Hrow. specialize (H _ Hrow). cbn beta iota in H.
  rewrite forallb_forall in H. apply list_elem_of_In in Hv. specialize (H _ Hv).
  lia.
Qed.

Lemma classify_init_count : count_inv classify_init.
Proof. unfold count_inv, LCP_MAX_CLASSES. cbn. lia. Qed.

(** The lines after a failed read, and the lines after the cap was passed, are
    not looked at. *)
Lemma classify_lines_failed_read rows rest : forall st,
  bTooMany st = false ->
  classify_lines st (map Some rows ++ None :: rest)
  = let st' := (classify_lines st (map Some rows)).2 in
    (if bTooMany st' then CE_None else CE_Failure, st').
Proof.
  induction rows as [|row rows IH]; intros st Hst; cbn [map app classify_lines snd].
  - by rewrite Hst.
  - destruct (bTooMany (classify_line st row)) eqn:E; cbn [snd]; [by rewrite E |].
    by apply IH.
Qed.

Lemma classify_lines_too_many lines rest : forall st,
  bTooMany (classify_lines st lines).2 = true -> bTooMany st = false ->
  Forall is_Some lines ->
  classify_lines st (lines ++ rest) = classify_lines st lines.
Proof.
  induction lines as [|[row|] lines IH]; intros st Hend Hst Hall;
    cbn [app classify_lines snd] in *.
  - congruence.
  - apply Forall_cons in Hall as [_ Hall].
    destruct (bTooMany (classify_line st row)) eqn:E; [done |].
    by apply IH.
  - apply Forall_cons in Hall as [[x Hx] _]. discriminate Hx.
Qed.

End ClassifierMore.

(** ** Properties of the classifier *)

(** X1.  The count and the stores agree: a count other than -1 comes with the
    sentinel zero and exactly that many classes; the count -1 comes with no
    store at all. *)
Theorem ClassifyBandData_count_and_stores
    (b : GDALRasterBand) (e : CPLErr) (n : Z) (stores : list Z) :
  lines_in_range (bandLines b) ->
  ClassifyBandData b = (e, n, stores) ->
  (n <> -1 -> Z.of_nat (length stores) = n + 1) /\
  (n = -1 -> stores = []).
Proof.
  intros Hr. unfold ClassifyBandData.
  pose proof (classify_lines_inv (bandLines b) _ classify_init Hr eq_refl
                classify_init_inv)
    as (_ & Hcount & _).
  pose proof (classify_lines_count (bandLines b) classify_init eq_refl
                classify_init_count) as Hc.
  destruct (classify_lines classify_init (bandLines b)) as [e' st]. cbn [snd] in *.
  intros H. injection H as _ <- <-.
  unfold count_inv in Hc.
  destruct (bTooMany st); cbv iota in Hc.
  - split; [intros Hn; contradiction | done].
  - split; [intros _; cbn [length]; rewrite <- (Hcount eq_refl); lia |].
    intros Hn. lia.
Qed.

Lemma ClassifyBandData_count_and_stores_witness :
  Z.of_nat (length [0; 32763; 32768]) = 2 + 1.
Proof.
  apply (ClassifyBandData_count_and_stores
           (band_of_lines [[0; -5; -9999]; [0]]) CE_None 2 [0; 32763; 32768]).
  - apply lines_in_range_check. reflexivity.
  - vm_compute. reflexivity.
  - discriminate.
Defined.

(** X2.  Every class stored, the sentinel zero apart, is the flag index of a pixel
    of the band that is not -9999: nothing is reported that is not in the
    data. *)
Theorem ClassifyBandData_classes_are_pixels
    (b : GDALRasterBand) (e : CPLErr) (n : Z) (stores : list Z) (k : Z) :
  lines_in_range (bandLines b) ->
  ClassifyBandData b = (e, n, stores) ->
  k ∈ stores ->
  k = 0 \/
  exists row v, Some row ∈ bandLines b /\ v ∈ row /\ v <> -9999 /\ k = v + OFFSET.
Proof.
  intros Hr. unfold ClassifyBandData.
  pose proof (classify_lines_inv (bandLines b) _ classify_init Hr eq_refl
                classify_init_inv)
    as (_ & _ & Hsound).
  destruct (classify_lines classify_init (bandLines b)) as [e' st]. cbn [snd] in *.
  intros H Hk. injection H as _ _ <-.
  destruct (bTooMany st); [by apply elem_of_nil in Hk |].
  apply elem_of_cons in Hk as [-> | Hk]; [by left | right].
  apply scan_flags_elem in Hk as (i & Hi & ->).
  destruct (Hsound i Hi) as (v & [[] | (row & Hrow & Hv)] & Hne & ->).
  exists row, v. split; [exact Hrow |]. split; [exact Hv |]. split; [exact Hne |].
  pose proof (Hr row v Hrow Hv). unfold OFFSET, MAX_VAL, MIN_VAL in *. lia.
Qed.

Lemma ClassifyBandData_classes_are_pixels_witness :
  32763 = 0 \/
  exists row v, Some row ∈ [Some [0; -5; -9999]; Some [0]] /\ v ∈ row /\
                v <> -9999 /\ 32763 = v + OFFSET.
Proof.
  apply (ClassifyBandData_classes_are_pixels
           (band_of_lines [[0; -5; -9999]; [0]]) CE_None 2 [0; 32763; 32768]).
  - apply lines_in_range_check. reflexivity.
  - vm_compute. reflexivity.
  - apply elem_of_cons. right. apply elem_of_cons. by left.
Defined.

(** X3.  A failed read ends the scan: the lines after it are not looked at, the
    classes found before it are still stored, and the error code is
    [CE_Failure], unless the cap had been passed before, which gives -1 and
    [CE_None]. *)
Theorem ClassifyBandData_failed_read
    (b : GDALRasterBand) (rows : list (list Z)) (rest : list (option (list Z))) :
  ClassifyBandData (with_lines b (map Some rows ++ None :: rest))
  = let '(_, n, stores) := ClassifyBandData (with_lines b (map Some rows)) in
    (if n =? -1 then CE_None else CE_Failure, n, stores).
Proof.
  unfold ClassifyBandData, with_lines. cbn [bandLines].
  rewrite classify_lines_failed_read by reflexivity. cbv zeta.
  pose proof (classify_lines_count (map Some rows) classify_init eq_refl
                classify_init_count) as Hc.
  destruct (classify_lines classify_init (map Some rows)) as [e' st]. cbn [snd] in *.
  unfold count_inv in Hc.
  destruct (bTooMany st); cbv iota in Hc.
  - rewrite Hc. reflexivity.
  - destruct (Z.eqb_spec (nFound st) (-1)); [lia | reflexivity].
Qed.

(** X4.  Once a band has more distinct values than the cap allows, the rest of the
    band is not read: whatever lines follow, failed reads included, the result
    stays -1 with nothing stored and no error. *)
Theorem ClassifyBandData_stops_at_cap
    (b : GDALRasterBand) (rows : list (list Z)) (rest : list (option (list Z))) :
  (ClassifyBandData (with_lines b (map Some rows))).1.2 = -1 ->
  ClassifyBandData (with_lines b (map Some rows ++ rest)) = (CE_None, -1, []).
Proof.
  unfold ClassifyBandData, with_lines. cbn [bandLines].
  assert (forall st, (classify_lines st (map Some rows)).1 = CE_None) as He.
  { induction rows as [|row rows IH]; intros st; cbn [map classify_lines]; [done |].
    destruct (bTooMany (classify_line st row)); [done | apply IH]. }
  pose proof (classify_lines_count (map Some rows) classify_init eq_refl
                classify_init_count) as Hc.
  pose proof (classify_lines_too_many (map Some rows) rest classify_init) as Hm.
  specialize (He classify_init).
  destruct (classify_lines classify_init (map Some rows)) as [e' st].
  cbn [fst snd] in *. subst e'. unfold count_inv in Hc.
  destruct (bTooMany st) eqn:E; cbv iota in Hc; intros Hn.
  - assert (Forall is_Some (map Some rows)) as Hall.
    { clear. induction rows as [|row rows IH]; cbn [map]; constructor;
        [by eexists | exact IH]. }
    rewrite (Hm eq_refl eq_refl Hall). cbn in Hn. by rewrite E, Hn.
  - cbn in Hn. lia.
Qed.

Lemma ClassifyBandData_stops_at_cap_witness :
  ClassifyBandData (with_lines (band_of_lines [])
                      (map Some [seqZ 1 150] ++ [None; Some [7]]))
  = (CE_None, -1, []).
Proof.
  apply (ClassifyBandData_stops_at_cap (band_of_lines []) [seqZ 1 150]
           [None; Some [7]]).
  vm_compute. reflexivity.
Defined.
(** ** The layout of the file written *)

Section ImageLayout.

Implicit Types (fp : VSILFILE) (d : list byte) (B : Z).

Lemma within_write B d fp :
  0 <= pos fp -> pos fp + Z.of_nat (length d) <= B -> within B fp ->
  within B (VSIFWriteL d fp).
Proof.
  unfold within. intros Hp Hd Hw. destruct d as [|b d]; [exact Hw |].
  rewrite content_write, !length_app, length_pad_to, length_drop.
  generalize dependent (length (b :: d)). generalize dependent (length (content fp)).
  intros. lia.
Qed.

Lemma within_seek B off fp : within B fp -> within B (VSIFSeekL_SET off fp).
Proof. done. Qed.

Lemma within_seek_cur B off fp : within B fp -> within B (VSIFSeekL_CUR off fp).
Proof. done. Qed.

(** A write at or past the end of the file appends, after zero fill. *)
Lemma content_write_end d fp :
  0 <= pos fp -> within (pos fp) fp -> d <> [] ->
  content (VSIFWriteL d fp) = pad_to (Z.to_nat (pos fp)) (content fp) ++ d.
Proof.
  unfold within. intros Hp Hw Hd. destruct d as [|b d]; [done |].
  rewrite content_write, drop_ge, app_nil_r; [done |].
  generalize dependent (length (content fp)). intros. lia.
Qed.

Lemma length_strn_bytes s n : 0 <= n -> Z.of_nat (length (strn_bytes s n)) <= n.
Proof. intros Hn. unfold strn_bytes. rewrite length_take. lia. Qed.

(** The statistics stay below the image size at 4164. *)
Lemma write_stats_within fo p st B n : forall i fp,
  0 <= i ->
  (i + Z.of_nat n) * LCP_MAX_CLASSES <= Z.of_nat (length (panClasses st)) ->
  0 <= pos fp -> within B fp ->
  (forall m, (m <= n)%nat -> 0 <= stats_cursor p i m (pos fp) <= B) ->
  within B (write_stats fo p st i n fp).
Proof.
  induction n as [|n IH]; intros i fp Hi Hlen Hp Hw Hc; cbn [write_stats];
    [exact Hw |].
  pose proof (Hc 1%nat ltac:(lia)) as H1. cbn [stats_cursor] in H1.
  set (fp1 := if (i =? 5) && negb (cpCrown p) && cpGround p
              then VSIFSeekL_SET 3340 fp else fp) in *.
  assert (pos fp1 = (if (i =? 5) && negb (cpCrown p) && cpGround p
                     then 3340 else pos fp)) as Hp1
    by (unfold fp1; destruct ((i =? 5) && negb (cpCrown p) && cpGround p); done).
  assert (within B fp1) as Hw1
    by (unfold fp1; destruct ((i =? 5) && negb (cpCrown p) && cpGround p); done).
  assert (0 <= pos fp1) as Hp1'
    by (rewrite Hp1; destruct ((i =? 5) && negb (cpCrown p) && cpGround p); lia).
  rewrite <- Hp1 in H1.
  pose proof (length_class_slice (panClasses st) i Hi
                ltac:(unfold LCP_MAX_CLASSES in *; lia)) as Hcs.
  apply IH.
  - lia.
  - unfold LCP_MAX_CLASSES in *. lia.
  - destruct (cpClassifyData p); cbn [VSIFSeekL_CUR pos]; rewrite !pos_write;
      unfold LCP_MAX_CLASSES; lia.
  - destruct (cpClassifyData p).
    + repeat (apply within_write;
              [rewrite ?pos_write; lia
              |rewrite ?pos_write, ?length_flat_map_le32, ?Hcs, ?length_le32;
               unfold LCP_MAX_CLASSES; lia |]).
      exact Hw1.
    + apply within_seek_cur.
      repeat (apply within_write;
              [rewrite ?pos_write; lia
              |rewrite ?pos_write, ?length_le32; lia |]).
      exact Hw1.
  - intros m Hm. specialize (Hc (S m) ltac:(lia)). cbn [stats_cursor] in Hc.
    replace (pos _) with (pos fp1 + 412); [by rewrite Hp1 |].
    destruct (cpClassifyData p); cbn [VSIFSeekL_CUR pos];
      rewrite !pos_write, ?length_flat_map_le32, ?Hcs, ?length_le32;
      unfold LCP_MAX_CLASSES; lia.
Qed.


(** The cursors of the statistics loop, for the four band counts. *)
Lemma stats_cursor_bounds p (n m : nat) :
  valid_band_count (Z.of_nat n) ->
  cpCrown p = ((Z.of_nat n =? 8) || (Z.of_nat n =? 10)) ->
  cpGround p = ((Z.of_nat n =? 7) || (Z.of_nat n =? 10)) ->
  (m <= n)%nat -> 0 <= stats_cursor p 0 m 44 <= 4164.
Proof.
  intros Hn Hc Hg Hm.
  assert (n = 5 \/ n = 7 \/ n = 8 \/ n = 10)%nat as Hn'
    by (unfold valid_band_count in Hn; lia).
  assert (m <= 10)%nat as Hm10 by lia.
  destruct Hn' as [-> | [-> | [-> | ->]]];
    do 11 (destruct m as [|m];
           [first [lia | cbn [stats_cursor]; rewrite ?Hc, ?Hg;
                         vm_compute; split; discriminate] |]);
    lia.
Qed.

Lemma write_file_names_within p name n : forall i fp,
  0 <= i -> i + Z.of_nat n <= 10 ->
  ((0 < n)%nat -> 0 <= pos fp <= 6548) ->
  within 6804 fp -> within 6804 (write_file_names p name i n fp).
Proof.
  induction n as [|n IH]; intros i fp Hi Hn Hp Hw; cbn [write_file_names];
    [exact Hw |].
  specialize (Hp ltac:(lia)).
  apply IH; [lia | lia | cbn [VSIFSeekL_SET pos]; lia |].
  apply within_seek.
  pose proof (length_strn_bytes name LCP_MAX_PATH ltac:(done)) as Hl.
  unfold LCP_MAX_PATH in *.
  destruct ((i =? 5) && negb (cpCrown p) && cpGround p);
    (apply within_write; [cbn [VSIFSeekL_SET pos]; lia
                         | cbn [VSIFSeekL_SET pos]; lia | done]).
Qed.

(** The header up to the file names ends at or before byte 6804. *)
Lemma write_files_section_within fo src p :
  valid_band_count (src_band_count src) ->
  cpCrown p = ((src_band_count src =? 8) || (src_band_count src =? 10)) ->
  cpGround p = ((src_band_count src =? 7) || (src_band_count src =? 10)) ->
  length (cpMetadata p) = 10%nat ->
  within 6804
    (write_files_section src p (length (srcBands src))
       (write_geo fo src p
          (write_stats_section fo p (compute_stats fo p (srcBands src))
             (length (srcBands src)) (write_lead fo src p VSIFOpenL_wb)))).
Proof.
  intros Hn Hc Hg Hpm.
  set (st := compute_stats fo p (srcBands src)).
  set (fp0 := write_lead fo src p VSIFOpenL_wb).
  assert (within 44 fp0 /\ pos fp0 = 44) as [Hw0 Hp0].
  { split; [| apply write_lead_pos]. unfold within, fp0, write_lead.
    repeat (apply within_write;
            [rewrite ?pos_write; cbn [VSIFOpenL_wb pos]; lia
            |rewrite ?pos_write, ?length_le32, ?length_double_bytes;
             cbn [VSIFOpenL_wb pos]; lia |]).
    unfold within. cbn. lia. }
  set (fp1 := write_stats_section fo p st (length (srcBands src)) fp0).
  assert (within 4164 fp1) as Hw1.
  { unfold fp1, write_stats_section. destruct (cpCalculateStats p).
    - apply write_stats_within.
      + lia.
      + unfold st. rewrite length_panClasses. lia.
      + lia.
      + unfold within in *. lia.
      + intros m Hm. rewrite Hp0. by apply (stats_cursor_bounds p (length (srcBands src))).
    - apply within_seek. unfold within in *. lia. }
  set (fp2 := write_geo fo src p fp1).
  assert (within 4244 fp2 /\ pos fp2 = 4244) as [Hw2 Hp2].
  { unfold fp2. rewrite write_geo_block.
    pose proof (length_geo_block fo src p Hpm) as Hlen.
    split; [| rewrite pos_write, Hlen; reflexivity].
    apply within_write; [cbn [VSIFSeekL_SET pos]; lia
                        | rewrite Hlen; cbn [VSIFSeekL_SET pos]; lia |].
    apply within_seek. unfold within in *. lia. }
  unfold write_files_section. destruct (srcFileList src).
  - apply write_file_names_within.
    + lia.
    + unfold valid_band_count, src_band_count in Hn. lia.
    + intros _. lia.
    + unfold within in *. lia.
  - apply within_seek. unfold within in *. lia.
Qed.

(** The header as written ends at or before byte 7316, where the cursor
    stands. *)
Lemma write_header_within fo src p :
  valid_band_count (src_band_count src) ->
  cpCrown p = ((src_band_count src =? 8) || (src_band_count src =? 10)) ->
  cpGround p = ((src_band_count src =? 7) || (src_band_count src =? 10)) ->
  length (cpMetadata p) = 10%nat ->
  let fp := htFile (write_header fo src p (compute_stats fo p (srcBands src))) in
  pos fp = 7316 /\ within 7316 fp.
Proof.
  intros Hn Hc Hg Hpm. unfold write_header. cbn [htFile].
  split; [reflexivity |]. apply within_seek.
  pose proof (write_files_section_within fo src p Hn Hc Hg Hpm) as Hw3.
  unfold write_description.
  pose proof (length_strn_bytes (cpDescription p) LCP_MAX_DESC ltac:(done)) as Hl.
  unfold LCP_MAX_DESC in *.
  apply within_write; [cbn [VSIFSeekL_SET pos]; lia
                      | cbn [VSIFSeekL_SET pos]; lia |].
  apply within_seek. unfold within in *. lia.
Qed.

(** *** The image data *)

Lemma length_scanline_data src n : forall iLine buf,
  length (scanline_data src iLine n buf) = (n * length buf)%nat.
Proof.
  induction n as [|n IH]; intros iLine buf; cbn [scanline_data]; [done |].
  rewrite length_app, IH, length_read_scanline. lia.
Qed.

(** A line loop that ran to its end has written the lines in one piece. *)
Lemma copy_lines_completed progress src n : forall iLine buf fp fp' l,
  copy_lines progress src iLine n buf fp = (fp', true, l) -> 0 <= pos fp ->
  fp' = VSIFWriteL (flat_map le16 (scanline_data src iLine n buf)) fp.
Proof.
  induction n as [|n IH]; intros iLine buf fp fp' l H Hp;
    cbn [copy_lines scanline_data] in *.
  - by injection H as <- _.
  - destruct (read_scanline _ _ _ _ _ _) as [buf' l1]. cbn [fst].
    destruct (negb (progress (ProgressLine iLine (srcYSize src))));
      [discriminate H |].
    destruct (copy_lines _ _ _ _ _ _) as [[fp'' ok] l'] eqn:E.
    injection H as <- -> _.
    apply IH in E; [| rewrite pos_write; lia].
    by rewrite E, flat_map_app, write_write.
Qed.

(** The file of a copy that ran to its end: the header, zero-filled to 7316
    bytes, and the lines. *)
Lemma image_layout fo progress src p :
  valid_band_count (src_band_count src) ->
  cpCrown p = ((src_band_count src =? 8) || (src_band_count src =? 10)) ->
  cpGround p = ((src_band_count src =? 7) || (src_band_count src =? 10)) ->
  length (cpMetadata p) = 10%nat ->
  imgCompleted (CreateCopy_image fo progress src p) = true ->
  1 <= srcXSize src -> 1 <= srcYSize src ->
  imgBytes (CreateCopy_image fo progress src p)
  = pad_to (Z.to_nat 7316) (content (htFile (write_header fo src p
                                    (compute_stats fo p (srcBands src)))))
    ++ flat_map le16
         (scanline_data src 0 (Z.to_nat (srcYSize src))
            (replicate (length (srcBands src) * Z.to_nat (srcXSize src)) 0)).
Proof.
  intros Hn Hc Hg Hpm Hdone Hx Hy.
  destruct (write_header_within fo src p Hn Hc Hg Hpm) as [Hpos Hw].
  unfold CreateCopy_image in *.
  set (fp := htFile (write_header fo src p (compute_stats fo p (srcBands src)))) in *.
  destruct (progress ProgressStart); cbn [negb] in *; [| discriminate Hdone].
  set (buf := replicate (length (srcBands src) * Z.to_nat (srcXSize src)) 0) in *.
  destruct (copy_lines _ _ _ _ _ _) as [[fp' ok] l] eqn:E.
  cbn [imgCompleted imgBytes] in *.
  destruct ok; [| discriminate Hdone].
  apply copy_lines_completed in E; [| lia]. subst fp'.
  rewrite content_write_end.
  - rewrite Hpos. reflexivity.
  - lia.
  - by rewrite Hpos.
  - intros E. apply (f_equal length) in E.
    rewrite length_flat_map_le16, length_scanline_data in E.
    unfold buf in E. rewrite length_replicate in E. cbn [length] in E.
    assert (0 < length (srcBands src))%nat
      by (unfold valid_band_count, src_band_count in Hn; lia).
    assert (0 < Z.to_nat (srcYSize src) * (length (srcBands src) * Z.to_nat (srcXSize src)))%nat
      by (repeat apply Nat.mul_pos_pos; lia).
    lia.
Qed.

(** *** Where a sample lands *)

Lemma interleave_inj (nB x k x' k' : nat) :
  (k < nB)%nat -> (k' < nB)%nat -> (x * nB + k = x' * nB + k')%nat ->
  x = x' /\ k = k'.
Proof.
  intros Hk Hk' H. destruct (Nat.lt_trichotomy x x') as [Hlt | [-> | Hlt]].
  - exfalso. nia.
  - split; [done | lia].
  - exfalso. nia.
Qed.

Lemma scatter_lookup_other nB iB row : forall k0 buf (idx : nat),
  (forall j, (j < length row)%nat -> idx <> ((k0 + j) * nB + iB)%nat) ->
  scatter nB iB k0 row buf !! idx = buf !! idx.
Proof.
  induction row as [|v row IH]; intros k0 buf idx H; cbn [scatter]; [done |].
  rewrite IH.
  - apply list_lookup_insert_ne. intros E.
    apply (H 0%nat); [cbn; lia |]. rewrite Nat.add_0_r. done.
  - intros j Hj. replace (S k0 + j)%nat with (k0 + S j)%nat by lia.
    apply H. cbn. lia.
Qed.

Lemma scatter_lookup_hit nB iB row : forall k0 buf (j : nat) v,
  (0 < nB)%nat -> row !! j = Some v ->
  ((k0 + j) * nB + iB < length buf)%nat ->
  scatter nB iB k0 row buf !! ((k0 + j) * nB + iB)%nat = Some v.
Proof.
  induction row as [|w row IH]; intros k0 buf j v HnB Hj Hlen; [done |].
  cbn [scatter]. destruct j as [|j]; cbn in Hj.
  - injection Hj as ->. rewrite Nat.add_0_r in *.
    rewrite scatter_lookup_other.
    + by apply list_lookup_insert_eq.
    + intros j' _. nia.
  - replace (k0 + S j)%nat with (S k0 + j)%nat in * by lia.
    apply IH; [done | done |]. by rewrite length_insert.
Qed.

Lemma read_scanline_lookup_other nB W iLine : forall bs i0 buf (idx : nat),
  (forall x k, (i0 <= k < i0 + length bs)%nat -> idx <> (x * nB + k)%nat) ->
  (read_scanline nB W iLine i0 bs buf).1 !! idx = buf !! idx.
Proof.
  induction bs as [|b bs IH]; intros i0 buf idx H; cbn [read_scanline]; [done |].
  assert (forall x k, (S i0 <= k < S i0 + length bs)%nat -> idx <> (x * nB + k)%nat)
    as Hrest by (intros x k Hk; apply H; cbn [length]; lia).
  destruct (nth _ (bandLines b) None) as [row|].
  - rewrite IH by exact Hrest. apply scatter_lookup_other.
    intros j _. apply H. cbn [length]. lia.
  - specialize (IH (S i0) buf idx Hrest).
    destruct (read_scanline _ _ _ _ _ _) as [buf' l]. exact IH.
Qed.

Lemma read_scanline_lookup nB W iLine : forall bs i0 buf (k : nat) b row (x : nat) v,
  bs !! k = Some b ->
  nth (Z.to_nat iLine) (bandLines b) None = Some row ->
  take (Z.to_nat W) row !! x = Some v ->
  (i0 + length bs <= nB)%nat -> (x * nB + (i0 + k) < length buf)%nat ->
  (read_scanline nB W iLine i0 bs buf).1 !! (x * nB + (i0 + k))%nat = Some v.
Proof.
  induction bs as [|b0 bs IH]; intros i0 buf k b row x v Hk Hrow Hx HnB Hlen; [done |].
  cbn [read_scanline]. cbn [length] in HnB. destruct k as [|k]; cbn in Hk.
  - injection Hk as ->. rewrite Hrow, Nat.add_0_r in *.
    rewrite read_scanline_lookup_other.
    + apply (scatter_lookup_hit nB i0 _ 0 buf x v); [lia | done | done].
    + intros x' k' Hk' E.
      apply interleave_inj in E as [_ E]; lia.
  - replace (i0 + S k)%nat with (S i0 + k)%nat in * by lia.
    destruct (nth _ (bandLines b0) None) as [row0|].
    + eapply IH; [done | done | done | lia |]. by rewrite length_scatter.
    + specialize (IH (S i0) buf k b row x v Hk Hrow Hx ltac:(lia) Hlen).
      destruct (read_scanline _ _ _ _ _ _) as [buf' l]. exact IH.
Qed.

(** The sample of band [k] at column [x] of line [iLine + y] is at index
    [y * (nB * W) + x * nB + k] of the data. *)
Lemma scanline_data_lookup src n : forall iLine buf (y k x : nat) b row v,
  0 <= iLine -> (y < n)%nat ->
  length buf = (length (srcBands src) * Z.to_nat (srcXSize src))%nat ->
  srcBands src !! k = Some b ->
  nth (Z.to_nat (iLine + Z.of_nat y)) (bandLines b) None = Some row ->
  (x < Z.to_nat (srcXSize src))%nat -> row !! x = Some v ->
  scanline_data src iLine n buf
    !! (y * (length (srcBands src) * Z.to_nat (srcXSize src))
        + (x * length (srcBands src) + k))%nat
  = Some v.
Proof.
  induction n as [|n IH]; intros iLine buf y k x b row v Hi Hy Hbuf Hk Hrow Hx Hv;
    [lia |].
  cbn [scanline_data].
  pose proof (length_read_scanline (length (srcBands src)) (srcXSize src) iLine
                (srcBands src) 0 buf) as Hlen.
  pose proof (lookup_lt_Some _ _ _ Hk) as Hkn.
  assert (x * length (srcBands src) + k
          < length (srcBands src) * Z.to_nat (srcXSize src))%nat as Hidx by nia.
  destruct y as [|y].
  - rewrite lookup_app_l by (rewrite Hlen, Hbuf; lia).
    rewrite Z.add_0_r in Hrow. cbn [Nat.mul Nat.add].
    apply (read_scanline_lookup _ _ _ (srcBands src) 0 buf k b row x v);
      [done | done | | lia | lia].
    rewrite lookup_take_lt by lia. done.
  - rewrite lookup_app_r by (rewrite Hlen, Hbuf; lia).
    rewrite Hlen, Hbuf.
    replace (S y * (length (srcBands src) * Z.to_nat (srcXSize src))
             + (x * length (srcBands src) + k)
             - length (srcBands src) * Z.to_nat (srcXSize src))%nat
      with (y * (length (srcBands src) * Z.to_nat (srcXSize src))
            + (x * length (srcBands src) + k))%nat by lia.
    apply (IH (iLine + 1) _ y k x b row v); [lia | lia | | done | | done | done].
    + by rewrite Hlen.
    + replace (iLine + 1 + Z.of_nat y) with (iLine + Z.of_nat (S y)) by lia. done.
Qed.

Lemma rd_flat_map_le16 (L : list Z) : forall (i : nat) v,
  L !! i = Some v -> rd (flat_map le16 L) (2 * Z.of_nat i) 2 = le16 v.
Proof.
  induction L as [|a L IH]; intros i v Hi; [done |].
  cbn [flat_map]. destruct i as [|i]; cbn in Hi.
  - injection Hi as ->. unfold rd. cbn [Z.of_nat Z.mul Z.to_nat]. rewrite drop_0.
    apply take_app_length'. symmetry. apply length_le16.
  - unfold rd in *. rewrite <- (IH i v Hi).
    replace (Z.to_nat (2 * Z.of_nat (S i))) with (length (le16 a) + Z.to_nat (2 * Z.of_nat i))%nat
      by (rewrite length_le16; lia).
    by rewrite drop_app_add.
Qed.

Lemma rd_app_r (A D : list byte) off (n : nat) :
  0 <= off ->
  rd (A ++ D) (Z.of_nat (length A) + off) n = rd D off n.
Proof.
  intros Hoff. unfold rd.
  replace (Z.to_nat (Z.of_nat (length A) + off)) with (length A + Z.to_nat off)%nat by lia.
  by rewrite drop_app_add.
Qed.

End ImageLayout.
(** ** What [Open] returns, in full *)

Section OpenMore.

Variable raw_ok : Z -> Z -> Z -> Z -> bool.

(** *** Header buffers that differ at the NULs only *)

Lemma agree_but_nuls_refl a : agree_but_nuls a a.
Proof. by split. Qed.

Lemma agree_but_nuls_poke a b (i : Z) :
  agree_but_nuls a b -> nul_place (Z.to_nat i) ->
  agree_but_nuls (poke_nul a i) b.
Proof.
  intros [Hl H] Hi. split; [by rewrite length_poke_nul |].
  intros k Hk. unfold poke_nul.
  rewrite list_lookup_insert_ne by (intros <-; contradiction).
  by apply H.
Qed.

Lemma agree_but_nuls_rd a b off (n : nat) :
  agree_but_nuls a b ->
  (forall i : nat, off <= Z.of_nat i < off + Z.of_nat n -> ~ nul_place i) ->
  0 <= off ->
  rd a off n = rd b off n.
Proof.
  intros [Hl H] Hfree Hoff. unfold rd. apply list_eq. intros k.
  destruct (decide (k < n)%nat) as [Hk | Hk].
  - rewrite !lookup_take_lt, !lookup_drop by done.
    apply H, Hfree. lia.
  - rewrite !lookup_take_ge by lia. done.
Qed.

Lemma nul_place_low (i : nat) : nul_place i -> 4499 <= Z.of_nat i.
Proof. intros (j & Hj & ->). lia. Qed.

Lemma agree_but_nuls_low a b off (n : nat) :
  agree_but_nuls a b -> 0 <= off -> off + Z.of_nat n <= 4499 ->
  rd a off n = rd b off n.
Proof.
  intros H Hoff Hn. apply agree_but_nuls_rd; [done | | done].
  intros i Hi Hp. apply nul_place_low in Hp. lia.
Qed.

Lemma band_layout_Some crown iBand :
  1 <= iBand <= 10 -> exists bl, band_layout crown iBand = Some bl.
Proof.
  intros H.
  assert (iBand = 1 \/ iBand = 2 \/ iBand = 3 \/ iBand = 4 \/ iBand = 5 \/
          iBand = 6 \/ iBand = 7 \/ iBand = 8 \/ iBand = 9 \/ iBand = 10)
    as Hc by lia.
  repeat (destruct Hc as [-> | Hc]; [destruct crown; eexists; reflexivity |]).
  subst. eexists; reflexivity.
Qed.

Local Ltac layout_cases H :=
  unfold band_layout in H;
  match type of H with
  | context [match ?i with _ => _ end] =>
      destruct i as [|q|q]; try discriminate H;
      repeat (destruct q as [q|q|]; try discriminate H)
  end.

(** The file-name slot of a layout is one of the ten 256-byte slots from
    4244 on, and ends at a NUL place. *)
Lemma band_layout_file crown iBand bl :
  band_layout crown iBand = Some bl ->
  4244 <= blFileOff bl <= 6548 /\ (blFileOff bl - 4244) mod 256 = 0.
Proof.
  intros H. layout_cases H; destruct crown; injection H as <-;
    cbn [blFileOff duff_layout cwd_layout]; (split; [lia | reflexivity]).
Qed.

Lemma band_layout_nul crown iBand bl :
  band_layout crown iBand = Some bl ->
  nul_place (Z.to_nat (blFileOff bl + 255)).
Proof.
  intros H. destruct (band_layout_file _ _ _ H) as [Hr Hm].
  exists ((blFileOff bl - 4244) / 256). split; [apply Z.div_pos; lia |].
  pose proof (Z_div_mod_eq_full (blFileOff bl - 4244) 256) as E.
  rewrite Hm in E. lia.
Qed.

(** One round of the band loop. *)
Lemma open_bands_step crown ps w i0 ibs pach acc :
  open_bands raw_ok crown ps w (i0 :: ibs) pach acc
  = if negb (raw_ok i0 (LCP_HEADER_SIZE + (i0 - 1) * 2) ps (ps * w)) then None
    else open_bands raw_ok crown ps w ibs
           (match band_layout crown i0 with
            | Some bl => poke_nul pach (blFileOff bl + 255)
            | None => pach
            end)
           (acc ++ [{| rbImgOffset := LCP_HEADER_SIZE + (i0 - 1) * 2;
                       rbPixelOffset := ps; rbLineOffset := ps * w;
                       rbDescription := match band_layout crown i0 with
                                        | Some bl => blDesc bl
                                        | None => EmptyString
                                        end;
                       rbMetadata := match band_layout crown i0 with
                                     | Some bl => (band_metadata i0 bl pach).2
                                     | None => ∅
                                     end |}]).
Proof.
  cbn [open_bands]. destruct (raw_ok _ _ _ _); cbn [negb]; [| reflexivity].
  destruct (band_layout crown i0); reflexivity.
Qed.

Lemma agree_but_nuls_next crown i0 a b :
  agree_but_nuls a
    (match band_layout crown i0 with
     | Some bl => poke_nul b (blFileOff bl + 255)
     | None => b
     end) ->
  agree_but_nuls a b.
Proof.
  destruct (band_layout crown i0) as [bl|] eqn:Hbl; [| done].
  intros [Hl Ha]. rewrite length_poke_nul in Hl. split; [done |].
  intros i Hi. rewrite (Ha i Hi). unfold poke_nul.
  apply list_lookup_insert_ne. intros <-. apply Hi.
  exact (band_layout_nul _ _ _ Hbl).
Qed.

(** The band that [open_bands] makes of entry [k] of its list. *)
Lemma open_bands_nth crown ps w : forall ibs pach acc pach' bands (k : nat) iBand,
  open_bands raw_ok crown ps w ibs pach acc = Some (pach', bands) ->
  ibs !! k = Some iBand ->
  agree_but_nuls pach' pach /\
  exists pach_k,
    agree_but_nuls pach_k pach /\
    bands !! (length acc + k)%nat
    = Some {| rbImgOffset := LCP_HEADER_SIZE + (iBand - 1) * 2;
              rbPixelOffset := ps; rbLineOffset := ps * w;
              rbDescription := match band_layout crown iBand with
                               | Some bl => blDesc bl
                               | None => EmptyString
                               end;
              rbMetadata := match band_layout crown iBand with
                            | Some bl => (band_metadata iBand bl pach_k).2
                            | None => ∅
                            end |}.
Proof.
  assert (forall ibs pach acc pach' bands,
            open_bands raw_ok crown ps w ibs pach acc = Some (pach', bands) ->
            agree_but_nuls pach' pach /\
            forall j : nat, (j < length acc)%nat -> bands !! j = acc !! j) as Hpre.
  { induction ibs as [|i0 ibs IH]; intros pach acc pach' bands H.
    - cbn [open_bands] in H. injection H as <- <-.
      split; [apply agree_but_nuls_refl | done].
    - rewrite open_bands_step in H.
      destruct (raw_ok _ _ _ _); cbn [negb] in H; [| discriminate].
      apply IH in H as [Ha Hb]. split; [by eapply agree_but_nuls_next |].
      intros j Hj. rewrite Hb by (rewrite length_app; cbn [length]; lia).
      by apply lookup_app_l. }
  induction ibs as [|i0 ibs IH]; intros pach acc pach' bands k iBand H Hk; [done |].
  split; [by apply (Hpre _ _ _ _ _ H) |].
  rewrite open_bands_step in H.
  destruct (raw_ok _ _ _ _); cbn [negb] in H; [| discriminate].
  destruct k as [|k]; cbn in Hk.
  - injection Hk as ->. exists pach. split; [apply agree_but_nuls_refl |].
    rewrite Nat.add_0_r. apply Hpre in H as [_ Hb].
    rewrite Hb by (rewrite length_app; cbn [length]; lia).
    rewrite lookup_app_r by lia. by rewrite Nat.sub_diag.
  - destruct (IH _ _ _ _ k iBand H Hk) as (_ & pach_k & Ha & Hb).
    exists pach_k. split; [by eapply agree_but_nuls_next |].
    rewrite <- Hb. f_equal. rewrite length_app. cbn [length]. lia.
Qed.


(** [Open], when it returns a dataset: every component, from the first 7316
    bytes of the file. *)
Lemma Open_inv oi ds :
  Open raw_ok oi = Some ds ->
  exists file pach,
    fpL oi = Some file /\ Identify oi = true /\
    LCP_HEADER_SIZE <= Z.of_nat (length file) /\
    pach = take (Z.to_nat LCP_HEADER_SIZE) file /\
    1 <= CPL_LSBSINT32PTR pach 4164 /\ 1 <= CPL_LSBSINT32PTR pach 4168 /\
    nRasterXSize ds = CPL_LSBSINT32PTR pach 4164 /\
    nRasterYSize ds = CPL_LSBSINT32PTR pach 4168 /\
    dsMetadata ds !! "LATITUDE"%string = Some (MDInt (CPL_LSBSINT32PTR pach 8)) /\
    dsMetadata ds !! "LINEAR_UNIT"%string
    = option_map MDText (linear_unit_name (CPL_LSBSINT32PTR pach 4204)) /\
    dsMetadata ds !! "DESCRIPTION"%string
    = Some (MDCStr (c_string_at (poke_nul pach (LCP_HEADER_SIZE - 1)) 6804)) /\
    (forall key, key <> "LATITUDE"%string -> key <> "LINEAR_UNIT"%string ->
                 key <> "DESCRIPTION"%string -> dsMetadata ds !! key = None) /\
    (let nBands := band_count (bHaveCrownFuels pach) (bHaveGroundFuels pach) in
     open_bands raw_ok (bHaveCrownFuels pach) (nBands * 2)
       (CPL_LSBSINT32PTR pach 4164) (seqZ 1 nBands)
       (poke_nul pach (LCP_HEADER_SIZE - 1)) []
     = Some (pachHeader ds, papoBands ds)).
Proof.
  unfold Open.
  destruct (Identify oi) eqn:Hid; cbn [negb]; [| discriminate].
  destruct (fpL oi) as [file|] eqn:Hfile; [| discriminate].
  destruct (eAccess oi) eqn:Hacc; [| discriminate].
  unfold VSIFReadL_from_start.
  destruct (Z.ltb_spec (Z.of_nat (length file)) LCP_HEADER_SIZE) as [Hshort | Hlong];
    [discriminate |].
  remember (take (Z.to_nat LCP_HEADER_SIZE) file) as pach eqn:Hpach.
  unfold GDALCheckDatasetDimensions.
  destruct (Z.leb_spec 1 (CPL_LSBSINT32PTR pach 4164)) as [Hw1 | Hw1]; cbn [andb negb];
    [| discriminate].
  destruct (Z.leb_spec 1 (CPL_LSBSINT32PTR pach 4168)) as [Hh1 | Hh1]; cbn [andb negb];
    [| discriminate].
  destruct (_ >? _); [discriminate |].
  destruct (open_bands _ _ _ _ _ _ _) as [[pach' bands]|] eqn:Hob; [| discriminate].
  intros H. injection H as <-.
  cbn [pachHeader papoBands nRasterXSize nRasterYSize dsMetadata].
  exists file, pach.
  split; [reflexivity |]. split; [reflexivity |]. split; [exact Hlong |].
  split; [exact Hpach |]. split; [exact Hw1 |]. split; [exact Hh1 |].
  split; [reflexivity |]. split; [reflexivity |].
  unfold linear_unit_name.
  split; [| split; [| split; [| split; [| exact Hob]]]].
  - rewrite lookup_insert_ne by done.
    destruct (CPL_LSBSINT32PTR pach 4204 =? 0), (CPL_LSBSINT32PTR pach 4204 =? 1);
      rewrite ?lookup_insert_ne by done; apply lookup_insert_eq.
  - rewrite lookup_insert_ne by done.
    destruct (Z.eqb_spec (CPL_LSBSINT32PTR pach 4204) 0) as [E0 | E0],
             (Z.eqb_spec (CPL_LSBSINT32PTR pach 4204) 1) as [E1 | E1];
      try lia; cbn [option_map];
      rewrite ?lookup_insert_eq, ?lookup_insert_ne by done; try reflexivity.
  - apply lookup_insert_eq.
  - intros key H1 H2 H3. rewrite lookup_insert_ne by done.
    destruct (CPL_LSBSINT32PTR pach 4204 =? 0), (CPL_LSBSINT32PTR pach 4204 =? 1);
      rewrite ?lookup_insert_ne by done; apply lookup_empty.
Qed.

Lemma bands_creatable_true ps w ibs :
  (forall a b c d, raw_ok a b c d = true) -> bands_creatable raw_ok ps w ibs = true.
Proof.
  intros H. unfold bands_creatable. apply forallb_forall. intros x _. apply H.
Qed.

(** A file that [Open] accepts. *)
Lemma Open_accepts ext F :
  LCP_HEADER_SIZE <= Z.of_nat (length F) ->
  CPL_LSBSINT32PTR F 0 = 20 \/ CPL_LSBSINT32PTR F 0 = 21 ->
  CPL_LSBSINT32PTR F 4 = 20 \/ CPL_LSBSINT32PTR F 4 = 21 ->
  -90 <= CPL_LSBSINT32PTR F 8 <= 90 ->
  EQUAL ext "lcp" = true ->
  1 <= CPL_LSBSINT32PTR F 4164
    <= INT_MAX / (band_count (bHaveCrownFuels F) (bHaveGroundFuels F) * 2) ->
  1 <= CPL_LSBSINT32PTR F 4168 ->
  (forall a b c d, raw_ok a b c d = true) ->
  exists ds, Open raw_ok (GDALOpenInfo_new ext GA_ReadOnly F) = Some ds.
Proof.
  intros HF H0 H4 H8 Hext Hw Hh Hraw.
  pose proof (GDALOpenInfo_new_snapshot ext GA_ReadOnly F) as Hsnap.
  pose proof (Open_cases raw_ok (GDALOpenInfo_new ext GA_ReadOnly F)) as HO.
  assert (Identify (GDALOpenInfo_new ext GA_ReadOnly F) = true) as Hid.
  { assert (50 <= nHeaderBytes (GDALOpenInfo_new ext GA_ReadOnly F)) as Hnb
      by (cbn [GDALOpenInfo_new nHeaderBytes]; unfold LCP_HEADER_SIZE in HF; lia).
    apply Identify_true.
    rewrite (snapshot_sint32 _ F 0 Hsnap eq_refl Hnb) by lia.
    rewrite (snapshot_sint32 _ F 4 Hsnap eq_refl Hnb) by lia.
    rewrite (snapshot_sint32 _ F 8 Hsnap eq_refl Hnb) by lia.
    tauto. }
  destruct (Open raw_ok (GDALOpenInfo_new ext GA_ReadOnly F)) as [ds|];
    [by exists ds |].
  exfalso. destruct HO as [HO | [HO | [HO | (file & Hfile & HO)]]].
  - congruence.
  - discriminate HO.
  - discriminate HO.
  - injection Hfile as <-. cbv zeta in HO.
    rewrite bands_creatable_true in HO by exact Hraw.
    destruct HO as [? | [? | [? | [? | ?]]]]; lia || discriminate.
Qed.


(** *** The items of a band *)

Lemma set_unit_name_lookup key names n : forall (md : gmap string MDValue),
  NoDup (map fst names) ->
  set_unit_name key names n md !! key
  = match unit_name names n with
    | Some s => Some (MDText s)
    | None => md !! key
    end.
Proof.
  induction names as [|[c s] names IH]; intros md Hnd; cbn [set_unit_name unit_name];
    [done |].
  cbn [map fst] in Hnd. apply NoDup_cons in Hnd as [Hc Hnd].
  rewrite IH by exact Hnd.
  destruct (Z.eqb_spec n c) as [-> | Hne]; [| done].
  assert (unit_name names c = None) as ->.
  { clear -Hc. induction names as [|[c' s'] names IH]; cbn [unit_name]; [done |].
    cbn [map fst] in Hc. apply not_elem_of_cons in Hc as [Hc1 Hc2].
    destruct (Z.eqb_spec c c'); [done | by apply IH]. }
  apply lookup_insert_eq.
Qed.

(** The seven keys of a band are distinct, and the codes of its names are. *)
Lemma band_layout_keys crown iBand bl :
  band_layout crown iBand = Some bl ->
  NoDup [blUnitKey bl; blNameKey bl; (blPrefix bl +:+ "_MIN")%string;
         (blPrefix bl +:+ "_MAX")%string; (blPrefix bl +:+ "_NUM_CLASSES")%string;
         "FUEL_MODEL_VALUES"%string; (blPrefix bl +:+ "_FILE")%string] /\
  NoDup (map fst (blNames bl)).
Proof.
  intros H. layout_cases H; destruct crown; injection H as <-;
    (split; apply (bool_decide_unpack _); vm_compute; reflexivity).
Qed.

Lemma band_metadata_items crown iBand bl pach :
  band_layout crown iBand = Some bl ->
  let md := (band_metadata iBand bl pach).2 in
  md !! blUnitKey bl = Some (MDInt (CPL_LSBUINT16PTR pach (blUnitOff bl))) /\
  md !! blNameKey bl
  = option_map MDText (unit_name (blNames bl) (CPL_LSBUINT16PTR pach (blUnitOff bl))) /\
  md !! (blPrefix bl +:+ "_MIN")%string
  = Some (MDInt (CPL_LSBSINT32PTR pach (blStatOff bl))) /\
  md !! (blPrefix bl +:+ "_MAX")%string
  = Some (MDInt (CPL_LSBSINT32PTR pach (blStatOff bl + 4))) /\
  md !! (blPrefix bl +:+ "_NUM_CLASSES")%string
  = Some (MDInt (CPL_LSBSINT32PTR pach (blStatOff bl + 8))) /\
  md !! (blPrefix bl +:+ "_FILE")%string
  = Some (MDCStr (c_string_at (poke_nul pach (blFileOff bl + 255)) (blFileOff bl))) /\
  md !! "FUEL_MODEL_VALUES"%string
  = (if iBand =? 4
     then Some (MDIntList (fuel_model_values pach
                             (CPL_LSBSINT32PTR pach (blStatOff bl))
                             (CPL_LSBSINT32PTR pach (blStatOff bl + 4))
                             (CPL_LSBSINT32PTR pach (blStatOff bl + 8))))
     else None).
Proof.
  intros Hbl. destruct (band_layout_keys _ _ _ Hbl) as [Hk Hn].
  unfold band_metadata. cbn [snd].
  generalize dependent (blUnitKey bl). generalize dependent (blNameKey bl).
  generalize dependent (blPrefix bl +:+ "_MIN")%string.
  generalize dependent (blPrefix bl +:+ "_MAX")%string.
  generalize dependent (blPrefix bl +:+ "_NUM_CLASSES")%string.
  generalize dependent (blPrefix bl +:+ "_FILE")%string.
  intros kFile kNum kMax kMin kName kUnit Hk.
  apply NoDup_cons in Hk as [H1 Hk]. apply NoDup_cons in Hk as [H2 Hk].
  apply NoDup_cons in Hk as [H3 Hk]. apply NoDup_cons in Hk as [H4 Hk].
  apply NoDup_cons in Hk as [H5 Hk]. apply NoDup_cons in Hk as [H6 _].
  repeat match goal with
         | H : _ ∉ _ :: _ |- _ => apply not_elem_of_cons in H as [? H]
         end.
  assert (forall (X : MDValue) (md : gmap string MDValue) key,
            key <> "FUEL_MODEL_VALUES"%string ->
            (if iBand =? 4 then <["FUEL_MODEL_VALUES"%string := X]> md else md) !! key
            = md !! key) as Hfm.
  { intros X md key Hkey. destruct (iBand =? 4); [by rewrite lookup_insert_ne | done]. }
  cbv zeta. repeat split.
  - rewrite lookup_insert_ne, Hfm, !lookup_insert_ne by done.
    rewrite set_unit_name_lookup_ne by done. apply lookup_insert_eq.
  - rewrite lookup_insert_ne, Hfm, !lookup_insert_ne by done.
    rewrite set_unit_name_lookup by exact Hn.
    destruct (unit_name _ _); [done |]. cbn [option_map].
    rewrite lookup_insert_ne by done. apply lookup_empty.
  - rewrite lookup_insert_ne, Hfm, !lookup_insert_ne by done. apply lookup_insert_eq.
  - rewrite lookup_insert_ne, Hfm, !lookup_insert_ne by done. apply lookup_insert_eq.
  - rewrite lookup_insert_ne, Hfm by done. apply lookup_insert_eq.
  - apply lookup_insert_eq.
  - rewrite lookup_insert_ne by done. destruct (iBand =? 4).
    + apply lookup_insert_eq.
    + rewrite !lookup_insert_ne by done.
      rewrite set_unit_name_lookup_ne by done.
      rewrite lookup_insert_ne by done. apply lookup_empty.
Qed.


Lemma nul_place_end : nul_place (Z.to_nat (LCP_HEADER_SIZE - 1)).
Proof. exists 11. split; [lia | reflexivity]. Qed.

(** Band [k] (counted from 0) of a dataset that [Open] returns. *)
Lemma Open_band oi ds file (k : nat) :
  Open raw_ok oi = Some ds -> fpL oi = Some file ->
  let pach := take (Z.to_nat LCP_HEADER_SIZE) file in
  let crown := bHaveCrownFuels pach in
  let nBands := band_count crown (bHaveGroundFuels pach) in
  GetRasterCount ds = nBands /\
  agree_but_nuls (pachHeader ds) pach /\
  (Z.of_nat k < nBands ->
   exists bl pach_k,
     band_layout crown (1 + Z.of_nat k) = Some bl /\
     agree_but_nuls pach_k pach /\
     papoBands ds !! k
     = Some {| rbImgOffset := LCP_HEADER_SIZE + Z.of_nat k * 2;
               rbPixelOffset := nBands * 2;
               rbLineOffset := nBands * 2 * CPL_LSBSINT32PTR pach 4164;
               rbDescription := blDesc bl;
               rbMetadata := (band_metadata (1 + Z.of_nat k) bl pach_k).2 |}).
Proof.
  intros HO Hfile.
  destruct (Open_inv oi ds HO)
    as (file' & pach & Hfile' & _ & _ & Hpach & _ & _ & _ & _ & _ & _ & _ & _ & Hob).
  rewrite Hfile in Hfile'. injection Hfile' as <-. rewrite <- Hpach.
  cbv zeta in *.
  set (crown := bHaveCrownFuels pach) in *.
  set (nBands := band_count crown (bHaveGroundFuels pach)) in *.
  pose proof (open_bands_spec raw_ok crown (nBands * 2) (CPL_LSBSINT32PTR pach 4164)
                (seqZ 1 nBands) (poke_nul pach (LCP_HEADER_SIZE - 1)) []) as Hs.
  rewrite Hob in Hs. destruct Hs as (_ & Hlen & _).
  assert (0 <= nBands <= 10) as HnB
    by (unfold nBands, band_count; destruct crown, (bHaveGroundFuels pach); lia).
  assert (agree_but_nuls (poke_nul pach (LCP_HEADER_SIZE - 1)) pach) as Hpoke
    by (apply agree_but_nuls_poke; [apply agree_but_nuls_refl | apply nul_place_end]).
  split; [unfold GetRasterCount; rewrite Hlen, length_seqZ; cbn [length]; lia |].
  split.
  { destruct nBands as [|q|q] eqn:E; try lia.
    - cbn [seqZ open_bands] in Hob. by injection Hob as <- _.
    - assert (seqZ 1 (Z.pos q) !! 0%nat = Some 1) as H0
        by (apply lookup_seqZ; lia).
      destruct (open_bands_nth _ _ _ _ _ _ _ _ 0%nat 1 Hob H0) as [[Hl Ha] _].
      destruct Hpoke as [Hl' Ha']. split; [congruence |].
      intros i Hi. by rewrite Ha, Ha'. }
  intros Hk.
  assert (seqZ 1 nBands !! k = Some (1 + Z.of_nat k)) as Hk'
    by (apply lookup_seqZ; lia).
  destruct (open_bands_nth _ _ _ _ _ _ _ _ k _ Hob Hk') as (_ & pach_k & Ha & Hb).
  destruct (band_layout_Some crown (1 + Z.of_nat k) ltac:(lia)) as [bl Hbl].
  exists bl, pach_k. split; [exact Hbl |]. split.
  { destruct Ha as [Hl Ha]. destruct Hpoke as [Hl' Ha']. split; [congruence |].
    intros i Hi. by rewrite Ha, Ha'. }
  cbn [length Nat.add] in Hb. rewrite Hb, Hbl.
  do 2 f_equal; lia.
Qed.

End OpenMore.
(** ** The header, field by field *)

Section HeaderFields.

Implicit Types (fp : VSILFILE) (d : list byte).

(** *** What the verification yields, continued *)

Lemma derive_linear_units_range fo src bStrict n b l k l' :
  derive_linear_units fo src bStrict n b l = (Some k, l') ->
  0 <= n <= 2 -> 0 <= k <= 2.
Proof.
  unfold derive_linear_units, mbind, M_bind, CPLError, mret, M_ret, fail.
  intros H Hn.
  repeat match type of H with
         | context [match ?c with _ => _ end] => destruct c
         | context [if ?c then _ else _] => destruct c
         end;
    first [discriminate H | injection H as <- _; lia].
Qed.

Lemma opt_LINEAR_UNIT_range o : 0 <= (opt_LINEAR_UNIT o).1 <= 2.
Proof.
  unfold opt_LINEAR_UNIT.
  repeat match goal with
         | |- context [if ?c then _ else _] => destruct c
         end; cbn [fst]; lia.
Qed.

Lemma stats_flags_Some o l fl l' :
  stats_flags o l = (Some fl, l') -> fl.2 = true -> fl.1 = true.
Proof.
  unfold stats_flags, mbind, M_bind, CPLError, mret, M_ret.
  destruct (CPLFetchBool o "CLASSIFY_DATA" true), (CPLFetchBool o "CALCULATE_STATS" true);
    cbn [andb negb]; intros [= <- _]; done.
Qed.

Lemma CreateCopy_validate_more fo src bStrict o l0 p l :
  CreateCopy_validate fo src bStrict o l0 = (Some p, l) ->
  (cpClassifyData p = true -> cpCalculateStats p = true) /\
  0 <= cpLinearUnits p <= 2 /\
  cpDescription p = CSLFetchNameValueDef o "DESCRIPTION" "LCP file created by GDAL.".
Proof.
  intros H. unfold CreateCopy_validate in H.
  apply bind_Some in H as (u & l1 & _ & H).
  apply bind_Some in H as (u' & l2 & _ & H).
  apply bind_Some in H as (pm & l3 & _ & H).
  apply bind_Some in H as (fl & l4 & Hfl & H).
  apply bind_Some in H as (lat & l5 & _ & H).
  apply bind_Some in H as (dfLat & l6 & _ & H).
  apply bind_Some in H as (lin & l7 & Hlin & H).
  injection H as <- _. cbn [cpCalculateStats cpClassifyData cpLinearUnits cpDescription].
  split; [by eapply stats_flags_Some |]. split; [| reflexivity].
  eapply derive_linear_units_range; [exact Hlin | apply opt_LINEAR_UNIT_range].
Qed.


(** *** The statistics *)

Lemma write_stats_keeps_from A fo p st n : forall i fp0 fp,
  keeps A fp0 fp -> (i <= 5 -> A <= 3340) ->
  keeps A fp0 (write_stats fo p st i n fp).
Proof.
  induction n as [|n IH]; intros i fp0 fp H HA; cbn [write_stats]; [exact H |].
  apply IH; [| lia].
  assert (keeps A fp0 (if (i =? 5) && negb (cpCrown p) && cpGround p
                       then VSIFSeekL_SET 3340 fp else fp)) as H1.
  { destruct (Z.eqb_spec i 5) as [-> | Hi]; cbn [andb]; [| exact H].
    destruct (negb (cpCrown p) && cpGround p); [| exact H].
    apply keeps_seek'; [exact H | lia]. }
  destruct (cpClassifyData p).
  - by do 4 apply keeps_write'.
  - apply keeps_seek_cur'; [| unfold LCP_MAX_CLASSES; lia].
    by do 3 apply keeps_write'.
Qed.

Lemma stat_offset_step crown ground i :
  0 <= i ->
  (if (i =? 5) && negb crown && ground then 3340
   else stat_cursor_before crown ground i) = stat_offset crown ground i /\
  stat_offset crown ground i + 412 = stat_cursor_before crown ground (i + 1).
Proof.
  intros Hi. unfold stat_offset, stat_cursor_before.
  destruct crown, ground; cbn [negb andb];
    destruct (Z.eqb_spec i 5), (Z.leb_spec 5 i), (Z.leb_spec 6 i),
             (Z.leb_spec 6 (i + 1)); cbn [andb]; lia.
Qed.

(** The triple of band [j], where the statistics loop has written it. *)
Lemma write_stats_rd fo p st n : forall i fp (j : Z),
  0 <= i ->
  (i + Z.of_nat n) * LCP_MAX_CLASSES <= Z.of_nat (length (panClasses st)) ->
  pos fp = stat_cursor_before (cpCrown p) (cpGround p) i ->
  i <= j < i + Z.of_nat n ->
  let fp' := write_stats fo p st i n fp in
  rd (content fp') (stat_offset (cpCrown p) (cpGround p) j) 12
  = stats_triple fo p st j /\
  beyond (stat_offset (cpCrown p) (cpGround p) j + 12) fp'.
Proof.
  induction n as [|n IH]; intros i fp j Hi Hlen Hpos Hj; [lia |].
  cbn [write_stats]. cbv zeta.
  destruct (stat_offset_step (cpCrown p) (cpGround p) i Hi) as [Hoff Hnext].
  set (fpj := if (i =? 5) && negb (cpCrown p) && cpGround p
              then VSIFSeekL_SET 3340 fp else fp).
  assert (pos fpj = stat_offset (cpCrown p) (cpGround p) i) as Hpj.
  { rewrite <- Hoff, <- Hpos. unfold fpj.
    by destruct ((i =? 5) && negb (cpCrown p) && cpGround p). }
  assert (0 <= stat_offset (cpCrown p) (cpGround p) i) as Hoff0.
  { unfold stat_offset.
    destruct (negb (cpCrown p) && cpGround p && (5 <=? i)) eqn:E; [| lia].
    apply andb_true_iff in E as [_ E]. lia. }
  pose proof (length_class_slice (panClasses st) i Hi
                ltac:(unfold LCP_MAX_CLASSES in *; lia)) as Hcs.
  match goal with |- context [write_stats fo p st (i + 1) n ?f] => set (fp1 := f) end.
  assert (rd (content fp1) (stat_offset (cpCrown p) (cpGround p) i) 12
          = stats_triple fo p st i /\
          beyond (stat_offset (cpCrown p) (cpGround p) i + 12) fp1 /\
          pos fp1 = stat_offset (cpCrown p) (cpGround p) i + 412)
    as (Hrd & Hbey & Hp1).
  { unfold fp1, stats_triple. destruct (cpClassifyData p).
    - rewrite !write_write by (rewrite ?pos_write; lia).
      match goal with |- context [VSIFWriteL ?d fpj] => set (D := d) end.
      assert (length D = 412%nat) as HD.
      { unfold D. rewrite !length_app, !length_le32, length_flat_map_le32, Hcs.
        reflexivity. }
      pose proof (rd_write D fpj ltac:(lia)) as HW. rewrite Hpj, HD in HW.
      pose proof (rd_sub _ _ _ 412 0 12 HW Hoff0 ltac:(lia) ltac:(lia)) as H12.
      rewrite Z.add_0_r in H12. rewrite drop_0 in H12.
      split; [| split].
      + rewrite H12. unfold D. rewrite !app_assoc.
        apply take_app_length'. rewrite !length_app, !length_le32. reflexivity.
      + unfold beyond. rewrite pos_write, HD, Hpj. split; [lia |].
        pose proof (length_write_ge D fpj ltac:(lia)
                      ltac:(intros E; rewrite E in HD; discriminate HD)) as Hge.
        rewrite HD, Hpj in Hge. lia.
      + rewrite pos_write, HD, Hpj. lia.
    - cbn [VSIFSeekL_CUR content pos].
      rewrite !write_write by (rewrite ?pos_write; lia).
      match goal with |- context [VSIFWriteL ?d fpj] => set (D := d) end.
      assert (length D = 12%nat) as HD
        by (unfold D; rewrite !length_app, !length_le32; reflexivity).
      pose proof (rd_write D fpj ltac:(lia)) as HW. rewrite Hpj, HD in HW.
      split; [| split].
      + rewrite HW. reflexivity.
      + unfold beyond. cbn [VSIFSeekL_CUR content pos].
        rewrite pos_write, HD, Hpj. split; [unfold LCP_MAX_CLASSES; lia |].
        pose proof (length_write_ge D fpj ltac:(lia)
                      ltac:(intros E; rewrite E in HD; discriminate HD)) as Hge.
        rewrite HD, Hpj in Hge. lia.
      + cbn [VSIFSeekL_CUR content pos].
        rewrite pos_write, HD, Hpj. unfold LCP_MAX_CLASSES. lia. }
  destruct (decide (j = i)) as [-> | Hne].
  - assert (keeps (stat_offset (cpCrown p) (cpGround p) i + 12) fp1
              (write_stats fo p st (i + 1) n fp1)) as Hk.
    { apply write_stats_keeps_from; [by apply keeps_refl |].
      intros Hi5. unfold stat_offset.
      destruct (negb (cpCrown p) && cpGround p && (5 <=? i)) eqn:E; [| lia].
      apply andb_true_iff in E as [_ E]. lia. }
    split; [| by eapply keeps_beyond].
    rewrite <- Hrd. apply (keeps_rd _ _ _ _ 12 Hk); lia.
  - apply (IH (i + 1) fp1 j); [lia | unfold LCP_MAX_CLASSES in *; lia | | lia].
    by rewrite Hp1, Hnext.
Qed.

Lemma pad_to_lookup_keep (n : nat) (c : list byte) (i : nat) :
  (i < n)%nat -> (i < length c)%nat -> pad_to n c !! i = c !! i.
Proof.
  intros Hn Hc. unfold pad_to.
  rewrite lookup_app_l by (rewrite length_take; lia).
  by apply lookup_take_lt.
Qed.

Lemma pad_to_lookup_zero (n : nat) (c : list byte) (i : nat) :
  (length c <= i < n)%nat -> pad_to n c !! i = Some Byte.x00.
Proof.
  intros Hi. unfold pad_to.
  rewrite lookup_app_r by (rewrite length_take; lia).
  apply lookup_replicate. split; [done |]. rewrite length_take. lia.
Qed.

Lemma rd_pad_to (n : nat) (c : list byte) off (m : nat) :
  0 <= off -> off + Z.of_nat m <= Z.of_nat (length c) ->
  off + Z.of_nat m <= Z.of_nat n ->
  rd (pad_to n c) off m = rd c off m.
Proof.
  intros Hoff Hc Hn. unfold rd. apply list_eq. intros k.
  destruct (decide (k < m)%nat) as [Hk | Hk].
  - rewrite !lookup_take_lt, !lookup_drop by done.
    apply pad_to_lookup_keep; lia.
  - by rewrite !lookup_take_ge by lia.
Qed.

Lemma rd_zeros (l : list byte) off (m : nat) :
  0 <= off ->
  (forall i : nat, off <= Z.of_nat i < off + Z.of_nat m -> l !! i = Some Byte.x00) ->
  rd l off m = replicate m Byte.x00.
Proof.
  intros Hoff H. unfold rd. apply list_eq. intros k.
  destruct (decide (k < m)%nat) as [Hk | Hk].
  - rewrite lookup_take_lt, lookup_drop by done.
    rewrite H by lia. symmetry. by apply lookup_replicate.
  - rewrite lookup_take_ge by lia. symmetry. apply lookup_replicate_None. lia.
Qed.

Lemma rd_app_l (A D : list byte) off (n : nat) :
  0 <= off -> off + Z.of_nat n <= Z.of_nat (length A) ->
  rd (A ++ D) off n = rd A off n.
Proof.
  intros Hoff Hn. unfold rd. apply list_eq. intros k.
  destruct (decide (k < n)%nat) as [Hk | Hk].
  - rewrite !lookup_take_lt, !lookup_drop by done.
    apply lookup_app_l. lia.
  - by rewrite !lookup_take_ge by lia.
Qed.

(** The statistics in the finished header, when they are calculated. *)
Lemma header_stats fo src p (j : Z) :
  valid_band_count (src_band_count src) ->
  cpCrown p = ((src_band_count src =? 8) || (src_band_count src =? 10)) ->
  cpGround p = ((src_band_count src =? 7) || (src_band_count src =? 10)) ->
  length (cpMetadata p) = 10%nat ->
  cpCalculateStats p = true -> 0 <= j < src_band_count src ->
  let fp := htFile (write_header fo src p (compute_stats fo p (srcBands src))) in
  rd (content fp) (stat_offset (cpCrown p) (cpGround p) j) 12
  = stats_triple fo p (compute_stats fo p (srcBands src)) j /\
  stat_offset (cpCrown p) (cpGround p) j + 12 <= 4164.
Proof.
  intros Hn Hc Hg Hpm Hcalc Hj. unfold write_header. cbn [htFile].
  set (st := compute_stats fo p (srcBands src)).
  set (fp0 := write_lead fo src p VSIFOpenL_wb).
  set (fp1 := write_stats_section fo p st (length (srcBands src)) fp0).
  assert (stat_offset (cpCrown p) (cpGround p) j + 12 <= 4164) as Hoff.
  { rewrite Hc, Hg. unfold stat_offset, valid_band_count in *.
    destruct Hn as [Hn | [Hn | [Hn | Hn]]]; rewrite Hn in *; cbn [Z.eqb Pos.eqb orb negb andb];
      destruct (Z.leb_spec 5 j); cbn [andb]; lia. }
  assert (0 <= stat_offset (cpCrown p) (cpGround p) j) as Hoff0.
  { unfold stat_offset.
    destruct (negb (cpCrown p) && cpGround p && (5 <=? j)) eqn:E; [| lia].
    apply andb_true_iff in E as [_ E]. lia. }
  destruct (write_stats_rd fo p st (length (srcBands src)) 0 fp0 j) as [Hrd Hbey].
  { lia. }
  { unfold st. rewrite length_panClasses. lia. }
  { unfold fp0. rewrite write_lead_pos. unfold stat_cursor_before.
    by destruct (cpCrown p), (cpGround p). }
  { unfold src_band_count in Hj. lia. }
  split; [| exact Hoff]. rewrite <- Hrd.
  assert (fp1 = write_stats fo p st 0 (length (srcBands src)) fp0) as E1
    by (unfold fp1, write_stats_section; by rewrite Hcalc).
  rewrite <- E1 in *.
  set (A := stat_offset (cpCrown p) (cpGround p) j + 12) in *.
  apply (keeps_rd A); [| lia | lia].
  apply keeps_seek'; [| lia]. apply write_description_keeps; [lia |].
  apply write_files_section_keeps; [lia |]. apply write_geo_keeps; [lia |].
  by apply keeps_refl.
Qed.

(** Without CALCULATE_STATS the statistics are never written: the bytes from
    44 to 4164 stay zero. *)
Lemma header_stats_skipped fo src p off :
  length (cpMetadata p) = 10%nat ->
  cpCalculateStats p = false -> 44 <= off -> off + 12 <= 4164 ->
  let fp := htFile (write_header fo src p (compute_stats fo p (srcBands src))) in
  rd (content fp) off 12 = replicate 12 Byte.x00.
Proof.
  intros Hpm Hcalc Hlo Hhi. unfold write_header. cbn [htFile].
  set (st := compute_stats fo p (srcBands src)).
  set (fp0 := write_lead fo src p VSIFOpenL_wb).
  assert (within 44 fp0) as Hw0.
  { unfold fp0, write_lead.
    repeat (apply within_write;
            [rewrite ?pos_write; cbn [VSIFOpenL_wb pos]; lia
            |rewrite ?pos_write, ?length_le32, ?length_double_bytes;
             cbn [VSIFOpenL_wb pos]; lia |]).
    unfold within. cbn. lia. }
  unfold write_stats_section. rewrite Hcalc.
  set (fp2 := write_geo fo src p (VSIFSeekL_SET 4164 fp0)).
  pose proof (length_geo_block fo src p Hpm) as Hlen.
  assert (content fp2 = pad_to (Z.to_nat 4164) (content fp0) ++ geo_block fo src p) as Hc2.
  { unfold fp2. rewrite write_geo_block.
    change (VSIFSeekL_SET 4164 (VSIFSeekL_SET 4164 fp0)) with (VSIFSeekL_SET 4164 fp0).
    rewrite content_write_end; [reflexivity | cbn; lia | |].
    - unfold within in *. cbn [VSIFSeekL_SET pos content]. lia.
    - intros E. rewrite E in Hlen. discriminate Hlen. }
  assert (beyond 4244 fp2) as Hb2.
  { unfold beyond. rewrite Hc2, length_app, length_pad_to, Hlen.
    unfold fp2. rewrite write_geo_block, pos_write, Hlen.
    cbn [VSIFSeekL_SET pos]. lia. }
  assert (rd (content fp2) off 12 = replicate 12 Byte.x00) as Hz.
  { rewrite Hc2, rd_app_l by (rewrite ?length_pad_to; lia).
    apply rd_zeros; [lia |]. intros i Hi. apply pad_to_lookup_zero.
    unfold within in Hw0. lia. }
  rewrite <- Hz. apply (keeps_rd 4244); [| lia | lia].
  apply keeps_seek'; [| lia]. apply write_description_keeps; [lia |].
  apply write_files_section_keeps; [lia |]. by apply keeps_refl.
Qed.


(** *** The description *)

Lemma pad_to_split (n m : nat) (c : list byte) :
  (length c <= n <= m)%nat ->
  pad_to m c = pad_to n c ++ replicate (m - n) Byte.x00.
Proof.
  intros H. unfold pad_to. rewrite !take_ge by lia.
  rewrite <- app_assoc, <- replicate_add. do 2 f_equal. lia.
Qed.

(** The finished header, zero-filled to its size: 6804 bytes, the description
    and zeros. *)
Lemma header_description fo src p :
  valid_band_count (src_band_count src) ->
  cpCrown p = ((src_band_count src =? 8) || (src_band_count src =? 10)) ->
  cpGround p = ((src_band_count src =? 7) || (src_band_count src =? 10)) ->
  length (cpMetadata p) = 10%nat ->
  let fp := htFile (write_header fo src p (compute_stats fo p (srcBands src))) in
  rd (pad_to (Z.to_nat 7316) (content fp)) 6804 512
  = strn_bytes (cpDescription p) LCP_MAX_DESC
    ++ replicate (512 - length (strn_bytes (cpDescription p) LCP_MAX_DESC)) Byte.x00.
Proof.
  intros Hn Hc Hg Hpm. unfold write_header. cbn [htFile VSIFSeekL_SET content].
  pose proof (write_files_section_within fo src p Hn Hc Hg Hpm) as Hw3.
  set (fp3 := write_files_section _ _ _ _) in *.
  unfold write_description.
  pose proof (length_strn_bytes (cpDescription p) LCP_MAX_DESC ltac:(done)) as Hl.
  set (desc := strn_bytes (cpDescription p) LCP_MAX_DESC) in *.
  unfold LCP_MAX_DESC in Hl. unfold within in Hw3.
  assert (pad_to (Z.to_nat 7316) (content (VSIFWriteL desc (VSIFSeekL_SET 6804 fp3)))
          = pad_to (Z.to_nat 6804) (content fp3) ++ desc
            ++ replicate (512 - length desc) Byte.x00) as ->.
  { clearbody desc. destruct (decide (desc = [])) as [-> | Hne].
    - cbn [VSIFWriteL VSIFSeekL_SET content app length].
      rewrite (pad_to_split (Z.to_nat 6804) (Z.to_nat 7316)) by lia.
      do 2 f_equal.
    - rewrite content_write_end;
        [| cbn; lia | unfold within; cbn [VSIFSeekL_SET pos content]; lia
         | exact Hne].
      cbn [VSIFSeekL_SET pos content].
      unfold pad_to at 1.
      rewrite take_ge by (rewrite length_app, length_pad_to; lia).
      rewrite <- app_assoc. do 3 f_equal.
      rewrite length_app, length_pad_to. lia. }
  unfold rd.
  rewrite drop_app_length' by (rewrite length_pad_to; lia).
  apply take_ge. rewrite length_app, length_replicate. lia.
Qed.

Lemma until_nul_app_nul (l r : list byte) :
  until_nul (l ++ Byte.x00 :: r) = until_nul l.
Proof.
  induction l as [|b l IH]; cbn [app until_nul]; [reflexivity |].
  destruct (Byte.eqb b Byte.x00); [reflexivity | by rewrite IH].
Qed.

Lemma until_nul_app_zeros (l : list byte) (n : nat) :
  until_nul (l ++ replicate n Byte.x00) = until_nul l.
Proof.
  destruct n as [|n]; [by rewrite app_nil_r |]. apply until_nul_app_nul.
Qed.

(** A C string read from a 512-byte field whose last byte was set to NUL. *)
Lemma c_string_of_field (B : list byte) (rest : list byte) :
  until_nul (<[511%nat := Byte.x00]>
               (take 512 B ++ replicate (512 - length (take 512 B)) Byte.x00)
             ++ rest)
  = until_nul (take 511 B).
Proof.
  set (R := take 512 B ++ replicate (512 - length (take 512 B)) Byte.x00).
  assert (length R = 512%nat) as HR
    by (unfold R; rewrite length_app, length_replicate, length_take; lia).
  assert (<[511%nat := Byte.x00]> R = take 511 R ++ [Byte.x00]) as ->.
  { apply list_eq. intros i.
    destruct (decide (i = 511%nat)) as [-> | Hi].
    - rewrite list_lookup_insert_eq by lia.
      rewrite lookup_app_r by (rewrite length_take; lia).
      rewrite length_take, HR. reflexivity.
    - rewrite list_lookup_insert_ne by done.
      destruct (decide (i < 511)%nat).
      + rewrite lookup_app_l by (rewrite length_take; lia).
        by rewrite lookup_take_lt.
      + rewrite lookup_ge_None_2 by lia. symmetry.
        apply lookup_ge_None_2. rewrite length_app, length_take. cbn [length]. lia. }
  rewrite <- app_assoc. cbn [app]. rewrite until_nul_app_nul.
  unfold R. destruct (decide (511 <= length B)%nat) as [Hlong | Hshort].
  - rewrite take_app_le by (rewrite length_take; lia).
    rewrite take_take. reflexivity.
  - rewrite !(take_ge B) by lia.
    rewrite take_app_ge by lia. rewrite take_replicate, until_nul_app_zeros.
    reflexivity.
Qed.

End HeaderFields.
(** ** A file written and opened again *)

Section Reopened.

Variable fo : FloatOps.
Variable progress : ProgressEvent -> bool.
Variable raw_ok : Z -> Z -> Z -> Z -> bool.

Lemma copy_accepted_params src p :
  copy_accepted fo progress src p ->
  valid_band_count (src_band_count src) /\
  cpCrown p = ((src_band_count src =? 8) || (src_band_count src =? 10)) /\
  cpGround p = ((src_band_count src =? 7) || (src_band_count src =? 10)) /\
  length (cpMetadata p) = 10%nat /\
  Forall (fun m => 0 <= m <= 4) (cpMetadata p) /\
  (cpClassifyData p = true -> cpCalculateStats p = true) /\
  0 <= cpLinearUnits p <= 2 /\
  band_count (cpCrown p) (cpGround p) = src_band_count src /\
  progress ProgressStart = true /\ srcBands src <> [] /\
  1 <= srcXSize src <= INT_MAX.
Proof.
  intros ((bStrict & o & l & Hval) & Hdone & Hx & Hy & Hlat).
  destruct (CreateCopy_validate_Some _ _ _ _ _ _ _ Hval)
    as (Hn & Hc & Hg & Hlen & Hrange).
  destruct (CreateCopy_validate_more _ _ _ _ _ _ _ Hval) as (Hcc & Hlu & _).
  split; [exact Hn |]. split; [exact Hc |]. split; [exact Hg |].
  split; [exact Hlen |]. split; [exact Hrange |]. split; [exact Hcc |].
  split; [exact Hlu |].
  split.
  { rewrite Hc, Hg. destruct Hn as [Hn | [Hn | [Hn | Hn]]]; rewrite Hn; reflexivity. }
  split.
  { unfold CreateCopy_image in Hdone.
    destruct (progress ProgressStart); [reflexivity | discriminate Hdone]. }
  split.
  { intros E. unfold valid_band_count, src_band_count in Hn. rewrite E in Hn.
    cbn in Hn. lia. }
  unfold INT_MAX in *.
  destruct Hn as [Hn | [Hn | [Hn | Hn]]]; rewrite Hn in Hx;
    [change (2147483647 / (5 * 2)) with 214748364 in Hx
    |change (2147483647 / (7 * 2)) with 153391689 in Hx
    |change (2147483647 / (8 * 2)) with 134217727 in Hx
    |change (2147483647 / (10 * 2)) with 107374182 in Hx]; lia.
Qed.

(** The file of an accepted copy opens, and its first 7316 bytes are the
    header as written, zero-filled. *)
Lemma copy_reopened src p ext :
  copy_accepted fo progress src p -> EQUAL ext "lcp" = true ->
  (forall a b c d, raw_ok a b c d = true) ->
  let F := copied_file fo progress src p in
  let hdr := pad_to (Z.to_nat 7316)
               (content (htFile (write_header fo src p
                                   (compute_stats fo p (srcBands src))))) in
  exists ds,
    reopened raw_ok ext F = Some ds /\
    F = hdr ++ flat_map le16
                 (scanline_data src 0 (Z.to_nat (srcYSize src))
                    (replicate (length (srcBands src) * Z.to_nat (srcXSize src)) 0)) /\
    take (Z.to_nat LCP_HEADER_SIZE) F = hdr /\
    bHaveCrownFuels hdr = cpCrown p /\ bHaveGroundFuels hdr = cpGround p /\
    CPL_LSBSINT32PTR hdr 4164 = srcXSize src /\
    CPL_LSBSINT32PTR hdr 4168 = srcYSize src /\
    CPL_LSBSINT32PTR hdr 8 = latitude_field fo p /\
    rd hdr 4164 80 = geo_block fo src p.
Proof.
  intros Hacc Hext Hraw F hdr.
  destruct (copy_accepted_params src p Hacc)
    as (Hn & Hc & Hg & Hlen & Hrange & _ & _ & Hbc & Hstart & Hbands & HxM).
  destruct Hacc as (_ & Hdone & Hx & Hy & Hlat).
  pose proof (image_layout fo progress src p Hn Hc Hg Hlen Hdone ltac:(lia) ltac:(lia))
    as HF.
  fold (copied_file fo progress src p) in HF. fold F in HF. fold hdr in HF.
  pose proof (image_decoded fo progress src p Hstart Hlen Hrange Hbands HxM Hy) as HD.
  cbv zeta in HD. fold (copied_file fo progress src p) in HD. fold F in HD.
  destruct HD as (HFlen & H0 & H4 & H8 & Hw & Hh & _).
  destruct (image_fields fo progress src p Hstart Hlen Hbands ltac:(lia) ltac:(lia))
    as (_ & _ & Hblock).
  fold (copied_file fo progress src p) in Hblock. fold F in Hblock.
  assert (length hdr = Z.to_nat 7316) as Hhl by apply length_pad_to.
  assert (take (Z.to_nat LCP_HEADER_SIZE) F = hdr) as Htake.
  { rewrite HF. apply take_app_length'. rewrite Hhl. reflexivity. }
  assert (forall off, 0 <= off -> off + 4 <= 7316 ->
            CPL_LSBSINT32PTR hdr off = CPL_LSBSINT32PTR F off) as Hs32.
  { intros off ? ?. rewrite <- Htake. apply sint32_take; unfold LCP_HEADER_SIZE; lia. }
  assert (bHaveCrownFuels F = cpCrown p) as HcF
    by (unfold bHaveCrownFuels; rewrite H0; by destruct (cpCrown p)).
  assert (bHaveGroundFuels F = cpGround p) as HgF
    by (unfold bHaveGroundFuels; rewrite H4; by destruct (cpGround p)).
  destruct (Open_accepts raw_ok ext F) as [ds HO].
  { exact HFlen. }
  { rewrite H0. destruct (cpCrown p); tauto. }
  { rewrite H4. destruct (cpGround p); tauto. }
  { by rewrite H8. }
  { exact Hext. }
  { by rewrite HcF, HgF, Hbc, Hw. }
  { rewrite Hh. lia. }
  { exact Hraw. }
  exists ds. split; [exact HO |]. split; [exact HF |]. split; [exact Htake |].
  split; [unfold bHaveCrownFuels in *; by rewrite Hs32 by lia |].
  split; [unfold bHaveGroundFuels in *; by rewrite Hs32 by lia |].
  split; [by rewrite Hs32 by lia |]. split; [by rewrite Hs32 by lia |].
  split; [by rewrite Hs32 by lia |].
  rewrite <- Hblock, <- Htake. apply rd_take; unfold LCP_HEADER_SIZE; lia.
Qed.

End Reopened.
(** ** The block at 4164, field by field *)

Section GeoBlock.

Local Ltac piece_len :=
  first [apply length_le32 | apply length_le16 | apply length_double_bytes].

Lemma geo_block_fields fo src p (B : list byte) :
  rd B 4164 80 = geo_block fo src p ->
  rd B 4164 4 = le32 (srcXSize src) /\
  rd B 4168 4 = le32 (srcYSize src) /\
  rd B 4172 8 = double_bytes (dfEast_of fo src) /\
  rd B 4180 8 = double_bytes (gt0 (srcGT src)) /\
  rd B 4188 8 = double_bytes (gt3 (srcGT src)) /\
  rd B 4196 8 = double_bytes (dfSouth_of fo src) /\
  rd B 4204 4 = le32 (cpLinearUnits p) /\
  rd B 4208 8 = double_bytes (gt1 (srcGT src)) /\
  rd B 4216 8 = double_bytes (ffabs fo (gt5 (srcGT src))) /\
  (forall (i : nat) m, cpMetadata p !! i = Some m ->
     rd B (4224 + 2 * Z.of_nat i) 2 = le16 m).
Proof.
  intros Hblock. unfold geo_block in Hblock.
  assert (forall (a : Z) (m k : nat),
            0 <= a -> a + Z.of_nat m <= 80 -> Z.to_nat a = k ->
            rd B (4164 + a) m
            = take m (drop k
                (le32 (srcXSize src) ++ le32 (srcYSize src)
                 ++ double_bytes (dfEast_of fo src)
                 ++ double_bytes (gt0 (srcGT src))
                 ++ double_bytes (gt3 (srcGT src))
                 ++ double_bytes (dfSouth_of fo src)
                 ++ le32 (cpLinearUnits p)
                 ++ double_bytes (gt1 (srcGT src))
                 ++ double_bytes (ffabs fo (gt5 (srcGT src)))
                 ++ flat_map le16 (cpMetadata p)))) as Hcut.
  { intros a m k Ha Hm <-. apply (rd_sub B _ 4164 80 a m Hblock); lia. }
  pose proof (Hcut 0 4%nat 0%nat ltac:(lia) ltac:(lia) eq_refl) as Hw.
  pose proof (Hcut 4 4%nat (4 + 0)%nat ltac:(lia) ltac:(lia) eq_refl) as Hh.
  pose proof (Hcut 8 8%nat (4 + (4 + 0))%nat ltac:(lia) ltac:(lia) eq_refl) as He.
  pose proof (Hcut 16 8%nat (4 + (4 + (8 + 0)))%nat ltac:(lia) ltac:(lia) eq_refl) as Hwe.
  pose proof (Hcut 24 8%nat (4 + (4 + (8 + (8 + 0))))%nat
                ltac:(lia) ltac:(lia) eq_refl) as Hno.
  pose proof (Hcut 32 8%nat (4 + (4 + (8 + (8 + (8 + 0)))))%nat
                ltac:(lia) ltac:(lia) eq_refl) as Hso.
  pose proof (Hcut 40 4%nat (4 + (4 + (8 + (8 + (8 + (8 + 0))))))%nat
                ltac:(lia) ltac:(lia) eq_refl) as Hlu.
  pose proof (Hcut 44 8%nat (4 + (4 + (8 + (8 + (8 + (8 + (4 + 0)))))))%nat
                ltac:(lia) ltac:(lia) eq_refl) as Hcx.
  pose proof (Hcut 52 8%nat (4 + (4 + (8 + (8 + (8 + (8 + (4 + (8 + 0))))))))%nat
                ltac:(lia) ltac:(lia) eq_refl) as Hcy.
  change (4164 + 0) with 4164 in Hw. change (4164 + 4) with 4168 in Hh.
  change (4164 + 8) with 4172 in He. change (4164 + 16) with 4180 in Hwe.
  change (4164 + 24) with 4188 in Hno. change (4164 + 32) with 4196 in Hso.
  change (4164 + 40) with 4204 in Hlu.
  change (4164 + 44) with 4208 in Hcx. change (4164 + 52) with 4216 in Hcy.
  rewrite drop_0, take_piece in Hw by piece_len.
  do 1 (rewrite drop_piece in Hh by piece_len).
  do 2 (rewrite drop_piece in He by piece_len).
  do 3 (rewrite drop_piece in Hwe by piece_len).
  do 4 (rewrite drop_piece in Hno by piece_len).
  do 5 (rewrite drop_piece in Hso by piece_len).
  do 6 (rewrite drop_piece in Hlu by piece_len).
  do 7 (rewrite drop_piece in Hcx by piece_len).
  do 8 (rewrite drop_piece in Hcy by piece_len).
  rewrite drop_0, take_piece in Hh, He, Hwe, Hno, Hso, Hlu, Hcx, Hcy by piece_len.
  repeat (split; [assumption |]).
  intros i m Hi.
  pose proof (lookup_lt_Some _ _ _ Hi) as Hlt.
  destruct (decide (i < 10)%nat) as [Hi10 | Hi10].
  - replace (4224 + 2 * Z.of_nat i) with (4164 + (60 + 2 * Z.of_nat i)) by lia.
    rewrite (Hcut (60 + 2 * Z.of_nat i) 2%nat
               (4 + (4 + (8 + (8 + (8 + (8 + (4 + (8 + (8 + Z.to_nat (2 * Z.of_nat i))))))))))%nat)
      by lia.
    do 9 (rewrite drop_piece by piece_len).
    apply (rd_flat_map_le16 _ i m Hi).
  - (* beyond the block: the codes list is longer than ten entries *)
    exfalso. apply (f_equal length) in Hblock.
    unfold rd in Hblock. rewrite length_take in Hblock.
    rewrite !length_app, !length_le32, !length_double_bytes, length_flat_map_le16
      in Hblock. lia.
Qed.

End GeoBlock.
(** ** Properties of a file written and opened again *)

Lemma example_copy_accepted :
  copy_accepted int_float_ops (fun _ => true) (example_source 5) example_params.
Proof.
  split; [exists false, example_options; eexists; vm_compute; reflexivity |].
  split; [vm_compute; reflexivity |].
  repeat split; vm_compute; discriminate.
Qed.

Lemma wrap16_le16 z :
  MIN_VAL <= z <= MAX_VAL -> wrap16 (le_combine (le16 z)) = z.
Proof.
  intros Hz. unfold wrap16, le16, MIN_VAL, MAX_VAL in *. rewrite le_combine_split.
  change (Z.of_nat 2 * 8) with 16.
  rewrite Zplus_mod_idemp_l.
  rewrite Z.mod_small; lia.
Qed.

(** X6.  The file of a copy that ran to its end is the 7316-byte header followed
    by two bytes per sample: its size is 7316 + 2 * bands * width * height. *)
Theorem CreateCopy_file_size
    (fo : FloatOps) (progress : ProgressEvent -> bool) (src : GDALDataset)
    (p : CreateParams) :
  copy_accepted fo progress src p ->
  Z.of_nat (length (copied_file fo progress src p))
  = LCP_HEADER_SIZE + 2 * src_band_count src * srcXSize src * srcYSize src.
Proof.
  intros Hacc.
  destruct (copy_accepted_params fo progress src p Hacc)
    as (Hn & Hc & Hg & Hlen & _).
  destruct Hacc as (_ & Hdone & Hx & Hy & _).
  unfold copied_file.
  rewrite (image_layout fo progress src p Hn Hc Hg Hlen Hdone) by lia.
  rewrite length_app, length_pad_to, length_flat_map_le16, length_scanline_data,
    length_replicate.
  unfold LCP_HEADER_SIZE, src_band_count. nia.
Qed.

Lemma CreateCopy_file_size_witness :
  Z.of_nat (length (copied_file int_float_ops (fun _ => true) (example_source 5)
                      example_params))
  = 7356.
Proof.
  exact (CreateCopy_file_size int_float_ops (fun _ => true) (example_source 5)
           example_params example_copy_accepted).
Defined.

(** X7.  The image data round trip: every band that [Open] declares on the file
    written reads, at each column and line, the sample [CreateCopy] read from
    the source at that place (for each line whose read succeeded). *)
Theorem CreateCopy_samples_round_trip
    (fo : FloatOps) (progress : ProgressEvent -> bool)
    (raw_ok : Z -> Z -> Z -> Z -> bool) (src : GDALDataset) (p : CreateParams)
    (ext : string) :
  copy_accepted fo progress src p -> EQUAL ext "lcp" = true ->
  (forall a b c d, raw_ok a b c d = true) ->
  exists ds,
    reopened raw_ok ext (copied_file fo progress src p) = Some ds /\
    forall (k : nat) b x y v,
      papoBands ds !! k = Some b ->
      0 <= x < srcXSize src -> 0 <= y < srcYSize src ->
      src_pixel src k x y = Some v -> MIN_VAL <= v <= MAX_VAL ->
      raw_sample (copied_file fo progress src p) b x y = v.
Proof.
  intros Hacc Hext Hraw.
  destruct (copy_reopened fo progress raw_ok src p ext Hacc Hext Hraw)
    as (ds & HO & HF & Htake & HcF & HgF & Hw & _).
  destruct (copy_accepted_params fo progress src p Hacc)
    as (_ & _ & _ & _ & _ & _ & _ & Hbc & _).
  exists ds. split; [exact HO |].
  intros k b x y v Hb Hx Hy Hpix Hv.
  set (F := copied_file fo progress src p) in *.
  set (hdr := pad_to _ _) in *.
  destruct (Open_band raw_ok _ ds F k HO eq_refl) as (Hcount & _ & Hband).
  cbv zeta in Hcount, Hband. rewrite Htake, HcF, HgF, Hbc, Hw in *.
  assert (Z.of_nat k < src_band_count src) as Hk.
  { apply lookup_lt_Some in Hb. unfold GetRasterCount in Hcount. lia. }
  destruct (Hband Hk) as (bl & pach_k & _ & _ & Hb').
  rewrite Hb in Hb'. injection Hb' as ->.
  unfold src_pixel in Hpix.
  destruct (srcBands src !! k) as [sb|] eqn:Hsb; [| discriminate Hpix].
  destruct (nth (Z.to_nat y) (bandLines sb) None) as [row|] eqn:Hrow;
    [| discriminate Hpix].
  destruct (Z.ltb_spec x 0); [lia |].
  pose proof (scanline_data_lookup src (Z.to_nat (srcYSize src)) 0
                (replicate (length (srcBands src) * Z.to_nat (srcXSize src)) 0)
                (Z.to_nat y) k (Z.to_nat x) sb row v ltac:(lia) ltac:(lia)
                (length_replicate _ _) Hsb
                ltac:(rewrite Z.add_0_l, Z2Nat.id by lia; exact Hrow)
                ltac:(lia) Hpix) as Hdata.
  apply rd_flat_map_le16 in Hdata.
  unfold raw_sample, sample_offset.
  cbn [rbImgOffset rbPixelOffset rbLineOffset].
  assert (length hdr = Z.to_nat 7316) as Hhl by apply length_pad_to.
  replace (LCP_HEADER_SIZE + Z.of_nat k * 2
           + y * (src_band_count src * 2 * srcXSize src)
           + x * (src_band_count src * 2))
    with (Z.of_nat (length hdr)
          + 2 * Z.of_nat (Z.to_nat y * (length (srcBands src) * Z.to_nat (srcXSize src))
                          + (Z.to_nat x * length (srcBands src) + k)))
    by (rewrite Hhl; unfold LCP_HEADER_SIZE, src_band_count; nia).
  rewrite HF, rd_app_r by lia. rewrite Hdata. by apply wrap16_le16.
Qed.

Lemma CreateCopy_samples_round_trip_witness :
  exists ds,
    reopened (fun _ _ _ _ => true) "lcp"
      (copied_file int_float_ops (fun _ => true) (example_source 5) example_params)
    = Some ds /\
    forall b, papoBands ds !! 3%nat = Some b ->
      raw_sample (copied_file int_float_ops (fun _ => true) (example_source 5)
                    example_params) b 0 1 = 3.
Proof.
  destruct (CreateCopy_samples_round_trip int_float_ops (fun _ => true)
              (fun _ _ _ _ => true) (example_source 5) example_params "lcp"
              example_copy_accepted eq_refl (fun _ _ _ _ => eq_refl))
    as (ds & HO & H).
  exists ds. split; [exact HO |]. intros b Hb.
  apply (H 3%nat b 0 1 3 Hb); [cbn; lia | cbn; lia | reflexivity |].
  unfold MIN_VAL, MAX_VAL. lia.
Defined.
(** ** The dataset-level items and the geotransform of a copy *)

(** X8.  The latitude and the linear unit of a copy, as [Open] reports them: the
    LATITUDE item is the latitude field written, and the LINEAR_UNIT item is
    Meters for the code 0, Feet for the code 1, and missing for the code 2
    (kilometers), the only other code [CreateCopy] writes. *)
Theorem CreateCopy_latitude_and_linear_unit_round_trip
    (fo : FloatOps) (progress : ProgressEvent -> bool)
    (raw_ok : Z -> Z -> Z -> Z -> bool) (src : GDALDataset) (p : CreateParams)
    (ext : string) :
  copy_accepted fo progress src p -> EQUAL ext "lcp" = true ->
  (forall a b c d, raw_ok a b c d = true) ->
  exists ds,
    reopened raw_ok ext (copied_file fo progress src p) = Some ds /\
    dsMetadata ds !! "LATITUDE"%string = Some (MDInt (latitude_field fo p)) /\
    dsMetadata ds !! "LINEAR_UNIT"%string
    = option_map MDText (linear_unit_name (cpLinearUnits p)) /\
    0 <= cpLinearUnits p <= 2 /\
    (cpLinearUnits p = 2 -> dsMetadata ds !! "LINEAR_UNIT"%string = None).
Proof.
  intros Hacc Hext Hraw.
  destruct (copy_reopened fo progress raw_ok src p ext Hacc Hext Hraw)
    as (ds & HO & _ & Htake & _ & _ & _ & _ & Hlat & Hblock).
  destruct (copy_accepted_params fo progress src p Hacc)
    as (_ & _ & _ & _ & _ & _ & Hlu & _).
  exists ds. split; [exact HO |].
  destruct (Open_inv raw_ok _ ds HO)
    as (file & pach & Hfile & _ & _ & Hpach & _ & _ & _ & _ & HL & HU & _).
  injection Hfile as <-. rewrite Htake in Hpach. subst pach.
  destruct (geo_block_fields fo src p _ Hblock) as (_ & _ & _ & _ & _ & _ & Hl & _).
  rewrite (sint32_of_rd _ 4204 _ Hl) in HU by lia.
  split; [by rewrite HL, Hlat |]. split; [exact HU |]. split; [exact Hlu |].
  intros E. by rewrite HU, E.
Qed.

Lemma CreateCopy_latitude_and_linear_unit_round_trip_witness :
  exists ds,
    reopened (fun _ _ _ _ => true) "lcp"
      (copied_file int_float_ops (fun _ => true) (example_source 5) example_params)
    = Some ds /\
    dsMetadata ds !! "LATITUDE"%string = Some (MDInt 45) /\
    dsMetadata ds !! "LINEAR_UNIT"%string = Some (MDText "Meters").
Proof.
  destruct (CreateCopy_latitude_and_linear_unit_round_trip int_float_ops
              (fun _ => true) (fun _ _ _ _ => true) (example_source 5)
              example_params "lcp" example_copy_accepted eq_refl
              (fun _ _ _ _ => eq_refl))
    as (ds & HO & HL & HU & _).
  exists ds. split; [exact HO |]. split; [exact HL | exact HU].
Defined.

(** X9.  The description of a copy, as [Open] reports it: the description given,
    cut after 511 bytes.  The field holds 512 bytes and [CreateCopy] fills up
    to all of them, but [Open] overwrites the last one with the NUL. *)
Theorem CreateCopy_description_round_trip
    (fo : FloatOps) (progress : ProgressEvent -> bool)
    (raw_ok : Z -> Z -> Z -> Z -> bool) (src : GDALDataset) (p : CreateParams)
    (ext : string) :
  copy_accepted fo progress src p -> EQUAL ext "lcp" = true ->
  (forall a b c d, raw_ok a b c d = true) ->
  exists ds,
    reopened raw_ok ext (copied_file fo progress src p) = Some ds /\
    dsMetadata ds !! "DESCRIPTION"%string
    = Some (MDCStr (until_nul (take 511 (list_byte_of_string (cpDescription p))))).
Proof.
  intros Hacc Hext Hraw.
  destruct (copy_reopened fo progress raw_ok src p ext Hacc Hext Hraw)
    as (ds & HO & _ & Htake & _).
  destruct (copy_accepted_params fo progress src p Hacc)
    as (Hn & Hc & Hg & Hlen & _).
  exists ds. split; [exact HO |].
  destruct (Open_inv raw_ok _ ds HO)
    as (file & pach & Hfile & _ & _ & Hpach & _ & _ & _ & _ & _ & _ & HD & _).
  injection Hfile as <-. rewrite Htake in Hpach. subst pach.
  rewrite HD. do 2 f_equal.
  pose proof (header_description fo src p Hn Hc Hg Hlen) as Hd. cbv zeta in Hd.
  set (hdr := pad_to _ _) in *.
  assert (length hdr = Z.to_nat 7316) as Hhl by apply length_pad_to.
  unfold c_string_at, poke_nul.
  rewrite drop_insert_ge by (unfold LCP_HEADER_SIZE; lia).
  replace (Z.to_nat (LCP_HEADER_SIZE - 1) - Z.to_nat 6804)%nat with 511%nat
    by (unfold LCP_HEADER_SIZE; lia).
  assert (drop (Z.to_nat 6804) hdr = rd hdr 6804 512) as ->.
  { unfold rd. symmetry. apply take_ge. rewrite length_drop, Hhl. lia. }
  rewrite Hd. unfold strn_bytes, LCP_MAX_DESC.
  change (Z.to_nat 512) with 512%nat.
  rewrite <- (app_nil_r (<[_ := _]> _)).
  apply c_string_of_field.
Qed.

Lemma CreateCopy_description_round_trip_witness :
  exists ds,
    reopened (fun _ _ _ _ => true) "lcp"
      (copied_file int_float_ops (fun _ => true) (example_source 5) example_params)
    = Some ds /\
    dsMetadata ds !! "DESCRIPTION"%string
    = Some (MDCStr (list_byte_of_string "LCP file created by GDAL.")).
Proof.
  exact (CreateCopy_description_round_trip int_float_ops (fun _ => true)
           (fun _ _ _ _ => true) (example_source 5) example_params "lcp"
           example_copy_accepted eq_refl (fun _ _ _ _ => eq_refl)).
Defined.

(** X10.  The geotransform of a copy is north-up: the origin and the pixel width of
    the source, no rotation terms whatever the source had, and minus the
    absolute value of the source's line step. *)
Theorem CreateCopy_geotransform_round_trip
    (fo : FloatOps) (progress : ProgressEvent -> bool)
    (raw_ok : Z -> Z -> Z -> Z -> bool) (src : GDALDataset) (p : CreateParams)
    (ext : string) :
  copy_accepted fo progress src p -> EQUAL ext "lcp" = true ->
  (forall a b c d, raw_ok a b c d = true) ->
  exists ds,
    reopened raw_ok ext (copied_file fo progress src p) = Some ds /\
    GetGeoTransform fo ds
    = [gt0 (srcGT src); gt1 (srcGT src); f_of_int fo 0;
       gt3 (srcGT src); f_of_int fo 0;
       fmul fo (f_of_int fo (-1)) (ffabs fo (gt5 (srcGT src)))].
Proof.
  intros Hacc Hext Hraw.
  destruct (copy_reopened fo progress raw_ok src p ext Hacc Hext Hraw)
    as (ds & HO & _ & Htake & _ & _ & _ & _ & _ & Hblock).
  exists ds. split; [exact HO |].
  destruct (Open_band raw_ok _ ds _ 0%nat HO eq_refl) as (_ & Hagree & _).
  cbv zeta in Hagree. rewrite Htake in Hagree.
  destruct (geo_block_fields fo src p _ Hblock)
    as (_ & _ & _ & Hwest & Hnorth & _ & _ & Hcx & Hcy & _).
  unfold GetGeoTransform, header_extent.
  cbn [dfWest dfNorth dfCellX dfCellY].
  rewrite (load_double_bytes _ 4180 (gt0 (srcGT src)))
    by (rewrite ?(agree_but_nuls_low _ _ _ _ Hagree) by lia; done || lia).
  rewrite (load_double_bytes _ 4188 (gt3 (srcGT src)))
    by (rewrite ?(agree_but_nuls_low _ _ _ _ Hagree) by lia; done || lia).
  rewrite (load_double_bytes _ 4208 (gt1 (srcGT src)))
    by (rewrite ?(agree_but_nuls_low _ _ _ _ Hagree) by lia; done || lia).
  rewrite (load_double_bytes _ 4216 (ffabs fo (gt5 (srcGT src))))
    by (rewrite ?(agree_but_nuls_low _ _ _ _ Hagree) by lia; done || lia).
  reflexivity.
Qed.

Lemma CreateCopy_geotransform_round_trip_witness :
  exists ds,
    reopened (fun _ _ _ _ => true) "lcp"
      (copied_file int_float_ops (fun _ => true) (example_source 5) example_params)
    = Some ds /\
    GetGeoTransform int_float_ops ds
    = map double_of_Z [1000; 30; 0; 2000; 0; -30].
Proof.
  exact (CreateCopy_geotransform_round_trip int_float_ops (fun _ => true)
           (fun _ _ _ _ => true) (example_source 5) example_params "lcp"
           example_copy_accepted eq_refl (fun _ _ _ _ => eq_refl)).
Defined.
(** ** The statistics of a copy *)

Section StatsRoundTrip.

Lemma classify_bands_found_keep bands : forall i found classes (j : nat),
  (j < i)%nat -> (classify_bands i bands found classes).1 !! j = found !! j.
Proof.
  induction bands as [|b bands IH]; intros i found classes j Hj;
    cbn [classify_bands]; [done |].
  destruct (ClassifyBandData b) as [[e n] stores].
  rewrite IH by lia. apply list_lookup_insert_ne. lia.
Qed.

(** [panFound[k]] is the count [ClassifyBandData] returns for band [k]. *)
Lemma classify_bands_found bands : forall i found classes (k : nat) sb,
  bands !! k = Some sb -> (i + length bands <= length found)%nat ->
  (classify_bands i bands found classes).1 !! (i + k)%nat
  = Some (ClassifyBandData sb).1.2.
Proof.
  induction bands as [|b bands IH]; intros i found classes k sb Hk Hlen; [done |].
  cbn [classify_bands]. cbn [length] in Hlen.
  destruct k as [|k]; cbn in Hk.
  - injection Hk as ->. destruct (ClassifyBandData sb) as [[e n] stores] eqn:E.
    rewrite Nat.add_0_r, classify_bands_found_keep by lia.
    cbn [fst snd]. apply list_lookup_insert_eq. lia.
  - destruct (ClassifyBandData b) as [[e n] stores].
    replace (i + S k)%nat with (S i + k)%nat by lia.
    apply IH; [exact Hk |]. rewrite length_insert. lia.
Qed.

Lemma wrap32_le32_any z : wrap32 (le_combine (le32 z)) = wrap32 z.
Proof.
  unfold wrap32, le32. rewrite le_combine_split.
  change (Z.of_nat 4 * 8) with 32. by rewrite Zplus_mod_idemp_l.
Qed.

(** The triple of a band's layout is where the statistics loop puts it. *)
Lemma band_layout_stat crown ground (k : nat) bl :
  band_layout crown (1 + Z.of_nat k) = Some bl ->
  Z.of_nat k < band_count crown ground ->
  blStatOff bl = stat_offset crown ground (Z.of_nat k).
Proof.
  intros H Hk.
  assert (k < 10)%nat as Hk10
    by (unfold band_count in Hk; destruct crown, ground; lia).
  do 10 (destruct k as [|k];
         [destruct crown, ground; cbn in H, Hk; try lia;
          injection H as <-; reflexivity |]).
  lia.
Qed.

(** The three numbers read from a 12-byte triple. *)
Lemma triple_decoded (B : list byte) off a b c :
  0 <= off -> rd B off 12 = le32 a ++ le32 b ++ le32 c ->
  CPL_LSBSINT32PTR B off = wrap32 a /\
  CPL_LSBSINT32PTR B (off + 4) = wrap32 b /\
  CPL_LSBSINT32PTR B (off + 8) = wrap32 c.
Proof.
  intros Hoff H.
  pose proof (rd_sub B _ off 12 0 4 H Hoff ltac:(lia) ltac:(lia)) as H0.
  pose proof (rd_sub B _ off 12 4 4 H Hoff ltac:(lia) ltac:(lia)) as H4.
  pose proof (rd_sub B _ off 12 8 4 H Hoff ltac:(lia) ltac:(lia)) as H8.
  rewrite Z.add_0_r in H0.
  change (Z.to_nat 0) with 0%nat in H0.
  change (Z.to_nat 4) with (4 + 0)%nat in H4.
  change (Z.to_nat 8) with (4 + (4 + 0))%nat in H8.
  rewrite drop_0, take_piece in H0 by apply length_le32.
  rewrite drop_piece, drop_0, take_piece in H4 by apply length_le32.
  do 2 (rewrite drop_piece in H8 by apply length_le32). rewrite drop_0 in H8.
  rewrite take_ge in H8 by (rewrite length_le32; lia).
  unfold CPL_LSBSINT32PTR. rewrite H0, H4, H8, !wrap32_le32_any. done.
Qed.

End StatsRoundTrip.

(** X11.  The statistics round trip.  For each band of a copy, [Open] reports as
    MIN and MAX the minimum and maximum [GetStatistics] gave for the source
    band (0 when it failed), converted to 32-bit integers, and as NUM_CLASSES
    the count [ClassifyBandData] returned for it, or -1 with CLASSIFY_DATA
    off.  With CALCULATE_STATS off as well the statistics are not written at
    all, and all three read 0, not -1. *)
Theorem CreateCopy_statistics_round_trip
    (fo : FloatOps) (progress : ProgressEvent -> bool)
    (raw_ok : Z -> Z -> Z -> Z -> bool) (src : GDALDataset) (p : CreateParams)
    (ext : string) :
  copy_accepted fo progress src p -> EQUAL ext "lcp" = true ->
  (forall a b c d, raw_ok a b c d = true) ->
  exists ds,
    reopened raw_ok ext (copied_file fo progress src p) = Some ds /\
    forall (k : nat) b sb,
      papoBands ds !! k = Some b -> srcBands src !! k = Some sb ->
      exists bl,
        band_layout (cpCrown p) (1 + Z.of_nat k) = Some bl /\
        rbMetadata b !! (blPrefix bl +:+ "_MIN")%string
        = Some (MDInt (if cpCalculateStats p
                       then wrap32 (f_to_int32 fo (band_minmax fo sb).1) else 0)) /\
        rbMetadata b !! (blPrefix bl +:+ "_MAX")%string
        = Some (MDInt (if cpCalculateStats p
                       then wrap32 (f_to_int32 fo (band_minmax fo sb).2) else 0)) /\
        rbMetadata b !! (blPrefix bl +:+ "_NUM_CLASSES")%string
        = Some (MDInt (if cpCalculateStats p
                       then if cpClassifyData p
                            then (ClassifyBandData sb).1.2 else -1
                       else 0)).
Proof.
  intros Hacc Hext Hraw.
  destruct (copy_reopened fo progress raw_ok src p ext Hacc Hext Hraw)
    as (ds & HO & _ & Htake & HcF & HgF & Hw & _).
  destruct (copy_accepted_params fo progress src p Hacc)
    as (Hn & Hc & Hg & Hlen & _ & Hcc & _ & Hbc & _).
  exists ds. split; [exact HO |].
  intros k b sb Hb Hsb.
  set (F := copied_file fo progress src p) in *.
  destruct (Open_band raw_ok _ ds F k HO eq_refl) as (Hcount & _ & Hband).
  cbv zeta in Hcount, Hband. rewrite Htake, HcF, HgF, Hbc, Hw in *.
  assert (Z.of_nat k < src_band_count src) as Hk.
  { apply lookup_lt_Some in Hb. unfold GetRasterCount in Hcount. lia. }
  destruct (Hband Hk) as (bl & pach_k & Hbl & Hagree & Hb').
  destruct (band_metadata_items _ _ _ pach_k Hbl)
    as (_ & _ & Hmin & Hmax & Hnum & _).
  cbv zeta in Hmin, Hmax, Hnum.
  set (md := (band_metadata (1 + Z.of_nat k) bl pach_k).2) in *. clearbody md.
  rewrite Hb in Hb'. injection Hb' as ->. cbn [rbMetadata].
  exists bl. split; [exact Hbl |].
  rewrite Hmin, Hmax, Hnum.
  rewrite (band_layout_stat _ (cpGround p) _ _ Hbl) by (rewrite Hbc; exact Hk).
  set (off := stat_offset (cpCrown p) (cpGround p) (Z.of_nat k)).
  set (st := compute_stats fo p (srcBands src)).
  set (fp := htFile (write_header fo src p st)) in *.
  destruct (write_header_fields fo src p st Hlen) as (Hbey & _).
  fold fp in Hbey. destruct Hbey as [_ Hbey].
  assert (0 <= off /\ off + 12 <= 4164 /\ 44 <= off) as (Hoff0 & Hoff1 & Hoff44).
  { unfold off, stat_offset.
    rewrite Hc, Hg. unfold valid_band_count in Hn.
    destruct Hn as [Hn | [Hn | [Hn | Hn]]]; rewrite Hn in *;
      cbn [Z.eqb Pos.eqb orb negb andb];
      destruct (Z.leb_spec 5 (Z.of_nat k)); cbn [andb]; lia. }
  assert (rd pach_k off 12 = rd (content fp) off 12) as Hrd.
  { rewrite (agree_but_nuls_low _ _ _ _ Hagree) by lia.
    apply rd_pad_to; lia. }
  destruct (cpCalculateStats p) eqn:Hcalc.
  - destruct (header_stats fo src p (Z.of_nat k) Hn Hc Hg Hlen Hcalc ltac:(lia))
      as [Htri _].
    fold st fp off in Htri. rewrite Htri in Hrd. unfold stats_triple in Hrd.
    destruct (triple_decoded pach_k off _ _ _ Hoff0 Hrd) as (-> & -> & ->).
    rewrite Nat2Z.id.
    assert (nth k (padfMin st) (f_of_int fo 0) = (band_minmax fo sb).1) as ->.
    { unfold st, compute_stats.
      destruct (if cpCalculateStats p && cpClassifyData p then _ else _).
      cbn [padfMin]. rewrite nth_lookup, list_lookup_fmap, Hsb. reflexivity. }
    assert (nth k (padfMax st) (f_of_int fo 0) = (band_minmax fo sb).2) as ->.
    { unfold st, compute_stats.
      destruct (if cpCalculateStats p && cpClassifyData p then _ else _).
      cbn [padfMax]. rewrite nth_lookup, list_lookup_fmap, Hsb. reflexivity. }
    split; [reflexivity |]. split; [reflexivity |].
    destruct (cpClassifyData p) eqn:Hcls; [| reflexivity].
    assert (nth k (panFound st) 0 = (ClassifyBandData sb).1.2) as ->.
    { unfold st, compute_stats. rewrite Hcalc, Hcls. cbn [andb].
      pose proof (classify_bands_found (srcBands src) 0
                    (replicate (length (srcBands src)) 0)
                    (replicate (length (srcBands src) * Z.to_nat LCP_MAX_CLASSES) 0)
                    k sb Hsb ltac:(rewrite length_replicate; lia)) as Hf.
      destruct (classify_bands _ _ _ _) as [found classes].
      cbn [panFound fst] in *. rewrite nth_lookup. cbn [Nat.add] in Hf.
      by rewrite Hf. }
    do 2 f_equal.
    pose proof (classify_lines_count (bandLines sb) classify_init eq_refl
                  classify_init_count) as Hci.
    unfold ClassifyBandData.
    destruct (classify_lines classify_init (bandLines sb)) as [e st'].
    cbn [fst snd] in *. unfold count_inv, LCP_MAX_CLASSES in Hci.
    unfold wrap32. destruct (bTooMany st'); rewrite Z.mod_small; lia.
  - pose proof (header_stats_skipped fo src p off Hlen Hcalc ltac:(lia) ltac:(lia))
      as Hz.
    cbv zeta in Hz. fold st fp in Hz. rewrite Hz in Hrd.
    unfold CPL_LSBSINT32PTR.
    rewrite (rd_sub pach_k _ off 12 4 4 Hrd) by lia.
    rewrite (rd_sub pach_k _ off 12 8 4 Hrd) by lia.
    pose proof (rd_sub pach_k _ off 12 0 4 Hrd ltac:(lia) ltac:(lia) ltac:(lia)) as H0.
    rewrite Z.add_0_r in H0. rewrite H0.
    split; [reflexivity |]. split; reflexivity.
Qed.

Lemma CreateCopy_statistics_round_trip_witness :
  exists ds,
    reopened (fun _ _ _ _ => true) "lcp"
      (copied_file int_float_ops (fun _ => true) (example_source 5) example_params)
    = Some ds /\
    forall b, papoBands ds !! 1%nat = Some b ->
      rbMetadata b !! "SLOPE_MAX"%string = Some (MDInt 9) /\
      rbMetadata b !! "SLOPE_NUM_CLASSES"%string = Some (MDInt 3).
Proof.
  destruct (CreateCopy_statistics_round_trip int_float_ops (fun _ => true)
              (fun _ _ _ _ => true) (example_source 5) example_params "lcp"
              example_copy_accepted eq_refl (fun _ _ _ _ => eq_refl))
    as (ds & HO & H).
  exists ds. split; [exact HO |]. intros b Hb.
  destruct (H 1%nat b (example_band [[1; 2]; [3; -9999]]) Hb eq_refl)
    as (bl & Hbl & _ & Hmax & Hnum).
  injection Hbl as <-. split; [exact Hmax | exact Hnum].
Defined.
(** ** The unit names of a copy *)

Section UnitNames.

Local Ltac code_range_tac :=
  intros l k l';
  repeat match goal with
         | |- context [if ?c then _ else _] => destruct c
         end;
  unfold mret, M_ret, fail; intros [= <- _] || intros [=]; lia.

Lemma opt_ELEVATION_UNIT_range o l k l' :
  opt_ELEVATION_UNIT o l = (Some k, l') -> 0 <= k <= 1.
Proof. revert l k l'. unfold opt_ELEVATION_UNIT. code_range_tac. Qed.
Lemma opt_SLOPE_UNIT_range o l k l' :
  opt_SLOPE_UNIT o l = (Some k, l') -> 0 <= k <= 1.
Proof. revert l k l'. unfold opt_SLOPE_UNIT. code_range_tac. Qed.
Lemma opt_ASPECT_UNIT_range o l k l' :
  opt_ASPECT_UNIT o l = (Some k, l') -> 0 <= k <= 2.
Proof. revert l k l'. unfold opt_ASPECT_UNIT. code_range_tac. Qed.
Lemma opt_FUEL_MODEL_OPTION_range o l k l' :
  opt_FUEL_MODEL_OPTION o l = (Some k, l') -> 0 <= k <= 3.
Proof. revert l k l'. unfold opt_FUEL_MODEL_OPTION. code_range_tac. Qed.
Lemma opt_CANOPY_COV_UNIT_range o l k l' :
  opt_CANOPY_COV_UNIT o l = (Some k, l') -> 0 <= k <= 1.
Proof. revert l k l'. unfold opt_CANOPY_COV_UNIT. code_range_tac. Qed.
Lemma opt_CANOPY_HT_UNIT_range o l k l' :
  opt_CANOPY_HT_UNIT o l = (Some k, l') -> 1 <= k <= 4.
Proof. revert l k l'. unfold opt_CANOPY_HT_UNIT, opt_height_unit. code_range_tac. Qed.
Lemma opt_CBH_UNIT_range o l k l' :
  opt_CBH_UNIT o l = (Some k, l') -> 1 <= k <= 4.
Proof. revert l k l'. unfold opt_CBH_UNIT, opt_height_unit. code_range_tac. Qed.
Lemma opt_CBD_UNIT_range o l k l' :
  opt_CBD_UNIT o l = (Some k, l') -> 1 <= k <= 4.
Proof. revert l k l'. unfold opt_CBD_UNIT. code_range_tac. Qed.
Lemma opt_DUFF_UNIT_range o l k l' :
  opt_DUFF_UNIT o l = (Some k, l') -> 1 <= k <= 2.
Proof. revert l k l'. unfold opt_DUFF_UNIT. code_range_tac. Qed.

(** The ten codes, each within the codes its option has. *)
Lemma unit_codes_ranges o crown ground l pm l' :
  unit_codes o crown ground l = (Some pm, l') ->
  exists m0 m1 m2 m3 m4 m5 m6 m7 m8 m9,
    pm = [m0; m1; m2; m3; m4; m5; m6; m7; m8; m9] /\
    0 <= m0 <= 1 /\ 0 <= m1 <= 1 /\ 0 <= m2 <= 2 /\ 0 <= m3 <= 3 /\
    0 <= m4 <= 1 /\ 1 <= m5 <= 4 /\ 1 <= m6 <= 4 /\ 1 <= m7 <= 4 /\
    1 <= m8 <= 2 /\ 0 <= m9 <= 1.
Proof.
  unfold unit_codes. intros H.
  apply bind_Some in H as (m0 & l0 & H0 & H). apply opt_ELEVATION_UNIT_range in H0.
  apply bind_Some in H as (m1 & l1 & H1 & H). apply opt_SLOPE_UNIT_range in H1.
  apply bind_Some in H as (m2 & l2 & H2 & H). apply opt_ASPECT_UNIT_range in H2.
  apply bind_Some in H as (m3 & l3 & H3 & H). apply opt_FUEL_MODEL_OPTION_range in H3.
  apply bind_Some in H as (m4 & l4 & H4 & H). apply opt_CANOPY_COV_UNIT_range in H4.
  apply bind_Some in H as ([[m5 m6] m7] & l5 & H5 & H).
  apply bind_Some in H as ([m8 m9] & l6 & H6 & H).
  injection H as <- _. cbn [fst snd].
  assert (1 <= m5 <= 4 /\ 1 <= m6 <= 4 /\ 1 <= m7 <= 4) as (? & ? & ?).
  { destruct crown.
    - apply bind_Some in H5 as (a & la & Ha & H5). apply opt_CANOPY_HT_UNIT_range in Ha.
      apply bind_Some in H5 as (b & lb & Hb & H5). apply opt_CBH_UNIT_range in Hb.
      apply bind_Some in H5 as (c & lc & Hc & H5). apply opt_CBD_UNIT_range in Hc.
      injection H5 as <- <- <- _. done.
    - injection H5 as <- <- <- _. lia. }
  assert (1 <= m8 <= 2 /\ 0 <= m9 <= 1) as (? & ?).
  { destruct ground.
    - apply bind_Some in H6 as (a & la & Ha & H6). apply opt_DUFF_UNIT_range in Ha.
      injection H6 as <- <- _. lia.
    - injection H6 as <- <- _. lia. }
  exists m0, m1, m2, m3, m4, m5, m6, m7, m8, m9. done.
Qed.

Lemma CreateCopy_validate_codes fo src bStrict o l0 p l :
  CreateCopy_validate fo src bStrict o l0 = (Some p, l) ->
  exists m0 m1 m2 m3 m4 m5 m6 m7 m8 m9,
    cpMetadata p = [m0; m1; m2; m3; m4; m5; m6; m7; m8; m9] /\
    0 <= m0 <= 1 /\ 0 <= m1 <= 1 /\ 0 <= m2 <= 2 /\ 0 <= m3 <= 3 /\
    0 <= m4 <= 1 /\ 1 <= m5 <= 4 /\ 1 <= m6 <= 4 /\ 1 <= m7 <= 4 /\
    1 <= m8 <= 2 /\ 0 <= m9 <= 1.
Proof.
  intros H. unfold CreateCopy_validate in H.
  apply bind_Some in H as (u & l1 & _ & H).
  apply bind_Some in H as (u' & l2 & _ & H).
  apply bind_Some in H as (pm & l3 & Hpm & H). apply unit_codes_ranges in Hpm.
  apply bind_Some in H as (fl & l4 & _ & H).
  apply bind_Some in H as (lat & l5 & _ & H).
  apply bind_Some in H as (dfLat & l6 & _ & H).
  apply bind_Some in H as (lin & l7 & _ & H).
  injection H as <- _. exact Hpm.
Qed.

Local Ltac name_of m :=
  let Hm := fresh "Hm" in
  first [ assert (m = 0 \/ m = 1) as Hm by lia
        | assert (m = 1 \/ m = 2) as Hm by lia
        | assert (m = 0 \/ m = 1 \/ m = 2) as Hm by lia
        | assert (m = 0 \/ m = 1 \/ m = 2 \/ m = 3) as Hm by lia
        | assert (m = 1 \/ m = 2 \/ m = 3 \/ m = 4) as Hm by lia ];
  repeat (destruct Hm as [-> | Hm]; [eexists; reflexivity |]);
  subst; eexists; reflexivity.

(** The code of each band present has a name in the table of the band, the
    coarse woody debris band apart, whose table is empty. *)
Lemma layout_code_named crown ground (k : nat) bl m0 m1 m2 m3 m4 m5 m6 m7 m8 m9 :
  band_layout crown (1 + Z.of_nat k) = Some bl ->
  Z.of_nat k < band_count crown ground ->
  0 <= m0 <= 1 -> 0 <= m1 <= 1 -> 0 <= m2 <= 2 -> 0 <= m3 <= 3 ->
  0 <= m4 <= 1 -> 1 <= m5 <= 4 -> 1 <= m6 <= 4 -> 1 <= m7 <= 4 ->
  1 <= m8 <= 2 -> 0 <= m9 <= 1 ->
  blUnitOff bl = 4224 + 2 * Z.of_nat (code_index bl) /\
  exists code,
    [m0; m1; m2; m3; m4; m5; m6; m7; m8; m9] !! code_index bl = Some code /\
    0 <= code <= 4 /\
    (blNames bl <> [] -> exists name, unit_name (blNames bl) code = Some name).
Proof.
  intros H Hk H0 H1 H2 H3 H4 H5 H6 H7 H8 H9.
  assert (k < 10)%nat as Hk10
    by (unfold band_count in Hk; destruct crown, ground; lia).
  do 10 (destruct k as [|k];
         [destruct crown; cbn in H; injection H as <-;
          (split; [reflexivity |]); eexists; (split; [reflexivity |]);
          (split; [lia |]); intros Hne;
          cbn [blNames duff_layout cwd_layout height_names] in *;
          first [ by destruct Hne
                | name_of m0 | name_of m1 | name_of m2 | name_of m3 | name_of m4
                | name_of m5 | name_of m6 | name_of m7 | name_of m8 ] |]).
  lia.
Qed.

End UnitNames.

(** X12.  The unit names of a copy.  Every band that [Open] finds on the file
    written carries the code [CreateCopy] stored for it, and, since each code
    [CreateCopy] can store is one the table of [Open] knows, the name of the
    unit as well; only the coarse woody debris band, whose table is empty, has
    no name item. *)
Theorem CreateCopy_unit_names_round_trip
    (fo : FloatOps) (progress : ProgressEvent -> bool)
    (raw_ok : Z -> Z -> Z -> Z -> bool) (src : GDALDataset) (p : CreateParams)
    (ext : string) :
  copy_accepted fo progress src p -> EQUAL ext "lcp" = true ->
  (forall a b c d, raw_ok a b c d = true) ->
  exists ds,
    reopened raw_ok ext (copied_file fo progress src p) = Some ds /\
    forall (k : nat) b,
      papoBands ds !! k = Some b ->
      exists bl code,
        band_layout (cpCrown p) (1 + Z.of_nat k) = Some bl /\
        cpMetadata p !! code_index bl = Some code /\
        rbDescription b = blDesc bl /\
        rbMetadata b !! blUnitKey bl = Some (MDInt code) /\
        rbMetadata b !! blNameKey bl
        = option_map MDText (unit_name (blNames bl) code) /\
        (blNames bl <> [] -> exists name, unit_name (blNames bl) code = Some name).
Proof.
  intros Hacc Hext Hraw.
  destruct (copy_reopened fo progress raw_ok src p ext Hacc Hext Hraw)
    as (ds & HO & _ & Htake & HcF & HgF & Hw & _ & _ & Hblock).
  destruct (copy_accepted_params fo progress src p Hacc)
    as (_ & _ & _ & _ & _ & _ & _ & Hbc & _).
  destruct Hacc as ((bStrict & o & l & Hval) & _).
  destruct (CreateCopy_validate_codes _ _ _ _ _ _ _ Hval)
    as (m0 & m1 & m2 & m3 & m4 & m5 & m6 & m7 & m8 & m9 & Hpm
        & H0 & H1 & H2 & H3 & H4 & H5 & H6 & H7 & H8 & H9).
  exists ds. split; [exact HO |].
  intros k b Hb.
  set (F := copied_file fo progress src p) in *.
  destruct (Open_band raw_ok _ ds F k HO eq_refl) as (Hcount & _ & Hband).
  cbv zeta in Hcount, Hband. rewrite Htake, HcF, HgF, Hbc, Hw in *.
  assert (Z.of_nat k < src_band_count src) as Hk.
  { apply lookup_lt_Some in Hb. unfold GetRasterCount in Hcount. lia. }
  destruct (Hband Hk) as (bl & pach_k & Hbl & Hagree & Hb').
  destruct (band_metadata_items _ _ _ pach_k Hbl) as (Hunit & Hname & _).
  cbv zeta in Hunit, Hname.
  set (md := (band_metadata (1 + Z.of_nat k) bl pach_k).2) in *. clearbody md.
  rewrite Hb in Hb'. injection Hb' as ->. cbn [rbMetadata rbDescription].
  destruct (layout_code_named (cpCrown p) (cpGround p) k bl
              m0 m1 m2 m3 m4 m5 m6 m7 m8 m9 Hbl ltac:(rewrite Hbc; exact Hk)
              H0 H1 H2 H3 H4 H5 H6 H7 H8 H9)
    as (Hoff & code & Hcode & Hrange & Hnamed).
  pose proof (lookup_lt_Some _ _ _ Hcode) as Hlt. cbn [length] in Hlt.
  rewrite <- Hpm in Hcode.
  exists bl, code. split; [exact Hbl |]. split; [exact Hcode |].
  split; [reflexivity |].
  destruct (geo_block_fields fo src p _ Hblock) as (_ & _ & _ & _ & _ & _ & _ & _ & _ & Hc).
  specialize (Hc _ _ Hcode). rewrite <- Hoff in Hc.
  assert (CPL_LSBUINT16PTR pach_k (blUnitOff bl) = code) as Hu.
  { apply uint16_of_rd; [| exact Hrange].
    rewrite (agree_but_nuls_low _ _ _ _ Hagree) by lia. exact Hc. }
  rewrite Hunit, Hname, Hu. done.
Qed.

Lemma CreateCopy_unit_names_round_trip_witness :
  exists ds,
    reopened (fun _ _ _ _ => true) "lcp"
      (copied_file int_float_ops (fun _ => true) (example_source 5) example_params)
    = Some ds /\
    forall b, papoBands ds !! 2%nat = Some b ->
      rbMetadata b !! "ASPECT_UNIT"%string = Some (MDInt 2) /\
      rbMetadata b !! "ASPECT_UNIT_NAME"%string = Some (MDText "Azimuth degrees").
Proof.
  destruct (CreateCopy_unit_names_round_trip int_float_ops (fun _ => true)
              (fun _ _ _ _ => true) (example_source 5) example_params "lcp"
              example_copy_accepted eq_refl (fun _ _ _ _ => eq_refl))
    as (ds & HO & H).
  exists ds. split; [exact HO |]. intros b Hb.
  destruct (H 2%nat b Hb) as (bl & code & Hbl & Hcode & _ & Hunit & Hname & _).
  injection Hbl as <-. injection Hcode as <-. split; [exact Hunit | exact Hname].
Defined.
(** ** The bands [Open] declares *)

Lemma interleave_inj_Z (n a k a' k' : Z) :
  0 <= k < n -> 0 <= k' < n -> a * n + k = a' * n + k' -> a = a' /\ k = k'.
Proof.
  intros Hk Hk' H.
  assert (a = a') as -> by nia. split; [reflexivity | lia].
Qed.

(** X5.  The raw bands of every dataset [Open] returns are interleaved by pixel:
    the sample of band [k] (counted from 0) at column [x] of line [y] starts
    at byte 7316 + 2 * ((y * width + x) * bands + k).  So no two samples of
    the image share a byte, and the band count is 5, 7, 8 or 10. *)
Theorem Open_bands_are_interleaved
    (raw_ok : Z -> Z -> Z -> Z -> bool) (oi : GDALOpenInfo) (ds : LCPDataset) :
  Open raw_ok oi = Some ds ->
  (GetRasterCount ds = 5 \/ GetRasterCount ds = 7 \/
   GetRasterCount ds = 8 \/ GetRasterCount ds = 10) /\
  (forall (k : nat) b x y,
     papoBands ds !! k = Some b ->
     sample_offset b x y
     = LCP_HEADER_SIZE
       + 2 * ((y * nRasterXSize ds + x) * GetRasterCount ds + Z.of_nat k)) /\
  (forall (k k' : nat) b b' x y x' y',
     papoBands ds !! k = Some b -> papoBands ds !! k' = Some b' ->
     0 <= x < nRasterXSize ds -> 0 <= x' < nRasterXSize ds ->
     sample_offset b x y - 1 <= sample_offset b' x' y' <= sample_offset b x y + 1 ->
     k = k' /\ x = x' /\ y = y').
Proof.
  intros HO.
  destruct (Open_inv raw_ok oi ds HO)
    as (file & pach & Hfile & _ & _ & Hpach & _ & _ & HX & _).
  assert (forall (k : nat) b x y,
            papoBands ds !! k = Some b ->
            Z.of_nat k < GetRasterCount ds /\
            sample_offset b x y
            = LCP_HEADER_SIZE
              + 2 * ((y * nRasterXSize ds + x) * GetRasterCount ds + Z.of_nat k))
    as Hoff.
  { intros k b x y Hb.
    destruct (Open_band raw_ok oi ds file k HO Hfile) as (Hcount & _ & Hband).
    cbv zeta in Hcount, Hband. rewrite <- Hpach in Hcount, Hband.
    rewrite <- Hcount, <- HX in Hband.
    assert (Z.of_nat k < GetRasterCount ds) as Hk
      by (apply lookup_lt_Some in Hb; unfold GetRasterCount; lia).
    split; [exact Hk |].
    destruct (Hband Hk) as (bl & pach_k & _ & _ & Hb').
    rewrite Hb in Hb'. injection Hb' as ->.
    unfold sample_offset. cbn [rbImgOffset rbLineOffset rbPixelOffset]. lia. }
  split.
  { destruct (Open_band raw_ok oi ds file 0%nat HO Hfile) as (-> & _).
    unfold band_count. repeat case_match; tauto. }
  split; [intros k b x y Hb; by apply Hoff |].
  intros k k' b b' x y x' y' Hb Hb' Hx Hx' Hnear.
  destruct (Hoff k b x y Hb) as [Hk E]. destruct (Hoff k' b' x' y' Hb') as [Hk' E'].
  rewrite E, E' in Hnear.
  destruct (interleave_inj_Z (GetRasterCount ds) (y * nRasterXSize ds + x) (Z.of_nat k)
              (y' * nRasterXSize ds + x') (Z.of_nat k')) as [Hxy Hkk]; [lia | lia | lia |].
  destruct (interleave_inj_Z (nRasterXSize ds) y x y' x') as [Hy Hx'']; [lia | lia | lia |].
  split; [lia |]. split; [exact Hx'' | exact Hy].
Qed.

Lemma Open_bands_are_interleaved_witness :
  exists ds,
    Open (fun _ _ _ _ => true)
         (GDALOpenInfo_new "lcp" GA_ReadOnly (header_with_latitude 45)) = Some ds /\
    (GetRasterCount ds = 5 \/ GetRasterCount ds = 7 \/
     GetRasterCount ds = 8 \/ GetRasterCount ds = 10).
Proof.
  destruct (Open (fun _ _ _ _ => true)
              (GDALOpenInfo_new "lcp" GA_ReadOnly (header_with_latitude 45)))
    as [ds|] eqn:HO; [| vm_compute in HO; discriminate HO].
  exists ds. split; [reflexivity |].
  exact (proj1 (Open_bands_are_interleaved (fun _ _ _ _ => true) _ ds HO)).
Defined.
(** ** The options of [CreateCopy], continued *)

Section OptionsMore.

Variable fo : FloatOps.

(** The log only grows. *)
Lemma opt_LATITUDE_log o l x l' :
  opt_LATITUDE o l = (Some x, l') -> l' = l.
Proof.
  unfold opt_LATITUDE, mret, M_ret, fail.
  destruct (CSLFetchNameValue o "LATITUDE"); [| by intros [= _ <-]].
  destruct (_ || _); [discriminate | by intros [= _ <-]].
Qed.

Lemma derive_latitude_log src b n l x l' :
  derive_latitude fo src b n l = (Some x, l') -> l' = l.
Proof.
  unfold derive_latitude, mret, M_ret, fail. intros H.
  repeat match type of H with
         | context [match ?c with _ => _ end] => destruct c
         | context [if ?c then _ else _] => destruct c
         end;
    first [discriminate H | by injection H as _ <-].
Qed.

Lemma derive_linear_units_log src bStrict n b l x l' :
  derive_linear_units fo src bStrict n b l = (Some x, l') -> l `prefix_of` l'.
Proof.
  unfold derive_linear_units, mbind, M_bind, CPLError, mret, M_ret, fail.
  intros H.
  repeat match type of H with
         | context [match ?c with _ => _ end] => destruct c
         | context [if ?c then _ else _] => destruct c
         end;
    first [discriminate H
          | injection H as _ <-; first [done | by apply prefix_app_r]].
Qed.

(** What the verification makes of CALCULATE_STATS and CLASSIFY_DATA. *)
Lemma CreateCopy_validate_flags src bStrict o l0 p l :
  CreateCopy_validate fo src bStrict o l0 = (Some p, l) ->
  cpClassifyData p = CPLFetchBool o "CLASSIFY_DATA" true /\
  cpCalculateStats p
  = CPLFetchBool o "CALCULATE_STATS" true || CPLFetchBool o "CLASSIFY_DATA" true /\
  (CPLFetchBool o "CLASSIFY_DATA" true = true ->
   CPLFetchBool o "CALCULATE_STATS" true = false ->
   (CE_Warning,
    "Ignoring request to not calculate statistics, because CLASSIFY_DATA was set to ON"%string)
   ∈ l).
Proof.
  intros H. unfold CreateCopy_validate in H.
  apply bind_Some in H as (u & l1 & _ & H).
  apply bind_Some in H as (u' & l2 & _ & H).
  apply bind_Some in H as (pm & l3 & _ & H).
  apply bind_Some in H as (fl & l4 & Hfl & H).
  apply bind_Some in H as (lat & l5 & Hlat & H). apply opt_LATITUDE_log in Hlat.
  apply bind_Some in H as (dfLat & l6 & Hdl & H). apply derive_latitude_log in Hdl.
  apply bind_Some in H as (lin & l7 & Hlin & H).
  apply derive_linear_units_log in Hlin.
  injection H as <- <-. cbn [cpCalculateStats cpClassifyData]. subst l5 l6.
  unfold stats_flags, mbind, M_bind, CPLError, mret, M_ret in Hfl.
  destruct (CPLFetchBool o "CLASSIFY_DATA" true),
           (CPLFetchBool o "CALCULATE_STATS" true);
    cbn [andb negb orb] in *; injection Hfl as <- <-; cbn [fst snd];
    (split; [reflexivity |]); (split; [reflexivity |]); intros ? ?; try discriminate.
  destruct Hlin as [e ->]. rewrite elem_of_app. left.
  rewrite elem_of_app. right. apply list_elem_of_here.
Qed.

(** The latitude that the verification yields for a LATITUDE option. *)
Lemma CreateCopy_validate_latitude src bStrict o v l0 p l :
  CSLFetchNameValue o "LATITUDE" = Some v ->
  CreateCopy_validate fo src bStrict o l0 = (Some p, l) ->
  -90 <= atoi v <= 90 /\ cpLatitude p = f_of_int fo (atoi v).
Proof.
  intros Hv H. unfold CreateCopy_validate in H.
  apply bind_Some in H as (u & l1 & _ & H).
  apply bind_Some in H as (u' & l2 & _ & H).
  apply bind_Some in H as (pm & l3 & _ & H).
  apply bind_Some in H as (fl & l4 & _ & H).
  apply bind_Some in H as (lat & l5 & Hlat & H).
  apply bind_Some in H as (dfLat & l6 & Hdl & H).
  apply bind_Some in H as (lin & l7 & _ & H).
  injection H as <- _. cbn [cpLatitude].
  unfold opt_LATITUDE in Hlat. rewrite Hv in Hlat.
  destruct (Z.gtb_spec (atoi v) 90), (Z.ltb_spec (atoi v) (-90));
    cbn [orb] in Hlat; try discriminate Hlat.
  injection Hlat as <- _. cbn [fst snd] in Hdl.
  unfold derive_latitude in Hdl. cbn [negb] in Hdl. injection Hdl as <- _.
  split; [lia | reflexivity].
Qed.

(** The latitude that the verification yields without a LATITUDE option,
    when the transformation succeeds. *)
Lemma CreateCopy_validate_derived_latitude src bStrict o srs Transform x y l0 p l :
  CSLFetchNameValue o "LATITUDE" = None ->
  srcSRS src = Some srs -> srsTransform srs = Some Transform ->
  Transform (f_of_int fo 0) (latitude_probe fo src).2 = Some (x, y) ->
  CreateCopy_validate fo src bStrict o l0 = (Some p, l) ->
  cpLatitude p = y.
Proof.
  intros Hv Hs Ht Hxy H. unfold CreateCopy_validate in H.
  apply bind_Some in H as (u & l1 & _ & H).
  apply bind_Some in H as (u' & l2 & _ & H).
  apply bind_Some in H as (pm & l3 & _ & H).
  apply bind_Some in H as (fl & l4 & _ & H).
  apply bind_Some in H as (lat & l5 & Hlat & H).
  apply bind_Some in H as (dfLat & l6 & Hdl & H).
  apply bind_Some in H as (lin & l7 & _ & H).
  injection H as <- _. cbn [cpLatitude].
  unfold opt_LATITUDE in Hlat. rewrite Hv in Hlat. injection Hlat as <- _.
  cbn [fst snd] in Hdl. unfold derive_latitude in Hdl. cbn [negb] in Hdl.
  unfold latitude_probe in Hxy. cbn [snd] in Hxy.
  rewrite Hs, Ht, Hxy in Hdl. by injection Hdl as <- _.
Qed.

Lemma derive_latitude_probe_fails src srs Transform :
  srcSRS src = Some srs -> srsTransform srs = Some Transform ->
  Transform (f_of_int fo 0) (latitude_probe fo src).2 = None ->
  failsM (derive_latitude fo src true 0).
Proof.
  intros H1 H2 H3 l. unfold derive_latitude. unfold latitude_probe in H3.
  cbn [snd] in H3. rewrite H1, H2, H3. reflexivity.
Qed.

Lemma wrap32_small z : - 2 ^ 31 <= z < 2 ^ 31 -> wrap32 z = z.
Proof. intros H. unfold wrap32. rewrite Z.mod_small; lia. Qed.

(** The statistics triple of band [k] in the file of a copy that ran to its
    end. *)
Lemma copied_stats_triple progress src p (k : nat) sb :
  valid_band_count (src_band_count src) ->
  cpCrown p = ((src_band_count src =? 8) || (src_band_count src =? 10)) ->
  cpGround p = ((src_band_count src =? 7) || (src_band_count src =? 10)) ->
  length (cpMetadata p) = 10%nat ->
  (cpClassifyData p = true -> cpCalculateStats p = true) ->
  imgCompleted (CreateCopy_image fo progress src p) = true ->
  1 <= srcXSize src -> 1 <= srcYSize src ->
  srcBands src !! k = Some sb ->
  rd (copied_file fo progress src p)
     (stat_offset (cpCrown p) (cpGround p) (Z.of_nat k)) 12
  = if cpCalculateStats p
    then le32 (f_to_int32 fo (band_minmax fo sb).1)
         ++ le32 (f_to_int32 fo (band_minmax fo sb).2)
         ++ le32 (if cpClassifyData p then (ClassifyBandData sb).1.2 else -1)
    else replicate 12 Byte.x00.
Proof.
  intros Hn Hc Hg Hlen Hcc Hdone Hx Hy Hsb.
  pose proof (image_layout fo progress src p Hn Hc Hg Hlen Hdone Hx Hy) as HF.
  fold (copied_file fo progress src p) in HF. rewrite HF.
  set (off := stat_offset (cpCrown p) (cpGround p) (Z.of_nat k)).
  set (st := compute_stats fo p (srcBands src)).
  set (fp := htFile (write_header fo src p st)) in *.
  assert (Z.of_nat k < src_band_count src) as Hk
    by (apply lookup_lt_Some in Hsb; unfold src_band_count; lia).
  assert (0 <= off /\ off + 12 <= 4164 /\ 44 <= off) as (Hoff0 & Hoff1 & Hoff44).
  { unfold off, stat_offset.
    rewrite Hc, Hg. unfold valid_band_count in Hn.
    destruct Hn as [Hn | [Hn | [Hn | Hn]]]; rewrite Hn in *;
      cbn [Z.eqb Pos.eqb orb negb andb];
      destruct (Z.leb_spec 5 (Z.of_nat k)); cbn [andb]; lia. }
  destruct (write_header_fields fo src p st Hlen) as (Hbey & _).
  fold fp in Hbey. destruct Hbey as [_ Hbey].
  rewrite rd_app_l by (rewrite ?length_pad_to; lia).
  rewrite rd_pad_to by lia.
  destruct (cpCalculateStats p) eqn:Hcalc.
  - destruct (header_stats fo src p (Z.of_nat k) Hn Hc Hg Hlen Hcalc ltac:(lia))
      as [Htri _].
    fold st fp off in Htri. rewrite Htri. unfold stats_triple.
    rewrite Nat2Z.id.
    assert (nth k (padfMin st) (f_of_int fo 0) = (band_minmax fo sb).1) as ->.
    { unfold st, compute_stats.
      destruct (if cpCalculateStats p && cpClassifyData p then _ else _).
      cbn [padfMin]. rewrite nth_lookup, list_lookup_fmap, Hsb. reflexivity. }
    assert (nth k (padfMax st) (f_of_int fo 0) = (band_minmax fo sb).2) as ->.
    { unfold st, compute_stats.
      destruct (if cpCalculateStats p && cpClassifyData p then _ else _).
      cbn [padfMax]. rewrite nth_lookup, list_lookup_fmap, Hsb. reflexivity. }
    destruct (cpClassifyData p) eqn:Hcls; [| reflexivity].
    assert (nth k (panFound st) 0 = (ClassifyBandData sb).1.2) as ->; [| reflexivity].
    unfold st, compute_stats. rewrite Hcalc, Hcls. cbn [andb].
    pose proof (classify_bands_found (srcBands src) 0
                  (replicate (length (srcBands src)) 0)
                  (replicate (length (srcBands src) * Z.to_nat LCP_MAX_CLASSES) 0)
                  k sb Hsb ltac:(rewrite length_replicate; lia)) as Hf.
    destruct (classify_bands _ _ _ _) as [found classes].
    cbn [panFound fst] in *. rewrite nth_lookup. cbn [Nat.add] in Hf.
    by rewrite Hf.
  - pose proof (header_stats_skipped fo src p off Hlen Hcalc ltac:(lia) ltac:(lia))
      as Hz.
    cbv zeta in Hz. fold st fp in Hz. exact Hz.
Qed.

(** The LATITUDE item that [Open] reports on the file of a copy. *)
Lemma copied_latitude_reported progress raw_ok src p ext :
  copy_accepted fo progress src p -> EQUAL ext "lcp" = true ->
  (forall a b c d, raw_ok a b c d = true) ->
  exists ds,
    reopened raw_ok ext (copied_file fo progress src p) = Some ds /\
    dsMetadata ds !! "LATITUDE"%string = Some (MDInt (latitude_field fo p)).
Proof.
  intros Hacc Hext Hraw.
  destruct (copy_reopened fo progress raw_ok src p ext Hacc Hext Hraw)
    as (ds & HO & _ & Htake & _ & _ & _ & _ & Hlat & _).
  exists ds. split; [exact HO |].
  destruct (Open_inv raw_ok _ ds HO)
    as (file & pach & Hfile & _ & _ & Hpach & _ & _ & _ & _ & HL & _).
  injection Hfile as <-. rewrite Htake in Hpach. subst pach.
  by rewrite HL, Hlat.
Qed.

(** The stand-in in halves truncates after adding one half as the C cast
    does. *)
Lemma half_float_ops_truncates : truncates_after_half half_float_ops.
Proof.
  intros n Hn.
  assert (forallb (fun n => f_to_int32 half_float_ops
                              (fadd half_float_ops (f_of_int half_float_ops n)
                                    (fhalf half_float_ops))
                            =? (if n <? 0 then n + 1 else n))
                  (map (fun k => Z.of_nat k - 90) (seq 0 181)) = true) as H
    by (vm_compute; reflexivity).
  rewrite forallb_forall in H. apply Z.eqb_eq. apply H.
  apply in_map_iff. exists (Z.to_nat (n + 90)). split; [lia |].
  apply in_seq. lia.
Qed.

End OptionsMore.

(** X13.  The statistics options, as they show in the file written.  For each
    band the header holds, at the place of its statistics, the minimum and
    the maximum of the source band when CALCULATE_STATS or CLASSIFY_DATA is
    on (both are by default), followed by the class count of
    [ClassifyBandData] when CLASSIFY_DATA is on and by -1 when it is off;
    with both off nothing is written there and the twelve bytes stay zero.
    A CALCULATE_STATS that is off while CLASSIFY_DATA is on is overridden
    with a warning. *)
Theorem CreateCopy_statistics_options
    (fo : FloatOps) (progress : ProgressEvent -> bool) (src : GDALDataset)
    (bStrict : bool) (o : CSL) (p : CreateParams) (l : Log) :
  CreateCopy_validate fo src bStrict o [] = (Some p, l) ->
  imgCompleted (CreateCopy_image fo progress src p) = true ->
  1 <= srcXSize src -> 1 <= srcYSize src ->
  let classify := CPLFetchBool o "CLASSIFY_DATA" true in
  let calculate := CPLFetchBool o "CALCULATE_STATS" true in
  (classify = true -> calculate = false ->
   (CE_Warning,
    "Ignoring request to not calculate statistics, because CLASSIFY_DATA was set to ON"%string)
   ∈ l) /\
  forall (k : nat) sb, srcBands src !! k = Some sb ->
    rd (copied_file fo progress src p)
       (stat_offset ((src_band_count src =? 8) || (src_band_count src =? 10))
                    ((src_band_count src =? 7) || (src_band_count src =? 10))
                    (Z.of_nat k)) 12
    = if calculate || classify
      then le32 (f_to_int32 fo (band_minmax fo sb).1)
           ++ le32 (f_to_int32 fo (band_minmax fo sb).2)
           ++ le32 (if classify then (ClassifyBandData sb).1.2 else -1)
      else replicate 12 Byte.x00.
Proof.
  intros Hval Hdone Hx Hy classify calculate.
  destruct (CreateCopy_validate_flags fo src bStrict o [] p l Hval)
    as (Hcls & Hcalc & Hwarn).
  destruct (CreateCopy_validate_Some _ _ _ _ _ _ _ Hval) as (Hn & Hc & Hg & Hlen & _).
  destruct (CreateCopy_validate_more _ _ _ _ _ _ _ Hval) as (Hcc & _).
  split; [exact Hwarn |].
  intros k sb Hsb.
  pose proof (copied_stats_triple fo progress src p k sb Hn Hc Hg Hlen Hcc Hdone
                Hx Hy Hsb) as H.
  rewrite Hc, Hg, Hcalc, Hcls in H. exact H.
Qed.

Lemma CreateCopy_statistics_options_witness :
  rd (copied_file int_float_ops (fun _ => true) (example_source 5) example_params)
     456 12
  = le32 0 ++ le32 9 ++ le32 3.
Proof.
  apply (proj2 (CreateCopy_statistics_options int_float_ops (fun _ => true)
                  (example_source 5) false example_options example_params
                  [(CE_Warning,
                    "Could not parse linear unit from spatial reference and LINEAR_UNIT was not set, defaulting to meters."%string)]
                  ltac:(vm_compute; reflexivity) ltac:(vm_compute; reflexivity)
                  ltac:(cbn; lia) ltac:(cbn; lia))
               1%nat (example_band [[1; 2]; [3; -9999]]) eq_refl).
Defined.

(** X14.  The LATITUDE option, for a value that an [int] can hold (text that
    is no number reads as 0).  A value outside [-90, 90] makes [CreateCopy]
    fail before it creates a file.  Otherwise the value is taken as it is,
    without the spatial reference of the source, but the latitude written is
    [static_cast<GInt32>(value + 0.5)]: the cast truncates toward zero, so a
    value of 0 or above is written as it is and a negative value [n] is
    written, and reported by [Open], as [n + 1]. *)
Theorem CreateCopy_latitude_option
    (ex : Externals) (fo : FloatOps) (fs : gmap string (list byte))
    (pszFilename : string) (src : GDALDataset) (bStrict : bool) (o : CSL)
    (v : string) :
  CSLFetchNameValue o "LATITUDE" = Some v ->
  INT_MIN <= atoi v <= INT_MAX ->
  (~ (-90 <= atoi v <= 90) ->
   exists l, CreateCopy ex fo fs pszFilename src bStrict o = (None, fs, l)) /\
  (forall l0 p l, CreateCopy_validate fo src bStrict o l0 = (Some p, l) ->
     -90 <= atoi v <= 90 /\ cpLatitude p = f_of_int fo (atoi v) /\
     latitude_field fo p
     = wrap32 (f_to_int32 fo (fadd fo (f_of_int fo (atoi v)) (fhalf fo)))) /\
  (truncates_after_half fo ->
   forall p l progress raw_ok ext,
     CreateCopy_validate fo src bStrict o [] = (Some p, l) ->
     imgCompleted (CreateCopy_image fo progress src p) = true ->
     1 <= srcXSize src <= INT_MAX / (src_band_count src * 2) ->
     1 <= srcYSize src <= INT_MAX ->
     EQUAL ext "lcp" = true -> (forall a b c d, raw_ok a b c d = true) ->
     exists ds,
       reopened raw_ok ext (copied_file fo progress src p) = Some ds /\
       dsMetadata ds !! "LATITUDE"%string
       = Some (MDInt (if atoi v <? 0 then atoi v + 1 else atoi v))).
Proof.
  intros Hv Hint. split; [| split].
  - intros Hr. eexists. apply CreateCopy_validation_failure.
    unfold CreateCopy_validate.
    do 4 (apply failsM_bind_r; intros ?). apply failsM_bind_l.
    intros l. unfold opt_LATITUDE. rewrite Hv.
    destruct (Z.gtb_spec (atoi v) 90), (Z.ltb_spec (atoi v) (-90));
      cbn [orb]; try reflexivity. lia.
  - intros l0 p l H.
    destruct (CreateCopy_validate_latitude fo src bStrict o v l0 p l Hv H) as [Hr E].
    split; [exact Hr |]. split; [exact E |].
    unfold latitude_field. by rewrite E.
  - intros Hfo p l progress raw_ok ext H Hdone Hx Hy Hext Hraw.
    destruct (CreateCopy_validate_latitude fo src bStrict o v [] p l Hv H) as [Hr E].
    assert (latitude_field fo p = if atoi v <? 0 then atoi v + 1 else atoi v) as Hlat.
    { unfold latitude_field. rewrite E, (Hfo _ Hr).
      apply wrap32_small. destruct (Z.ltb_spec (atoi v) 0); lia. }
    assert (copy_accepted fo progress src p) as Hacc.
    { split; [by exists bStrict, o, l |]. split; [exact Hdone |].
      split; [exact Hx |]. split; [exact Hy |].
      rewrite Hlat. destruct (Z.ltb_spec (atoi v) 0); lia. }
    destruct (copied_latitude_reported fo progress raw_ok src p ext Hacc Hext Hraw)
      as (ds & HO & HL).
    exists ds. split; [exact HO |]. by rewrite HL, Hlat.
Qed.

Lemma CreateCopy_latitude_option_witness :
  (exists l, CreateCopy example_externals half_float_ops ∅ "out.lcp"
               (example_source 5) false [("LATITUDE", "91")]%string
             = (None, ∅, l)) /\
  exists ds,
    reopened (fun _ _ _ _ => true) "lcp"
      (copied_file half_float_ops (fun _ => true) (example_source 5)
         example_params_south) = Some ds /\
    dsMetadata ds !! "LATITUDE"%string = Some (MDInt (-44)).
Proof.
  split.
  - apply (proj1 (CreateCopy_latitude_option example_externals half_float_ops ∅
                    "out.lcp" (example_source 5) false
                    [("LATITUDE", "91")]%string "91" eq_refl
                    ltac:(vm_compute; split; discriminate))).
    vm_compute. intros [_ H]. apply H. reflexivity.
  - apply (proj2 (proj2 (CreateCopy_latitude_option example_externals
                           half_float_ops ∅ "out.lcp" (example_source 5) false
                           [("LATITUDE", "-45")]%string "-45" eq_refl
                           ltac:(vm_compute; split; discriminate)))
                 half_float_ops_truncates example_params_south
                 [(CE_Warning,
                   "Could not parse linear unit from spatial reference and LINEAR_UNIT was not set, defaulting to meters."%string)]
                 (fun _ => true) (fun _ _ _ _ => true) "lcp"%string
                 ltac:(vm_compute; reflexivity) ltac:(vm_compute; reflexivity)
                 ltac:(vm_compute; split; discriminate)
                 ltac:(vm_compute; split; discriminate)
                 eq_refl (fun _ _ _ _ => eq_refl)).
Defined.

(** X15.  Without the LATITUDE option the latitude comes from the spatial
    reference of the source.  [CreateCopy] transforms one point to
    EPSG:4269, whose x is 0.0 and whose y is that of the middle line of the
    raster: the x of the raster does not enter.  It fails, in strict and in
    non-strict mode and before it creates a file, when the source has no
    spatial reference and when the transformation of that point fails; when
    it succeeds, the y that comes back is the latitude. *)
Theorem CreateCopy_latitude_required
    (ex : Externals) (fo : FloatOps) (fs : gmap string (list byte))
    (pszFilename : string) (src : GDALDataset) (bStrict : bool) (o : CSL) :
  CSLFetchNameValue o "LATITUDE" = None ->
  (srcSRS src = None \/
   (exists srs Transform,
       srcSRS src = Some srs /\ srsTransform srs = Some Transform /\
       Transform (f_of_int fo 0) (latitude_probe fo src).2 = None) ->
   exists l, CreateCopy ex fo fs pszFilename src bStrict o = (None, fs, l)) /\
  (forall srs Transform x y l0 p l,
     srcSRS src = Some srs -> srsTransform srs = Some Transform ->
     Transform (f_of_int fo 0) (latitude_probe fo src).2 = Some (x, y) ->
     CreateCopy_validate fo src bStrict o l0 = (Some p, l) ->
     cpLatitude p = y).
Proof.
  intros Hopt. split.
  - intros Hsrs. eexists. apply CreateCopy_validation_failure.
    apply CreateCopy_validate_no_latitude; [exact Hopt |].
    destruct Hsrs as [H | (srs & T & H1 & H2 & H3)].
    + by apply derive_latitude_no_srs.
    + by eapply derive_latitude_probe_fails.
  - intros srs T x y l0 p l Hs Ht Hxy H.
    exact (CreateCopy_validate_derived_latitude fo src bStrict o srs T x y l0 p l
             Hopt Hs Ht Hxy H).
Qed.

Lemma CreateCopy_latitude_required_witness :
  exists l, CreateCopy example_externals int_float_ops ∅ "out.lcp"
              (example_source_srs 5 srs_failing_at_x0) false [] = (None, ∅, l).
Proof.
  apply (proj1 (CreateCopy_latitude_required example_externals int_float_ops ∅
                  "out.lcp" (example_source_srs 5 srs_failing_at_x0) false []
                  eq_refl)).
  right. eexists _, _. split; [reflexivity |]. split; [reflexivity |].
  vm_compute. reflexivity.
Defined.

(** X16.  The LINEAR_UNIT option.  The linear unit code of a copy is always 0, 1
    or 2.  With a value other than SET_FROM_SRS the code comes from the
    option alone, without the spatial reference: 0 for METER..., 1 for FOOT
    or FEET, 2 for KILOMETER..., and 0 as well, with no error and no warning,
    for any other text. *)
Theorem CreateCopy_linear_unit_option
    (fo : FloatOps) (src : GDALDataset) (bStrict : bool) (o : CSL)
    (l0 : Log) (p : CreateParams) (l : Log) :
  CreateCopy_validate fo src bStrict o l0 = (Some p, l) ->
  0 <= cpLinearUnits p <= 2 /\
  (forall v, CSLFetchNameValue o "LINEAR_UNIT" = Some v ->
     EQUAL v "SET_FROM_SRS" = false ->
     cpLinearUnits p
     = if STARTS_WITH_CI v "METER" then 0
       else if EQUAL v "FOOT" || EQUAL v "FEET" then 1
       else if STARTS_WITH_CI v "KILOMETER" then 2
       else 0).
Proof.
  intros H.
  split; [exact (proj1 (proj2 (CreateCopy_validate_more _ _ _ _ _ _ _ H))) |].
  intros v Hv Hset. unfold CreateCopy_validate in H.
  apply bind_Some in H as (u & l1 & _ & H).
  apply bind_Some in H as (u' & l2 & _ & H).
  apply bind_Some in H as (pm & l3 & _ & H).
  apply bind_Some in H as (fl & l4 & _ & H).
  apply bind_Some in H as (lat & l5 & _ & H).
  apply bind_Some in H as (dfLat & l6 & _ & H).
  apply bind_Some in H as (lin & l7 & Hlin & H).
  injection H as <- _. cbn [cpLinearUnits].
  unfold opt_LINEAR_UNIT, CSLFetchNameValueDef in Hlin. rewrite Hv, Hset in Hlin.
  unfold derive_linear_units in Hlin.
  destruct (STARTS_WITH_CI v "METER"); [by injection Hlin as <- _ |].
  destruct (EQUAL v "FOOT" || EQUAL v "FEET"); [by injection Hlin as <- _ |].
  destruct (STARTS_WITH_CI v "KILOMETER"); by injection Hlin as <- _.
Qed.

Lemma CreateCopy_linear_unit_option_witness :
  0 <= cpLinearUnits example_params <= 2.
Proof.
  apply (proj1 (CreateCopy_linear_unit_option int_float_ops (example_source 5) false
                  example_options [] example_params
                  [(CE_Warning,
                    "Could not parse linear unit from spatial reference and LINEAR_UNIT was not set, defaulting to meters."%string)]
                  ltac:(vm_compute; reflexivity))).
Defined.

(** X17.  The linear unit from the spatial reference.  Without the LINEAR_UNIT
    option (or with SET_FROM_SRS), a source without spatial reference, or
    whose spatial reference has no UNIT name, makes [CreateCopy] fail in
    strict mode before it creates a file; in non-strict mode the copy goes on
    with the code 0 (meters) and a warning. *)
Theorem CreateCopy_linear_unit_from_srs
    (ex : Externals) (fo : FloatOps) (fs : gmap string (list byte))
    (pszFilename : string) (src : GDALDataset) (o : CSL) :
  EQUAL (CSLFetchNameValueDef o "LINEAR_UNIT" "SET_FROM_SRS") "SET_FROM_SRS" = true ->
  srcSRS src = None \/
  (exists srs, srcSRS src = Some srs /\ srsUnitName srs = None) ->
  (exists l, CreateCopy ex fo fs pszFilename src true o = (None, fs, l)) /\
  (forall l0 p l, CreateCopy_validate fo src false o l0 = (Some p, l) ->
     cpLinearUnits p = 0 /\
     exists msg l', l = l' ++ [(CE_Warning, msg)]).
Proof.
  intros Hset Hsrs. split.
  - eexists. apply CreateCopy_validation_failure. unfold CreateCopy_validate.
    do 6 (apply failsM_bind_r; intros ?). apply failsM_bind_l.
    unfold opt_LINEAR_UNIT. rewrite Hset. cbn [fst snd].
    by apply derive_linear_units_strict.
  - intros l0 p l H. unfold CreateCopy_validate in H.
    apply bind_Some in H as (u & l1 & _ & H).
    apply bind_Some in H as (u' & l2 & _ & H).
    apply bind_Some in H as (pm & l3 & _ & H).
    apply bind_Some in H as (fl & l4 & _ & H).
    apply bind_Some in H as (lat & l5 & _ & H).
    apply bind_Some in H as (dfLat & l6 & _ & H).
    apply bind_Some in H as (lin & l7 & Hlin & H).
    injection H as <- <-. cbn [cpLinearUnits].
    unfold opt_LINEAR_UNIT in Hlin. rewrite Hset in Hlin. cbn [fst snd] in Hlin.
    destruct (derive_linear_units_lenient fo src 0 l6 Hsrs) as [msg E].
    rewrite E in Hlin. injection Hlin as <- <-.
    split; [reflexivity |]. by exists msg, l6.
Qed.

Lemma CreateCopy_linear_unit_from_srs_witness :
  (exists l, CreateCopy example_externals int_float_ops ∅ "out.lcp"
               (example_source 5) true example_options = (None, ∅, l)) /\
  cpLinearUnits example_params = 0.
Proof.
  destruct (CreateCopy_linear_unit_from_srs example_externals int_float_ops ∅
              "out.lcp" (example_source 5) example_options eq_refl
              (or_introl eq_refl)) as [H1 H2].
  split; [exact H1 |].
  apply (H2 [] example_params
            [(CE_Warning,
              "Could not parse linear unit from spatial reference and LINEAR_UNIT was not set, defaulting to meters."%string)]).
  vm_compute. reflexivity.
Defined.


(** ** The files [CreateCopy] leaves *)

Section FilesLeft.

(** A line loop that is cancelled after line [iLine + m] has written the
    lines up to that one. *)
Lemma copy_lines_cancelled progress src (m : nat) : forall n iLine buf fp,
  (m < n)%nat -> 0 <= pos fp ->
  (forall j : nat, (j < m)%nat ->
     progress (ProgressLine (iLine + Z.of_nat j) (srcYSize src)) = true) ->
  progress (ProgressLine (iLine + Z.of_nat m) (srcYSize src)) = false ->
  (copy_lines progress src iLine n buf fp).1
  = (VSIFWriteL (flat_map le16 (scanline_data src iLine (S m) buf)) fp, false).
Proof.
  induction m as [|m IH]; intros n iLine buf fp Hm Hp Hyes Hno;
    (destruct n as [|n]; [lia |]); cbn [copy_lines scanline_data].
  - rewrite Z.add_0_r in Hno.
    destruct (read_scanline _ _ _ _ _ _) as [buf' l1]. cbn [fst].
    rewrite Hno. cbn [negb fst]. by rewrite app_nil_r.
  - pose proof (Hyes 0%nat ltac:(lia)) as H0. rewrite Z.add_0_r in H0.
    specialize (IH n (iLine + 1)).
    destruct (read_scanline _ _ _ _ _ _) as [buf' l1]. cbn [fst].
    rewrite H0. cbn [negb].
    specialize (IH buf' (VSIFWriteL (flat_map le16 buf') fp) ltac:(lia)
                  ltac:(rewrite pos_write; lia)).
    destruct (copy_lines _ _ _ _ _ _) as [[fp' ok] l'].
    cbn [fst] in *. rewrite IH.
    + by rewrite flat_map_app, write_write.
    + intros j Hj. replace (iLine + 1 + Z.of_nat j) with (iLine + Z.of_nat (S j)) by lia.
      apply Hyes. lia.
    + replace (iLine + 1 + Z.of_nat m) with (iLine + Z.of_nat (S m)) by lia. exact Hno.
Qed.

End FilesLeft.

(** X19.  [CreateCopy] writes to the output file and to its side-car, and to no
    other file; and when the output file cannot be created it writes
    nothing. *)
Theorem CreateCopy_touches_two_files
    (ex : Externals) (fo : FloatOps) (fs : gmap string (list byte))
    (pszFilename : string) (src : GDALDataset) (bStrict : bool) (o : CSL) :
  let fs' := (CreateCopy ex fo fs pszFilename src bStrict o).1.2 in
  (forall name, name <> pszFilename -> name <> prj_filename ex pszFilename ->
                fs' !! name = fs !! name) /\
  (VSIFOpenL_ok ex pszFilename = false ->
   fs' = fs /\ (CreateCopy ex fo fs pszFilename src bStrict o).1.1 = None).
Proof.
  unfold CreateCopy.
  destruct (CreateCopy_validate fo src bStrict o []) as [[p|] l]; cbn [fst snd];
    [| by split].
  destruct (VSIFOpenL_ok ex pszFilename) eqn:Hopen; cbn [negb fst snd];
    [| by split].
  split; [| discriminate].
  intros name Hn Hp.
  destruct (imgCompleted _); cbn [negb fst snd];
    [| by rewrite lookup_insert_ne].
  unfold write_prj.
  destruct (srcSRS src) as [srs|]; [| cbn [fst snd]; by rewrite lookup_insert_ne].
  destruct (srsWkt srs) as [wkt|]; [| cbn [fst snd]; by rewrite lookup_insert_ne].
  destruct (VSIFOpenL_ok ex (prj_filename ex pszFilename)); cbn [fst snd];
    by rewrite ?lookup_insert_ne.
Qed.

(** X20.  A copy that is cancelled after line [m] (the progress function returns
    false there) returns no dataset and writes no side-car, but leaves the
    output file in place: the header and the lines 0 to [m], the cancelled
    line included. *)
Theorem CreateCopy_cancelled_leaves_partial_file
    (ex : Externals) (fo : FloatOps) (fs : gmap string (list byte))
    (pszFilename : string) (src : GDALDataset) (bStrict : bool) (o : CSL)
    (p : CreateParams) (l : Log) (m : nat) :
  CreateCopy_validate fo src bStrict o [] = (Some p, l) ->
  VSIFOpenL_ok ex pszFilename = true ->
  pfnProgress ex ProgressStart = true ->
  (forall j : nat, (j < m)%nat ->
     pfnProgress ex (ProgressLine (Z.of_nat j) (srcYSize src)) = true) ->
  pfnProgress ex (ProgressLine (Z.of_nat m) (srcYSize src)) = false ->
  Z.of_nat m < srcYSize src -> 1 <= srcXSize src ->
  exists bytes l',
    CreateCopy ex fo fs pszFilename src bStrict o
    = (None, <[pszFilename := bytes]> fs, l') /\
    Z.of_nat (length bytes)
    = LCP_HEADER_SIZE + 2 * src_band_count src * srcXSize src * (Z.of_nat m + 1).
Proof.
  intros Hval Hopen Hstart Hyes Hno Hm Hx.
  destruct (CreateCopy_validate_Some _ _ _ _ _ _ _ Hval) as (Hn & Hc & Hg & Hlen & _).
  destruct (write_header_within fo src p Hn Hc Hg Hlen) as [Hpos Hw].
  unfold CreateCopy. rewrite Hval, Hopen. cbn [negb].
  unfold CreateCopy_image. rewrite Hstart. cbn [negb].
  set (fp := htFile (write_header fo src p (compute_stats fo p (srcBands src)))) in *.
  set (buf := replicate (length (srcBands src) * Z.to_nat (srcXSize src)) 0).
  pose proof (copy_lines_cancelled (pfnProgress ex) src m (Z.to_nat (srcYSize src)) 0
                buf fp ltac:(lia) ltac:(lia)
                ltac:(intros j Hj; rewrite Z.add_0_l; by apply Hyes)
                ltac:(by rewrite Z.add_0_l)) as Hcl.
  set (D := scanline_data src 0 (S m) buf) in Hcl.
  assert (length D = (S m * (length (srcBands src) * Z.to_nat (srcXSize src)))%nat)
    as HD by (unfold D, buf; by rewrite length_scanline_data, length_replicate).
  clearbody D.
  destruct (copy_lines _ _ _ _ _ _) as [[fp' ok] l1]. cbn [fst] in Hcl.
  injection Hcl as -> ->. cbn [imgCompleted imgBytes imgLog andb negb].
  eexists _, _. split; [reflexivity |].
  rewrite content_write_end.
  - rewrite length_app, length_pad_to, length_flat_map_le16, HD, Hpos.
    unfold LCP_HEADER_SIZE, src_band_count. nia.
  - lia.
  - by rewrite Hpos.
  - intros E. apply (f_equal length) in E.
    rewrite length_flat_map_le16, HD in E. cbn [length] in E.
    assert (0 < length (srcBands src))%nat
      by (unfold valid_band_count, src_band_count in Hn; lia).
    assert (0 < S m * (length (srcBands src) * Z.to_nat (srcXSize src)))%nat
      by (repeat apply Nat.mul_pos_pos; lia).
    lia.
Qed.

Lemma CreateCopy_cancelled_leaves_partial_file_witness :
  exists bytes l',
    CreateCopy {| pfnProgress := fun e => match e with
                                          | ProgressLine _ _ => false
                                          | _ => true
                                          end;
                  VSIFOpenL_ok := fun _ => true;
                  prj_filename := fun f => (f +:+ ".prj")%string;
                  extension_of := fun _ => "lcp"%string;
                  RawRasterBand_Create := fun _ _ _ _ => true |}
      int_float_ops ∅ "out.lcp" (example_source 5) false example_options
    = (None, <["out.lcp"%string := bytes]> ∅, l') /\
    Z.of_nat (length bytes) = 7336.
Proof.
  eapply (CreateCopy_cancelled_leaves_partial_file _ int_float_ops ∅ "out.lcp"
            (example_source 5) false example_options example_params _ 0%nat).
  - vm_compute. reflexivity.
  - reflexivity.
  - reflexivity.
  - intros j Hj. lia.
  - reflexivity.
  - cbn. lia.
  - cbn. lia.
Defined.

Lemma CreateCopy_touches_two_files_witness :
  (CreateCopy {| pfnProgress := fun _ => true;
                 VSIFOpenL_ok := fun _ => false;
                 prj_filename := fun f => (f +:+ ".prj")%string;
                 extension_of := fun _ => "lcp"%string;
                 RawRasterBand_Create := fun _ _ _ _ => true |}
     int_float_ops ∅ "out.lcp" (example_source 5) false example_options).1.2 = ∅.
Proof.
  apply (proj1 (proj2 (CreateCopy_touches_two_files
                         {| pfnProgress := fun _ => true;
                            VSIFOpenL_ok := fun _ => false;
                            prj_filename := fun f => (f +:+ ".prj")%string;
                            extension_of := fun _ => "lcp"%string;
                            RawRasterBand_Create := fun _ _ _ _ => true |}
                         int_float_ops ∅ "out.lcp" (example_source 5) false
                         example_options) eq_refl)).
Defined.
(** ** The projection side-car *)

(** X21.  [GetFileList] adds at most one name to the list of the base class, the
    side-car that [Open] found: a file that exists and that [importFromESRI]
    accepted.  [Open] looks for the lower-case name first, and for the
    upper-case name only when the lower-case one does not exist and the file
    system is case sensitive; a lower-case side-car that exists and is
    accepted is always listed. *)
Theorem GetFileList_lists_the_side_car_found
    (sv : PrjServices) (pam_list : list string) :
  let st := Open_projection sv in
  (forall f, f ∈ GetFileList pam_list st ->
     f ∈ pam_list \/
     (f = osPrjFilename st /\ VSIStatL_ok sv f = true /\
      importFromESRI_ok sv (CSLLoad sv f) = true /\
      (f = prj_lower sv \/
       (f = prj_upper sv /\ VSIStatL_ok sv (prj_lower sv) = false /\
        VSIIsCaseSensitiveFS sv (prj_lower sv) = true)))) /\
  (VSIStatL_ok sv (prj_lower sv) = true ->
   importFromESRI_ok sv (CSLLoad sv (prj_lower sv)) = true ->
   GetFileList pam_list st = pam_list ++ [prj_lower sv]) /\
  (VSIStatL_ok sv (prj_lower sv) = false ->
   VSIIsCaseSensitiveFS sv (prj_lower sv) = false ->
   GetFileList pam_list st = pam_list).
Proof.
  unfold Open_projection, GetFileList.
  destruct (VSIStatL_ok sv (prj_lower sv)) eqn:Hlow; cbn [negb andb].
  - cbn [osPrjFilename m_oSRS].
    destruct (importFromESRI_ok sv (CSLLoad sv (prj_lower sv))) eqn:Himp.
    + split; [| split; [done | discriminate]].
      intros f Hf. apply elem_of_app in Hf as [Hf | Hf]; [by left | right].
      apply list_elem_of_singleton in Hf as ->. auto.
    + split; [| split; [discriminate | discriminate]]. intros f Hf. by left.
  - destruct (VSIIsCaseSensitiveFS sv (prj_lower sv)) eqn:Hcs.
    + destruct (VSIStatL_ok sv (prj_upper sv)) eqn:Hup; cbn [osPrjFilename m_oSRS].
      * destruct (importFromESRI_ok sv (CSLLoad sv (prj_upper sv))) eqn:Himp.
        -- split; [| split; [discriminate | discriminate]].
           intros f Hf. apply elem_of_app in Hf as [Hf | Hf]; [by left | right].
           apply list_elem_of_singleton in Hf as ->. auto 10.
        -- split; [| split; [discriminate | discriminate]]. intros f Hf. by left.
      * split; [| split; [discriminate | discriminate]]. intros f Hf. by left.
    + cbn [osPrjFilename m_oSRS].
      split; [| split; [discriminate | done]]. intros f Hf. by left.
Qed.

Lemma GetFileList_lists_the_side_car_found_witness :
  GetFileList ["a.lcp"%string]
    (Open_projection
       {| prj_lower := "a.prj"; prj_upper := "a.PRJ";
          VSIStatL_ok := fun f => String.eqb f "a.prj";
          VSIIsCaseSensitiveFS := fun _ => true;
          CSLLoad := fun _ => ["PROJCS"%string];
          importFromESRI_ok := fun _ => true |})
  = ["a.lcp"; "a.prj"]%string.
Proof.
  apply (proj1 (proj2 (GetFileList_lists_the_side_car_found
                         {| prj_lower := "a.prj"; prj_upper := "a.PRJ";
                            VSIStatL_ok := fun f => String.eqb f "a.prj";
                            VSIIsCaseSensitiveFS := fun _ => true;
                            CSLLoad := fun _ => ["PROJCS"%string];
                            importFromESRI_ok := fun _ => true |}
                         ["a.lcp"%string]))); reflexivity.
Defined.

(** X22.  The side-car of a copy.  When the source has a spatial reference that
    exports to ESRI WKT and the side-car can be created, a copy that ran to
    its end leaves the text in the side-car, under the lower-case name that
    [Open] looks for first; so [Open] finds it, and [GetFileList] lists it
    whenever [importFromESRI] accepts the text.  When the side-car cannot be
    created, [CreateCopy] reports the failure but still returns what
    [GDALOpen] makes of the output file. *)
Theorem CreateCopy_side_car
    (ex : Externals) (fo : FloatOps) (fs : gmap string (list byte))
    (pszFilename : string) (src : GDALDataset) (bStrict : bool) (o : CSL)
    (p : CreateParams) (l : Log) (srs : OGRSpatialReference) (wkt : string) :
  CreateCopy_validate fo src bStrict o [] = (Some p, l) ->
  VSIFOpenL_ok ex pszFilename = true ->
  imgCompleted (CreateCopy_image fo (pfnProgress ex) src p) = true ->
  srcSRS src = Some srs -> srsWkt srs = Some wkt ->
  let r := CreateCopy ex fo fs pszFilename src bStrict o in
  let prj := prj_filename ex pszFilename in
  (VSIFOpenL_ok ex prj = true ->
   r.1.2 !! prj = Some (list_byte_of_string wkt) /\
   r.1.1 = GDALOpen ex r.1.2 pszFilename /\
   forall upper cs lines_of import_ok pam_list,
     let st := Open_projection (services_over r.1.2 prj upper cs lines_of import_ok) in
     osPrjFilename st = prj /\
     (import_ok (lines_of (list_byte_of_string wkt)) = true ->
      GetFileList pam_list st = pam_list ++ [prj])) /\
  (VSIFOpenL_ok ex prj = false ->
   r.1.2 = <[pszFilename := copied_file fo (pfnProgress ex) src p]> fs /\
   r.1.1 = GDALOpen ex r.1.2 pszFilename /\
   exists msg, (CE_Failure, msg) ∈ r.2).
Proof.
  intros Hval Hopen Hdone Hsrs Hwkt. cbv zeta.
  unfold CreateCopy. rewrite Hval, Hopen. cbn [negb]. rewrite Hdone. cbn [negb].
  unfold write_prj. rewrite Hsrs, Hwkt.
  destruct (VSIFOpenL_ok ex (prj_filename ex pszFilename)) eqn:Hprj; cbn [fst snd].
  - split; [intros _ | discriminate].
    split; [apply lookup_insert_eq |]. split; [reflexivity |].
    intros upper cs lines_of import_ok pam_list.
    unfold Open_projection, GetFileList, services_over.
    cbn [prj_lower prj_upper VSIStatL_ok VSIIsCaseSensitiveFS CSLLoad importFromESRI_ok].
    rewrite lookup_insert_eq. cbn [negb andb].
    rewrite lookup_insert_eq. cbn [osPrjFilename m_oSRS].
    split; [reflexivity |]. intros ->. reflexivity.
  - split; [discriminate | intros _].
    split; [reflexivity |]. split; [reflexivity |].
    eexists. rewrite !elem_of_app. right. apply list_elem_of_here.
Qed.

Lemma CreateCopy_side_car_witness :
  (CreateCopy example_externals int_float_ops ∅ "out.lcp"
     (example_source_srs 5
        {| srsUnitName := Some "meter"%string; srsUnitScale := Some "1"%string;
           srsTransform := None; srsWkt := Some "PROJCS"%string |})
     false example_options).1.2 !! "out.lcp.prj"%string
  = Some (list_byte_of_string "PROJCS").
Proof.
  edestruct (CreateCopy_side_car example_externals int_float_ops ∅ "out.lcp"
               (example_source_srs 5
                  {| srsUnitName := Some "meter"%string;
                     srsUnitScale := Some "1"%string;
                     srsTransform := None; srsWkt := Some "PROJCS"%string |})
               false example_options) as [H _].
  - vm_compute. reflexivity.
  - reflexivity.
  - vm_compute. reflexivity.
  - reflexivity.
  - reflexivity.
  - exact (proj1 (H eq_refl)).
Defined.
(** ** The creation options that the driver registers *)

Section RegisteredOptions.

Lemma CreationOptionList_elements :
  option_list_text creation_options = CreationOptionList.
Proof. vm_compute. reflexivity. Qed.

Lemma advertised_elim name v :
  advertised name v = true ->
  exists opt, opt ∈ creation_options /\ optName opt = name /\ v ∈ optValues opt.
Proof.
  unfold advertised. intros H.
  apply existsb_exists in H as (opt & Hin & H).
  apply andb_true_iff in H as [Hn Hv].
  apply String.eqb_eq in Hn.
  apply existsb_exists in Hv as (w & Hw & Hv). apply String.eqb_eq in Hv as ->.
  exists opt. by rewrite !list_elem_of_In.
Qed.

(** The comparisons of two string literals, evaluated. *)
Local Ltac eval_literals :=
  repeat match goal with
  | |- context [EQUAL (String ?a ?s) (String ?b ?t)] =>
      let r := eval vm_compute in (EQUAL (String a s) (String b t)) in
      change (EQUAL (String a s) (String b t)) with r
  | |- context [STARTS_WITH_CI (String ?a ?s) (String ?b ?t)] =>
      let r := eval vm_compute in (STARTS_WITH_CI (String a s) (String b t)) in
      change (STARTS_WITH_CI (String a s) (String b t)) with r
  | |- context [CPLTestBool (String ?a ?s)] =>
      let r := eval vm_compute in (CPLTestBool (String a s)) in
      change (CPLTestBool (String a s)) with r
  end.

Local Ltac advertised_value key :=
  let H := fresh "H" in let v := fresh "v" in let E := fresh "E" in
  let opt := fresh "opt" in let Hin := fresh "Hin" in
  let Hn := fresh "Hn" in let Hv := fresh "Hv" in
  intros H; unfold CSLFetchNameValueDef;
  destruct (CSLFetchNameValue _ key) as [v|] eqn:E;
  [ destruct (advertised_elim _ _ (H v eq_refl)) as (opt & Hin & Hn & Hv);
    unfold creation_options in Hin;
    repeat (apply elem_of_cons in Hin as [-> | Hin]);
    try (by apply elem_of_nil in Hin);
    cbn [optName optValues] in Hn, Hv; try discriminate Hn;
    repeat (apply elem_of_cons in Hv as [-> | Hv]);
    try (by apply elem_of_nil in Hv)
  | ];
  eval_literals; cbn [orb]; eexists; intros l; reflexivity.

Lemma opt_ELEVATION_UNIT_advertised o :
  (forall v, CSLFetchNameValue o "ELEVATION_UNIT" = Some v ->
             advertised "ELEVATION_UNIT" v = true) ->
  exists c, forall l, opt_ELEVATION_UNIT o l = (Some c, l).
Proof. unfold opt_ELEVATION_UNIT. advertised_value "ELEVATION_UNIT"%string. Qed.

Lemma opt_SLOPE_UNIT_advertised o :
  (forall v, CSLFetchNameValue o "SLOPE_UNIT" = Some v ->
             advertised "SLOPE_UNIT" v = true) ->
  exists c, forall l, opt_SLOPE_UNIT o l = (Some c, l).
Proof. unfold opt_SLOPE_UNIT. advertised_value "SLOPE_UNIT"%string. Qed.

Lemma opt_ASPECT_UNIT_advertised o :
  (forall v, CSLFetchNameValue o "ASPECT_UNIT" = Some v ->
             advertised "ASPECT_UNIT" v = true) ->
  exists c, forall l, opt_ASPECT_UNIT o l = (Some c, l).
Proof. unfold opt_ASPECT_UNIT. advertised_value "ASPECT_UNIT"%string. Qed.

Lemma opt_FUEL_MODEL_OPTION_advertised o :
  (forall v, CSLFetchNameValue o "FUEL_MODEL_OPTION" = Some v ->
             advertised "FUEL_MODEL_OPTION" v = true) ->
  exists c, forall l, opt_FUEL_MODEL_OPTION o l = (Some c, l).
Proof. unfold opt_FUEL_MODEL_OPTION. advertised_value "FUEL_MODEL_OPTION"%string. Qed.

Lemma opt_CANOPY_COV_UNIT_advertised o :
  (forall v, CSLFetchNameValue o "CANOPY_COV_UNIT" = Some v ->
             advertised "CANOPY_COV_UNIT" v = true) ->
  exists c, forall l, opt_CANOPY_COV_UNIT o l = (Some c, l).
Proof. unfold opt_CANOPY_COV_UNIT. advertised_value "CANOPY_COV_UNIT"%string. Qed.

Lemma opt_CANOPY_HT_UNIT_advertised o :
  (forall v, CSLFetchNameValue o "CANOPY_HT_UNIT" = Some v ->
             advertised "CANOPY_HT_UNIT" v = true) ->
  exists c, forall l, opt_CANOPY_HT_UNIT o l = (Some c, l).
Proof.
  unfold opt_CANOPY_HT_UNIT, opt_height_unit.
  advertised_value "CANOPY_HT_UNIT"%string.
Qed.

Lemma opt_CBH_UNIT_advertised o :
  (forall v, CSLFetchNameValue o "CBH_UNIT" = Some v ->
             advertised "CBH_UNIT" v = true) ->
  exists c, forall l, opt_CBH_UNIT o l = (Some c, l).
Proof. unfold opt_CBH_UNIT, opt_height_unit. advertised_value "CBH_UNIT"%string. Qed.

Lemma opt_CBD_UNIT_advertised o :
  (forall v, CSLFetchNameValue o "CBD_UNIT" = Some v ->
             advertised "CBD_UNIT" v = true) ->
  exists c, forall l, opt_CBD_UNIT o l = (Some c, l).
Proof. unfold opt_CBD_UNIT. advertised_value "CBD_UNIT"%string. Qed.

Lemma opt_DUFF_UNIT_advertised o :
  (forall v, CSLFetchNameValue o "DUFF_UNIT" = Some v ->
             advertised "DUFF_UNIT" v = true) ->
  exists c, forall l, opt_DUFF_UNIT o l = (Some c, l).
Proof. unfold opt_DUFF_UNIT. advertised_value "DUFF_UNIT"%string. Qed.

Lemma unit_option_key_check key :
  existsb (String.eqb key) unit_option_keys = true -> key ∈ unit_option_keys.
Proof.
  intros H. apply existsb_exists in H as (k & Hk & H).
  apply String.eqb_eq in H as ->. by apply list_elem_of_In.
Qed.

(** Setting a string-select or boolean option to its listed default leaves
    the verification as it is. *)
Lemma CreateCopy_validate_default fo src bStrict o opt :
  opt ∈ creation_options ->
  optType opt = "string-select"%string \/ optType opt = "boolean"%string ->
  CSLFetchNameValue o (optName opt) = None ->
  CreateCopy_validate fo src bStrict ((optName opt, optDefault opt) :: o) []
  = CreateCopy_validate fo src bStrict o [].
Proof.
  intros Hin Hty Hn.
  unfold creation_options in Hin.
  repeat (apply elem_of_cons in Hin as [-> | Hin]);
    [.. | by apply elem_of_nil in Hin];
    cbn [optType optName optDefault] in *;
    try (destruct Hty as [Hty | Hty]; discriminate Hty); clear Hty;
    unfold CreateCopy_validate, unit_codes, opt_ELEVATION_UNIT, opt_SLOPE_UNIT,
      opt_ASPECT_UNIT, opt_FUEL_MODEL_OPTION, opt_CANOPY_COV_UNIT,
      opt_CANOPY_HT_UNIT, opt_CBH_UNIT, opt_CBD_UNIT, opt_DUFF_UNIT,
      opt_height_unit, stats_flags, opt_LINEAR_UNIT, opt_LATITUDE,
      CSLFetchNameValueDef, CPLFetchBool;
    cbn [CSLFetchNameValue]; eval_literals; cbv beta iota;
    rewrite Hn; eval_literals; reflexivity.
Qed.

End RegisteredOptions.

(** X23.  Every value that the registered option list gives for a unit option is
    one that [CreateCopy] has a code for: when each unit option that is set
    has one of its listed values, the unit codes are computed and no error or
    warning is raised for them. *)
Theorem CreateCopy_accepts_advertised_values (o : CSL) (crown ground : bool) :
  (forall key v, key ∈ unit_option_keys -> CSLFetchNameValue o key = Some v ->
                 advertised key v = true) ->
  exists panMetadata, forall l,
    unit_codes o crown ground l = (Some panMetadata, l).
Proof.
  intros H.
  assert (forall key, existsb (String.eqb key) unit_option_keys = true ->
            forall v, CSLFetchNameValue o key = Some v -> advertised key v = true)
    as H' by (intros key Hk v; apply H; by apply unit_option_key_check).
  destruct (opt_ELEVATION_UNIT_advertised o (H' "ELEVATION_UNIT"%string eq_refl)) as [m0 H0].
  destruct (opt_SLOPE_UNIT_advertised o (H' "SLOPE_UNIT"%string eq_refl)) as [m1 H1].
  destruct (opt_ASPECT_UNIT_advertised o (H' "ASPECT_UNIT"%string eq_refl)) as [m2 H2].
  destruct (opt_FUEL_MODEL_OPTION_advertised o (H' "FUEL_MODEL_OPTION"%string eq_refl)) as [m3 H3].
  destruct (opt_CANOPY_COV_UNIT_advertised o (H' "CANOPY_COV_UNIT"%string eq_refl)) as [m4 H4].
  destruct (opt_CANOPY_HT_UNIT_advertised o (H' "CANOPY_HT_UNIT"%string eq_refl)) as [m5 H5].
  destruct (opt_CBH_UNIT_advertised o (H' "CBH_UNIT"%string eq_refl)) as [m6 H6].
  destruct (opt_CBD_UNIT_advertised o (H' "CBD_UNIT"%string eq_refl)) as [m7 H7].
  destruct (opt_DUFF_UNIT_advertised o (H' "DUFF_UNIT"%string eq_refl)) as [m8 H8].
  exists [m0; m1; m2; m3; m4; if crown then m5 else 3; if crown then m6 else 3;
          if crown then m7 else 3; if ground then m8 else 1;
          if ground then 1 else 0].
  intros l. unfold unit_codes, mbind, M_bind.
  rewrite H0, H1, H2, H3, H4.
  destruct crown, ground;
    repeat first [ rewrite H5 | rewrite H6 | rewrite H7 | rewrite H8
                 | progress unfold mret, M_ret | progress cbv beta iota ];
    reflexivity.
Qed.

Lemma CreateCopy_accepts_advertised_values_witness :
  exists panMetadata, forall l,
    unit_codes [("ELEVATION_UNIT", "FEET"); ("CBD_UNIT", "POUND_PER_CUBIC_FOOT")]%string
               true false l
    = (Some panMetadata, l).
Proof.
  apply (CreateCopy_accepts_advertised_values
           [("ELEVATION_UNIT", "FEET"); ("CBD_UNIT", "POUND_PER_CUBIC_FOOT")]%string
           true false).
  intros key v Hk.
  unfold unit_option_keys in Hk.
  repeat (apply elem_of_cons in Hk as [-> | Hk]); [.. | by apply elem_of_nil in Hk];
    vm_compute; intros [= <-] || intros [=]; reflexivity.
Defined.

(** X24.  The defaults of the registered option list are the ones [CreateCopy]
    uses: for a string-select or boolean option that is not set, setting it
    to its listed default changes nothing in what [CreateCopy] returns,
    writes and reports.  The description is the exception: without a
    DESCRIPTION option the description written is the listed default
    followed by a full stop. *)
Theorem CreateCopy_advertised_defaults
    (ex : Externals) (fo : FloatOps) (fs : gmap string (list byte))
    (pszFilename : string) (src : GDALDataset) (bStrict : bool) (o : CSL) :
  (forall opt, opt ∈ creation_options ->
     optType opt = "string-select"%string \/ optType opt = "boolean"%string ->
     CSLFetchNameValue o (optName opt) = None ->
     CreateCopy ex fo fs pszFilename src bStrict ((optName opt, optDefault opt) :: o)
     = CreateCopy ex fo fs pszFilename src bStrict o) /\
  (forall p l d, CSLFetchNameValue o "DESCRIPTION" = None ->
     CreateCopy_validate fo src bStrict o [] = (Some p, l) ->
     advertised_default "DESCRIPTION" = Some d ->
     cpDescription p = (d +:+ ".")%string).
Proof.
  split.
  - intros opt Hin Hty Hn. unfold CreateCopy.
    by rewrite (CreateCopy_validate_default fo src bStrict o opt Hin Hty Hn).
  - intros p l d Hn Hv [= <-].
    apply CreateCopy_validate_more in Hv as (_ & _ & ->).
    unfold CSLFetchNameValueDef. by rewrite Hn.
Qed.

Lemma CreateCopy_advertised_defaults_witness :
  CreateCopy example_externals int_float_ops ∅ "out.lcp" (example_source 5) false
    (("CBD_UNIT", "KG_PER_CUBIC_METER_X_100") :: example_options)%string
  = CreateCopy example_externals int_float_ops ∅ "out.lcp" (example_source 5) false
      example_options.
Proof.
  apply (proj1 (CreateCopy_advertised_defaults example_externals int_float_ops ∅
                  "out.lcp" (example_source 5) false example_options)
               {| optName := "CBD_UNIT"; optType := "string-select";
                  optDefault := "KG_PER_CUBIC_METER_X_100"; optDescription := None;
                  optValues := ["KG_PER_CUBIC_METER"; "POUND_PER_CUBIC_FOOT";
                                "KG_PER_CUBIC_METER_X_100";
                                "POUND_PER_CUBIC_FOOT_X_1000"] |}%string).
  - unfold creation_options. do 7 apply list_elem_of_further. apply list_elem_of_here.
  - left. reflexivity.
  - reflexivity.
Defined.
